(** * libpartclone: block access to partclone images

    A shallow embedding of [src/libpartclone.c] (the image access engine)
    and [src/sysdep_posix.c] (the POSIX backend), followed by the
    properties of the engine.

    Conventions of the embedding.
    - C integers are [Z]; every place where the C code wraps is written
      out with [u64], [u32], [s64] or [s32].
    - Byte buffers are [list Z] (one element per byte).
    - A pointer that may be NULL is an [option]; a dereference of NULL and
      an array access outside the allocation end the run with [Crash].
    - The engine context [pc_context] and the operating system are
      threaded through the state monad [M].
    - [sys_malloc] hands out memory whose content is whatever the
      operating system model says fresh memory holds ([os_junk]).
    - A pointer to a table of functions is the name of the table. *)

From Stdlib Require Import ZArith List Lia.
From stdpp Require Import base gmap strings list.

Local Open Scope Z_scope.

(** ** Machine integers *)

Definition u64 (z : Z) : Z := z mod 2 ^ 64.
Definition u32 (z : Z) : Z := z mod 2 ^ 32.
Definition s64 (z : Z) : Z := (z + 2 ^ 63) mod 2 ^ 64 - 2 ^ 63.
Definition s32 (z : Z) : Z := (z + 2 ^ 31) mod 2 ^ 32 - 2 ^ 31.

(** ** <errno.h> (Linux values) *)

Definition ENOENT : Z := 2.
Definition EIO : Z := 5.
Definition EBADF : Z := 9.
Definition ENOMEM : Z := 12.
Definition EINVAL : Z := 22.

(** ** Outcomes of a run: a value, or undefined behaviour of the C code *)

Inductive fault : Type :=
| OutOfBounds (array : string) (index : Z)
| NullPointer (what : string).

Inductive outcome (A : Type) : Type :=
| Done (a : A)
| Crash (f : fault).

Arguments Done {A} a.
Arguments Crash {A} f.

Definition outcome_bind {A B : Type} (f : A -> outcome B) (o : outcome A)
  : outcome B :=
  match o with
  | Done a => f a
  | Crash e => Crash e
  end.

#[global] Instance outcome_mret : MRet outcome := fun A a => Done a.
#[global] Instance outcome_mbind : MBind outcome := fun A B f o => outcome_bind f o.

(** ** Arrays: [arr[i]] and [arr[i] = v] with the bounds of the allocation *)

Definition zlookup {A : Type} (arr : list A) (i : Z) : option A :=
  if i <? 0 then None else arr !! Z.to_nat i.

Definition aread (name : string) (arr : list Z) (i : Z) : outcome Z :=
  match zlookup arr i with
  | Some v => Done v
  | None => Crash (OutOfBounds name i)
  end.

Definition awrite (name : string) (arr : list Z) (i v : Z) : outcome (list Z) :=
  match zlookup arr i with
  | Some _ => Done (<[Z.to_nat i := v]> arr)
  | None => Crash (OutOfBounds name i)
  end.

(** An access through a pointer that may be NULL. *)
Definition deref {A : Type} (what : string) (p : option A) : outcome A :=
  match p with
  | Some a => Done a
  | None => Crash (NullPointer what)
  end.

Definition pread (name : string) (p : option (list Z)) (i : Z) : outcome Z :=
  arr ← deref name p; aread name arr i.

Definition pwrite (name : string) (p : option (list Z)) (i v : Z)
  : outcome (option (list Z)) :=
  arr ← deref name p; arr' ← awrite name arr i v; Done (Some arr').

(** [memcpy(dst + off, src, length src)] on a byte buffer. *)
Definition splice (dst : list Z) (off : Z) (src : list Z) : list Z :=
  take (Z.to_nat off) dst ++ src ++ drop (Z.to_nat off + length src) dst.

(** The [n] bytes at [buf + off]. *)
Definition slice (buf : list Z) (off n : Z) : list Z :=
  take (Z.to_nat n) (drop (Z.to_nat off) buf).

(** [memcmp(a, b, n) == 0] *)
Definition memcmp_eq (a b : list Z) (n : Z) : bool :=
  bool_decide (take (Z.to_nat n) a = take (Z.to_nat n) b).

Definition bytes_of_string (s : string) : list Z :=
  (fun c => Z.of_N (Ascii.N_of_ascii c)) <$> String.list_ascii_of_string s.

(** A C string literal: the characters and the terminating NUL. *)
Definition c_literal (s : string) : list Z := bytes_of_string s ++ [0].

(** ** Constants of libpartclone.c *)

Definition cf_trailer : string := ".cf".

Definition PC_OPEN : Z := 0x0001.
Definition PC_CF_OPEN : Z := 0x0002.
Definition PC_VERIFIED : Z := 0x0004.
Definition PC_HAVE_CFDEP : Z := 0x0040.
Definition PC_HAVE_VERDEP : Z := 0x0080.
Definition PC_HAVE_IVBLOCK : Z := 0x0100.
Definition PC_CF_VERIFIED : Z := 0x0200.
Definition PC_CF_INIT : Z := 0x0400.
Definition PC_VERSION_INIT : Z := 0x0800.
Definition PC_HEAD_VALID : Z := 0x1000.
Definition PC_HAVE_PATH : Z := 0x2000.
Definition PC_HAVE_CF_PATH : Z := 0x4000.
Definition PC_VALID : Z := 0x8000.
Definition PC_TOLERANT : Z := 0x40000.
Definition PC_READ_ONLY : Z := 0x80000.

Definition CRC_UNIT_BITS : Z := 8.
Definition CRC_TABLE_LEN : Z := Z.shiftl 1 CRC_UNIT_BITS.

Definition cmagicstr : list Z := c_literal "BiTmAgIc".

Definition V1_DEFAULT_FACTOR : Z := 10.

(** ** The per-version handle [v1_context_t] *)

Record v1_context : Type := mk_v1_context {
  v1_bitmap : option (list Z);     (* usage bitmap, one byte per block *)
  v1_sumcount : option (list Z);   (* precalculated indices *)
  v1_nvbcount : Z;                 (* preceding valid blocks *)
  v1_crc_tab32 : list Z;           (* precalculated CRC table *)
  v1_bitmap_factor : Z             (* log2(entries)/index *)
}.

(** The handle after [memset] to zero. *)
Definition v1_context_zero : v1_context :=
  mk_v1_context None None 0 (replicate (Z.to_nat CRC_TABLE_LEN) 0) 0.

Definition set_v1_bitmap (b : option (list Z)) (v : v1_context) : v1_context :=
  mk_v1_context b (v1_sumcount v) (v1_nvbcount v) (v1_crc_tab32 v)
    (v1_bitmap_factor v).
Definition set_v1_sumcount (s : option (list Z)) (v : v1_context) : v1_context :=
  mk_v1_context (v1_bitmap v) s (v1_nvbcount v) (v1_crc_tab32 v)
    (v1_bitmap_factor v).
Definition set_v1_nvbcount (n : Z) (v : v1_context) : v1_context :=
  mk_v1_context (v1_bitmap v) (v1_sumcount v) n (v1_crc_tab32 v)
    (v1_bitmap_factor v).
Definition set_v1_crc_tab32 (t : list Z) (v : v1_context) : v1_context :=
  mk_v1_context (v1_bitmap v) (v1_sumcount v) (v1_nvbcount v) t
    (v1_bitmap_factor v).
Definition set_v1_bitmap_factor (f : Z) (v : v1_context) : v1_context :=
  mk_v1_context (v1_bitmap v) (v1_sumcount v) (v1_nvbcount v) (v1_crc_tab32 v) f.

(** ** The CRC table of [v1_init]

    The inner loop of [v1_init]: [CRC_UNIT_BITS] rounds on [init_crc]. *)
Fixpoint crc_table_rounds (j : nat) (init_crc : Z) : Z :=
  match j with
  | O => init_crc
  | S j' =>
      crc_table_rounds j'
        (if Z.land init_crc 0x00000001 =? 0
         then Z.shiftr init_crc 1
         else u32 (Z.lxor (Z.shiftr init_crc 1) 0xEDB88320))
  end.

(** The outer loop of [v1_init]: entry [i] for [i < CRC_TABLE_LEN]. *)
Definition crc_tab32_init : list Z :=
  (fun i => crc_table_rounds (Z.to_nat CRC_UNIT_BITS) (u32 i))
    <$> seqZ 0 CRC_TABLE_LEN.

(** ** [v1_crc32]

    The loop body reads [buf[0]] in every round; [s] only counts. *)
Fixpoint v1_crc32_loop (tab : list Z) (rounds : nat) (crc : Z) (buf : list Z)
  : outcome Z :=
  match rounds with
  | O => Done crc
  | S rounds' =>
      c ← aread "buf" buf 0;
      let tmp := Z.lxor crc (Z.land c 0x000000ff) in
      t ← aread "v1_crc_tab32" tab (Z.land tmp 0xff);
      v1_crc32_loop tab rounds' (Z.lxor (Z.shiftr crc 8) t) buf
  end.

Definition v1_crc32 (v1p : v1_context) (crc : Z) (buf : list Z) (size : Z)
  : outcome Z :=
  v1_crc32_loop (v1_crc_tab32 v1p) (Z.to_nat size) crc buf.

(** ** The loops over the usage bitmap

    The [for] loop of [precalculate_sumcount]: [i] runs over the next
    [n] blocks, [nset] is the running count.  A block counts when its
    bitmap byte is exactly 1. *)
Fixpoint sumcount_loop (n : nat) (i nset factor : Z)
    (bitmap sumcount : option (list Z)) : outcome (option (list Z)) :=
  match n with
  | O => Done sumcount
  | S n' =>
      sumcount' ←
        (if Z.land i (Z.shiftl 1 factor - 1) =? 0
         then pwrite "v1_sumcount" sumcount (Z.shiftr i factor) nset
         else Done sumcount);
      b ← pread "v1_bitmap" bitmap i;
      sumcount_loop n' (u64 (i + 1)) (if b =? 1 then u64 (nset + 1) else nset)
        factor bitmap sumcount'
  end.

(** The [for] loop of [v1_seek]: [pbn] runs over the next [n] blocks.
    A block counts when its bitmap byte is non-zero. *)
Fixpoint seek_loop (n : nat) (pbn nvbcount : Z) (bitmap : option (list Z))
  : outcome Z :=
  match n with
  | O => Done nvbcount
  | S n' =>
      b ← pread "v1_bitmap" bitmap pbn;
      seek_loop n' (u64 (pbn + 1)) (if b =? 0 then nvbcount else u64 (nvbcount + 1))
        bitmap
  end.

(** The bit-to-byte loop of [v2_verify]:
    [v1_bitmap[i] = (bitmap[i >> 3] & (1 << (i & 7))) ? 1 : 0]. *)
Fixpoint v2_expand_loop (n : nat) (i : Z) (bits bytemap : option (list Z))
  : outcome (option (list Z)) :=
  match n with
  | O => Done bytemap
  | S n' =>
      b ← pread "bitmap" bits (Z.shiftr i 3);
      bytemap' ← pwrite "v1_bitmap" bytemap i
        (if Z.land b (Z.shiftl 1 (Z.land i 7)) =? 0 then 0 else 1);
      v2_expand_loop n' (i + 1) bits bytemap'
  end.

(** ** sysdep.h: the interface of the I/O backend

    The header is not part of the sources; the enumerations are read
    off their uses: [omode2flags] of sysdep_posix.c has five entries,
    indexed by the open mode, and [lseek] takes the whence value as is. *)

Inductive sysdep_open_mode_t : Type :=
| SYSDEP_OPEN_NONE
| SYSDEP_OPEN_RO
| SYSDEP_OPEN_RW
| SYSDEP_OPEN_WO
| SYSDEP_CREATE.

(** [(int)omode] *)
Definition omode_int (omode : sysdep_open_mode_t) : Z :=
  match omode with
  | SYSDEP_OPEN_NONE => 0
  | SYSDEP_OPEN_RO => 1
  | SYSDEP_OPEN_RW => 2
  | SYSDEP_OPEN_WO => 3
  | SYSDEP_CREATE => 4
  end.

Inductive sysdep_whence_t : Type :=
| SYSDEP_SEEK_ABSOLUTE
| SYSDEP_SEEK_RELATIVE
| SYSDEP_SEEK_END.

(** ** The operating system under sysdep_posix.c

    Files are byte strings named by their path.  [os_alloc] tells for the
    coming calls of [malloc] whether they succeed (an empty list: all do),
    [os_junk] is what a fresh or never written memory cell holds, and
    [os_trace] records the backend calls, newest first. *)

Inductive sys_call : Type :=
| CallOpen (path : string) (omode : sysdep_open_mode_t)
| CallClose (path : option string)
| CallSeek (path : option string) (offset : Z) (whence : sysdep_whence_t)
| CallRead (path : option string) (len : Z)
| CallWrite (path : option string) (len : Z)
| CallMalloc (nbytes : Z)
| CallFree
| CallFileSize (path : option string).

Record os_state : Type := mk_os {
  os_files : gmap string (list Z);
  os_errno : Z;
  os_alloc : list bool;
  os_junk : Z;
  os_trace : list sys_call
}.

Definition set_os_files (f : gmap string (list Z)) (os : os_state) : os_state :=
  mk_os f (os_errno os) (os_alloc os) (os_junk os) (os_trace os).
Definition set_os_errno (e : Z) (os : os_state) : os_state :=
  mk_os (os_files os) e (os_alloc os) (os_junk os) (os_trace os).
Definition set_os_alloc (a : list bool) (os : os_state) : os_state :=
  mk_os (os_files os) (os_errno os) a (os_junk os) (os_trace os).
Definition log_call (c : sys_call) (os : os_state) : os_state :=
  mk_os (os_files os) (os_errno os) (os_alloc os) (os_junk os) (c :: os_trace os).

(** The flags of [open(2)] that matter here. *)
Inductive accmode : Type := O_RDONLY | O_WRONLY | O_RDWR.

Record open_flags : Type := mk_flags { fl_acc : accmode; fl_creat : bool }.

(** [omode2flags[(int)omode]] *)
Definition omode2flags (omode : sysdep_open_mode_t) : open_flags :=
  match omode with
  | SYSDEP_OPEN_NONE => mk_flags O_RDONLY false   (* 0 is O_RDONLY *)
  | SYSDEP_OPEN_RO => mk_flags O_RDONLY false
  | SYSDEP_OPEN_RW => mk_flags O_RDWR false
  | SYSDEP_OPEN_WO => mk_flags O_WRONLY false
  | SYSDEP_CREATE => mk_flags O_RDWR true
  end.

Definition can_read (fl : open_flags) : bool :=
  match fl_acc fl with O_WRONLY => false | _ => true end.
Definition can_write (fl : open_flags) : bool :=
  match fl_acc fl with O_RDONLY => false | _ => true end.

(** An open file: what the [int *] handle of sysdep_posix.c stands for. *)
Record file_handle : Type := mk_fh {
  fh_path : string;
  fh_flags : open_flags;
  fh_pos : Z
}.

Definition set_fh_pos (pos : Z) (fh : file_handle) : file_handle :=
  mk_fh (fh_path fh) (fh_flags fh) pos.

Definition file_bytes (os : os_state) (fh : file_handle) : list Z :=
  default [] (os_files os !! fh_path fh).

(** [malloc] of the C library. *)
Definition libc_malloc (os : os_state) : bool * os_state :=
  match os_alloc os with
  | [] => (true, os)
  | true :: rest => (true, set_os_alloc rest os)
  | false :: rest => (false, set_os_errno ENOMEM (set_os_alloc rest os))
  end.

(** The content of a fresh allocation of [n] cells. *)
Definition fresh_cells (os : os_state) (n : Z) : list Z :=
  replicate (Z.to_nat n) (os_junk os).

(** ** sysdep_posix.c *)

Definition posix_open (p : string) (omode : sysdep_open_mode_t) (os : os_state)
  : Z * option file_handle * os_state :=
  let os := log_call (CallOpen p omode) os in
  let '(ok, os) := libc_malloc os in
  if ok then
    let flags := omode2flags omode in
    match os_files os !! p with
    | Some _ => (0, Some (mk_fh p flags 0), os)
    | None =>
        if fl_creat flags
        then (0, Some (mk_fh p flags 0), set_os_files (<[p := []]> (os_files os)) os)
        else (ENOENT, None, set_os_errno ENOENT os)
    end
  else (ENOMEM, None, os).

Definition posix_closex (rh : option file_handle) (os : os_state) : Z * os_state :=
  let os := log_call (CallClose (fh_path <$> rh)) os in
  match rh with
  | Some _ => (0, os)
  | None => (EINVAL, os)
  end.

(** [lseek]: the new offset, or -1 with [errno] set. *)
Definition libc_lseek (fh : file_handle) (offset : Z) (whence : sysdep_whence_t)
    (os : os_state) : Z * file_handle * os_state :=
  let base :=
    match whence with
    | SYSDEP_SEEK_ABSOLUTE => 0
    | SYSDEP_SEEK_RELATIVE => fh_pos fh
    | SYSDEP_SEEK_END => Z.of_nat (length (file_bytes os fh))
    end in
  if base + offset <? 0
  then (-1, fh, set_os_errno EINVAL os)
  else (base + offset, set_fh_pos (base + offset) fh, os).

Definition posix_seek (rh : option file_handle) (offset : Z)
    (whence : sysdep_whence_t) (os : os_state)
  : Z * Z * option file_handle * os_state :=
  let os := log_call (CallSeek (fh_path <$> rh) offset whence) os in
  match rh with
  | Some fh =>
      let '(poffs, fh', os') := libc_lseek fh offset whence os in
      (if 0 <=? poffs then 0 else os_errno os', u64 poffs, Some fh', os')
  | None => (EINVAL, 0, None, os)
  end.

(** [read]: the bytes read, or -1 with [errno] set. *)
Definition libc_read (fh : file_handle) (len : Z) (os : os_state)
  : Z * list Z * file_handle * os_state :=
  if can_read (fh_flags fh) then
    let data := slice (file_bytes os fh) (fh_pos fh) len in
    let n := Z.of_nat (length data) in
    (n, data, set_fh_pos (fh_pos fh + n) fh, os)
  else (-1, [], fh, set_os_errno EBADF os).

(** Returns the error, the bytes stored at the start of [buf], and [*nr].
    With a NULL handle [*nr] is not written: it keeps whatever the
    caller's variable held. *)
Definition posix_read (rh : option file_handle) (len : Z) (os : os_state)
  : Z * list Z * Z * option file_handle * os_state :=
  let os := log_call (CallRead (fh_path <$> rh) len) os in
  match rh with
  | Some fh =>
      let '(n, data, fh', os') := libc_read fh len os in
      let nr := u64 n in
      (if nr =? len then 0 else os_errno os', data, nr, Some fh', os')
  | None => (EINVAL, [], u64 (os_junk os), None, os)
  end.

(** [write]: the bytes written, or -1 with [errno] set.  A write past the
    end of the file fills the gap with zeros. *)
Definition libc_write (fh : file_handle) (data : list Z) (os : os_state)
  : Z * file_handle * os_state :=
  if can_write (fh_flags fh) then
    let old := file_bytes os fh in
    let padded := old ++ replicate (Z.to_nat (fh_pos fh) - length old)%nat 0 in
    let n := Z.of_nat (length data) in
    (n, set_fh_pos (fh_pos fh + n) fh,
     set_os_files (<[fh_path fh := splice padded (fh_pos fh) data]> (os_files os)) os)
  else (-1, fh, set_os_errno EBADF os).

Definition posix_write (rh : option file_handle) (buf : list Z) (len : Z)
    (os : os_state) : Z * Z * option file_handle * os_state :=
  let os := log_call (CallWrite (fh_path <$> rh) len) os in
  match rh with
  | Some fh =>
      let '(n, fh', os') := libc_write fh (slice buf 0 len) os in
      let nw := u64 n in
      (if nw =? len then 0 else os_errno os', nw, Some fh', os')
  | None => (EINVAL, u64 (os_junk os), None, os)
  end.

Definition posix_malloc (nbytes : Z) (os : os_state) : Z * os_state :=
  let os := log_call (CallMalloc nbytes) os in
  let '(ok, os) := libc_malloc os in
  (if ok then 0 else ENOMEM, os).

(** [mp_set]: whether the pointer passed is non-NULL. *)
Definition posix_free (mp_set : bool) (os : os_state) : Z * os_state :=
  let os := log_call CallFree os in
  (if mp_set then 0 else EINVAL, os).

Definition posix_file_size (rh : option file_handle) (os : os_state)
  : Z * Z * option file_handle * os_state :=
  let os := log_call (CallFileSize (fh_path <$> rh)) os in
  match rh with
  | Some fh =>
      let st_size := Z.of_nat (length (file_bytes os fh)) in
      if st_size =? 0 then
        let '(e1, curpos, rh1, os1) := posix_seek rh 0 SYSDEP_SEEK_RELATIVE os in
        if e1 =? 0 then
          let '(e2, nbytes, rh2, os2) := posix_seek rh1 0 SYSDEP_SEEK_END os1 in
          let '(_, _, rh3, os3) := posix_seek rh2 (s64 curpos) SYSDEP_SEEK_ABSOLUTE os2 in
          (e2, nbytes, rh3, os3)
        else (0, u64 (os_junk os), rh1, os1)
      else (0, st_size, rh, os)
  | None => (EINVAL, u64 (os_junk os), None, os)
  end.

(** [sysdep_dispatch_t]: the table of backend operations.  Each takes the
    operating system and returns it with its results; an operation on a
    handle also returns the handle (its file offset may have moved). *)
Record sysdep_dispatch_t : Type := mk_sysdep {
  sys_open : string -> sysdep_open_mode_t -> os_state ->
             Z * option file_handle * os_state;
  sys_close : option file_handle -> os_state -> Z * os_state;
  sys_seek : option file_handle -> Z -> sysdep_whence_t -> os_state ->
             Z * Z * option file_handle * os_state;
  sys_read : option file_handle -> Z -> os_state ->
             Z * list Z * Z * option file_handle * os_state;
  sys_write : option file_handle -> list Z -> Z -> os_state ->
              Z * Z * option file_handle * os_state;
  sys_malloc : Z -> os_state -> Z * os_state;
  sys_free : bool -> os_state -> Z * os_state;
  sys_file_size : option file_handle -> os_state ->
                  Z * Z * option file_handle * os_state
}.

Definition posix_dispatch : sysdep_dispatch_t :=
  mk_sysdep posix_open posix_closex posix_seek posix_read posix_write
    posix_malloc posix_free posix_file_size.

(** The backends a program links: a pointer to a [sysdep_dispatch_t] is
    the name of one of them. *)
Class Backends : Type := {
  sysdep_name : Type;
  sysdep_table : sysdep_name -> sysdep_dispatch_t
}.

(** A program that links sysdep_posix.c only. *)
Inductive posix_name : Type := POSIX_DISPATCH.

#[global] Instance posix_backends : Backends := {|
  sysdep_name := posix_name;
  sysdep_table := fun _ => posix_dispatch
|}.

(** ** partclone.h, libchecksum.h, libimage.h: declarations the engine uses

    These headers are not part of the sources.  The engine is written
    against their constants, the layout of the two on-disk headers and
    the CRC-32 of libchecksum; all of these are parameters here. *)

Record image_head_v1 : Type := mk_head_v1 {
  h1_magic : list Z;
  h1_version : list Z;
  h1_block_size : Z;
  h1_device_size : Z;
  h1_totalblock : Z
}.

Record image_head_v2 : Type := mk_head_v2 {
  h2_magic : list Z;
  h2_block_size : Z;
  h2_device_size : Z;
  h2_totalblock : Z;
  h2_checksum_size : Z;
  h2_blocks_per_checksum : Z
}.

(** The normalized header [pc_head]. *)
Record image_head : Type := mk_head {
  block_size : Z;
  totalblock : Z;
  device_size : Z;
  checksum_size : Z;
  blocks_per_checksum : Z;
  head_size : Z
}.

Definition image_head_zero : image_head := mk_head 0 0 0 0 0 0.

Definition set_device_size (d : Z) (h : image_head) : image_head :=
  mk_head (block_size h) (totalblock h) d (checksum_size h)
    (blocks_per_checksum h) (head_size h).

Class ImageFormat : Type := {
  IMAGE_MAGIC : list Z;            (* the string literal, with its NUL *)
  IMAGE_MAGIC_SIZE : Z;
  VERSION_SIZE : Z;
  MAGIC_LEN : Z;
  CRC_SIZE : Z;
  BLOCK_ERROR : Z;
  sizeof_image_head_v1 : Z;
  sizeof_image_head_v2 : Z;
  sizeof_pc_context : Z;
  sizeof_v1_context : Z;
  (* the bytes of [pc_head_v1], read as the V1 and as the V2 header *)
  head_v1_of_bytes : list Z -> image_head_v1;
  head_v2_of_bytes : list Z -> image_head_v2;
  (* libchecksum *)
  init_crc32 : Z;
  update_crc32 : Z -> list Z -> Z -> Z
}.

(** ** changefile.h: the interface of the change-file overlay

    changefile.c is not part of the sources.  The engine holds a handle
    and calls these operations; a handle's state and the change files on
    disk are the overlay's own.  A block buffer is passed as the caller's
    buffer and the offset of the block in it. *)
Class ChangeFile : Type := {
  cf_handle : Type;
  cf_disk : Type;
  cf_init : option string -> sysdep_dispatch_t -> Z -> Z -> cf_disk ->
            Z * option cf_handle * cf_disk;
  cf_create : option string -> sysdep_dispatch_t -> Z -> Z -> cf_disk ->
              Z * option cf_handle * cf_disk;
  cf_verify : cf_handle -> cf_disk -> Z * cf_handle * cf_disk;
  cf_seek : cf_handle -> Z -> cf_disk -> Z * cf_handle * cf_disk;
  cf_readblock : cf_handle -> list Z -> Z -> cf_disk ->
                 Z * list Z * cf_handle * cf_disk;
  cf_writeblock : cf_handle -> list Z -> Z -> cf_disk ->
                  Z * cf_handle * cf_disk;
  cf_blockused : cf_handle -> cf_disk -> Z * cf_handle * cf_disk;
  cf_sync : cf_handle -> cf_disk -> Z * cf_handle * cf_disk;
  cf_finish : cf_handle -> cf_disk -> Z * cf_disk
}.

(** Little-endian load of a 32-bit word at [buf + off]. *)
Definition load32 (name : string) (buf : list Z) (off : Z) : outcome Z :=
  b0 ← aread name buf off;
  b1 ← aread name buf (off + 1);
  b2 ← aread name buf (off + 2);
  b3 ← aread name buf (off + 3);
  Done (Z.lor (Z.lor b0 (Z.shiftl b1 8)) (Z.lor (Z.shiftl b2 16) (Z.shiftl b3 24))).

(** ** Backend calls that leave the files alone *)

(** A backend call that leaves every file as it is: no write, and an
    open only for reading. *)
Definition benign_call (c : sys_call) : Prop :=
  match c with
  | CallWrite _ _ => False
  | CallOpen _ omode => omode = SYSDEP_OPEN_RO
  | _ => True
  end.

(** The operating system after backend calls that left every file as it
    was: the files are the same, and the calls added to the trace are
    benign. *)
Definition os_untouched (os os' : os_state) : Prop :=
  os_files os' = os_files os
  /\ exists new, os_trace os' = new ++ os_trace os /\ Forall benign_call new.

(** ** The specification's side of the claims *)

(** The number of used blocks of a usage map: the bytes equal to 1. *)
Definition count_used (usage_map : list Z) : Z :=
  Z.of_nat (length (filter (fun x => x = 1) usage_map)).

(** The offset formula of the specification for block [b]:
    head_size + N * block_size + (N / blocks_per_checksum) * checksum_size
    with N the number of used blocks before [b]. *)
Definition spec_offset (h : image_head) (usage_map : list Z) (b : Z) : Z :=
  let N := count_used (take (Z.to_nat b) usage_map) in
  head_size h + N * block_size h + (N / blocks_per_checksum h) * checksum_size h.

(** The number of bytes of a usage map that are not 0: what [v1_seek]
    and [v1_readblock] take for used blocks. *)
Definition count_nonzero (usage_map : list Z) : Z :=
  Z.of_nat (length (filter (fun x => x <> 0) usage_map)).

(** A usage map of bytes 0 and 1 only. *)
Definition clean (usage_map : list Z) : Prop :=
  Forall (fun x => x = 0 \/ x = 1) usage_map.

Section Engine.

Context {FMT : ImageFormat} {CF : ChangeFile} {SD : Backends}.

(** ** The image context [pc_context_t]

    [pc_head_v1] and [pc_head_v2] are two views of the same header bytes
    ([pc_head_raw]): partclone_verify reads the bytes once and v2_verify
    reads the V2 fields from them.  [pc_dispatch] is the index of the row
    of [version_table] the pointer refers to. *)
Record pc_context : Type := mk_pc_context {
  pc_fd : option file_handle;
  pc_path : option string;
  pc_cf_path : option string;
  pc_cf_handle : option cf_handle;
  pc_verdep : option v1_context;
  pc_ivblock : option (list Z);
  pc_dispatch : option nat;
  pc_sysdep : sysdep_name;
  pc_head_raw : list Z;
  pc_head : image_head;
  pc_curblock : Z;
  pc_flags : Z;
  pc_omode : sysdep_open_mode_t
}.

Definition pc_head_v1 (p : pc_context) : image_head_v1 :=
  head_v1_of_bytes (pc_head_raw p).
Definition pc_head_v2 (p : pc_context) : image_head_v2 :=
  head_v2_of_bytes (pc_head_raw p).

Definition set_pc_fd (x : option file_handle) (p : pc_context) : pc_context :=
  mk_pc_context x (pc_path p) (pc_cf_path p) (pc_cf_handle p) (pc_verdep p)
    (pc_ivblock p) (pc_dispatch p) (pc_sysdep p) (pc_head_raw p) (pc_head p)
    (pc_curblock p) (pc_flags p) (pc_omode p).
Definition set_pc_path (x : option string) (p : pc_context) : pc_context :=
  mk_pc_context (pc_fd p) x (pc_cf_path p) (pc_cf_handle p) (pc_verdep p)
    (pc_ivblock p) (pc_dispatch p) (pc_sysdep p) (pc_head_raw p) (pc_head p)
    (pc_curblock p) (pc_flags p) (pc_omode p).
Definition set_pc_cf_path (x : option string) (p : pc_context) : pc_context :=
  mk_pc_context (pc_fd p) (pc_path p) x (pc_cf_handle p) (pc_verdep p)
    (pc_ivblock p) (pc_dispatch p) (pc_sysdep p) (pc_head_raw p) (pc_head p)
    (pc_curblock p) (pc_flags p) (pc_omode p).
Definition set_pc_cf_handle (x : option cf_handle) (p : pc_context) : pc_context :=
  mk_pc_context (pc_fd p) (pc_path p) (pc_cf_path p) x (pc_verdep p)
    (pc_ivblock p) (pc_dispatch p) (pc_sysdep p) (pc_head_raw p) (pc_head p)
    (pc_curblock p) (pc_flags p) (pc_omode p).
Definition set_pc_verdep (x : option v1_context) (p : pc_context) : pc_context :=
  mk_pc_context (pc_fd p) (pc_path p) (pc_cf_path p) (pc_cf_handle p) x
    (pc_ivblock p) (pc_dispatch p) (pc_sysdep p) (pc_head_raw p) (pc_head p)
    (pc_curblock p) (pc_flags p) (pc_omode p).
Definition set_pc_ivblock (x : option (list Z)) (p : pc_context) : pc_context :=
  mk_pc_context (pc_fd p) (pc_path p) (pc_cf_path p) (pc_cf_handle p)
    (pc_verdep p) x (pc_dispatch p) (pc_sysdep p) (pc_head_raw p) (pc_head p)
    (pc_curblock p) (pc_flags p) (pc_omode p).
Definition set_pc_dispatch (x : option nat) (p : pc_context) : pc_context :=
  mk_pc_context (pc_fd p) (pc_path p) (pc_cf_path p) (pc_cf_handle p)
    (pc_verdep p) (pc_ivblock p) x (pc_sysdep p) (pc_head_raw p) (pc_head p)
    (pc_curblock p) (pc_flags p) (pc_omode p).
Definition set_pc_head_raw (x : list Z) (p : pc_context) : pc_context :=
  mk_pc_context (pc_fd p) (pc_path p) (pc_cf_path p) (pc_cf_handle p)
    (pc_verdep p) (pc_ivblock p) (pc_dispatch p) (pc_sysdep p) x (pc_head p)
    (pc_curblock p) (pc_flags p) (pc_omode p).
Definition set_pc_head (x : image_head) (p : pc_context) : pc_context :=
  mk_pc_context (pc_fd p) (pc_path p) (pc_cf_path p) (pc_cf_handle p)
    (pc_verdep p) (pc_ivblock p) (pc_dispatch p) (pc_sysdep p) (pc_head_raw p) x
    (pc_curblock p) (pc_flags p) (pc_omode p).
Definition set_pc_curblock (x : Z) (p : pc_context) : pc_context :=
  mk_pc_context (pc_fd p) (pc_path p) (pc_cf_path p) (pc_cf_handle p)
    (pc_verdep p) (pc_ivblock p) (pc_dispatch p) (pc_sysdep p) (pc_head_raw p)
    (pc_head p) x (pc_flags p) (pc_omode p).
Definition set_pc_flags (x : Z) (p : pc_context) : pc_context :=
  mk_pc_context (pc_fd p) (pc_path p) (pc_cf_path p) (pc_cf_handle p)
    (pc_verdep p) (pc_ivblock p) (pc_dispatch p) (pc_sysdep p) (pc_head_raw p)
    (pc_head p) (pc_curblock p) x (pc_omode p).
Definition set_pc_omode (x : sysdep_open_mode_t) (p : pc_context) : pc_context :=
  mk_pc_context (pc_fd p) (pc_path p) (pc_cf_path p) (pc_cf_handle p)
    (pc_verdep p) (pc_ivblock p) (pc_dispatch p) (pc_sysdep p) (pc_head_raw p)
    (pc_head p) (pc_curblock p) (pc_flags p) x.

(** [pc_flags |= f] *)
Definition or_flags (f : Z) (p : pc_context) : pc_context :=
  set_pc_flags (Z.lor (pc_flags p) f) p.

(** The context after [memset(pcp, 0, sizeof ...)], with its backend. *)
Definition pc_context_zero (sysdep : sysdep_name) : pc_context :=
  mk_pc_context None None None None None None None sysdep
    (replicate (Z.to_nat sizeof_image_head_v1) 0) image_head_zero 0 0
    SYSDEP_OPEN_NONE.

(** ** Macros to check state flags

    The handle is not NULL in the functions below; the NULL test the
    macro [PCTX_FLAGS_SET] starts with is made where a handle comes in
    ([api_step]). *)
Definition PCTX_FLAGS_SET (p : pc_context) (f : Z) : bool :=
  Z.land (pc_flags p) (Z.lor f PC_VALID) =? Z.lor f PC_VALID.
Definition PCTX_VALID (p : pc_context) : bool := PCTX_FLAGS_SET p 0.
Definition PCTX_OPEN (p : pc_context) : bool := PCTX_FLAGS_SET p PC_OPEN.
Definition PCTX_TOLERANT (p : pc_context) : bool := PCTX_FLAGS_SET p PC_TOLERANT.
Definition PCTX_READ_ONLY (p : pc_context) : bool :=
  Z.land (pc_flags p) PC_READ_ONLY =? PC_READ_ONLY.
Definition PCTX_CF_OPEN (p : pc_context) : bool := PCTX_FLAGS_SET p PC_CF_OPEN.
Definition PCTX_VERIFIED (p : pc_context) : bool :=
  PCTX_FLAGS_SET p (Z.lor PC_OPEN PC_VERIFIED).
Definition PCTX_HEAD_VALID (p : pc_context) : bool :=
  PCTX_FLAGS_SET p (Z.lor (Z.lor PC_OPEN PC_VERIFIED) PC_HEAD_VALID).
Definition PCTX_READREADY (p : pc_context) : bool :=
  PCTX_FLAGS_SET p
    (Z.lor (Z.lor (Z.lor PC_OPEN PC_VERIFIED) PC_HEAD_VALID) PC_VERSION_INIT).
Definition PCTX_CFREADY (p : pc_context) : bool :=
  PCTX_FLAGS_SET p
    (Z.lor (Z.lor (Z.lor (Z.lor (Z.lor PC_OPEN PC_VERIFIED) PC_HEAD_VALID)
                     PC_VERSION_INIT) PC_HAVE_CFDEP) PC_CF_VERIFIED).
Definition PCTX_WRITEABLE (p : pc_context) : bool :=
  negb (PCTX_READ_ONLY p) && PCTX_READREADY p.
Definition PCTX_WRITEREADY (p : pc_context) : bool :=
  negb (PCTX_READ_ONLY p) && PCTX_CFREADY p.
Definition PCTX_HAVE_PATH (p : pc_context) : bool :=
  PCTX_FLAGS_SET p PC_HAVE_PATH && bool_decide (is_Some (pc_path p)).
Definition PCTX_HAVE_CF_PATH (p : pc_context) : bool :=
  PCTX_FLAGS_SET p PC_HAVE_CF_PATH && bool_decide (is_Some (pc_cf_path p)).
Definition PCTX_HAVE_VERDEP (p : pc_context) : bool :=
  PCTX_FLAGS_SET p PC_HAVE_VERDEP && bool_decide (is_Some (pc_verdep p)).
Definition PCTX_HAVE_IVBLOCK (p : pc_context) : bool :=
  PCTX_FLAGS_SET p PC_HAVE_IVBLOCK && bool_decide (is_Some (pc_ivblock p)).

(** ** The state monad of the engine *)

Record machine : Type := mk_machine {
  m_pcp : pc_context;
  m_os : os_state;
  m_disk : cf_disk
}.

Definition M (A : Type) : Type := machine -> outcome (A * machine).

Definition M_bind {A B : Type} (f : A -> M B) (c : M A) : M B :=
  fun m =>
    match c m with
    | Done (a, m') => f a m'
    | Crash e => Crash e
    end.

#[global] Instance M_mret : MRet M := fun A a m => Done (a, m).
#[global] Instance M_mbind : MBind M := fun A B f c => M_bind f c.

Definition getp : M pc_context := fun m => Done (m_pcp m, m).
Definition modp (f : pc_context -> pc_context) : M unit :=
  fun m => Done (tt, mk_machine (f (m_pcp m)) (m_os m) (m_disk m)).
Definition lift {A : Type} (o : outcome A) : M A :=
  fun m => match o with Done a => Done (a, m) | Crash e => Crash e end.

(** [v1p = (v1_context_t * )pcp->pc_verdep] followed by an access. *)
Definition getv1 : M v1_context :=
  pcp ← getp; lift (deref "pc_verdep" (pc_verdep pcp)).
Definition modv1 (f : v1_context -> v1_context) : M unit :=
  v1p ← getv1; modp (set_pc_verdep (Some (f v1p))).

(** Calls through [pcp->pc_sysdep]. *)
Definition call_malloc (nbytes : Z) : M Z :=
  fun m =>
    let '(e, os) := sys_malloc (sysdep_table (pc_sysdep (m_pcp m))) nbytes (m_os m) in
    Done (e, mk_machine (m_pcp m) os (m_disk m)).
Definition call_free (mp_set : bool) : M Z :=
  fun m =>
    let '(e, os) := sys_free (sysdep_table (pc_sysdep (m_pcp m))) mp_set (m_os m) in
    Done (e, mk_machine (m_pcp m) os (m_disk m)).
(** [sys_seek(pcp->pc_fd, offset, whence, NULL)] *)
Definition call_seek (offset : Z) (whence : sysdep_whence_t) : M Z :=
  fun m =>
    let '(e, _, fd, os) :=
      sys_seek (sysdep_table (pc_sysdep (m_pcp m))) (pc_fd (m_pcp m)) offset whence (m_os m) in
    Done (e, mk_machine (set_pc_fd fd (m_pcp m)) os (m_disk m)).
(** [sys_read(pcp->pc_fd, buf, len, &r_size)]: error, bytes stored, [r_size] *)
Definition call_read (len : Z) : M (Z * list Z * Z) :=
  fun m =>
    let '(e, data, r_size, fd, os) :=
      sys_read (sysdep_table (pc_sysdep (m_pcp m))) (pc_fd (m_pcp m)) len (m_os m) in
    Done (e, data, r_size, mk_machine (set_pc_fd fd (m_pcp m)) os (m_disk m)).
Definition call_close : M Z :=
  fun m =>
    let '(e, os) := sys_close (sysdep_table (pc_sysdep (m_pcp m))) (pc_fd (m_pcp m)) (m_os m) in
    Done (e, mk_machine (m_pcp m) os (m_disk m)).
(** The content of memory [sys_malloc] has just handed out. *)
Definition fresh (n : Z) : M (list Z) :=
  fun m => Done (fresh_cells (m_os m) n, m).
Definition fresh_bytes (n : Z) : M (list Z) :=
  fun m => Done ((fun z => z mod 256) <$> fresh_cells (m_os m) n, m).

(** Calls of the overlay on [pcp->pc_cf_handle]. *)
Definition call_cf (what : string)
    (op : cf_handle -> cf_disk -> Z * cf_handle * cf_disk) : M Z :=
  fun m =>
    match pc_cf_handle (m_pcp m) with
    | Some h =>
        let '(e, h', d) := op h (m_disk m) in
        Done (e, mk_machine (set_pc_cf_handle (Some h') (m_pcp m)) (m_os m) d)
    | None => Crash (NullPointer what)
    end.
(** [cf_init] and [cf_create] store the handle in [pcp->pc_cf_handle]. *)
Definition call_cf_open
    (op : option string -> sysdep_dispatch_t -> Z -> Z -> cf_disk ->
          Z * option cf_handle * cf_disk) : M Z :=
  fun m =>
    let pcp := m_pcp m in
    let '(e, h, d) :=
      op (pc_cf_path pcp) (sysdep_table (pc_sysdep pcp)) (block_size (pc_head pcp))
        (totalblock (pc_head pcp)) (m_disk m) in
    Done (e, mk_machine (set_pc_cf_handle h pcp) (m_os m) d).
Definition call_cf_readblock (buffer : list Z) (cbp : Z) : M (Z * list Z) :=
  fun m =>
    match pc_cf_handle (m_pcp m) with
    | Some h =>
        let '(e, buffer', h', d) := cf_readblock h buffer cbp (m_disk m) in
        Done (e, buffer',
              mk_machine (set_pc_cf_handle (Some h') (m_pcp m)) (m_os m) d)
    | None => Crash (NullPointer "pc_cf_handle")
    end.
Definition call_cf_finish : M Z :=
  fun m =>
    match pc_cf_handle (m_pcp m) with
    | Some h =>
        let '(e, d) := cf_finish h (m_disk m) in
        Done (e, mk_machine (m_pcp m) (m_os m) d)
    | None => Crash (NullPointer "pc_cf_handle")
    end.

(** ** partclone version 1 file format handling *)

(** Initialize version 1 file handling: allocate and initialize the
    version 1 handle, precalculate the CRC table. *)
Definition v1_init : M Z :=
  pcp ← getp;
  if PCTX_VALID pcp then
    error ← call_malloc sizeof_v1_context;
    if error =? 0 then
      modp (fun p => or_flags (Z.lor PC_HAVE_VERDEP PC_VERSION_INIT)
                       (set_pc_verdep (Some v1_context_zero) p));;
      pcp ← getp;
      error ←
        (if bool_decide (is_Some (pc_cf_path pcp))
            && (omode_int SYSDEP_OPEN_RW <=? omode_int (pc_omode pcp))
         then
           error ← call_cf_open cf_init;
           if error =? 0
           then modp (or_flags PC_CF_OPEN);; mret error
           else mret 0   (* We'll create later... *)
         else
           if omode_int (pc_omode pcp) <? omode_int SYSDEP_OPEN_RW
           then modp (or_flags PC_READ_ONLY);; mret error
           else mret 0);
      modv1 (fun v =>
               set_v1_bitmap_factor V1_DEFAULT_FACTOR
                 (set_v1_crc_tab32 crc_tab32_init v));;
      mret error
    else mret error
  else mret EINVAL.

Definition precalculate_sumcount : M Z :=
  pcp ← getp;
  v1p ← getv1;
  let tb := totalblock (pc_head pcp) in
  let factor := v1_bitmap_factor v1p in
  let entries := u64 (Z.shiftr tb factor + 1) in
  error ← call_malloc (u64 (entries * 8));
  cells ← fresh entries;
  modv1 (set_v1_sumcount (if error =? 0 then Some cells else None));;
  if error =? 0 then
    v1p ← getv1;
    sumcount ← lift (sumcount_loop (Z.to_nat tb) 0 0 factor
                       (v1_bitmap v1p) (v1_sumcount v1p));
    modv1 (set_v1_sumcount sumcount);;
    (* Fixup device size... *)
    let i := u64 (tb * block_size (pc_head pcp)) in
    (if device_size (pc_head pcp) =? i
     then mret tt
     else modp (fun p => set_pc_head (set_device_size i (pc_head p)) p));;
    pcp ← getp;
    match pc_cf_handle pcp with
    | Some _ =>
        (* Verify the change file, if present. *)
        error ← call_cf "pc_cf_handle" cf_verify;
        (if error =? 0 then modp (or_flags PC_CF_VERIFIED) else mret tt);;
        mret error
    | None => mret error
    end
  else mret error.

(** Verify the currently open file: load the bitmap, precalculate the
    count of preceding valid blocks. *)
Definition v1_verify : M Z :=
  pcp ← getp;
  if PCTX_OPEN pcp then
    let h1 := pc_head_v1 pcp in
    if memcmp_eq (h1_magic h1) IMAGE_MAGIC IMAGE_MAGIC_SIZE then
      let tb := h1_totalblock h1 in
      modp (fun p =>
              or_flags PC_HEAD_VALID
                (set_pc_head
                   (mk_head (h1_block_size h1) tb (h1_device_size h1) CRC_SIZE 1
                      (u64 (sizeof_image_head_v1 + tb + MAGIC_LEN))) p));;
      (* Allocate and fill the bitmap. *)
      error ← call_malloc tb;
      cells ← fresh_bytes tb;
      modv1 (set_v1_bitmap (if error =? 0 then Some cells else None));;
      if error =? 0 then
        call_seek sizeof_image_head_v1 SYSDEP_SEEK_ABSOLUTE;;
        '(error, data, r_size) ← call_read tb;
        modv1 (set_v1_bitmap (Some (splice cells 0 data)));;
        if (error =? 0) && (r_size =? tb) then
          (* Finally look for the magic string. *)
          junk ← fresh_bytes MAGIC_LEN;
          '(error, data, r_size) ← call_read MAGIC_LEN;
          let magicstr := splice junk 0 data in
          if (error =? 0) && (r_size =? MAGIC_LEN)
             && memcmp_eq magicstr cmagicstr MAGIC_LEN
          then precalculate_sumcount
          else mret (if error =? 0 then EINVAL else error)
        else mret error
      else mret error
    else mret EINVAL
  else mret EINVAL.

(** Finish version-specific handling: free structures. *)
Definition v1_finish : M Z :=
  pcp ← getp;
  if PCTX_HAVE_VERDEP pcp then
    v1p ← getv1;
    (if bool_decide (is_Some (v1_bitmap v1p)) then call_free true else mret 0);;
    (if bool_decide (is_Some (v1_sumcount v1p)) then call_free true else mret 0);;
    call_free true;;
    modp (fun p => set_pc_flags (Z.land (pc_flags p) (Z.lnot PC_HAVE_VERDEP)) p);;
    match pc_cf_handle pcp with
    | Some _ => call_cf_finish
    | None => mret 0
    end
  else mret EINVAL.

(** Version-specific handling for seeking to a particular block: update
    the number of preceding valid blocks. *)
Definition v1_seek (blockno : Z) : M Z :=
  pcp ← getp;
  if PCTX_HAVE_VERDEP pcp then
    v1p ← getv1;
    let factor := v1_bitmap_factor v1p in
    (* Starting with the hint that is nearest, start calculating the
       preceding valid blocks. *)
    hint ← lift (pread "v1_sumcount" (v1_sumcount v1p) (Z.shiftr blockno factor));
    let pbn := Z.land blockno (Z.lnot (Z.shiftl 1 factor - 1)) in
    nvbcount ← lift (seek_loop (Z.to_nat (blockno - pbn)) pbn hint (v1_bitmap v1p));
    modv1 (set_v1_nvbcount nvbcount);;
    match pc_cf_handle pcp with
    | Some _ => call_cf "pc_cf_handle" (fun h => cf_seek h blockno)
    | None => mret 0
    end
  else mret EINVAL.

(** Calculate offset in image file of particular block. *)
Definition rblock2offset (pcp : pc_context) (rbnum : Z) : Z :=
  let offset := u64 (head_size (pc_head pcp) + rbnum * block_size (pc_head pcp)) in
  let offset :=
    if blocks_per_checksum (pc_head pcp) =? 0 then offset
    else u64 (offset + (rbnum / blocks_per_checksum (pc_head pcp))
                       * checksum_size (pc_head pcp)) in
  s64 offset.

(** Read the block at the current position into [buffer + cbp]. *)
Definition v1_readblock (buffer : list Z) (cbp : Z) : M (Z * list Z) :=
  pcp ← getp;
  if PCTX_HAVE_VERDEP pcp then
    (* Check to see if we can get the result from the change file. *)
    '(error, buffer) ←
      match pc_cf_handle pcp with
      | Some _ =>
          call_cf "pc_cf_handle" (fun h => cf_seek h (pc_curblock pcp));;
          call_cf_readblock buffer cbp
      | None => mret (EINVAL, buffer)
      end;
    if error =? 0 then mret (error, buffer)
    else
      v1p ← getv1;
      (* Determine whether the block is used/valid. *)
      b ← lift (pread "v1_bitmap" (v1_bitmap v1p) (pc_curblock pcp));
      if b =? 0 then
        (* If we're reading an invalid block, use the handy buffer. *)
        ivblock ← lift (deref "pc_ivblock" (pc_ivblock pcp));
        mret (0, splice buffer cbp (slice ivblock 0 (block_size (pc_head pcp))))
      else
        (* block is valid *)
        let boffs := rblock2offset pcp (v1_nvbcount v1p) in
        error ← call_seek boffs SYSDEP_SEEK_ABSOLUTE;
        if error =? 0 then
          '(_, data, r_size) ← call_read (block_size (pc_head pcp));
          modv1 (fun v => set_v1_nvbcount (u64 (v1_nvbcount v + 1)) v);;
          mret (if r_size =? block_size (pc_head pcp) then error else EIO,
                splice buffer cbp data)
        else mret (error, buffer)
  else mret (EINVAL, buffer).

(** Is the current block in use? *)
Definition v1_blockused : M Z :=
  pcp ← getp;
  if PCTX_HAVE_VERDEP pcp then
    v1p ← getv1;
    used ←
      match pc_cf_handle pcp with
      | Some _ => call_cf "pc_cf_handle" cf_blockused
      | None => mret 0
      end;
    if used =? 0
    then lift (pread "v1_bitmap" (v1_bitmap v1p) (pc_curblock pcp))
    else mret 1
  else mret BLOCK_ERROR.

(** Write the block at [buffer + cbp] at the current location. *)
Definition v1_writeblock (buffer : list Z) (cbp : Z) : M Z :=
  pcp ← getp;
  (* Make sure we're initialized. *)
  if PCTX_HAVE_VERDEP pcp then
    error ←
      (if negb (PCTX_WRITEREADY pcp) then
         (if negb (PCTX_HAVE_CF_PATH pcp) then
            (* We have to make up a name. *)
            path ← lift (deref "pc_path" (pc_path pcp));
            error ← call_malloc (Z.of_nat (String.length path)
                                 + Z.of_nat (String.length cf_trailer) + 1);
            if error =? 0
            then modp (fun p => or_flags PC_HAVE_CF_PATH
                                  (set_pc_cf_path (Some (path +:+ cf_trailer)) p))
            else modp (set_pc_cf_path None)
          else mret tt);;
         error ← call_cf_open cf_create;
         (if error =? 0
          then modp (or_flags (Z.lor PC_HAVE_CFDEP PC_CF_VERIFIED))
          else mret tt);;
         mret error
       else mret 0);
    if error =? 0 then
      call_cf "pc_cf_handle" (fun h => cf_seek h (pc_curblock pcp));;
      call_cf "pc_cf_handle" (fun h => cf_writeblock h buffer cbp)
    else mret error
  else mret EINVAL.

(** Flush changes to change file. *)
Definition v1_sync : M Z :=
  pcp ← getp;
  if PCTX_WRITEREADY pcp
  then call_cf "pc_cf_handle" cf_sync
  else mret EINVAL.

(** ** Version 2: only the verification differs *)

Definition v2_verify : M Z :=
  pcp ← getp;
  if PCTX_OPEN pcp then
    let h2 := pc_head_v2 pcp in
    if memcmp_eq (h2_magic h2) IMAGE_MAGIC IMAGE_MAGIC_SIZE then
      let tb := h2_totalblock h2 in
      (* round up; [bitmap_size] is an [int] *)
      let bitmap_size := s32 (tb / 8) in
      let bitmap_size := if tb mod 8 =? 0 then bitmap_size else s32 (bitmap_size + 1) in
      modp (fun p =>
              or_flags PC_HEAD_VALID
                (set_pc_head
                   (mk_head (h2_block_size h2) tb (h2_device_size h2)
                      (h2_checksum_size h2) (h2_blocks_per_checksum h2)
                      (u64 (sizeof_image_head_v2 + bitmap_size + CRC_SIZE))) p));;
      (* Allocate and fill the bitmap. *)
      error ← call_malloc tb;
      cells ← fresh_bytes tb;
      modv1 (set_v1_bitmap (if error =? 0 then Some cells else None));;
      if error =? 0 then
        call_seek sizeof_image_head_v2 SYSDEP_SEEK_ABSOLUTE;;
        let len := u64 (bitmap_size + CRC_SIZE) in
        error ← call_malloc len;
        raw ← fresh_bytes len;
        if error =? 0 then
          '(error, data, r_size) ← call_read len;
          let bitmap := splice raw 0 data in
          if (error =? 0) && (r_size =? len) then
            let crc32 := update_crc32 init_crc32 bitmap bitmap_size in
            stored ← lift (load32 "bitmap" bitmap bitmap_size);
            if crc32 =? stored then
              (* Convert the "bit" map into a "byte" map *)
              v1p ← getv1;
              bytemap ← lift (v2_expand_loop (Z.to_nat tb) 0 (Some bitmap)
                                (v1_bitmap v1p));
              modv1 (set_v1_bitmap bytemap);;
              call_free true;;
              precalculate_sumcount
            else mret EINVAL
          else mret (if error =? 0 then EINVAL else error)
        else mret error
      else mret error
    else mret EINVAL
  else mret EINVAL.

(** ** Version dispatch table - to handle different file format versions *)

Record v_dispatch_table_t : Type := mk_v_dispatch {
  version : list Z;
  version_init : M Z;
  version_verify : M Z;
  version_finish : M Z;
  version_seek : Z -> M Z;
  version_readblock : list Z -> Z -> M (Z * list Z);
  version_blockused : M Z;
  version_writeblock : list Z -> Z -> M Z;
  version_sync : M Z
}.

Definition version_table : list v_dispatch_table_t :=
  [ mk_v_dispatch (c_literal "0001") v1_init v1_verify v1_finish v1_seek
      v1_readblock v1_blockused v1_writeblock v1_sync;
    mk_v_dispatch (c_literal "0002") v1_init v2_verify v1_finish v1_seek
      v1_readblock v1_blockused v1_writeblock v1_sync ].

(** [pcp->pc_dispatch], dereferenced. *)
Definition dispatch : M v_dispatch_table_t :=
  pcp ← getp;
  veridx ← lift (deref "pc_dispatch" (pc_dispatch pcp));
  lift (deref "pc_dispatch" (version_table !! veridx)).

(** The scan of partclone_verify for the version string. *)
Fixpoint find_version (v : list Z) (table : list v_dispatch_table_t) (veridx : nat)
  : option nat :=
  match table with
  | [] => None
  | row :: rest =>
      if memcmp_eq v (version row) VERSION_SIZE
      then Some veridx
      else find_version v rest (S veridx)
  end.

(** ** The image handle *)

(** Close the image handle. *)
Definition partclone_close : M Z :=
  pcp ← getp;
  if PCTX_VALID pcp then
    (if PCTX_CF_OPEN pcp then d ← dispatch; version_sync d else mret 0);;
    (if PCTX_OPEN pcp then call_close else mret 0);;
    (if PCTX_HAVE_PATH pcp then call_free true else mret 0);;
    (if PCTX_HAVE_CF_PATH pcp then call_free true else mret 0);;
    (if PCTX_HAVE_IVBLOCK pcp then call_free true else mret 0);;
    (if PCTX_HAVE_VERDEP pcp then
       match pc_dispatch pcp with
       | Some _ => d ← dispatch; version_finish d
       | None => mret 0
       end
     else mret 0);;
    call_free true;;
    mret 0
  else mret EINVAL.

(** [sys_open(&pcp->pc_fd, path, omode)] *)
Definition call_open (path : string) (omode : sysdep_open_mode_t) : M Z :=
  fun m =>
    let '(e, fd, os) := sys_open (sysdep_table (pc_sysdep (m_pcp m))) path omode (m_os m) in
    Done (e, mk_machine (set_pc_fd fd (m_pcp m)) os (m_disk m)).

(** The part of partclone_open that runs on the allocated context. *)
Definition partclone_open_body (path : string) (cfpath : option string)
    (omode : sysdep_open_mode_t) : M Z :=
  modp (or_flags PC_VALID);;
  error ← call_open path SYSDEP_OPEN_RO;
  error ←
    (if error =? 0 then
       modp (or_flags PC_OPEN);;
       error ← call_malloc (Z.of_nat (String.length path) + 1);
       if error =? 0 then
         modp (fun p => set_pc_path (Some path)
                          (set_pc_omode omode (or_flags PC_HAVE_PATH p)));;
         match cfpath with
         | Some cfp =>
             error ← call_malloc (Z.of_nat (String.length cfp) + 1);
             if error =? 0
             then modp (fun p => set_pc_cf_path (Some cfp)
                                   (or_flags PC_HAVE_CF_PATH p));;
                  mret error
             else mret error
         | None => mret error
         end
       else mret error
     else mret error);
  if error =? 0 then mret error else partclone_close;; mret error.

(** Open an image handle using the system-specific interfaces.  Returns
    the error and [*rpp]. *)
Definition partclone_open (path : string) (cfpath : option string)
    (omode : sysdep_open_mode_t) (sysdep : option sysdep_name)
    (os : os_state) (disk : cf_disk)
  : outcome (Z * option pc_context * os_state * cf_disk) :=
  match sysdep with
  | Some sd =>
      let '(error, os) := sys_malloc (sysdep_table sd) sizeof_pc_context os in
      if error =? 0 then
        match partclone_open_body path cfpath omode
                (mk_machine (pc_context_zero sd) os disk) with
        | Done (error, m) =>
            Done (error, if error =? 0 then Some (m_pcp m) else None,
                  m_os m, m_disk m)
        | Crash f => Crash f
        end
      else Done (error, None, os, disk)
  | None => Done (EINVAL, None, os, disk)
  end.

(** Set tolerant mode. *)
Definition partclone_tolerant_mode : M unit :=
  pcp ← getp;
  if PCTX_OPEN pcp then modp (or_flags PC_TOLERANT) else mret tt.

(** Determine the version of the file and verify it. *)
Definition partclone_verify : M Z :=
  pcp ← getp;
  if PCTX_OPEN pcp then
    (* Read the header. *)
    '(error, data, r_size) ← call_read sizeof_image_head_v1;
    modp (fun p => set_pc_head_raw (splice (pc_head_raw p) 0 data) p);;
    if (error =? 0) && (r_size =? sizeof_image_head_v1) then
      pcp ← getp;
      (* Scan through the version table and find a match for the
         version string. *)
      match find_version (h1_version (pc_head_v1 pcp)) version_table 0 with
      | Some found =>
          modp (set_pc_dispatch (Some found));;
          d ← dispatch;
          (* Initialize the per-version handle. *)
          error ← version_init d;
          if error =? 0 then
            (* Verify the version header. *)
            error ← version_verify d;
            if error =? 0 then
              modp (fun p => set_pc_curblock 0 (or_flags PC_VERIFIED p));;
              pcp ← getp;
              error ← call_malloc (block_size (pc_head pcp));
              if error =? 0 then
                modp (fun p =>
                        or_flags PC_HAVE_IVBLOCK
                          (set_pc_ivblock
                             (Some (replicate (Z.to_nat (block_size (pc_head pcp))) 0))
                             p));;
                mret error
              else modp (set_pc_ivblock None);; mret error
            else mret error
          else mret error
      | None => mret ENOENT
      end
    else mret (if error =? 0 then EIO else error)
  else mret EINVAL.

(** Return the blocksize. *)
Definition partclone_blocksize : M Z :=
  pcp ← getp;
  mret (if PCTX_VERIFIED pcp then s64 (block_size (pc_head pcp)) else -1).

(** Return the total count of blocks. *)
Definition partclone_blockcount : M Z :=
  pcp ← getp;
  mret (if PCTX_VERIFIED pcp then s64 (totalblock (pc_head pcp)) else -1).

(** Seek to a particular block. *)
Definition partclone_seek (blockno : Z) : M Z :=
  pcp ← getp;
  if PCTX_READREADY pcp && (blockno <=? totalblock (pc_head pcp)) then
    (* Use the version-specific seek routine to do the heavy lifting. *)
    d ← dispatch;
    error ← version_seek d blockno;
    if error =? 0
    then modp (set_pc_curblock blockno);; mret error
    else mret error
  else mret EINVAL.

(** Obtain the current position. *)
Definition partclone_tell : M Z :=
  pcp ← getp;
  mret (if PCTX_READREADY pcp then pc_curblock pcp else u64 (Z.lnot 0)).

(** The loop of partclone_readblocks: [n] more rounds; returns the last
    error, the value of [bindex] at the exit and the buffer. *)
Fixpoint readblocks_loop (n : nat) (bindex error : Z) (buffer : list Z) (cbp : Z)
  : M (Z * Z * list Z) :=
  match n with
  | O => mret (error, bindex, buffer)
  | S n' =>
      d ← dispatch;
      '(error, buffer) ← version_readblock d buffer cbp;
      if error =? 0 then
        modp (fun p => set_pc_curblock (u64 (pc_curblock p + 1)) p);;
        pcp ← getp;
        readblocks_loop n' (bindex + 1) error buffer
          (cbp + block_size (pc_head pcp))
      else mret (error, bindex, buffer)
  end.

(** Read blocks from the current position.  Returns the error and the
    content of the caller's buffer. *)
Definition partclone_readblocks (buffer : list Z) (nblocks : Z) : M (Z * list Z) :=
  pcp ← getp;
  if PCTX_READREADY pcp then
    (* Iterate and use the version-specific routine to do the heavy
       lifting. *)
    '(error, _, buffer) ← readblocks_loop (Z.to_nat nblocks) 0 EINVAL buffer 0;
    mret (error, buffer)
  else mret (EINVAL, buffer).

(** Determine if the current block is used. *)
Definition partclone_block_used : M Z :=
  pcp ← getp;
  if PCTX_READREADY pcp
  then d ← dispatch; version_blockused d
  else mret BLOCK_ERROR.

(** The loop of partclone_writeblocks. *)
Fixpoint writeblocks_loop (n : nat) (bindex error : Z) (buffer : list Z) (cbp : Z)
  : M (Z * Z) :=
  match n with
  | O => mret (error, bindex)
  | S n' =>
      d ← dispatch;
      error ← version_writeblock d buffer cbp;
      if error =? 0 then
        modp (fun p => set_pc_curblock (u64 (pc_curblock p + 1)) p);;
        pcp ← getp;
        writeblocks_loop n' (bindex + 1) error buffer
          (cbp + block_size (pc_head pcp))
      else mret (error, bindex)
  end.

(** Write blocks to the current position. *)
Definition partclone_writeblocks (buffer : list Z) (nblocks : Z) : M Z :=
  pcp ← getp;
  if PCTX_WRITEABLE pcp then
    '(error, _) ← writeblocks_loop (Z.to_nat nblocks) 0 EINVAL buffer 0;
    mret error
  else mret EINVAL.

(** Commit changes to image. *)
Definition partclone_sync : M Z :=
  pcp ← getp;
  if PCTX_WRITEREADY pcp
  then d ← dispatch; version_sync d
  else mret EINVAL.

(** Is this a partclone image? *)
Definition partclone_probe (path : string) (sysdep : option sysdep_name)
    (os : os_state) (disk : cf_disk) : outcome (Z * os_state * cf_disk) :=
  r ← partclone_open path None SYSDEP_OPEN_RO sysdep os disk;
  match r with
  | (error, Some testh, os, disk) =>
      if error =? 0 then
        '(error, m) ← partclone_verify (mk_machine testh os disk);
        '(_, m) ← partclone_close m;
        Done (error, m_os m, m_disk m)
      else Done (error, os, disk)
  | (error, None, os, disk) =>
      (* with a NULL handle verify and close return EINVAL *)
      Done (if error =? 0 then EINVAL else error, os, disk)
  end.

(** ** The library as a state machine

    A session holds what a caller of the library holds: the handle that
    partclone_open returned (or NULL), next to the operating system and
    the change files.  [api_step] runs one call of the public interface;
    a NULL handle takes the branch the flag macros give it. *)

Record session : Type := mk_session {
  s_rp : option pc_context;
  s_os : os_state;
  s_disk : cf_disk
}.

Inductive api_call : Type :=
| ApiProbe (path : string)
| ApiOpen (path : string) (cfpath : option string) (omode : sysdep_open_mode_t)
| ApiClose
| ApiTolerantMode
| ApiVerify
| ApiBlocksize
| ApiBlockcount
| ApiSeek (blockno : Z)
| ApiTell
| ApiReadblocks (buffer : list Z) (nblocks : Z)
| ApiBlockUsed
| ApiWriteblocks (buffer : list Z) (nblocks : Z)
| ApiSync.

(** Run [body] on the handle of the session; [on_null] is the result
    for a NULL handle. *)
Definition on_handle {A : Type} (s : session) (on_null : outcome A) (body : M A)
  : outcome (A * session) :=
  match s_rp s with
  | Some pcp =>
      '(a, m) ← body (mk_machine pcp (s_os s) (s_disk s));
      Done (a, mk_session (Some (m_pcp m)) (m_os m) (m_disk m))
  | None => a ← on_null; Done (a, s)
  end.

(** One call: the value returned, the caller's buffer, the session. *)
Definition api_step (sysdep : option sysdep_name) (c : api_call) (s : session)
  : outcome (Z * list Z * session) :=
  match c with
  | ApiProbe path =>
      '(error, os, disk) ← partclone_probe path sysdep (s_os s) (s_disk s);
      Done (error, [], mk_session (s_rp s) os disk)
  | ApiOpen path cfpath omode =>
      '(error, rp, os, disk) ←
        partclone_open path cfpath omode sysdep (s_os s) (s_disk s);
      Done (error, [], mk_session rp os disk)
  | ApiClose =>
      '(error, s') ← on_handle s (Done EINVAL) partclone_close;
      (* a valid handle is freed by the call *)
      Done (error, [],
            if error =? 0 then mk_session None (s_os s') (s_disk s') else s')
  | ApiTolerantMode =>
      '(_, s') ← on_handle s (Done tt) partclone_tolerant_mode;
      Done (0, [], s')
  | ApiVerify =>
      '(error, s') ← on_handle s (Done EINVAL) partclone_verify;
      Done (error, [], s')
  | ApiBlocksize =>
      '(r, s') ← on_handle s (Done (-1)) partclone_blocksize;
      Done (r, [], s')
  | ApiBlockcount =>
      '(r, s') ← on_handle s (Done (-1)) partclone_blockcount;
      Done (r, [], s')
  | ApiSeek blockno =>
      '(error, s') ← on_handle s (Done EINVAL) (partclone_seek blockno);
      Done (error, [], s')
  | ApiTell =>
      '(r, s') ← on_handle s (Done (u64 (Z.lnot 0))) partclone_tell;
      Done (r, [], s')
  | ApiReadblocks buffer nblocks =>
      '(r, s') ← on_handle s (Done (EINVAL, buffer))
                   (partclone_readblocks buffer nblocks);
      Done (r.1, r.2, s')
  | ApiBlockUsed =>
      '(r, s') ← on_handle s (Done BLOCK_ERROR) partclone_block_used;
      Done (r, [], s')
  | ApiWriteblocks buffer nblocks =>
      (* PCTX_READ_ONLY reads the flags without a NULL test *)
      '(error, s') ← on_handle s (Crash (NullPointer "pcp"))
                       (partclone_writeblocks buffer nblocks);
      Done (error, buffer, s')
  | ApiSync =>
      '(error, s') ← on_handle s (Crash (NullPointer "pcp")) partclone_sync;
      Done (error, [], s')
  end.

(** A sequence of calls, from the first to the last. *)
Fixpoint api_run (sysdep : option sysdep_name) (cs : list api_call)
    (s : session) : outcome session :=
  match cs with
  | [] => Done s
  | c :: cs' =>
      '(_, _, s') ← api_step sysdep c s;
      api_run sysdep cs' s'
  end.

(** Observations on runs: the calls [cs], then the call [c]. *)
Definition run_then (sysdep : option sysdep_name) (cs : list api_call)
    (c : api_call) (s : session) : outcome (Z * list Z * session) :=
  s' ← api_run sysdep cs s; api_step sysdep c s'.

(** What the last call returned: its value and the caller's buffer. *)
Definition returned (o : outcome (Z * list Z * session)) : outcome (Z * list Z) :=
  '(r, buffer, _) ← o; Done (r, buffer).

(** A reading [f] of the session the last call left. *)
Definition final {A : Type} (f : session -> A) (o : outcome (Z * list Z * session))
  : outcome A :=
  '(_, _, s) ← o; Done (f s).

(** What a computation returned, without the machine it left. *)
Definition result {A : Type} (o : outcome (A * machine)) : outcome A :=
  '(a, _) ← o; Done a.

Definition cursor (s : session) : option Z := pc_curblock <$> s_rp s.
Definition flags (s : session) : option Z := pc_flags <$> s_rp s.
Definition read_ready (s : session) : option bool := PCTX_READREADY <$> s_rp s.
Definition sumcount_of (s : session) : option (list Z) :=
  pcp ← s_rp s; v1p ← pc_verdep pcp; v1_sumcount v1p.
Definition nvbcount_of (s : session) : option Z :=
  pcp ← s_rp s; v1p ← pc_verdep pcp; Some (v1_nvbcount v1p).
Definition offset_by_spec (usage_map : list Z) (b : Z) (s : session) : option Z :=
  (fun pcp => spec_offset (pc_head pcp) usage_map b) <$> s_rp s.

(** A version 1 image that is well formed up to its trailing magic:
    the header [hdr] (magic and version right), the usage map of
    totalblock bytes, [MAGIC_LEN] bytes of trailer, the stored blocks. *)
Definition v1_image_parts (image hdr usage_map trailer rest : list Z) : Prop :=
  image = hdr ++ usage_map ++ trailer ++ rest
  /\ sizeof_image_head_v1 = Z.of_nat (length hdr)
  /\ memcmp_eq (h1_version (head_v1_of_bytes hdr)) (c_literal "0001") VERSION_SIZE
     = true
  /\ memcmp_eq (h1_magic (head_v1_of_bytes hdr)) IMAGE_MAGIC IMAGE_MAGIC_SIZE = true
  /\ h1_totalblock (head_v1_of_bytes hdr) = Z.of_nat (length usage_map)
  /\ MAGIC_LEN = Z.of_nat (length trailer)
  /\ Z.of_nat (length hdr) < 2 ^ 64
  /\ Z.of_nat (length usage_map) < 2 ^ 64
  /\ Z.of_nat (length trailer) < 2 ^ 64.

(** A context as partclone_open leaves it on the file [image], in a
    system with memory to allocate. *)
Definition just_opened (m : machine) (image : list Z) : Prop :=
  PCTX_OPEN (m_pcp m) = true
  /\ Z.land (pc_flags (m_pcp m)) PC_VERIFIED = 0
  /\ (length (pc_head_raw (m_pcp m)) <= Z.to_nat sizeof_image_head_v1)%nat
  /\ os_alloc (m_os m) = []
  /\ exists fh, pc_fd (m_pcp m) = Some fh
               /\ fh_pos fh = 0
               /\ can_read (fh_flags fh) = true
               /\ os_files (m_os m) !! fh_path fh = Some image.

(** A computation keeps [R] when [R] relates the machine before and
    the machine after each of its runs. *)
Definition keeps {A : Type} (R : relation machine) (c : M A) : Prop :=
  forall m a m', c m = Done (a, m') -> R m m'.

(** The cursor stays where it is. *)
Definition same_cursor : relation machine :=
  fun m m' => pc_curblock (m_pcp m') = pc_curblock (m_pcp m).

(** The machine after backend calls that left every file as it was. *)
Definition base_untouched : relation machine :=
  fun m m' => os_untouched (m_os m) (m_os m').

(** The machine a computation leaves ([m] itself when it crashes). *)
Definition after {A : Type} (c : M A) (m : machine) : machine :=
  match c m with
  | Done (_, m') => m'
  | Crash _ => m
  end.

(** The machine that holds the context partclone_open returned ([m]
    when it returned none). *)
Definition opened (o : outcome (Z * option pc_context * os_state * cf_disk))
    (m : machine) : machine :=
  match o with
  | Done (_, Some pcp, os, disk) => mk_machine pcp os disk
  | _ => m
  end.

(** Whether partclone_open returned 0 and a context. *)
Definition open_ok (o : outcome (Z * option pc_context * os_state * cf_disk))
  : bool :=
  match o with
  | Done (e, Some _, _, _) => e =? 0
  | _ => false
  end.

(** The version 1 handle of a machine (the zeroed handle when there is
    none). *)
Definition verdep_of (m : machine) : v1_context :=
  default v1_context_zero (pc_verdep (m_pcp m)).

End Engine.

(** ** A concrete image format

    Modelled from the spec: partclone.h, libimage.h and libchecksum.c are
    not part of the sources.  The layout follows section 6.3 of the
    specification: the 16-byte magic (the marker and its NUL), the 4-byte
    version, then block_size, totalblock and device_size, and for version
    2 checksum_size and blocks_per_checksum; integers are little-endian.
    The version 1 header is padded to the size of the version 2 header.
    The CRC-32 is the reflected IEEE one, started at 0xFFFFFFFF and
    finished with an exclusive or of 0xFFFFFFFF. *)

Fixpoint le_decode (bytes : list Z) : Z :=
  match bytes with
  | [] => 0
  | b :: rest => b + 256 * le_decode rest
  end.

Fixpoint le_encode (n : nat) (z : Z) : list Z :=
  match n with
  | O => []
  | S n' => z mod 256 :: le_encode n' (z / 256)
  end.

Definition spec_head_v1_of_bytes (raw : list Z) : image_head_v1 :=
  mk_head_v1 (slice raw 0 16) (slice raw 16 4) (le_decode (slice raw 20 4))
    (le_decode (slice raw 32 8)) (le_decode (slice raw 24 8)).

Definition spec_head_v2_of_bytes (raw : list Z) : image_head_v2 :=
  mk_head_v2 (slice raw 0 16) (le_decode (slice raw 20 4))
    (le_decode (slice raw 32 8)) (le_decode (slice raw 24 8))
    (le_decode (slice raw 40 4)) (le_decode (slice raw 44 4)).

Definition spec_update_crc32 (crc : Z) (buf : list Z) (len : Z) : Z :=
  Z.lxor
    (fold_left
       (fun c b =>
          Z.lxor (Z.shiftr c 8)
            (nth (Z.to_nat (Z.land (Z.lxor c b) 0xff)) crc_tab32_init 0))
       (slice buf 0 len) crc)
    0xFFFFFFFF.

#[global] Instance spec_format : ImageFormat := {|
  IMAGE_MAGIC := c_literal "partclone-image";
  IMAGE_MAGIC_SIZE := 16;
  VERSION_SIZE := 4;
  MAGIC_LEN := 8;
  CRC_SIZE := 4;
  BLOCK_ERROR := -1;
  sizeof_image_head_v1 := 48;
  sizeof_image_head_v2 := 48;
  sizeof_pc_context := 256;
  sizeof_v1_context := 1056;
  head_v1_of_bytes := spec_head_v1_of_bytes;
  head_v2_of_bytes := spec_head_v2_of_bytes;
  init_crc32 := 0xFFFFFFFF;
  update_crc32 := spec_update_crc32
|}.

(** The bytes of a version 1 image: header, usage map, trailing magic
    and the stored blocks. *)
Definition v1_image (bs tb dev : Z) (usage_map trailer data : list Z) : list Z :=
  c_literal "partclone-image" ++ bytes_of_string "0001" ++ le_encode 4 bs
    ++ le_encode 8 tb ++ le_encode 8 dev ++ replicate 8 0
    ++ usage_map ++ trailer ++ data.

(** ** A concrete change-file overlay

    Modelled from the spec: changefile.c is not part of the sources.
    Section 6.2 of the specification gives the contract: an overlay
    stores the blocks written to it, block by block; cf_seek moves its
    cursor; cf_readblock returns the block stored at the cursor, or a
    distinguished non-zero status when the block has not been written;
    cf_blockused tells whether it has; cf_init opens an existing overlay
    and cf_create makes a fresh one; cf_sync and cf_finish flush it. *)

Record overlay : Type := mk_overlay {
  ov_path : string;
  ov_block_size : Z;
  ov_total_blocks : Z;
  ov_curblock : Z;
  ov_blocks : gmap Z (list Z)
}.

(** A change file on disk: its block size and its blocks. *)
Definition overlay_file : Type := (Z * gmap Z (list Z))%type.

(** The status of cf_readblock for a block without override. *)
Definition CF_NO_OVERRIDE : Z := ENOENT.

Definition ov_init (path : option string) (sysdep : sysdep_dispatch_t)
    (bs tb : Z) (disk : gmap string overlay_file)
  : Z * option overlay * gmap string overlay_file :=
  match path with
  | Some p =>
      match disk !! p with
      | Some (fbs, blocks) => (0, Some (mk_overlay p fbs tb 0 blocks), disk)
      | None => (ENOENT, None, disk)
      end
  | None => (EINVAL, None, disk)
  end.

Definition ov_create (path : option string) (sysdep : sysdep_dispatch_t)
    (bs tb : Z) (disk : gmap string overlay_file)
  : Z * option overlay * gmap string overlay_file :=
  match path with
  | Some p => (0, Some (mk_overlay p bs tb 0 ∅), <[p := (bs, ∅)]> disk)
  | None => (EINVAL, None, disk)
  end.

Definition ov_verify (h : overlay) (disk : gmap string overlay_file)
  : Z * overlay * gmap string overlay_file := (0, h, disk).

Definition ov_seek (h : overlay) (block : Z) (disk : gmap string overlay_file)
  : Z * overlay * gmap string overlay_file :=
  (0, mk_overlay (ov_path h) (ov_block_size h) (ov_total_blocks h) block
        (ov_blocks h), disk).

Definition ov_readblock (h : overlay) (buffer : list Z) (cbp : Z)
    (disk : gmap string overlay_file)
  : Z * list Z * overlay * gmap string overlay_file :=
  match ov_blocks h !! ov_curblock h with
  | Some data => (0, splice buffer cbp data, h, disk)
  | None => (CF_NO_OVERRIDE, buffer, h, disk)
  end.

Definition ov_writeblock (h : overlay) (buffer : list Z) (cbp : Z)
    (disk : gmap string overlay_file)
  : Z * overlay * gmap string overlay_file :=
  (0, mk_overlay (ov_path h) (ov_block_size h) (ov_total_blocks h) (ov_curblock h)
        (<[ov_curblock h := slice buffer cbp (ov_block_size h)]> (ov_blocks h)),
   disk).

Definition ov_blockused (h : overlay) (disk : gmap string overlay_file)
  : Z * overlay * gmap string overlay_file :=
  (match ov_blocks h !! ov_curblock h with Some _ => 1 | None => 0 end, h, disk).

Definition ov_sync (h : overlay) (disk : gmap string overlay_file)
  : Z * overlay * gmap string overlay_file :=
  (0, h, <[ov_path h := (ov_block_size h, ov_blocks h)]> disk).

Definition ov_finish (h : overlay) (disk : gmap string overlay_file)
  : Z * gmap string overlay_file :=
  (0, <[ov_path h := (ov_block_size h, ov_blocks h)]> disk).

#[global] Instance spec_overlay : ChangeFile := {|
  cf_handle := overlay;
  cf_disk := gmap string overlay_file;
  cf_init := ov_init;
  cf_create := ov_create;
  cf_verify := ov_verify;
  cf_seek := ov_seek;
  cf_readblock := ov_readblock;
  cf_writeblock := ov_writeblock;
  cf_blockused := ov_blockused;
  cf_sync := ov_sync;
  cf_finish := ov_finish
|}.

(** ** Contexts in use and what their overlay holds *)

Section OverlayDefs.
Context {FMT : ImageFormat} {SD : Backends}.

(** What the engine's overlay handle holds: its block size and blocks. *)
Definition overlay_view (p : pc_context) : option (Z * gmap Z (list Z)) :=
  (fun h : overlay => (ov_block_size h, ov_blocks h)) <$> pc_cf_handle p.

(** A context whose overlay, once it is ready for writing, was created
    with the block size of the image. *)
Definition overlay_fits (p : pc_context) : Prop :=
  PCTX_WRITEREADY p = true ->
  exists h, pc_cf_handle p = Some h /\ ov_block_size h = block_size (pc_head p).

(** The machine after calls that leave the overlay's blocks, the flags,
    the header and the dispatch as they are. *)
Definition overlay_kept : relation machine :=
  fun m m' =>
    pc_flags (m_pcp m') = pc_flags (m_pcp m)
    /\ pc_head (m_pcp m') = pc_head (m_pcp m)
    /\ pc_dispatch (m_pcp m') = pc_dispatch (m_pcp m)
    /\ (is_Some (pc_verdep (m_pcp m)) -> is_Some (pc_verdep (m_pcp m')))
    /\ overlay_view (m_pcp m') = overlay_view (m_pcp m).

(** [later m m']: [m'] is reached from [m] by calls that do not write:
    seek, tell, read, block-used and sync, with whatever result. *)
Inductive later : machine -> machine -> Prop :=
| later_now (m : machine) : later m m
| later_seek (m m1 m2 : machine) (blockno e : Z) :
    later m m1 -> partclone_seek blockno m1 = Done (e, m2) -> later m m2
| later_tell (m m1 m2 : machine) (r : Z) :
    later m m1 -> partclone_tell m1 = Done (r, m2) -> later m m2
| later_read (m m1 m2 : machine) (buffer : list Z) (nblocks : Z) (r : Z * list Z) :
    later m m1 -> partclone_readblocks buffer nblocks m1 = Done (r, m2) -> later m m2
| later_used (m m1 m2 : machine) (r : Z) :
    later m m1 -> partclone_block_used m1 = Done (r, m2) -> later m m2
| later_sync (m m1 m2 : machine) (e : Z) :
    later m m1 -> partclone_sync m1 = Done (e, m2) -> later m m2.

(** The context has not created an overlay. *)
Definition no_overlay_yet (p : pc_context) : Prop :=
  Z.land (pc_flags p) PC_HAVE_CFDEP = 0.

(** The machine after calls that leave the flag PC_HAVE_CFDEP as it is. *)
Definition cfdep_kept : relation machine :=
  fun m m' =>
    Z.land (pc_flags (m_pcp m')) PC_HAVE_CFDEP
    = Z.land (pc_flags (m_pcp m)) PC_HAVE_CFDEP.

(** [prepared m]: the context of [m] comes from a successful
    partclone_open and has since been verified, set tolerant, sought and
    read, with whatever result, but not written to. *)
Inductive prepared : machine -> Prop :=
| prepared_open (path : string) (cfpath : option string)
    (omode : sysdep_open_mode_t) (sysdep : option sysdep_name)
    (os os' : os_state) (disk disk' : cf_disk) (pcp : pc_context) :
    partclone_open path cfpath omode sysdep os disk
      = Done (0, Some pcp, os', disk') ->
    prepared (mk_machine pcp os' disk')
| prepared_tolerant (m m' : machine) :
    prepared m -> partclone_tolerant_mode m = Done (tt, m') -> prepared m'
| prepared_verify (m m' : machine) (e : Z) :
    prepared m -> partclone_verify m = Done (e, m') -> prepared m'
| prepared_later (m m' : machine) :
    prepared m -> later m m' -> prepared m'.

(** [in_use m]: a prepared context, and then any calls but
    partclone_verify: writes and calls that set tolerant mode between
    the calls that do not write. *)
Inductive in_use : machine -> Prop :=
| in_use_prepared (m : machine) : prepared m -> in_use m
| in_use_write (m m' : machine) (buffer : list Z) (nblocks e : Z) :
    in_use m -> partclone_writeblocks buffer nblocks m = Done (e, m') ->
    in_use m'
| in_use_later (m m' : machine) : in_use m -> later m m' -> in_use m'
| in_use_tolerant (m m' : machine) :
    in_use m -> partclone_tolerant_mode m = Done (tt, m') -> in_use m'.

(** A batch of [k] blocks written from the cursor [c] stays clear of the
    blocks [b], ..., [b + n - 1]: it ends before [b], or it starts after
    them and does not wrap around the 64-bit cursor. *)
Definition clear_of (b n c k : Z) : Prop :=
  k <= 0 \/ (0 <= c /\ c + k <= b) \/ (b + n <= c /\ c + k <= 2 ^ 64).

(** [undisturbed b n m m']: [m'] is reached from [m] by any calls but
    partclone_verify, with whatever result, of which no
    partclone_writeblocks writes one of the blocks [b], ..., [b + n - 1]. *)
Inductive undisturbed (b n : Z) : machine -> machine -> Prop :=
| undisturbed_now (m : machine) : undisturbed b n m m
| undisturbed_later (m m1 m2 : machine) :
    undisturbed b n m m1 -> later m1 m2 -> undisturbed b n m m2
| undisturbed_tolerant (m m1 m2 : machine) :
    undisturbed b n m m1 -> partclone_tolerant_mode m1 = Done (tt, m2) ->
    undisturbed b n m m2
| undisturbed_write (m m1 m2 : machine) (buffer : list Z) (k e : Z) :
    undisturbed b n m m1 ->
    clear_of b n (pc_curblock (m_pcp m1)) k ->
    partclone_writeblocks buffer k m1 = Done (e, m2) ->
    undisturbed b n m m2.

(** The overlay holds the first [j] blocks of [buf] at the blocks from [b]. *)
Definition stored (p : pc_context) (b j : Z) (buf : list Z) : Prop :=
  exists h, pc_cf_handle p = Some h
    /\ ov_block_size h = block_size (pc_head p)
    /\ forall i, 0 <= i < j ->
         ov_blocks h !! (b + i)
         = Some (slice buf (i * block_size (pc_head p)) (block_size (pc_head p))).

(** The invariant of the loop of partclone_writeblocks. *)
Definition writing (p : pc_context) (b j : Z) (buf : list Z) : Prop :=
  PCTX_WRITEABLE p = true
  /\ (PCTX_WRITEREADY p = true -> stored p b j buf)
  /\ (0 < j -> PCTX_WRITEREADY p = true).

(** The dispatch pointer of the context is a row of the version table. *)
Definition dispatchable (p : pc_context) : Prop :=
  exists i d, pc_dispatch p = Some i /\ version_table !! i = Some d.

(** The caller's buffer when the first [o] bytes have been read. *)
Definition filled (buf rbuf : list Z) (o : nat) : list Z :=
  take o buf ++ drop o rbuf.

(** The invariant of the loop of partclone_readblocks over blocks that
    the overlay holds. *)
Definition reading (p : pc_context) (b n : Z) (buf : list Z) : Prop :=
  PCTX_HAVE_VERDEP p = true /\ dispatchable p /\ stored p b n buf.

(** A context ready to read and to write whose overlay holds the [n]
    blocks of [buf] at the blocks from [b]. *)
Definition shadowing (p : pc_context) (b n : Z) (buf : list Z) : Prop :=
  reading p b n buf /\ PCTX_READREADY p = true /\ PCTX_WRITEREADY p = true.

End OverlayDefs.

(** ** Readings of traces and handles *)

(** The offset of the latest [sys_seek] of a trace (newest call first). *)
Definition last_seek (trace : list sys_call) : option Z :=
  head (omap (fun c => match c with CallSeek _ off _ => Some off | _ => None end)
          trace).

(** Whether a run ended without undefined behaviour. *)
Definition ran {A : Type} (o : outcome A) : bool :=
  match o with Done _ => true | Crash _ => false end.

(** The version 1 handle as [v1_init] leaves it. *)
Definition v1_context_init : v1_context :=
  set_v1_bitmap_factor V1_DEFAULT_FACTOR
    (set_v1_crc_tab32 crc_tab32_init v1_context_zero).

(** ** Contexts loaded from an image, and the content of an image *)

(** The sum index as [precalculate_sumcount] fills it: the entry of
    every stride boundary below the end of the usage map is the number
    of used blocks before the boundary. *)
Definition sum_index (sc usage_map : list Z) (factor : Z) : Prop :=
  forall k, 0 <= k -> k * 2 ^ factor < Z.of_nat (length usage_map) ->
    zlookup sc k
    = Some (count_used (take (Z.to_nat (k * 2 ^ factor)) usage_map)).

(** Block [i] of the device an image stands for: the block stored for
    it when its usage byte is 1, at the offset the formula of the format
    gives, and zeros otherwise. *)
Definition logical_block (image : list Z) (h : image_head) (usage_map : list Z)
    (i : Z) : list Z :=
  if default 0 (zlookup usage_map i) =? 1
  then slice image (spec_offset h usage_map i) (block_size h)
  else replicate (Z.to_nat (block_size h)) 0.

(** The [n] blocks from block [b] on. *)
Fixpoint logical_blocks (image : list Z) (h : image_head) (usage_map : list Z)
    (b : Z) (n : nat) : list Z :=
  match n with
  | O => []
  | S n' =>
      logical_block image h usage_map b
      ++ logical_blocks image h usage_map (b + 1) n'
  end.

Section Loaded.
Context {FMT : ImageFormat} {CF : ChangeFile} {SD : Backends}.

(** The dispatch pointer of the context is a row of [version_table]. *)
Definition has_dispatch (p : pc_context) : Prop :=
  exists i d, pc_dispatch p = Some i /\ version_table !! i = Some d.

(** A context as partclone_open leaves it when no change file was named. *)
Definition opened_plain (m : machine) (image : list Z) : Prop :=
  just_opened m image
  /\ pc_cf_path (m_pcp m) = None
  /\ pc_cf_handle (m_pcp m) = None.

(** The same in a system whose coming allocations succeed or fail as
    [allocs] tells. *)
Definition opened_with (allocs : list bool) (m : machine) (image : list Z) : Prop :=
  PCTX_OPEN (m_pcp m) = true
  /\ Z.land (pc_flags (m_pcp m)) PC_VERIFIED = 0
  /\ (length (pc_head_raw (m_pcp m)) <= Z.to_nat sizeof_image_head_v1)%nat
  /\ os_alloc (m_os m) = allocs
  /\ (exists fh, pc_fd (m_pcp m) = Some fh
                 /\ fh_pos fh = 0
                 /\ can_read (fh_flags fh) = true
                 /\ os_files (m_os m) !! fh_path fh = Some image)
  /\ pc_cf_path (m_pcp m) = None
  /\ pc_cf_handle (m_pcp m) = None.

(** A context that partclone_verify has loaded from the file [image]
    with the usage map [usage_map], without a change file: it is ready
    to read, holds the usage map and its sum index, a zeroed block for
    the blocks that are not stored, and the open file. *)
Definition loaded (m : machine) (image usage_map : list Z) : Prop :=
  PCTX_READREADY (m_pcp m) = true
  /\ PCTX_HAVE_VERDEP (m_pcp m) = true
  /\ has_dispatch (m_pcp m)
  /\ pc_cf_handle (m_pcp m) = None
  /\ totalblock (pc_head (m_pcp m)) = Z.of_nat (length usage_map)
  /\ pc_ivblock (m_pcp m)
     = Some (replicate (Z.to_nat (block_size (pc_head (m_pcp m)))) 0)
  /\ (exists v1p sc,
        pc_verdep (m_pcp m) = Some v1p
        /\ v1_bitmap v1p = Some usage_map
        /\ v1_sumcount v1p = Some sc
        /\ v1_bitmap_factor v1p = V1_DEFAULT_FACTOR
        /\ sum_index sc usage_map V1_DEFAULT_FACTOR)
  /\ (exists fh,
        pc_fd (m_pcp m) = Some fh
        /\ can_read (fh_flags fh) = true
        /\ os_files (m_os m) !! fh_path fh = Some image).

(** The walking count of used blocks agrees with the cursor. *)
Definition synced (m : machine) (usage_map : list Z) : Prop :=
  0 <= pc_curblock (m_pcp m)
  /\ v1_nvbcount (verdep_of m)
     = count_used (take (Z.to_nat (pc_curblock (m_pcp m))) usage_map).

End Loaded.

(** The stored blocks among the [n] blocks from [b] on lie within the
    file. *)
Definition blocks_in_file (image : list Z) (h : image_head) (usage_map : list Z)
    (b n : Z) : Prop :=
  forall i, b <= i < b + n -> zlookup usage_map i = Some 1 ->
    spec_offset h usage_map i + block_size h <= Z.of_nat (length image).

(** The fields of a normalized header are unsigned. *)
Definition sane_head (h : image_head) : Prop :=
  0 <= head_size h /\ 0 <= block_size h /\ 0 <= checksum_size h
  /\ 0 <= blocks_per_checksum h.

(** The usage byte of block [k] in a version 2 image: bit [k mod 8] of
    byte [k / 8] of the bitmap, as 0 or 1. *)
Definition bit_of (bits : list Z) (k : Z) : Z :=
  if Z.testbit (default 0 (zlookup bits (k / 8))) (k mod 8) then 1 else 0.

(** The usage map of a version 2 bitmap with [tb] blocks. *)
Definition usage_of_bits (bits : list Z) (tb : Z) : list Z :=
  bit_of bits <$> seqZ 0 tb.

Section PartsV2.
Context {FMT : ImageFormat}.

(** The layout of a version 2 image: the header [hdr] that
    partclone_verify reads, and behind the [pre] bytes of the version 2
    header the bitmap [bits] of one bit per block, the bytes [crc] of
    its CRC and the stored blocks. *)
Definition v2_image_layout (image hdr pre bits crc rest : list Z) : Prop :=
  image = pre ++ bits ++ crc ++ rest
  /\ sizeof_image_head_v2 = Z.of_nat (length pre)
  /\ hdr = take (Z.to_nat sizeof_image_head_v1) image
  /\ sizeof_image_head_v1 = Z.of_nat (length hdr)
  /\ sizeof_image_head_v1 < 2 ^ 64
  /\ memcmp_eq (h1_version (head_v1_of_bytes hdr)) (c_literal "0001") VERSION_SIZE
     = false
  /\ memcmp_eq (h1_version (head_v1_of_bytes hdr)) (c_literal "0002") VERSION_SIZE
     = true
  /\ memcmp_eq (h2_magic (head_v2_of_bytes hdr)) IMAGE_MAGIC IMAGE_MAGIC_SIZE = true
  /\ 0 <= h2_totalblock (head_v2_of_bytes hdr) < 2 ^ 31
  /\ Z.of_nat (length bits) = (h2_totalblock (head_v2_of_bytes hdr) + 7) / 8
  /\ CRC_SIZE = Z.of_nat (length crc)
  /\ CRC_SIZE < 2 ^ 32.

(** A well-formed version 2 image: the CRC stored behind the bitmap is
    the one that libchecksum computes for the bitmap. *)
Definition v2_image_parts (image hdr pre bits crc rest : list Z) : Prop :=
  v2_image_layout image hdr pre bits crc rest
  /\ load32 "bitmap" (bits ++ crc) (Z.of_nat (length bits))
     = Done (update_crc32 init_crc32 (bits ++ crc) (Z.of_nat (length bits))).

End PartsV2.

(** ** Concrete images and sessions *)

Definition image_path : string := "disk.img".

Definition os_with (image : list Z) : os_state :=
  mk_os (<[image_path := image]> ∅) 0 [] 0xAA [].

Definition session_with (image : list Z) : session :=
  mk_session None (os_with image) (∅ : gmap string overlay_file).

Definition posix : option (@sysdep_name posix_backends) := Some POSIX_DISPATCH.

Definition magic_ok : list Z := bytes_of_string "BiTmAgIc".
Definition magic_clobbered : list Z := bytes_of_string "BiTmAgIx".

(** Scenario S1 of the specification with 4-byte blocks: eight blocks,
    four of them stored, each followed by its 4-byte checksum. *)
Definition s1_image : list Z :=
  v1_image 4 8 32 [1; 0; 1; 1; 0; 0; 1; 0] magic_ok
    ([10; 11; 12; 13; 0; 0; 0; 0] ++ [20; 21; 22; 23; 0; 0; 0; 0]
     ++ [30; 31; 32; 33; 0; 0; 0; 0] ++ [60; 61; 62; 63; 0; 0; 0; 0]).

(** The same image with the trailing magic clobbered. *)
Definition s5_image : list Z :=
  v1_image 4 8 32 [1; 0; 1; 1; 0; 0; 1; 0] magic_clobbered
    ([10; 11; 12; 13; 0; 0; 0; 0] ++ [20; 21; 22; 23; 0; 0; 0; 0]
     ++ [30; 31; 32; 33; 0; 0; 0; 0] ++ [60; 61; 62; 63; 0; 0; 0; 0]).

(** Two blocks; the usage byte of block 0 is 2, block 1 is stored. *)
Definition anomalous_image : list Z :=
  v1_image 4 2 8 [2; 1] magic_ok [21; 22; 23; 24; 0; 0; 0; 0].

(** One block whose usage byte is 2; the file goes on with other bytes. *)
Definition anomalous_unused_image : list Z :=
  v1_image 4 1 4 [2] magic_ok [9; 9; 9; 9; 0; 0; 0; 0].

(** Two blocks, the second used, but the file ends after the magic. *)
Definition truncated_image : list Z :=
  v1_image 4 2 8 [0; 1] magic_ok [].

(** 1024 used blocks of one byte: a whole stride of the sum index. *)
Definition stride_image : list Z :=
  v1_image 1 1024 1024 (replicate 1024 1) magic_ok [].

(** The machine after open and verify of [image] (read-only). *)
Definition ready_machine (image : list Z) : machine :=
  match api_run posix [ApiOpen image_path None SYSDEP_OPEN_RO; ApiVerify]
          (session_with image) with
  | Done (mk_session (Some pcp) os disk) => mk_machine pcp os disk
  | _ => mk_machine (pc_context_zero POSIX_DISPATCH) (os_with image) ∅
  end.

(** The machine after open of [image] (read-only). *)
Definition opened_machine (image : list Z) : machine :=
  match api_run posix [ApiOpen image_path None SYSDEP_OPEN_RO]
          (session_with image) with
  | Done (mk_session (Some pcp) os disk) => mk_machine pcp os disk
  | _ => mk_machine (pc_context_zero POSIX_DISPATCH) (os_with image) ∅
  end.

(** The parts of [s5_image]. *)
Definition s5_header : list Z :=
  c_literal "partclone-image" ++ bytes_of_string "0001" ++ le_encode 4 4
    ++ le_encode 8 8 ++ le_encode 8 32 ++ replicate 8 0.
Definition s5_usage_map : list Z := [1; 0; 1; 1; 0; 0; 1; 0].
Definition s5_blocks : list Z :=
  [10; 11; 12; 13; 0; 0; 0; 0] ++ [20; 21; 22; 23; 0; 0; 0; 0]
  ++ [30; 31; 32; 33; 0; 0; 0; 0] ++ [60; 61; 62; 63; 0; 0; 0; 0].

(** A read-write session on scenario S1 (scenario S2 of the
    specification): block 3 is written, synced and read back. *)
Definition rw_session_calls : list api_call :=
  [ ApiOpen image_path None SYSDEP_OPEN_RW; ApiVerify; ApiSeek 3;
    ApiWriteblocks [1; 2; 3; 4] 1; ApiSync; ApiSeek 0;
    ApiReadblocks (replicate 32 7) 8; ApiClose ].

Definition open_ro : api_call := ApiOpen image_path None SYSDEP_OPEN_RO.
Definition open_rw : api_call := ApiOpen image_path None SYSDEP_OPEN_RW.

(** The machine after a read-write open of scenario S1, a verify and a
    seek to block 3 (stored in the image; block 4 is not). *)
Definition s2_opened : machine :=
  opened (SD := posix_backends)
    (partclone_open (CF := spec_overlay) image_path None SYSDEP_OPEN_RW posix
       (os_with s1_image) (∅ : gmap string overlay_file))
    (mk_machine (pc_context_zero POSIX_DISPATCH) (os_with s1_image) ∅).
Definition s2_ready : machine :=
  after (partclone_seek 3) (after partclone_verify s2_opened).
(** Then two blocks are written, the overlay is synced and the whole
    image is read; at the end a seek back to block 3 and a block-used
    query. *)
Definition s2_written : machine :=
  after (partclone_writeblocks [1; 2; 3; 4; 5; 6; 7; 8] 2) s2_ready.
Definition s2_read_all : machine :=
  after (partclone_readblocks (replicate 32 7) 8)
    (after (partclone_seek 0) (after partclone_sync s2_written)).
Definition s2_back : machine :=
  after partclone_block_used (after (partclone_seek 3) s2_read_all).

(** After that a block is written elsewhere (block 6), tolerant mode is
    set, and the cursor is put back on block 3. *)
Definition s2_elsewhere : machine :=
  after (partclone_writeblocks [40; 41; 42; 43] 1) (after (partclone_seek 6) s2_back).
Definition s2_again : machine :=
  after (partclone_seek 3) (after partclone_tolerant_mode s2_elsewhere).

(** An image of one block of 48 bytes that is stored and holds a copy of
    the header of the image: what partclone_verify reads where the first
    verification left the file offset is a header again. *)
Definition echo_header : list Z :=
  c_literal "partclone-image" ++ bytes_of_string "0001" ++ le_encode 4 48
    ++ le_encode 8 1 ++ le_encode 8 48 ++ replicate 8 0.
Definition echo_image : list Z :=
  v1_image 48 1 48 [1] magic_ok (echo_header ++ [0; 0; 0; 0]).

(** Scenario S1 after open and verify (read-only). *)
Definition s1_loaded : machine :=
  after partclone_verify (opened_machine s1_image).

(** A file of three bytes: shorter than any header. *)
Definition short_image : list Z := bytes_of_string "par".

(** The header of scenario S1 with the version "0003", and nothing else. *)
Definition unknown_version_header : list Z :=
  c_literal "partclone-image" ++ bytes_of_string "0003" ++ le_encode 4 4
    ++ le_encode 8 8 ++ le_encode 8 32 ++ replicate 8 0.

(** One used block of four bytes, of which the file holds two. *)
Definition cut_header : list Z :=
  c_literal "partclone-image" ++ bytes_of_string "0001" ++ le_encode 4 4
    ++ le_encode 8 1 ++ le_encode 8 4 ++ replicate 8 0.
Definition cut_image : list Z := v1_image 4 1 4 [1] magic_ok [10; 11].
Definition cut_loaded : machine :=
  after partclone_verify (opened_machine cut_image).

(** Scenario S1 as a version 2 image: the bitmap is one byte, with the
    lowest bit for block 0, followed by its CRC-32; each stored block is
    followed by its 4-byte checksum. *)
Definition s1_v2_header : list Z :=
  c_literal "partclone-image" ++ bytes_of_string "0002" ++ le_encode 4 4
    ++ le_encode 8 8 ++ le_encode 8 32 ++ le_encode 4 4 ++ le_encode 4 1.
Definition s1_v2_bits : list Z := [0x4D].
Definition s1_v2_crc : list Z :=
  le_encode 4 (spec_update_crc32 0xFFFFFFFF s1_v2_bits 1).
Definition s1_v2_image : list Z :=
  s1_v2_header ++ s1_v2_bits ++ s1_v2_crc ++ s5_blocks.

(** A system that grants two allocations and refuses the third. *)
Definition os_short_of_memory : os_state :=
  mk_os (<[image_path := s1_image]> ∅) 0 [true; true; false] 0xAA [].

(** An image of two blocks of which the first is not stored, opened in
    a system that grants six allocations (three of them to
    partclone_open) and refuses the seventh. *)
Definition unused_first_header : list Z :=
  c_literal "partclone-image" ++ bytes_of_string "0001" ++ le_encode 4 4
    ++ le_encode 8 2 ++ le_encode 8 8 ++ replicate 8 0.
Definition unused_first_image : list Z :=
  v1_image 4 2 8 [0; 1] magic_ok [21; 22; 23; 24; 0; 0; 0; 0].
Definition os_granting_six : os_state :=
  mk_os (<[image_path := unused_first_image]> ∅) 0 (replicate 6 true ++ [false])
    0xAA [].
Definition starved_machine : machine :=
  opened (SD := posix_backends)
    (partclone_open (CF := spec_overlay) image_path None SYSDEP_OPEN_RO posix
       os_granting_six (∅ : gmap string overlay_file))
    (mk_machine (pc_context_zero POSIX_DISPATCH) os_granting_six ∅).

(** Scenario S1 as a version 2 image with zeros where the CRC of the
    bitmap belongs. *)
Definition s1_v2_bad_crc_image : list Z :=
  s1_v2_header ++ s1_v2_bits ++ [0; 0; 0; 0] ++ s5_blocks.

(** * Properties *)

(** ** The bug-compatible CRC *)

Lemma land_ff_range (x : Z) : 0 <= Z.land x 0xff < 256.
Proof.
  change 0xff with (Z.ones 8). rewrite Z.land_ones by lia.
  apply Z.mod_pos_bound. lia.
Qed.

Lemma crc_tab32_init_length : length crc_tab32_init = 256%nat.
Proof. reflexivity. Qed.

Lemma aread_crc_tab32_init (i : Z) :
  0 <= i < 256 -> exists t, aread "v1_crc_tab32" crc_tab32_init i = Done t.
Proof.
  intros Hi. unfold aread, zlookup.
  destruct (Z.ltb_spec i 0) as [|_]; [lia|].
  destruct (lookup_lt_is_Some_2 crc_tab32_init (Z.to_nat i)) as [t Ht].
  - rewrite crc_tab32_init_length. lia.
  - rewrite Ht. eauto.
Qed.

(** The loop looks at the buffer only through [buf[0]]. *)
Lemma v1_crc32_loop_first_byte (tab : list Z) (rounds : nat) :
  forall (crc : Z) (buf1 buf2 : list Z),
    aread "buf" buf1 0 = aread "buf" buf2 0 ->
    v1_crc32_loop tab rounds crc buf1 = v1_crc32_loop tab rounds crc buf2.
Proof.
  induction rounds as [|rounds IH]; intros crc buf1 buf2 Hhd; simpl; [reflexivity|].
  rewrite Hhd. destruct (aread "buf" buf2 0) as [c|f] eqn:E; simpl; [|reflexivity].
  destruct (aread "v1_crc_tab32" tab _) as [t|f]; simpl; [|reflexivity].
  apply IH. congruence.
Qed.

(** With the table of [v1_init] no round leaves the table. *)
Lemma v1_crc32_loop_done (rounds : nat) :
  forall (crc c : Z) (buf : list Z),
    aread "buf" buf 0 = Done c ->
    exists v, v1_crc32_loop crc_tab32_init rounds crc buf = Done v.
Proof.
  induction rounds as [|rounds IH]; intros crc c buf Hc; simpl; [eauto|].
  rewrite Hc. simpl.
  destruct (aread_crc_tab32_init (Z.land (Z.lxor crc (Z.land c 255)) 255))
    as [t Ht]; [apply land_ff_range|].
  rewrite Ht. simpl. eapply IH, Hc.
Qed.

(** C8: for every initial CRC value, the bug-compatible CRC-32 of the
    four bytes "ABCD" with size 4 is a value, and it is the
    bug-compatible CRC-32 of "AAAA" with size 4. *)
Theorem v1_crc32_ABCD_is_AAAA (crc : Z) :
  exists v,
    v1_crc32 v1_context_init crc [0x41; 0x42; 0x43; 0x44] 4 = Done v
    /\ v1_crc32 v1_context_init crc [0x41; 0x41; 0x41; 0x41] 4 = Done v.
Proof.
  unfold v1_crc32.
  destruct (v1_crc32_loop_done (Z.to_nat 4) crc 0x41 [0x41; 0x42; 0x43; 0x44])
    as [v Hv]; [reflexivity|].
  exists v. split; [exact Hv|].
  rewrite <- Hv. apply v1_crc32_loop_first_byte. reflexivity.
Qed.

(** The value for the usual start 0xFFFFFFFF: four rounds on 0x41. *)
Example v1_crc32_ABCD_value :
  v1_crc32 v1_context_init 0xFFFFFFFF [0x41; 0x42; 0x43; 0x44] 4 = Done 0x64F2F70E.
Proof. vm_compute. reflexivity. Qed.

Section Keeps.
Context {FMT : ImageFormat} {CF : ChangeFile} {SD : Backends}.

(** ** Computations that keep a relation between the machine before and after *)

Lemma keeps_ret (R : relation machine) `{!Reflexive R} {A : Type} (a : A) :
  keeps R (mret a).
Proof. intros m a' m' H. inversion H; subst. reflexivity. Qed.

Lemma keeps_bind (R : relation machine) `{!Transitive R} {A B : Type}
    (c : M A) (f : A -> M B) :
  keeps R c -> (forall a, keeps R (f a)) -> keeps R (c ≫= f).
Proof.
  intros Hc Hf m b m' H. unfold mbind, M_mbind, M_bind in H.
  destruct (c m) as [[a m1]|e] eqn:E; [|discriminate].
  transitivity m1; [eapply Hc, E | eapply Hf, H].
Qed.

Lemma keeps_lift (R : relation machine) `{!Reflexive R} {A : Type} (o : outcome A) :
  keeps R (lift o).
Proof.
  intros m a m' H. unfold lift in H. destruct o; inversion H; subst. reflexivity.
Qed.

Lemma keeps_getp (R : relation machine) `{!Reflexive R} : keeps R getp.
Proof. intros m a m' H. inversion H; subst. reflexivity. Qed.

Lemma keeps_fresh (R : relation machine) `{!Reflexive R} n : keeps R (fresh n).
Proof. intros m a m' H. inversion H; subst. reflexivity. Qed.

Lemma keeps_fresh_bytes (R : relation machine) `{!Reflexive R} n :
  keeps R (fresh_bytes n).
Proof. intros m a m' H. inversion H; subst. reflexivity. Qed.

Lemma version_readblock_is_v1 (d : v_dispatch_table_t) (i : nat) :
  version_table !! i = Some d -> version_readblock d = v1_readblock.
Proof.
  destruct i as [|[|i]]; simpl; intros H; inversion H; subst; reflexivity.
Qed.

Lemma version_writeblock_is_v1 (d : v_dispatch_table_t) (i : nat) :
  version_table !! i = Some d -> version_writeblock d = v1_writeblock.
Proof.
  destruct i as [|[|i]]; simpl; intros H; inversion H; subst; reflexivity.
Qed.

(** What [dispatch] returns is a row of the table, and the machine is
    as before. *)
Lemma dispatch_row (m : machine) (d : v_dispatch_table_t) (m' : machine) :
  dispatch m = Done (d, m') -> m' = m /\ exists i, version_table !! i = Some d.
Proof.
  unfold dispatch, mbind, M_mbind, M_bind, getp, lift, deref. 
  destruct (pc_dispatch (m_pcp m)) as [i|]; [|discriminate].
  destruct (version_table !! i) as [d'|] eqn:E; [|discriminate].
  intros H. inversion H; subst. eauto.
Qed.

Lemma table_rows (d : v_dispatch_table_t) (i : nat) :
  version_table !! i = Some d ->
  d = mk_v_dispatch (c_literal "0001") v1_init v1_verify v1_finish v1_seek
        v1_readblock v1_blockused v1_writeblock v1_sync
  \/ d = mk_v_dispatch (c_literal "0002") v1_init v2_verify v1_finish v1_seek
           v1_readblock v1_blockused v1_writeblock v1_sync.
Proof.
  destruct i as [|[|i]]; simpl; intros H; inversion H; subst; auto.
Qed.

Lemma keeps_dispatch (R : relation machine) {A : Type}
    (f : v_dispatch_table_t -> M A) :
  (forall d i, version_table !! i = Some d -> keeps R (f d)) ->
  keeps R (dispatch ≫= f).
Proof.
  intros Hf m a m' H. unfold mbind, M_mbind, M_bind in H.
  destruct (dispatch m) as [[d m0]|] eqn:Ed; [|discriminate].
  apply dispatch_row in Ed as [-> [i Hi]]. eapply Hf; eassumption.
Qed.

Lemma result_Done {A : Type} (o : outcome (A * machine)) (a : A) :
  result o = Done a -> exists m', o = Done (a, m').
Proof.
  unfold result. destruct o as [[a' m']|f]; simpl; intros H; inversion H; eauto.
Qed.

Lemma ran_Done {A : Type} (o : outcome A) : ran o = true -> exists a, o = Done a.
Proof. destruct o; simpl; [eauto|discriminate]. Qed.

(** C10: a batch of zero blocks returns EINVAL and leaves the machine as
    it is, for every context (so also for one that is ready to read or
    to write): the loop has no round and the error keeps its initial
    value. *)
Theorem zero_blocks_is_EINVAL (m : machine) (buffer : list Z) :
  partclone_readblocks buffer 0 m = Done (EINVAL, buffer, m)
  /\ partclone_writeblocks buffer 0 m = Done (EINVAL, m).
Proof.
  unfold partclone_readblocks, partclone_writeblocks.
  unfold mbind, M_mbind, M_bind, getp. simpl.
  destruct m as [pcp os disk]; simpl.
  destruct (PCTX_READREADY pcp), (PCTX_WRITEABLE pcp); split; reflexivity.
Qed.

End Keeps.

(** One step through a computation: the monad's operations, the case
    distinctions of the code, and the dispatch through the table, whose
    rows are the two of [version_table]. *)
Ltac keeps_step :=
  first
    [ apply keeps_ret; solve [typeclasses eauto]
    | apply keeps_getp; solve [typeclasses eauto]
    | apply keeps_lift; solve [typeclasses eauto]
    | apply keeps_fresh; solve [typeclasses eauto]
    | apply keeps_fresh_bytes; solve [typeclasses eauto]
    | apply keeps_bind; [solve [typeclasses eauto] | | intros ?]
    | match goal with
      | |- keeps _ (if ?b then _ else _) => destruct b
      | |- keeps _ (match ?x with _ => _ end) => destruct x
      end ].

Ltac dispatch_step :=
  apply keeps_dispatch;
  let d := fresh "d" in let i := fresh "i" in let Hi := fresh "Hi" in
  intros d i Hi; destruct (table_rows d i Hi) as [-> | ->];
  cbn beta iota delta [version_init version_verify version_finish version_seek
                       version_readblock version_blockused version_writeblock
                       version_sync].

Create HintDb cursor.
Create HintDb frame.

(** ** The cursor across a batch *)

Section Cursor.
Context {FMT : ImageFormat} {CF : ChangeFile} {SD : Backends}.

#[local] Instance same_cursor_refl : Reflexive same_cursor.
Proof. intros m. reflexivity. Qed.
#[local] Instance same_cursor_trans : Transitive same_cursor.
Proof. intros a b c H1 H2. unfold same_cursor in *. congruence. Qed.

Ltac prim_cursor :=
  intros [pcp os disk] a m' H;
  repeat match type of H with
         | context [match ?x with _ => _ end] => destruct x eqn:?
         end;
  inversion H; subst; reflexivity.

Lemma cursor_call_malloc n : keeps same_cursor (call_malloc n).
Proof. unfold call_malloc. prim_cursor. Qed.
Lemma cursor_call_free b : keeps same_cursor (call_free b).
Proof. unfold call_free. prim_cursor. Qed.
Lemma cursor_call_seek o w : keeps same_cursor (call_seek o w).
Proof. unfold call_seek. prim_cursor. Qed.
Lemma cursor_call_read n : keeps same_cursor (call_read n).
Proof. unfold call_read. prim_cursor. Qed.
Lemma cursor_call_cf what op : keeps same_cursor (call_cf what op).
Proof. unfold call_cf. prim_cursor. Qed.
Lemma cursor_call_cf_open op : keeps same_cursor (call_cf_open op).
Proof. unfold call_cf_open. prim_cursor. Qed.
Lemma cursor_call_cf_readblock b c : keeps same_cursor (call_cf_readblock b c).
Proof. unfold call_cf_readblock. prim_cursor. Qed.
Lemma cursor_modp f :
  (forall p, pc_curblock (f p) = pc_curblock p) -> keeps same_cursor (modp f).
Proof. intros Hf [pcp os disk] a m' H. inversion H; subst. apply Hf. Qed.
Lemma cursor_getv1 : keeps same_cursor getv1.
Proof. unfold getv1. repeat keeps_step. Qed.
Lemma cursor_modv1 f : keeps same_cursor (modv1 f).
Proof.
  unfold modv1. apply keeps_bind;
    [typeclasses eauto | apply cursor_getv1 | intros; apply cursor_modp; reflexivity].
Qed.

#[local] Hint Resolve cursor_call_malloc cursor_call_free cursor_call_seek cursor_call_read
  cursor_call_cf cursor_call_cf_open cursor_call_cf_readblock cursor_getv1
  cursor_modv1 : cursor.

Ltac cursor_auto :=
  repeat first
    [ keeps_step
    | solve [auto with cursor]
    | apply cursor_modp; intros; reflexivity ].

Lemma v1_readblock_cursor buffer cbp : keeps same_cursor (v1_readblock buffer cbp).
Proof. unfold v1_readblock. cursor_auto. Qed.

Lemma v1_writeblock_cursor buffer cbp : keeps same_cursor (v1_writeblock buffer cbp).
Proof. unfold v1_writeblock. cursor_auto. Qed.


Lemma u64_succ (c j : Z) : u64 (u64 (c + j) + 1) = u64 (c + (j + 1)).
Proof. unfold u64. rewrite Zplus_mod_idemp_l. f_equal. lia. Qed.

(** The loop of partclone_readblocks: either it ran all [n] rounds and
    the last error is 0 (or the initial one when there was no round), or
    it stopped at a round [j < n] with the error of that round; the
    cursor has moved by the rounds completed. *)
Lemma readblocks_loop_cursor (n : nat) :
  forall bindex error buffer cbp m e k buf' m',
    readblocks_loop n bindex error buffer cbp m = Done (e, k, buf', m') ->
    exists j : nat,
      k = bindex + Z.of_nat j
      /\ (forall c0 j0, pc_curblock (m_pcp m) = u64 (c0 + j0) ->
           pc_curblock (m_pcp m') = u64 (c0 + (j0 + Z.of_nat j)))
      /\ ((j = n /\ e = if decide (n = O) then error else 0)
          \/ (j < n)%nat /\ e <> 0).
Proof.
  induction n as [|n IH]; intros bindex error buffer cbp m e k buf' m' H.
  - simpl in H. inversion H; subst. exists O. 
    split; [lia|]. split; [|left; split; reflexivity].
    intros c0 j0 Hc. rewrite Hc. f_equal. lia.
  - simpl in H. unfold mbind at 1, M_mbind at 1, M_bind at 1 in H.
    destruct (dispatch m) as [[d m0]|] eqn:Ed; [|discriminate].
    apply dispatch_row in Ed as [-> [i Hi]].
    rewrite (version_readblock_is_v1 d i Hi) in H.
    unfold mbind at 1, M_mbind at 1, M_bind at 1 in H.
    destruct (v1_readblock buffer cbp m) as [[[e1 buf1] m1]|] eqn:Er; [|discriminate].
    pose proof (v1_readblock_cursor _ _ _ _ _ Er) as Hcur. unfold same_cursor in Hcur.
    destruct (Z.eqb_spec e1 0) as [->|Hne].
    + unfold mbind at 1, M_mbind at 1, M_bind at 1, modp at 1 in H.
      unfold mbind at 1, M_mbind at 1, M_bind at 1, getp at 1 in H.
      apply IH in H as (j & -> & Hc & Hj).
      exists (S j). split; [lia|]. split.
      * intros c0 j0 Hc0. 
        replace (j0 + Z.of_nat (S j)) with ((j0 + 1) + Z.of_nat j) by lia.
        apply Hc. simpl. rewrite Hcur, Hc0. apply u64_succ.
      * destruct Hj as [[-> ->]|[Hlt Hne]].
        -- left. split; [reflexivity|]. destruct (decide (n = O)); reflexivity.
        -- right. split; [lia|assumption].
    + inversion H; subst. exists O. split; [lia|]. split.
      * intros c0 j0 Hc0. rewrite Hcur, Hc0. f_equal. lia.
      * right. split; [lia|assumption].
Qed.


Lemma writeblocks_loop_cursor (n : nat) :
  forall bindex error buffer cbp m e k m',
    writeblocks_loop n bindex error buffer cbp m = Done (e, k, m') ->
    exists j : nat,
      k = bindex + Z.of_nat j
      /\ (forall c0 j0, pc_curblock (m_pcp m) = u64 (c0 + j0) ->
           pc_curblock (m_pcp m') = u64 (c0 + (j0 + Z.of_nat j)))
      /\ ((j = n /\ e = if decide (n = O) then error else 0)
          \/ (j < n)%nat /\ e <> 0).
Proof.
  induction n as [|n IH]; intros bindex error buffer cbp m e k m' H.
  - simpl in H. inversion H; subst. exists O.
    split; [lia|]. split; [|left; split; reflexivity].
    intros c0 j0 Hc. rewrite Hc. f_equal. lia.
  - simpl in H. unfold mbind at 1, M_mbind at 1, M_bind at 1 in H.
    destruct (dispatch m) as [[d m0]|] eqn:Ed; [|discriminate].
    apply dispatch_row in Ed as [-> [i Hi]].
    rewrite (version_writeblock_is_v1 d i Hi) in H.
    unfold mbind at 1, M_mbind at 1, M_bind at 1 in H.
    destruct (v1_writeblock buffer cbp m) as [[e1 m1]|] eqn:Er; [|discriminate].
    pose proof (v1_writeblock_cursor _ _ _ _ _ Er) as Hcur. unfold same_cursor in Hcur.
    destruct (Z.eqb_spec e1 0) as [->|Hne].
    + unfold mbind at 1, M_mbind at 1, M_bind at 1, modp at 1 in H.
      unfold mbind at 1, M_mbind at 1, M_bind at 1, getp at 1 in H.
      apply IH in H as (j & -> & Hc & Hj).
      exists (S j). split; [lia|]. split.
      * intros c0 j0 Hc0.
        replace (j0 + Z.of_nat (S j)) with ((j0 + 1) + Z.of_nat j) by lia.
        apply Hc. simpl. rewrite Hcur, Hc0. apply u64_succ.
      * destruct Hj as [[-> ->]|[Hlt Hne]].
        -- left. split; [reflexivity|]. destruct (decide (n = O)); reflexivity.
        -- right. split; [lia|assumption].
    + inversion H; subst. exists O. split; [lia|]. split.
      * intros c0 j0 Hc0. rewrite Hcur, Hc0. f_equal. lia.
      * right. split; [lia|assumption].
Qed.

Lemma u64_id (c : Z) : 0 <= c < 2 ^ 64 -> c = u64 (c + 0).
Proof. intros H. unfold u64. rewrite Z.add_0_r, Z.mod_small; lia. Qed.

(** C4 (amended): when a batch of at least one block returns an error,
    the cursor rests on the block that failed: it has moved from its
    value before the call by [bindex], the number of blocks of the batch
    that succeeded, and [bindex] is less than the number of blocks asked
    for.  (The cursor is at its value before the call only when the
    first block failed.) *)
Theorem batch_failure_leaves_cursor_on_failed_block
    (m m' : machine) (buffer : list Z) (nblocks e : Z) :
  0 <= pc_curblock (m_pcp m) < 2 ^ 64 ->
  0 < nblocks ->
  e <> 0 ->
  (PCTX_READREADY (m_pcp m) = true
   /\ exists buffer', partclone_readblocks buffer nblocks m = Done (e, buffer', m'))
  \/ (PCTX_WRITEABLE (m_pcp m) = true
      /\ partclone_writeblocks buffer nblocks m = Done (e, m')) ->
  exists bindex,
    0 <= bindex < nblocks
    /\ pc_curblock (m_pcp m') = u64 (pc_curblock (m_pcp m) + bindex)
    /\ ((exists buffer', readblocks_loop (Z.to_nat nblocks) 0 EINVAL buffer 0 m
                          = Done (e, bindex, buffer', m'))
        \/ writeblocks_loop (Z.to_nat nblocks) 0 EINVAL buffer 0 m
           = Done (e, bindex, m')).
Proof.
  intros Hcur Hn He [[Hready [buffer' H]]|[Hready H]].
  - unfold partclone_readblocks in H.
    unfold mbind at 1, M_mbind at 1, M_bind at 1, getp at 1 in H.
    rewrite Hready in H.
    unfold mbind at 1, M_mbind at 1, M_bind at 1 in H.
    destruct (readblocks_loop _ _ _ _ _ m) as [[[[e1 k] buf1] m1]|] eqn:El;
      [|discriminate].
    inversion H; subst.
    destruct (readblocks_loop_cursor _ _ _ _ _ _ _ _ _ _ El) as (j & -> & Hc & Hj).
    exists (0 + Z.of_nat j). split; [|split].
    + destruct Hj as [[-> Hz]|[Hlt _]]; [|lia].
      destruct (decide (Z.to_nat nblocks = O)); [lia|contradiction].
    + apply Hc. apply u64_id, Hcur.
    + left. eauto.
  - unfold partclone_writeblocks in H.
    unfold mbind at 1, M_mbind at 1, M_bind at 1, getp at 1 in H.
    rewrite Hready in H.
    unfold mbind at 1, M_mbind at 1, M_bind at 1 in H.
    destruct (writeblocks_loop _ _ _ _ _ m) as [[[e1 k] m1]|] eqn:El;
      [|discriminate].
    inversion H; subst.
    destruct (writeblocks_loop_cursor _ _ _ _ _ _ _ _ _ El) as (j & -> & Hc & Hj).
    exists (0 + Z.of_nat j). split; [|split].
    + destruct Hj as [[-> Hz]|[Hlt _]]; [|lia].
      destruct (decide (Z.to_nat nblocks = O)); [lia|contradiction].
    + apply Hc. apply u64_id, Hcur.
    + right. first [assumption | reflexivity].
Qed.


End Cursor.

(** ** The base image is never written *)

#[local] Instance os_untouched_refl : Reflexive os_untouched.
Proof. intros os. split; [reflexivity|]. exists []. split; [reflexivity|constructor]. Qed.

#[local] Instance os_untouched_trans : Transitive os_untouched.
Proof.
  intros a b c [Hf1 (n1 & Ht1 & Hb1)] [Hf2 (n2 & Ht2 & Hb2)].
  split; [congruence|]. exists (n2 ++ n1). split.
  - rewrite Ht2, Ht1. apply app_assoc.
  - apply Forall_app. split; assumption.
Qed.

Lemma os_untouched_log (c : sys_call) (os : os_state) :
  benign_call c -> os_untouched os (log_call c os).
Proof.
  intros Hc. split; [reflexivity|]. exists [c]. split; [reflexivity|].
  constructor; [exact Hc|constructor].
Qed.

Lemma os_untouched_errno (e : Z) (os : os_state) : os_untouched os (set_os_errno e os).
Proof. split; [reflexivity|]. exists []. split; [reflexivity|constructor]. Qed.

Lemma os_untouched_alloc a (os : os_state) : os_untouched os (set_os_alloc a os).
Proof. split; [reflexivity|]. exists []. split; [reflexivity|constructor]. Qed.

Lemma libc_malloc_untouched (os os' : os_state) (ok : bool) :
  libc_malloc os = (ok, os') -> os_untouched os os'.
Proof.
  unfold libc_malloc. destruct (os_alloc os) as [|[|] rest]; intros H; inversion H; subst.
  - reflexivity.
  - apply os_untouched_alloc.
  - etransitivity; [apply os_untouched_alloc | apply os_untouched_errno].
Qed.

Lemma posix_malloc_untouched n os e os' :
  posix_malloc n os = (e, os') -> os_untouched os os'.
Proof.
  unfold posix_malloc. destruct (libc_malloc _) as [ok os1] eqn:E. intros H; inversion H; subst.
  etransitivity; [apply (os_untouched_log (CallMalloc n)); exact I|].
  eapply libc_malloc_untouched, E.
Qed.

Lemma posix_free_untouched b os e os' :
  posix_free b os = (e, os') -> os_untouched os os'.
Proof.
  unfold posix_free. intros H; inversion H; subst. apply os_untouched_log. exact I.
Qed.

Lemma posix_closex_untouched rh os e os' :
  posix_closex rh os = (e, os') -> os_untouched os os'.
Proof.
  unfold posix_closex. destruct rh; intros H; inversion H; subst;
    apply os_untouched_log; exact I.
Qed.

Lemma posix_seek_untouched rh off wh os e r rh' os' :
  posix_seek rh off wh os = (e, r, rh', os') -> os_untouched os os'.
Proof.
  unfold posix_seek, libc_lseek. destruct rh as [fh|].
  - destruct (_ <? 0); intros H; inversion H; subst.
    + etransitivity; [apply (os_untouched_log (CallSeek (Some (fh_path fh)) off wh)); exact I|].
      apply os_untouched_errno.
    + apply os_untouched_log. exact I.
  - intros H; inversion H; subst. apply os_untouched_log. exact I.
Qed.

Lemma posix_read_untouched rh len os e d r rh' os' :
  posix_read rh len os = (e, d, r, rh', os') -> os_untouched os os'.
Proof.
  unfold posix_read, libc_read. destruct rh as [fh|].
  - destruct (can_read _); intros H; inversion H; subst.
    + apply os_untouched_log. exact I.
    + etransitivity; [apply (os_untouched_log (CallRead (Some (fh_path fh)) len)); exact I|].
      apply os_untouched_errno.
  - intros H; inversion H; subst. apply os_untouched_log. exact I.
Qed.

Lemma posix_open_ro_untouched p os e rh os' :
  posix_open p SYSDEP_OPEN_RO os = (e, rh, os') -> os_untouched os os'.
Proof.
  unfold posix_open. destruct (libc_malloc _) as [ok os1] eqn:E.
  assert (os_untouched os os1) as H1.
  { etransitivity; [apply (os_untouched_log (CallOpen p SYSDEP_OPEN_RO)); reflexivity|].
    eapply libc_malloc_untouched, E. }
  destruct ok; [|intros H; inversion H; subst; exact H1].
  simpl. destruct (os_files os1 !! p); intros H; inversion H; subst; [exact H1|].
  etransitivity; [exact H1|apply os_untouched_errno].
Qed.

Section Frame.
Context {FMT : ImageFormat} {CF : ChangeFile}.

#[local] Instance base_untouched_refl : Reflexive base_untouched.
Proof. intros m. unfold base_untouched. reflexivity. Qed.
#[local] Instance base_untouched_trans : Transitive base_untouched.
Proof. intros a b c. unfold base_untouched. apply os_untouched_trans. Qed.

Lemma frame_call_malloc n : keeps base_untouched (call_malloc n).
Proof.
  intros [pcp os disk] a m' H. unfold call_malloc in H. cbn [m_pcp m_os m_disk] in H.
  change (sys_malloc _) with posix_malloc in H.
  destruct (posix_malloc n os) as [e os1] eqn:E. inversion H; subst.
  eapply posix_malloc_untouched, E.
Qed.
Lemma frame_call_free b : keeps base_untouched (call_free b).
Proof.
  intros [pcp os disk] a m' H. unfold call_free in H. cbn [m_pcp m_os m_disk] in H.
  change (sys_free _) with posix_free in H.
  destruct (posix_free b os) as [e os1] eqn:E. inversion H; subst.
  eapply posix_free_untouched, E.
Qed.
Lemma frame_call_close : keeps base_untouched call_close.
Proof.
  intros [pcp os disk] a m' H. unfold call_close in H. cbn [m_pcp m_os m_disk] in H.
  change (sys_close _) with posix_closex in H.
  destruct (posix_closex _ os) as [e os1] eqn:E. inversion H; subst.
  eapply posix_closex_untouched, E.
Qed.
Lemma frame_call_seek o w : keeps base_untouched (call_seek o w).
Proof.
  intros [pcp os disk] a m' H. unfold call_seek in H. cbn [m_pcp m_os m_disk] in H.
  change (sys_seek _) with posix_seek in H.
  destruct (posix_seek _ o w os) as [[[e r] rh] os1] eqn:E. inversion H; subst.
  eapply posix_seek_untouched, E.
Qed.
Lemma frame_call_read n : keeps base_untouched (call_read n).
Proof.
  intros [pcp os disk] a m' H. unfold call_read in H. cbn [m_pcp m_os m_disk] in H.
  change (sys_read _) with posix_read in H.
  destruct (posix_read _ n os) as [[[[e d] r] rh] os1] eqn:E. inversion H; subst.
  eapply posix_read_untouched, E.
Qed.
Lemma frame_call_open_ro p : keeps base_untouched (call_open p SYSDEP_OPEN_RO).
Proof.
  intros [pcp os disk] a m' H. unfold call_open in H. cbn [m_pcp m_os m_disk] in H.
  change (sys_open _) with posix_open in H.
  destruct (posix_open p _ os) as [[e rh] os1] eqn:E. inversion H; subst.
  eapply posix_open_ro_untouched, E.
Qed.

Ltac prim_frame :=
  intros [pcp os disk] a m' H;
  repeat match type of H with
         | context [match ?x with _ => _ end] => destruct x eqn:?
         end;
  inversion H; subst; unfold base_untouched; simpl; reflexivity.

Lemma frame_call_cf what op : keeps base_untouched (call_cf what op).
Proof. unfold call_cf. prim_frame. Qed.
Lemma frame_call_cf_open op : keeps base_untouched (call_cf_open op).
Proof. unfold call_cf_open. prim_frame. Qed.
Lemma frame_call_cf_readblock b c : keeps base_untouched (call_cf_readblock b c).
Proof. unfold call_cf_readblock. prim_frame. Qed.
Lemma frame_call_cf_finish : keeps base_untouched call_cf_finish.
Proof. unfold call_cf_finish. prim_frame. Qed.
Lemma frame_modp f : keeps base_untouched (modp f).
Proof. intros [pcp os disk] a m' H. inversion H; subst. unfold base_untouched. reflexivity. Qed.
Lemma frame_getv1 : keeps base_untouched getv1.
Proof. unfold getv1. repeat keeps_step. Qed.
Lemma frame_modv1 f : keeps base_untouched (modv1 f).
Proof.
  unfold modv1. apply keeps_bind;
    [typeclasses eauto | apply frame_getv1 | intros; apply frame_modp].
Qed.

#[local] Hint Resolve frame_call_malloc frame_call_free frame_call_close frame_call_seek
  frame_call_read frame_call_open_ro frame_call_cf frame_call_cf_open
  frame_call_cf_readblock frame_call_cf_finish frame_modp frame_getv1
  frame_modv1 : frame.

Ltac frame_auto := repeat first [ solve [auto with frame] | keeps_step ].

Lemma frame_precalculate_sumcount : keeps base_untouched precalculate_sumcount.
Proof. unfold precalculate_sumcount. frame_auto. Qed.
#[local] Hint Resolve frame_precalculate_sumcount : frame.
Lemma frame_v1_init : keeps base_untouched v1_init.
Proof. unfold v1_init. frame_auto. Qed.
Lemma frame_v1_verify : keeps base_untouched v1_verify.
Proof. unfold v1_verify. frame_auto. Qed.
Lemma frame_v2_verify : keeps base_untouched v2_verify.
Proof. unfold v2_verify. frame_auto. Qed.
Lemma frame_v1_finish : keeps base_untouched v1_finish.
Proof. unfold v1_finish. frame_auto. Qed.
Lemma frame_v1_seek b : keeps base_untouched (v1_seek b).
Proof. unfold v1_seek. frame_auto. Qed.
Lemma frame_v1_readblock b c : keeps base_untouched (v1_readblock b c).
Proof. unfold v1_readblock. frame_auto. Qed.
Lemma frame_v1_blockused : keeps base_untouched v1_blockused.
Proof. unfold v1_blockused. frame_auto. Qed.
Lemma frame_v1_writeblock b c : keeps base_untouched (v1_writeblock b c).
Proof. unfold v1_writeblock. frame_auto. Qed.
Lemma frame_v1_sync : keeps base_untouched v1_sync.
Proof. unfold v1_sync. frame_auto. Qed.


#[local] Hint Resolve frame_v1_init frame_v1_verify frame_v2_verify frame_v1_finish
  frame_v1_seek frame_v1_readblock frame_v1_blockused frame_v1_writeblock
  frame_v1_sync : frame.

Ltac frame_auto2 :=
  repeat first [ solve [auto with frame] | dispatch_step | keeps_step ].

Lemma frame_partclone_close : keeps base_untouched partclone_close.
Proof. unfold partclone_close. frame_auto2. Qed.
#[local] Hint Resolve frame_partclone_close : frame.
Lemma frame_partclone_open_body p c o :
  keeps base_untouched (partclone_open_body p c o).
Proof. unfold partclone_open_body. frame_auto2. Qed.
Lemma frame_partclone_tolerant_mode : keeps base_untouched partclone_tolerant_mode.
Proof. unfold partclone_tolerant_mode. frame_auto2. Qed.
Lemma frame_partclone_verify : keeps base_untouched partclone_verify.
Proof. unfold partclone_verify. frame_auto2. Qed.
Lemma frame_partclone_blocksize : keeps base_untouched partclone_blocksize.
Proof. unfold partclone_blocksize. frame_auto2. Qed.
Lemma frame_partclone_blockcount : keeps base_untouched partclone_blockcount.
Proof. unfold partclone_blockcount. frame_auto2. Qed.
Lemma frame_partclone_seek b : keeps base_untouched (partclone_seek b).
Proof. unfold partclone_seek. frame_auto2. Qed.
Lemma frame_partclone_tell : keeps base_untouched partclone_tell.
Proof. unfold partclone_tell. frame_auto2. Qed.
Lemma frame_readblocks_loop n :
  forall bindex error buffer cbp,
    keeps base_untouched (readblocks_loop n bindex error buffer cbp).
Proof. induction n as [|n IH]; intros; simpl; frame_auto2; apply IH. Qed.
Lemma frame_writeblocks_loop n :
  forall bindex error buffer cbp,
    keeps base_untouched (writeblocks_loop n bindex error buffer cbp).
Proof. induction n as [|n IH]; intros; simpl; frame_auto2; apply IH. Qed.
#[local] Hint Resolve frame_readblocks_loop frame_writeblocks_loop : frame.
Lemma frame_partclone_readblocks b n : keeps base_untouched (partclone_readblocks b n).
Proof. unfold partclone_readblocks. frame_auto2. Qed.
Lemma frame_partclone_block_used : keeps base_untouched partclone_block_used.
Proof. unfold partclone_block_used. frame_auto2. Qed.
Lemma frame_partclone_writeblocks b n : keeps base_untouched (partclone_writeblocks b n).
Proof. unfold partclone_writeblocks. frame_auto2. Qed.
Lemma frame_partclone_sync : keeps base_untouched partclone_sync.
Proof. unfold partclone_sync. frame_auto2. Qed.

Lemma frame_partclone_open p c o sd os disk e rp os' disk' :
  partclone_open p c o sd os disk = Done (e, rp, os', disk') ->
  os_untouched os os'.
Proof.
  unfold partclone_open. destruct sd as [sd|]; [|intros H; inversion H; subst; reflexivity].
  change (sys_malloc _) with posix_malloc.
  destruct (posix_malloc _ os) as [e1 os1] eqn:E1.
  apply posix_malloc_untouched in E1.
  destruct (e1 =? 0); [|intros H; inversion H; subst; exact E1].
  destruct (partclone_open_body _ _ _ _) as [[e2 m2]|] eqn:E2; [|discriminate].
  apply frame_partclone_open_body in E2. unfold base_untouched in E2. simpl in E2.
  intros H; inversion H; subst. etransitivity; eassumption.
Qed.

Lemma frame_partclone_probe p sd os disk e os' disk' :
  partclone_probe p sd os disk = Done (e, os', disk') ->
  os_untouched os os'.
Proof.
  unfold partclone_probe. unfold mbind at 1, outcome_mbind at 1, outcome_bind at 1.
  destruct (partclone_open _ _ _ _ _ _) as [[[[e1 rp] os1] disk1]|] eqn:E1;
    [|discriminate].
  apply frame_partclone_open in E1.
  destruct rp as [testh|].
  - destruct (e1 =? 0); [|intros H; inversion H; subst; exact E1].
    unfold mbind at 1, outcome_mbind at 1, outcome_bind at 1.
    destruct (partclone_verify _) as [[e2 m2]|] eqn:E2; [|discriminate].
    apply frame_partclone_verify in E2.
    unfold mbind at 1, outcome_mbind at 1, outcome_bind at 1.
    destruct (partclone_close _) as [[e3 m3]|] eqn:E3; [|discriminate].
    apply frame_partclone_close in E3.
    unfold base_untouched in *. simpl in *.
    intros H; inversion H; subst.
    etransitivity; [exact E1|]. etransitivity; eassumption.
  - intros H; inversion H; subst; exact E1.
Qed.

Lemma frame_on_handle {A : Type} (s : session) (on_null : outcome A) (body : M A)
    (a : A) (s' : session) :
  keeps base_untouched body ->
  on_handle s on_null body = Done (a, s') ->
  os_untouched (s_os s) (s_os s').
Proof.
  intros Hb. unfold on_handle. destruct (s_rp s) as [pcp|].
  - unfold mbind, outcome_mbind, outcome_bind.
    destruct (body _) as [[a1 m1]|] eqn:E; [|discriminate].
    apply Hb in E. intros H; inversion H; subst. exact E.
  - unfold mbind, outcome_mbind, outcome_bind. destruct on_null; [|discriminate].
    intros H; inversion H; subst. reflexivity.
Qed.

Lemma frame_api_step sd c s r buffer s' :
  api_step sd c s = Done (r, buffer, s') ->
  os_untouched (s_os s) (s_os s').
Proof.
  destruct c; simpl; unfold mbind, outcome_mbind, outcome_bind.
  - destruct (partclone_probe _ _ _ _) as [[[e os1] d1]|] eqn:E; [|discriminate].
    apply frame_partclone_probe in E. intros H; inversion H; subst. exact E.
  - destruct (partclone_open _ _ _ _ _ _) as [[[[e rp] os1] d1]|] eqn:E; [|discriminate].
    apply frame_partclone_open in E. intros H; inversion H; subst. exact E.
  - destruct (on_handle _ _ _) as [[e s1]|] eqn:E; [|discriminate].
    apply frame_on_handle in E; [|apply frame_partclone_close].
    destruct (e =? 0); intros H; inversion H; subst; exact E.
  - destruct (on_handle _ _ _) as [[e s1]|] eqn:E; [|discriminate].
    apply frame_on_handle in E; [|apply frame_partclone_tolerant_mode].
    intros H; inversion H; subst. exact E.
  - destruct (on_handle _ _ _) as [[e s1]|] eqn:E; [|discriminate].
    apply frame_on_handle in E; [|apply frame_partclone_verify].
    intros H; inversion H; subst. exact E.
  - destruct (on_handle _ _ _) as [[e s1]|] eqn:E; [|discriminate].
    apply frame_on_handle in E; [|apply frame_partclone_blocksize].
    intros H; inversion H; subst. exact E.
  - destruct (on_handle _ _ _) as [[e s1]|] eqn:E; [|discriminate].
    apply frame_on_handle in E; [|apply frame_partclone_blockcount].
    intros H; inversion H; subst. exact E.
  - destruct (on_handle _ _ _) as [[e s1]|] eqn:E; [|discriminate].
    apply frame_on_handle in E; [|apply frame_partclone_seek].
    intros H; inversion H; subst. exact E.
  - destruct (on_handle _ _ _) as [[e s1]|] eqn:E; [|discriminate].
    apply frame_on_handle in E; [|apply frame_partclone_tell].
    intros H; inversion H; subst. exact E.
  - destruct (on_handle _ _ _) as [[e s1]|] eqn:E; [|discriminate].
    apply frame_on_handle in E; [|apply frame_partclone_readblocks].
    intros H; inversion H; subst. exact E.
  - destruct (on_handle _ _ _) as [[e s1]|] eqn:E; [|discriminate].
    apply frame_on_handle in E; [|apply frame_partclone_block_used].
    intros H; inversion H; subst. exact E.
  - destruct (on_handle _ _ _) as [[e s1]|] eqn:E; [|discriminate].
    apply frame_on_handle in E; [|apply frame_partclone_writeblocks].
    intros H; inversion H; subst. exact E.
  - destruct (on_handle _ _ _) as [[e s1]|] eqn:E; [|discriminate].
    apply frame_on_handle in E; [|apply frame_partclone_sync].
    intros H; inversion H; subst. exact E.
Qed.

(** C9: whatever calls of the public interface are made (open in any
    mode, verify, seek, read, write, sync, close, ...), with the POSIX
    backend, the files of the operating system are the same afterwards,
    and the backend calls the engine added to the trace contain no
    [sys_write] and open files only with SYSDEP_OPEN_RO: the base image
    is opened read-only and never written. *)
Theorem base_image_never_written (sd : option posix_name) (cs : list api_call)
    (s s' : session) :
  api_run sd cs s = Done s' ->
  os_files (s_os s') = os_files (s_os s)
  /\ exists new, os_trace (s_os s') = new ++ os_trace (s_os s)
                /\ Forall benign_call new.
Proof.
  revert s. induction cs as [|c cs IH]; intros s H; simpl in H.
  - inversion H; subst. apply os_untouched_refl.
  - unfold mbind, outcome_mbind, outcome_bind in H.
    destruct (api_step _ c s) as [[[r b] s1]|] eqn:E; [|discriminate].
    apply frame_api_step in E. apply IH in H.
    exact (os_untouched_trans _ _ _ E H).
Qed.

End Frame.

(** ** Verify and the trailing magic *)

(** ** Flags *)

Lemma land_submask (fl M M' : Z) :
  Z.land M' M = M' -> Z.land fl M = M -> Z.land fl M' = M'.
Proof.
  intros Hsub H. rewrite <- Hsub at 1.
  rewrite Z.land_assoc, (Z.land_comm fl M'), <- Z.land_assoc, H. exact Hsub.
Qed.

Lemma lor_land_absorb (M g : Z) : Z.lor M (Z.land g M) = M.
Proof.
  apply Z.bits_inj'. intros n _. rewrite Z.lor_spec, Z.land_spec.
  destruct (Z.testbit M n), (Z.testbit g n); reflexivity.
Qed.

Lemma land_lor_keeps (fl g M : Z) : Z.land fl M = M -> Z.land (Z.lor fl g) M = M.
Proof. intros H. rewrite Z.land_lor_distr_l, H. apply lor_land_absorb. Qed.

Lemma land_lor_disjoint (fl g M : Z) :
  Z.land g M = 0 -> Z.land (Z.lor fl g) M = Z.land fl M.
Proof. intros H. rewrite Z.land_lor_distr_l, H. apply Z.lor_0_r. Qed.

(** Symbolic runs: unfold the monad and compute on the records, leaving
    the arithmetic and the backend calls folded. *)
Ltac msimp :=
  unfold getv1, modv1;
  unfold mbind, M_mbind, M_bind, mret, M_mret, outcome_mbind, outcome_bind,
    outcome_mret, getp, modp, lift, deref, fresh, fresh_bytes;
  cbn -[crc_tab32_init u64 s64 s32 Z.lor Z.land Z.lnot Z.shiftr Z.shiftl Z.pow
        Z.modulo Z.div Z.add Z.mul Z.sub Z.of_nat Z.to_nat
        PCTX_FLAGS_SET PCTX_VALID PCTX_OPEN PCTX_TOLERANT PCTX_READ_ONLY
        PCTX_CF_OPEN PCTX_VERIFIED PCTX_HEAD_VALID PCTX_READREADY PCTX_CFREADY
        PCTX_WRITEABLE PCTX_WRITEREADY PCTX_HAVE_PATH PCTX_HAVE_CF_PATH
        PCTX_HAVE_VERDEP PCTX_HAVE_IVBLOCK
        memcmp_eq splice slice find_version replicate version_table
        call_malloc call_read call_seek call_free call_close call_open
        call_cf call_cf_open call_cf_readblock call_cf_finish
        sumcount_loop seek_loop v2_expand_loop precalculate_sumcount
        v1_context_zero cmagicstr].

Section Verify.
Context {FMT : ImageFormat} {CF : ChangeFile}.

Lemma PCTX_FLAGS_SET_or (p p' : pc_context) (f g : Z) :
  pc_flags p' = Z.lor (pc_flags p) g ->
  PCTX_FLAGS_SET p f = true -> PCTX_FLAGS_SET p' f = true.
Proof.
  unfold PCTX_FLAGS_SET. intros -> H. apply Z.eqb_eq in H. apply Z.eqb_eq.
  apply land_lor_keeps, H.
Qed.

Lemma PCTX_OPEN_VALID (p : pc_context) : PCTX_OPEN p = true -> PCTX_VALID p = true.
Proof.
  unfold PCTX_OPEN, PCTX_VALID, PCTX_FLAGS_SET. intros H.
  apply Z.eqb_eq in H. apply Z.eqb_eq.
  eapply land_submask; [|exact H]. reflexivity.
Qed.

(** ** The POSIX backend on a file of known content *)

Lemma call_malloc_ok (m : machine) (n : Z) :
  os_alloc (m_os m) = [] ->
  call_malloc n m
  = Done (0, mk_machine (m_pcp m) (log_call (CallMalloc n) (m_os m)) (m_disk m)).
Proof.
  intros H. unfold call_malloc. change (sys_malloc _) with posix_malloc.
  unfold posix_malloc, libc_malloc. cbn [log_call os_alloc]. rewrite H. reflexivity.
Qed.

Lemma slice_app_middle (pre chunk post : list Z) :
  slice (pre ++ chunk ++ post) (Z.of_nat (length pre)) (Z.of_nat (length chunk)) = chunk.
Proof.
  unfold slice. rewrite !Nat2Z.id, drop_app_length, take_app_length. reflexivity.
Qed.

Lemma call_read_exact (m : machine) (fh : file_handle) (pre chunk post : list Z)
    (len : Z) :
  pc_fd (m_pcp m) = Some fh ->
  can_read (fh_flags fh) = true ->
  os_files (m_os m) !! fh_path fh = Some (pre ++ chunk ++ post) ->
  fh_pos fh = Z.of_nat (length pre) ->
  len = Z.of_nat (length chunk) ->
  len < 2 ^ 64 ->
  call_read len m
  = Done (0, chunk, len,
          mk_machine (set_pc_fd (Some (set_fh_pos (fh_pos fh + len) fh)) (m_pcp m))
            (log_call (CallRead (Some (fh_path fh)) len) (m_os m)) (m_disk m)).
Proof.
  intros Hfd Hr Hfile Hpos Hlen Hlt. unfold call_read.
  change (sys_read _) with posix_read. rewrite Hfd.
  unfold posix_read, libc_read. cbn [fmap option_fmap option_map].
  rewrite Hr. unfold file_bytes. cbn [log_call os_files]. rewrite Hfile.
  cbn [default]. cbv zeta. unfold id. subst len. rewrite Hpos, !slice_app_middle.
  assert (u64 (Z.of_nat (length chunk)) = Z.of_nat (length chunk)) as ->.
  { unfold u64. apply Z.mod_small. lia. }
  rewrite Z.eqb_refl. reflexivity.
Qed.

Lemma call_seek_absolute (m : machine) (fh : file_handle) (off : Z) :
  pc_fd (m_pcp m) = Some fh ->
  0 <= off ->
  call_seek off SYSDEP_SEEK_ABSOLUTE m
  = Done (0, mk_machine (set_pc_fd (Some (set_fh_pos off fh)) (m_pcp m))
               (log_call (CallSeek (Some (fh_path fh)) off SYSDEP_SEEK_ABSOLUTE) (m_os m))
               (m_disk m)).
Proof.
  intros Hfd Hoff. unfold call_seek. change (sys_seek _) with posix_seek. rewrite Hfd.
  unfold posix_seek, libc_lseek. cbn [fmap option_fmap option_map].
  destruct (Z.ltb_spec (0 + off) 0) as [|_]; [lia|].
  destruct (Z.leb_spec 0 (0 + off)) as [_|]; [|lia].
  reflexivity.
Qed.


Lemma v1_init_ok (m : machine) :
  PCTX_VALID (m_pcp m) = true ->
  os_alloc (m_os m) = [] ->
  exists m' g,
    v1_init m = Done (0, m')
    /\ pc_flags (m_pcp m') = Z.lor (pc_flags (m_pcp m)) g
    /\ Z.land g PC_VERIFIED = 0
    /\ Z.land g PC_TOLERANT = 0
    /\ pc_fd (m_pcp m') = pc_fd (m_pcp m)
    /\ pc_head_raw (m_pcp m') = pc_head_raw (m_pcp m)
    /\ pc_dispatch (m_pcp m') = pc_dispatch (m_pcp m)
    /\ os_files (m_os m') = os_files (m_os m)
    /\ os_alloc (m_os m') = []
    /\ is_Some (pc_verdep (m_pcp m')).
Proof.
  intros Hvalid Halloc. unfold v1_init. msimp. rewrite Hvalid.
  rewrite (call_malloc_ok m _ Halloc). msimp.
  destruct (bool_decide (is_Some (pc_cf_path (m_pcp m)))
            && (2 <=? omode_int (pc_omode (m_pcp m)))).
  - unfold call_cf_open. msimp.
    destruct (cf_init _ _ _ _ _) as [[e h] d]. msimp.
    destruct (Z.eqb_spec e 0) as [->|_]; msimp.
    + eexists _, _. split; [reflexivity|]. msimp.
      split; [rewrite <- Z.lor_assoc; reflexivity|].
      repeat split; try reflexivity; try assumption. eauto.
    + eexists _, _. split; [reflexivity|]. msimp.
      split; [reflexivity|].
      repeat split; try reflexivity; try assumption. eauto.
  - destruct (omode_int (pc_omode (m_pcp m)) <? 2); msimp.
    + eexists _, _. split; [reflexivity|]. msimp.
      split; [rewrite <- Z.lor_assoc; reflexivity|].
      repeat split; try reflexivity; try assumption. eauto.
    + eexists _, _. split; [reflexivity|]. msimp.
      split; [reflexivity|].
      repeat split; try reflexivity; try assumption. eauto.
Qed.


Lemma splice_full (dst src : list Z) :
  (length dst <= length src)%nat -> splice dst 0 src = src.
Proof.
  intros H. unfold splice. simpl. rewrite drop_ge by lia. apply app_nil_r.
Qed.

Lemma v1_verify_bad_trailer (m : machine) (fh : file_handle)
    (hdr usage_map trailer rest : list Z) :
  PCTX_OPEN (m_pcp m) = true ->
  is_Some (pc_verdep (m_pcp m)) ->
  os_alloc (m_os m) = [] ->
  pc_fd (m_pcp m) = Some fh ->
  can_read (fh_flags fh) = true ->
  os_files (m_os m) !! fh_path fh = Some (hdr ++ usage_map ++ trailer ++ rest) ->
  sizeof_image_head_v1 = Z.of_nat (length hdr) ->
  memcmp_eq (h1_magic (pc_head_v1 (m_pcp m))) IMAGE_MAGIC IMAGE_MAGIC_SIZE = true ->
  h1_totalblock (pc_head_v1 (m_pcp m)) = Z.of_nat (length usage_map) ->
  Z.of_nat (length usage_map) < 2 ^ 64 ->
  MAGIC_LEN = Z.of_nat (length trailer) ->
  MAGIC_LEN < 2 ^ 64 ->
  memcmp_eq trailer cmagicstr MAGIC_LEN = false ->
  exists m',
    v1_verify m = Done (EINVAL, m')
    /\ pc_flags (m_pcp m') = Z.lor (pc_flags (m_pcp m)) PC_HEAD_VALID.
Proof.
  intros Hopen [v1p Hv1p] Halloc Hfd Hread Hfile Hsize Hmagic Htb Htblt Hlen Hlenlt Hcmp.
  unfold v1_verify. msimp. rewrite Hopen, Hmagic. msimp.
  rewrite call_malloc_ok by exact Halloc. msimp.
  rewrite Hv1p. msimp.
  erewrite call_seek_absolute; [|msimp; exact Hfd|lia]. msimp.
  erewrite (call_read_exact _ _ hdr usage_map (trailer ++ rest));
    [|msimp; reflexivity|exact Hread|msimp; exact Hfile|msimp; exact Hsize
     |exact Htb|rewrite Htb; exact Htblt].
  msimp. rewrite !Z.eqb_refl. msimp.
  erewrite (call_read_exact _ _ (hdr ++ usage_map) trailer rest);
    [|msimp; reflexivity|exact Hread
     |msimp; rewrite <- app_assoc; exact Hfile
     |msimp; rewrite length_app, Nat2Z.inj_add, Hsize, Htb; reflexivity
     |exact Hlen|exact Hlenlt].
  msimp. rewrite !Z.eqb_refl.
  rewrite splice_full.
  2:{ unfold fresh_cells. rewrite length_fmap, length_replicate, Hlen. lia. }
  rewrite Hcmp. msimp.
  eexists. split; reflexivity.
Qed.


Lemma verify_rejects_bad_trailer (m : machine)
    (image hdr usage_map trailer rest : list Z) :
  just_opened m image ->
  v1_image_parts image hdr usage_map trailer rest ->
  memcmp_eq trailer cmagicstr MAGIC_LEN = false ->
  exists m' g,
    partclone_verify m = Done (EINVAL, m')
    /\ pc_flags (m_pcp m') = Z.lor (pc_flags (m_pcp m)) g
    /\ Z.land g PC_VERIFIED = 0.
Proof.
  intros (Hopen & Hver & Hraw & Halloc & fh & Hfd & Hpos & Hread & Hfile)
         (-> & Hsize & Hversion & Hmagic & Htb & Hlen & Hb1 & Hb2 & Hb3) Hcmp.
  unfold partclone_verify. msimp. rewrite Hopen.
  erewrite (call_read_exact _ _ [] hdr (usage_map ++ trailer ++ rest));
    [|exact Hfd|exact Hread|exact Hfile|exact Hpos|exact Hsize
     |rewrite Hsize; exact Hb1].
  msimp. rewrite !Z.eqb_refl. msimp.
  rewrite splice_full by (rewrite Hsize, Nat2Z.id in Hraw; exact Hraw).
  unfold pc_head_v1 at 1. msimp.
  unfold version_table at 1. cbn [find_version version].
  rewrite Hversion. msimp.
  unfold dispatch. msimp. unfold version_table at 1.
  cbn [lookup list_lookup version_init version_verify]. msimp.
  match goal with
  | |- context [v1_init ?m0] =>
      destruct (v1_init_ok m0) as
        (m1 & g & Hinit & Hfl & Hg1 & Hg2 & Hfd1 & Hraw1 & Hd1 & Hfiles1 & Halloc1 & Hv1);
      [apply PCTX_OPEN_VALID; exact Hopen | exact Halloc |]
  end.
  rewrite Hinit. msimp.
  destruct (v1_verify_bad_trailer m1 (set_fh_pos (0 + sizeof_image_head_v1) fh)
              hdr usage_map trailer rest) as (m2 & Hverify & Hfl2).
  - eapply PCTX_FLAGS_SET_or; [exact Hfl|]. exact Hopen.
  - exact Hv1.
  - exact Halloc1.
  - rewrite Hfd1. msimp. rewrite Hpos. reflexivity.
  - exact Hread.
  - rewrite Hfiles1. msimp. exact Hfile.
  - exact Hsize.
  - unfold pc_head_v1. rewrite Hraw1. msimp. exact Hmagic.
  - unfold pc_head_v1. rewrite Hraw1. msimp. exact Htb.
  - exact Hb2.
  - exact Hlen.
  - rewrite Hlen. exact Hb3.
  - exact Hcmp.
  - rewrite Hverify. msimp. exists m2, (Z.lor g PC_HEAD_VALID).
    split; [reflexivity|]. split.
    + rewrite Hfl2, Hfl. msimp. symmetry. apply Z.lor_assoc.
    + rewrite land_lor_disjoint by reflexivity. exact Hg1.
Qed.

(** C3 (amended): tolerant mode only sets the TOLERANT flag.  On an
    open context, for a version 1 image that is well formed except for
    its trailing magic, partclone_tolerant_mode followed by
    partclone_verify returns EINVAL: the context has the TOLERANT flag
    before and after, and it does not become VERIFIED.  ([v1_verify]
    never reads the flag.) *)
Theorem tolerant_mode_does_not_relax_verify (m : machine)
    (image hdr usage_map trailer rest : list Z) :
  just_opened m image ->
  v1_image_parts image hdr usage_map trailer rest ->
  memcmp_eq trailer cmagicstr MAGIC_LEN = false ->
  exists m1 m2,
    partclone_tolerant_mode m = Done (tt, m1)
    /\ PCTX_TOLERANT (m_pcp m1) = true
    /\ partclone_verify m1 = Done (EINVAL, m2)
    /\ PCTX_TOLERANT (m_pcp m2) = true
    /\ Z.land (pc_flags (m_pcp m2)) PC_VERIFIED = 0.
Proof.
  intros Hm Himage Hcmp.
  pose proof Hm as (Hopen & Hver & Hraw & Halloc & fh & Hfd & Hpos & Hread & Hfile).
  unfold partclone_tolerant_mode. msimp. rewrite Hopen. msimp.
  set (m1 := mk_machine (or_flags PC_TOLERANT (m_pcp m)) (m_os m) (m_disk m)).
  assert (PCTX_TOLERANT (m_pcp m1) = true) as Htol.
  { unfold PCTX_TOLERANT, PCTX_FLAGS_SET, m1. msimp. apply Z.eqb_eq.
    unfold PCTX_OPEN, PCTX_FLAGS_SET in Hopen. apply Z.eqb_eq in Hopen.
    apply Z.bits_inj'. intros n _.
    apply (f_equal (fun z => Z.testbit z n)) in Hopen.
    rewrite !Z.land_spec, !Z.lor_spec in *.
    destruct (Z.testbit (pc_flags (m_pcp m)) n), (Z.testbit PC_TOLERANT n),
      (Z.testbit PC_VALID n), (Z.testbit PC_OPEN n); simpl in *; congruence. }
  destruct (verify_rejects_bad_trailer m1 image hdr usage_map trailer rest)
    as (m2 & g & Hverify & Hfl2 & Hg); [|exact Himage|exact Hcmp|].
  - unfold just_opened, m1. msimp. repeat split.
    + eapply PCTX_FLAGS_SET_or; [|exact Hopen]. reflexivity.
    + rewrite land_lor_disjoint by reflexivity. exact Hver.
    + exact Hraw.
    + exact Halloc.
    + exists fh. auto.
  - exists m1, m2. repeat split; try assumption.
    + eapply PCTX_FLAGS_SET_or; [exact Hfl2|exact Htol].
    + rewrite Hfl2, land_lor_disjoint by exact Hg.
      unfold m1. msimp. rewrite land_lor_disjoint by reflexivity. exact Hver.
Qed.

End Verify.

(** ** The claims on concrete images *)

(** The machine of [ready_machine] is ready to read, also for the image
    that ends after the magic. *)
Example truncated_image_read_ready :
  PCTX_READREADY (m_pcp (ready_machine truncated_image)) = true.
Proof. vm_compute. reflexivity. Qed.

(** C4 (counterexample): on the image of two blocks that ends after the
    magic, a read of two blocks from cursor 0 reads block 0 (unused:
    zeros), fails on block 1 with EIO, and leaves the cursor at 1, not
    at its value before the call. *)
Lemma partial_read_leaves_cursor_advanced :
  let before := run_then posix [open_ro] ApiVerify (session_with truncated_image) in
  let after := run_then posix [open_ro; ApiVerify] (ApiReadblocks (replicate 8 7) 2)
                 (session_with truncated_image) in
  final read_ready before = Done (Some true)
  /\ final cursor before = Done (Some 0)
  /\ returned after = Done (EIO, [0; 0; 0; 0; 7; 7; 7; 7])
  /\ final cursor after = Done (Some 1).
Proof. repeat split; vm_compute; reflexivity. Qed.

(** The amended C4 at the same input: one block succeeded, the cursor
    moved by one. *)
Lemma batch_failure_witness :
  exists m' bindex,
    0 <= bindex < 2
    /\ pc_curblock (m_pcp m')
       = u64 (pc_curblock (m_pcp (ready_machine truncated_image)) + bindex)
    /\ ((exists buffer',
           readblocks_loop (Z.to_nat 2) 0 EINVAL (replicate 8 7) 0
             (ready_machine truncated_image) = Done (EIO, bindex, buffer', m'))
        \/ writeblocks_loop (Z.to_nat 2) 0 EINVAL (replicate 8 7) 0
             (ready_machine truncated_image) = Done (EIO, bindex, m')).
Proof.
  destruct (result_Done
              (partclone_readblocks (replicate 8 7) 2 (ready_machine truncated_image))
              (EIO, [0; 0; 0; 0; 7; 7; 7; 7])) as [m' Hm']; [vm_compute; reflexivity|].
  exists m'.
  apply (batch_failure_leaves_cursor_on_failed_block
           (ready_machine truncated_image) m' (replicate 8 7) 2 EIO).
  - replace (pc_curblock (m_pcp (ready_machine truncated_image))) with 0
      by (vm_compute; reflexivity).
    lia.
  - lia.
  - discriminate.
  - left. split; [vm_compute; reflexivity|]. eauto.
Defined.

(** C1 (the code at a failing input): in the image with usage map
    [2; 1], after seek(1) the engine reads block 1 at offset 66, while
    the formula of the specification gives 58 = head_size (no byte
    before block 1 is 1): [v1_seek] counted the byte 2 as a used block. *)
Theorem seek_counts_anomalous_bytes :
  let o := run_then posix [open_ro; ApiVerify; ApiSeek 1]
             (ApiReadblocks [0; 0; 0; 0] 1) (session_with anomalous_image) in
  final (fun s => last_seek (os_trace (s_os s))) o = Done (Some 66)
  /\ final (offset_by_spec [2; 1] 1) o = Done (Some 58)
  /\ final nvbcount_of
       (run_then posix [open_ro; ApiVerify] (ApiSeek 1) (session_with anomalous_image))
     = Done (Some 1)
  /\ returned o = Done (EIO, [0; 0; 0; 0]).
Proof. repeat split; vm_compute; reflexivity. Qed.

(** C2 (the code at a failing input): in the image of one block with
    usage byte 2 (not 1, no overlay), reading block 0 does not give
    zeros: the engine seeks to head_size = 57 in the image and returns
    the four bytes found there. *)
Theorem anomalous_block_is_read_from_image :
  let o := run_then posix [open_ro; ApiVerify] (ApiReadblocks [7; 7; 7; 7] 1)
             (session_with anomalous_unused_image) in
  returned o = Done (0, [9; 9; 9; 9])
  /\ final (fun s => last_seek (os_trace (s_os s))) o = Done (Some 57).
Proof. repeat split; vm_compute; reflexivity. Qed.

(** C3 (counterexample): the image of scenario S5 (trailing magic
    "BiTmAgIx") opened, set to tolerant mode and verified: verify
    returns EINVAL, the context has the TOLERANT flag and not the
    VERIFIED flag.  The same calls on the image with the right magic
    succeed. *)
Lemma tolerant_verify_still_fails :
  let o := run_then posix [open_ro; ApiTolerantMode] ApiVerify
             (session_with s5_image) in
  returned o = Done (EINVAL, [])
  /\ final (fun s => (fun f => (Z.land f PC_TOLERANT, Z.land f PC_VERIFIED))
                      <$> flags s) o
     = Done (Some (PC_TOLERANT, 0))
  /\ returned (run_then posix [open_ro; ApiTolerantMode] ApiVerify
                 (session_with s1_image)) = Done (0, []).
Proof. repeat split; vm_compute; reflexivity. Qed.

(** C5 (the code at a failing input): an image of 1024 used blocks.
    After verify the sum index has two entries; entry 1, the stride
    boundary 1 * 2^10 = total_blocks, is never written and holds what
    [sys_malloc] returned (0xAA here), not the 1024 used blocks before
    it.  A seek to block 1024 takes its count from that entry. *)
Theorem sumcount_last_entry_unwritten :
  let o := run_then posix [open_ro] ApiVerify (session_with stride_image) in
  returned o = Done (0, [])
  /\ final sumcount_of o = Done (Some [0; 0xAA])
  /\ count_used (take (Z.to_nat (1 * 2 ^ 10)) (replicate 1024 1)) = 1024
  /\ final nvbcount_of
       (run_then posix [open_ro; ApiVerify] (ApiSeek 1024) (session_with stride_image))
     = Done (Some 0xAA).
Proof. repeat split; vm_compute; reflexivity. Qed.

(** C7 (the code at a failing input): scenario S1 has eight blocks.
    seek(8) succeeds and leaves the cursor at 8; a read of one block
    from there reads [v1_bitmap[8]], one past the eight bytes of the
    usage map, instead of returning an error. *)
Theorem read_at_eof_indexes_past_bitmap :
  let o := run_then posix [open_ro; ApiVerify] (ApiSeek 8) (session_with s1_image) in
  returned o = Done (0, [])
  /\ final cursor o = Done (Some 8)
  /\ returned (run_then posix [open_ro; ApiVerify; ApiSeek 8]
                 (ApiReadblocks [7; 7; 7; 7] 1) (session_with s1_image))
     = Crash (OutOfBounds "v1_bitmap" 8).
Proof. repeat split; vm_compute; reflexivity. Qed.

(** C9 has a run to speak of: the read-write session of
    scenario S2 runs to its end. *)
Lemma base_image_never_written_witness :
  exists s',
    os_files (s_os s') = os_files (s_os (session_with s1_image))
    /\ exists new, os_trace (s_os s') = new ++ os_trace (s_os (session_with s1_image))
                  /\ Forall benign_call new.
Proof.
  destruct (ran_Done (api_run posix rw_session_calls (session_with s1_image)))
    as [s' Hs']; [vm_compute; reflexivity|].
  exists s'. eapply base_image_never_written. exact Hs'.
Defined.

(** The backend calls of that session, oldest first, and where the
    written block went: the change file "disk.img.cf". *)
Example rw_session_trace :
  (s ← api_run posix rw_session_calls (session_with s1_image);
   Done (rev (os_trace (s_os s)), s_disk s !! "disk.img.cf"%string))
  = Done
      ([ CallMalloc 256; CallOpen "disk.img" SYSDEP_OPEN_RO; CallMalloc 9;
         CallRead (Some "disk.img"%string) 48; CallMalloc 1056; CallMalloc 8;
         CallSeek (Some "disk.img"%string) 48 SYSDEP_SEEK_ABSOLUTE;
         CallRead (Some "disk.img"%string) 8; CallRead (Some "disk.img"%string) 8;
         CallMalloc 8; CallMalloc 4; CallMalloc 12;
         CallSeek (Some "disk.img"%string) 64 SYSDEP_SEEK_ABSOLUTE;
         CallRead (Some "disk.img"%string) 4;
         CallSeek (Some "disk.img"%string) 72 SYSDEP_SEEK_ABSOLUTE;
         CallRead (Some "disk.img"%string) 4;
         CallSeek (Some "disk.img"%string) 80 SYSDEP_SEEK_ABSOLUTE;
         CallRead (Some "disk.img"%string) 4;
         CallClose (Some "disk.img"%string);
         CallFree; CallFree; CallFree; CallFree; CallFree; CallFree; CallFree ],
       Some (4, {[ 3 := [1; 2; 3; 4] ]})).
Proof. vm_compute. reflexivity. Qed.

(** The amended C3 at the image of scenario S5. *)
Lemma tolerant_mode_witness :
  exists m1 m2,
    partclone_tolerant_mode (opened_machine s5_image) = Done (tt, m1)
    /\ PCTX_TOLERANT (m_pcp m1) = true
    /\ partclone_verify m1 = Done (EINVAL, m2)
    /\ PCTX_TOLERANT (m_pcp m2) = true
    /\ Z.land (pc_flags (m_pcp m2)) PC_VERIFIED = 0.
Proof.
  apply (tolerant_mode_does_not_relax_verify (opened_machine s5_image) s5_image
           s5_header s5_usage_map magic_clobbered s5_blocks).
  - unfold just_opened.
    split; [vm_compute; reflexivity|].
    split; [vm_compute; reflexivity|].
    split; [vm_compute; lia|].
    split; [vm_compute; reflexivity|].
    exists (mk_fh image_path (mk_flags O_RDONLY false) 0).
    split; [vm_compute; reflexivity|].
    split; [vm_compute; reflexivity|].
    split; vm_compute; reflexivity.
  - unfold v1_image_parts.
    repeat match goal with |- _ /\ _ => split end; vm_compute; reflexivity.
  - vm_compute. reflexivity.
Defined.

(** ** The overlay shadows the base image *)

Section Flags.
Context {FMT : ImageFormat} {CF : ChangeFile} {SD : Backends}.

Lemma land_lor_grow (fl g R G V : Z) :
  Z.land fl (Z.lor R V) = Z.lor R V -> Z.land g G = G ->
  Z.land (Z.lor fl g) (Z.lor (Z.lor R G) V) = Z.lor (Z.lor R G) V.
Proof.
  intros H1 H2. apply Z.bits_inj'. intros n _.
  apply (f_equal (fun z => Z.testbit z n)) in H1, H2.
  rewrite ?Z.land_spec, ?Z.lor_spec in *.
  destruct (Z.testbit fl n), (Z.testbit g n), (Z.testbit R n), (Z.testbit G n),
    (Z.testbit V n); simpl in *; congruence.
Qed.

Lemma grow_FLAGS_SET (p p' : pc_context) (f g : Z) :
  pc_flags p' = Z.lor (pc_flags p) g ->
  PCTX_FLAGS_SET p f = true -> PCTX_FLAGS_SET p' f = true.
Proof.
  unfold PCTX_FLAGS_SET. intros -> H. apply Z.eqb_eq in H. apply Z.eqb_eq.
  apply land_lor_keeps, H.
Qed.

Lemma grow_READ_ONLY (p p' : pc_context) (g : Z) :
  pc_flags p' = Z.lor (pc_flags p) g -> Z.land g PC_READ_ONLY = 0 ->
  PCTX_READ_ONLY p' = PCTX_READ_ONLY p.
Proof.
  unfold PCTX_READ_ONLY. intros -> H. rewrite land_lor_disjoint by exact H.
  reflexivity.
Qed.

Lemma grow_WRITEABLE (p p' : pc_context) (g : Z) :
  pc_flags p' = Z.lor (pc_flags p) g -> Z.land g PC_READ_ONLY = 0 ->
  PCTX_WRITEABLE p = true -> PCTX_WRITEABLE p' = true.
Proof.
  unfold PCTX_WRITEABLE. intros Hf Hg H. apply andb_true_iff in H as [H1 H2].
  rewrite (grow_READ_ONLY p p' g Hf Hg), H1. simpl.
  unfold PCTX_READREADY in *. eapply grow_FLAGS_SET; eassumption.
Qed.

Lemma grow_HAVE_VERDEP (p p' : pc_context) (g : Z) :
  pc_flags p' = Z.lor (pc_flags p) g -> pc_verdep p' = pc_verdep p ->
  PCTX_HAVE_VERDEP p = true -> PCTX_HAVE_VERDEP p' = true.
Proof.
  unfold PCTX_HAVE_VERDEP. intros Hf Hv H. apply andb_true_iff in H as [H1 H2].
  rewrite Hv, H2, (grow_FLAGS_SET p p' _ g Hf H1). reflexivity.
Qed.

Lemma grow_WRITEREADY (p p' : pc_context) (g : Z) :
  pc_flags p' = Z.lor (pc_flags p) g -> Z.land g PC_READ_ONLY = 0 ->
  Z.land g (Z.lor PC_HAVE_CFDEP PC_CF_VERIFIED) = Z.lor PC_HAVE_CFDEP PC_CF_VERIFIED ->
  PCTX_WRITEABLE p = true -> PCTX_WRITEREADY p' = true.
Proof.
  unfold PCTX_WRITEABLE, PCTX_WRITEREADY. intros Hf Hg Hc H.
  apply andb_true_iff in H as [H1 H2].
  rewrite (grow_READ_ONLY p p' g Hf Hg), H1. simpl.
  unfold PCTX_READREADY, PCTX_CFREADY, PCTX_FLAGS_SET in *.
  apply Z.eqb_eq in H2. apply Z.eqb_eq. rewrite Hf.
  rewrite <- (Z.lor_assoc _ PC_HAVE_CFDEP PC_CF_VERIFIED).
  apply land_lor_grow; assumption.
Qed.

Lemma WRITEABLE_READREADY (p : pc_context) :
  PCTX_WRITEABLE p = true -> PCTX_READREADY p = true.
Proof. unfold PCTX_WRITEABLE. intros H. apply andb_true_iff in H as [_ H]. exact H. Qed.

End Flags.

Section Overlay.
Context {FMT : ImageFormat} {SD : Backends}.

#[local] Instance overlay_kept_refl : Reflexive overlay_kept.
Proof. intros m. unfold overlay_kept. auto. Qed.
#[local] Instance overlay_kept_trans : Transitive overlay_kept.
Proof.
  intros a b c (H1 & H2 & H3 & H4 & H5) (G1 & G2 & G3 & G4 & G5).
  unfold overlay_kept. repeat split; try congruence. auto.
Qed.

Ltac prim_kept :=
  intros [pcp os disk] a m' H;
  repeat match type of H with
         | context [match ?x with _ => _ end] => destruct x eqn:?
         end;
  inversion H; subst; unfold overlay_kept, overlay_view; simpl; auto.

Lemma kept_call_malloc n : keeps overlay_kept (call_malloc n).
Proof. unfold call_malloc. prim_kept. Qed.
Lemma kept_call_seek o w : keeps overlay_kept (call_seek o w).
Proof. unfold call_seek. prim_kept. Qed.
Lemma kept_call_read n : keeps overlay_kept (call_read n).
Proof. unfold call_read. prim_kept. Qed.
Lemma kept_cf_seek what b :
  keeps overlay_kept (call_cf what (fun h => cf_seek h b)).
Proof.
  unfold call_cf. intros [pcp os disk] a m' H. simpl in H.
  destruct (pc_cf_handle pcp) as [h|] eqn:E; [|discriminate].
  inversion H; subst. unfold overlay_kept, overlay_view. simpl. rewrite E.
  repeat split; auto.
Qed.
Lemma kept_cf_readblock buffer cbp :
  keeps overlay_kept (call_cf_readblock buffer cbp).
Proof.
  unfold call_cf_readblock. intros [pcp os disk] a m' H. simpl in H.
  destruct (pc_cf_handle pcp) as [h|] eqn:E; [|discriminate].
  unfold ov_readblock in H. destruct (ov_blocks h !! ov_curblock h);
    inversion H; subst; unfold overlay_kept, overlay_view; simpl; rewrite E;
    repeat split; auto.
Qed.
Lemma kept_getv1 : keeps overlay_kept getv1.
Proof. unfold getv1. repeat keeps_step. Qed.
Lemma kept_modv1 f : keeps overlay_kept (modv1 f).
Proof.
  unfold modv1. apply keeps_bind; [typeclasses eauto | apply kept_getv1 |].
  intros v [pcp os disk] a m' H. inversion H; subst.
  unfold overlay_kept, overlay_view. simpl. repeat split; eauto.
Qed.
Lemma kept_cf_blockused what : keeps overlay_kept (call_cf what cf_blockused).
Proof.
  unfold call_cf. intros [pcp os disk] a m' H. simpl in H.
  destruct (pc_cf_handle pcp) as [h|] eqn:E; [|discriminate].
  inversion H; subst. unfold overlay_kept, overlay_view. simpl. rewrite E.
  repeat split; auto.
Qed.
Lemma kept_cf_sync what : keeps overlay_kept (call_cf what cf_sync).
Proof.
  unfold call_cf. intros [pcp os disk] a m' H. simpl in H.
  destruct (pc_cf_handle pcp) as [h|] eqn:E; [|discriminate].
  inversion H; subst. unfold overlay_kept, overlay_view. simpl. rewrite E.
  repeat split; auto.
Qed.
Lemma kept_set_curblock b : keeps overlay_kept (modp (set_pc_curblock b)).
Proof.
  intros [pcp os disk] a m' H. inversion H; subst.
  unfold overlay_kept, overlay_view. simpl. repeat split; eauto.
Qed.
Lemma kept_inc_curblock :
  keeps overlay_kept (modp (fun p => set_pc_curblock (u64 (pc_curblock p + 1)) p)).
Proof.
  intros [pcp os disk] a m' H. inversion H; subst.
  unfold overlay_kept, overlay_view. simpl. repeat split; eauto.
Qed.

Create HintDb kept.
#[local] Hint Resolve kept_call_malloc kept_call_seek kept_call_read kept_cf_seek
  kept_cf_blockused kept_cf_sync kept_cf_readblock kept_getv1 kept_modv1 kept_set_curblock kept_inc_curblock : kept.

Ltac kept_auto := repeat first [ solve [auto with kept] | dispatch_step | keeps_step ].

Lemma kept_v1_seek b : keeps overlay_kept (v1_seek b).
Proof. unfold v1_seek. kept_auto. Qed.
Lemma kept_v1_readblock buffer cbp : keeps overlay_kept (v1_readblock buffer cbp).
Proof. unfold v1_readblock. kept_auto. Qed.
Lemma kept_v1_blockused : keeps overlay_kept v1_blockused.
Proof. unfold v1_blockused. kept_auto. Qed.
Lemma kept_v1_sync : keeps overlay_kept v1_sync.
Proof. unfold v1_sync. kept_auto. Qed.
#[local] Hint Resolve kept_v1_seek kept_v1_readblock kept_v1_blockused
  kept_v1_sync : kept.
Lemma kept_partclone_seek b : keeps overlay_kept (partclone_seek b).
Proof. unfold partclone_seek. kept_auto. Qed.
Lemma kept_readblocks_loop n :
  forall bindex error buffer cbp,
    keeps overlay_kept (readblocks_loop n bindex error buffer cbp).
Proof. induction n as [|n IH]; intros; simpl; kept_auto; apply IH. Qed.
#[local] Hint Resolve kept_readblocks_loop : kept.
Lemma kept_partclone_readblocks b n : keeps overlay_kept (partclone_readblocks b n).
Proof. unfold partclone_readblocks. kept_auto. Qed.

Lemma kept_partclone_tell : keeps overlay_kept partclone_tell.
Proof. unfold partclone_tell. kept_auto. Qed.
Lemma kept_partclone_block_used : keeps overlay_kept partclone_block_used.
Proof. unfold partclone_block_used. kept_auto. Qed.
Lemma kept_partclone_sync : keeps overlay_kept partclone_sync.
Proof. unfold partclone_sync. kept_auto. Qed.

Lemma later_kept (m m' : machine) : later m m' -> overlay_kept m m'.
Proof.
  induction 1 as [m|m m1 m2 b e _ IH H|m m1 m2 r _ IH H|m m1 m2 buf n r _ IH H
                  |m m1 m2 r _ IH H|m m1 m2 e _ IH H];
    [reflexivity|etransitivity; [exact IH|]..].
  - eapply kept_partclone_seek, H.
  - eapply kept_partclone_tell, H.
  - eapply kept_partclone_readblocks, H.
  - eapply kept_partclone_block_used, H.
  - eapply kept_partclone_sync, H.
Qed.


Lemma same_flags_WRITEABLE (p p' : pc_context) :
  pc_flags p' = pc_flags p -> PCTX_WRITEABLE p' = PCTX_WRITEABLE p.
Proof.
  unfold PCTX_WRITEABLE, PCTX_READ_ONLY, PCTX_READREADY, PCTX_FLAGS_SET.
  intros ->. reflexivity.
Qed.
Lemma same_flags_WRITEREADY (p p' : pc_context) :
  pc_flags p' = pc_flags p -> PCTX_WRITEREADY p' = PCTX_WRITEREADY p.
Proof.
  unfold PCTX_WRITEREADY, PCTX_READ_ONLY, PCTX_CFREADY, PCTX_FLAGS_SET.
  intros ->. reflexivity.
Qed.
Lemma same_flags_READREADY (p p' : pc_context) :
  pc_flags p' = pc_flags p -> PCTX_READREADY p' = PCTX_READREADY p.
Proof. unfold PCTX_READREADY, PCTX_FLAGS_SET. intros ->. reflexivity. Qed.
Lemma same_flags_HAVE_VERDEP (p p' : pc_context) :
  pc_flags p' = pc_flags p -> pc_verdep p' = pc_verdep p ->
  PCTX_HAVE_VERDEP p' = PCTX_HAVE_VERDEP p.
Proof. unfold PCTX_HAVE_VERDEP, PCTX_FLAGS_SET. intros -> ->. reflexivity. Qed.

(** Seek the overlay to the cursor and write a block there. *)
Lemma overlay_write_stores (p : pc_context) (os : os_state) (disk : cf_disk)
    (e : Z) (m' : machine) (buf : list Z) (b j : Z) :
  PCTX_WRITEABLE p = true -> PCTX_WRITEREADY p = true ->
  PCTX_HAVE_VERDEP p = true ->
  stored p b j buf -> 0 <= j -> pc_curblock p = b + j ->
  (call_cf "pc_cf_handle" (fun h => cf_seek h (pc_curblock p));;
   call_cf "pc_cf_handle"
     (fun h => cf_writeblock h buf (j * block_size (pc_head p))))
    (mk_machine p os disk) = Done (e, m') ->
  e = 0
  /\ writing (m_pcp m') b (j + 1) buf
  /\ PCTX_HAVE_VERDEP (m_pcp m') = true
  /\ pc_head (m_pcp m') = pc_head p
  /\ pc_curblock (m_pcp m') = pc_curblock p
  /\ pc_dispatch (m_pcp m') = pc_dispatch p.
Proof.
  intros Hw Hr Hv (h & Hh & Hbs & Hst) Hj Hcur. unfold call_cf. msimp.
  rewrite Hh. cbn [ov_seek ov_writeblock]. intros H. inversion H; subst e m'.
  clear H. cbn [m_pcp].
  split; [reflexivity|]. split; [|split; [|auto]].
  - split; [|split].
    + rewrite <- Hw. apply same_flags_WRITEABLE. reflexivity.
    + intros _. eexists. split; [reflexivity|]. cbn. split; [exact Hbs|].
      intros i Hi. rewrite Hcur, Hbs.
      destruct (decide (i = j)) as [->|Hne].
      * apply lookup_insert_eq.
      * rewrite lookup_insert_ne by lia. apply Hst. lia.
    + intros _. rewrite <- Hr. apply same_flags_WRITEREADY. reflexivity.
  - rewrite <- Hv. apply same_flags_HAVE_VERDEP; reflexivity.
Qed.

Lemma bind_Done {A B : Type} (c : M A) (f : A -> M B) (m m' : machine) (r : B) :
  (c ≫= f) m = Done (r, m') ->
  exists a m1, c m = Done (a, m1) /\ f a m1 = Done (r, m').
Proof.
  unfold mbind, M_mbind, M_bind. destruct (c m) as [[a m1]|]; [eauto|discriminate].
Qed.

(** The first write to an image without overlay creates one, named after
    the image when no name was given.  When that fails the context is
    as ready to write as before. *)
Lemma overlay_create (p : pc_context) (os : os_state) (disk : cf_disk)
    (e : Z) (m1 : machine) :
  PCTX_WRITEABLE p = true ->
  ((if negb (PCTX_HAVE_CF_PATH p) then
      path ← lift (deref "pc_path" (pc_path p));
      error ← call_malloc (Z.of_nat (String.length path)
                           + Z.of_nat (String.length cf_trailer) + 1);
      if error =? 0
      then modp (fun p => or_flags PC_HAVE_CF_PATH
                            (set_pc_cf_path (Some (path +:+ cf_trailer)) p))
      else modp (set_pc_cf_path None)
    else mret tt);;
   error ← call_cf_open cf_create;
   (if error =? 0
    then modp (or_flags (Z.lor PC_HAVE_CFDEP PC_CF_VERIFIED))
    else mret tt);;
   mret error) (mk_machine p os disk) = Done (e, m1) ->
  PCTX_WRITEABLE (m_pcp m1) = true
  /\ (PCTX_HAVE_VERDEP p = true -> PCTX_HAVE_VERDEP (m_pcp m1) = true)
  /\ pc_head (m_pcp m1) = pc_head p
  /\ pc_curblock (m_pcp m1) = pc_curblock p
  /\ pc_dispatch (m_pcp m1) = pc_dispatch p
  /\ (e = 0 ->
      PCTX_WRITEREADY (m_pcp m1) = true
      /\ exists h, pc_cf_handle (m_pcp m1) = Some h
           /\ ov_block_size h = block_size (pc_head p))
  /\ (e <> 0 -> PCTX_WRITEREADY (m_pcp m1) = PCTX_WRITEREADY p).
Proof.
  intros Hw.
  assert (forall p0 os0 disk0 g,
    pc_flags p0 = Z.lor (pc_flags p) g -> Z.land g PC_READ_ONLY = 0 ->
    Z.land g (Z.lor (Z.lor (Z.lor (Z.lor (Z.lor (Z.lor PC_OPEN PC_VERIFIED)
                PC_HEAD_VALID) PC_VERSION_INIT) PC_HAVE_CFDEP) PC_CF_VERIFIED)
                PC_VALID) = 0 ->
    pc_verdep p0 = pc_verdep p -> pc_head p0 = pc_head p ->
    pc_curblock p0 = pc_curblock p -> pc_dispatch p0 = pc_dispatch p ->
    (error ← call_cf_open cf_create;
     (if error =? 0
      then modp (or_flags (Z.lor PC_HAVE_CFDEP PC_CF_VERIFIED))
      else mret tt);;
     mret error) (mk_machine p0 os0 disk0) = Done (e, m1) ->
    PCTX_WRITEABLE (m_pcp m1) = true
    /\ (PCTX_HAVE_VERDEP p = true -> PCTX_HAVE_VERDEP (m_pcp m1) = true)
    /\ pc_head (m_pcp m1) = pc_head p
    /\ pc_curblock (m_pcp m1) = pc_curblock p
    /\ pc_dispatch (m_pcp m1) = pc_dispatch p
    /\ (e = 0 ->
        PCTX_WRITEREADY (m_pcp m1) = true
        /\ exists h, pc_cf_handle (m_pcp m1) = Some h
             /\ ov_block_size h = block_size (pc_head p))
    /\ (e <> 0 -> PCTX_WRITEREADY (m_pcp m1) = PCTX_WRITEREADY p)) as Hcreate.
  { intros p0 os0 disk0 g Hf Hg Hm Hvd Hhd Hc Hd. unfold call_cf_open. msimp.
    unfold ov_create. destruct (pc_cf_path p0) as [path|]; msimp;
      intros H; inversion H; subst e m1; clear H; cbn [m_pcp].
    - assert (Hfl : pc_flags (or_flags (Z.lor PC_HAVE_CFDEP PC_CF_VERIFIED)
                      (set_pc_cf_handle
                         (Some (mk_overlay path (block_size (pc_head p0))
                                  (totalblock (pc_head p0)) 0 ∅)) p0))
                    = Z.lor (pc_flags p)
                        (Z.lor g (Z.lor PC_HAVE_CFDEP PC_CF_VERIFIED))).
      { unfold or_flags. cbn [pc_flags set_pc_flags set_pc_cf_handle].
        rewrite Hf. symmetry. apply Z.lor_assoc. }
      assert (Hro : Z.land (Z.lor g (Z.lor PC_HAVE_CFDEP PC_CF_VERIFIED))
                      PC_READ_ONLY = 0).
      { rewrite Z.land_lor_distr_l, Hg. reflexivity. }
      split; [eapply grow_WRITEABLE; eassumption|].
      split; [intros Hv; eapply grow_HAVE_VERDEP; try eassumption; exact Hvd|].
      split; [exact Hhd|]. split; [exact Hc|]. split; [exact Hd|].
      split; [|intros Hne; contradiction].
      intros _. split.
      + eapply grow_WRITEREADY; try eassumption.
        rewrite Z.land_lor_distr_l. rewrite Z.land_diag, Z.lor_comm.
        apply lor_land_absorb.
      + eexists. split; [reflexivity|]. cbn. congruence.
    - assert (Hfl : pc_flags (set_pc_cf_handle None p0) = Z.lor (pc_flags p) g)
        by exact Hf.
      split; [eapply grow_WRITEABLE; eassumption|].
      split; [intros Hv; eapply grow_HAVE_VERDEP; try eassumption; exact Hvd|].
      split; [exact Hhd|]. split; [exact Hc|]. split; [exact Hd|].
      split; [intros H0; discriminate H0|]. intros _.
      unfold PCTX_WRITEREADY, PCTX_READ_ONLY, PCTX_CFREADY, PCTX_FLAGS_SET.
      cbn [pc_flags set_pc_cf_handle].
      rewrite Hf, !land_lor_disjoint by assumption. reflexivity. }
  destruct (PCTX_HAVE_CF_PATH p) eqn:Hp; cbn [negb].
  - intros H. apply bind_Done in H as (a & m0 & H0 & H). inversion H0; subst a m0.
    refine (Hcreate _ _ _ 0 _ _ _ _ _ _ _ H); try reflexivity.
    symmetry. apply Z.lor_0_r.
  - intros H. apply bind_Done in H as (a & m0 & H0 & H). revert H0. msimp.
    destruct (pc_path p) as [path|]; [|discriminate].
    unfold call_malloc. cbn [m_pcp m_os m_disk].
    destruct (sys_malloc _ _ _) as [e0 os1]. destruct (e0 =? 0); intros H0;
      inversion H0; subst a m0; clear H0.
    + refine (Hcreate _ _ _ PC_HAVE_CF_PATH _ _ _ _ _ _ _ H); reflexivity.
    + refine (Hcreate _ _ _ 0 _ _ _ _ _ _ _ H); try reflexivity.
      symmetry. apply Z.lor_0_r.
Qed.

Lemma v1_writeblock_stores (m m' : machine) (buf : list Z) (b j : Z) :
  writing (m_pcp m) b j buf -> 0 <= j ->
  pc_curblock (m_pcp m) = b + j ->
  v1_writeblock buf (j * block_size (pc_head (m_pcp m))) m = Done (0, m') ->
  writing (m_pcp m') b (j + 1) buf
  /\ PCTX_HAVE_VERDEP (m_pcp m') = true
  /\ pc_head (m_pcp m') = pc_head (m_pcp m)
  /\ pc_curblock (m_pcp m') = pc_curblock (m_pcp m)
  /\ pc_dispatch (m_pcp m') = pc_dispatch (m_pcp m).
Proof.
  destruct m as [pcp os disk]. cbn [m_pcp]. intros (Hw & Hst & Hj) Hj0 Hcur.
  unfold v1_writeblock.
  unfold mbind at 1, M_mbind at 1, M_bind at 1, getp at 1. cbn [m_pcp].
  destruct (PCTX_HAVE_VERDEP pcp) eqn:Hv; [|discriminate].
  destruct (PCTX_WRITEREADY pcp) eqn:Hr; cbn [negb].
  - intros H. 
    eapply (overlay_write_stores pcp os disk 0 m' buf b j) in H; auto.
    tauto.
  - assert (j = 0) as -> by (destruct (decide (0 < j)) as [H|H]; [apply Hj in H; discriminate | lia]).
    intros H. apply bind_Done in H as (e & m1 & Hc & H).
    destruct (Z.eqb_spec e 0) as [->|Hne].
    + apply overlay_create in Hc; [|assumption].
      destruct Hc as (W1 & W3 & W4 & W5 & W6 & W7 & _).
      specialize (W3 Hv). destruct (W7 eq_refl) as (W2 & h & Hh & Hbs).
      destruct m1 as [p1 os1 disk1]. cbn [m_pcp] in *.
      rewrite <- W4, <- W5 in H.
      eapply (overlay_write_stores p1 os1 disk1 0 m' buf b 0) in H; auto.
      * destruct H as (_ & G1 & G2 & G3 & G4 & G5).
        repeat split; try congruence; apply G1.
      * exists h. split; [exact Hh|]. split; [congruence|]. intros i Hi. lia.
      * congruence.
    + inversion H. congruence.
Qed.

Lemma u64_small (x : Z) : 0 <= x < 2 ^ 64 -> u64 x = x.
Proof. intros H. unfold u64. apply Z.mod_small. exact H. Qed.

Lemma dispatch_dispatchable (m m' : machine) (d : v_dispatch_table_t) :
  dispatch m = Done (d, m') -> dispatchable (m_pcp m).
Proof.
  unfold dispatch, dispatchable. msimp.
  destruct (pc_dispatch (m_pcp m)) as [i|]; [|discriminate].
  destruct (version_table !! i) as [d'|] eqn:E; [|discriminate]. eauto.
Qed.

Lemma dispatchable_dispatch (m : machine) :
  dispatchable (m_pcp m) ->
  exists d i, dispatch m = Done (d, m) /\ version_table !! i = Some d.
Proof.
  intros (i & d & Hi & Hd). exists d, i. split; [|exact Hd].
  unfold dispatch. msimp. rewrite Hi. cbn. rewrite Hd. reflexivity.
Qed.

Lemma writeblocks_loop_stores (buf : list Z) (b : Z) (n : nat) :
  forall (j bindex error k : Z) (m m' : machine),
    writing (m_pcp m) b j buf -> 0 <= j -> 0 <= b ->
    b + j + Z.of_nat n < 2 ^ 64 ->
    pc_curblock (m_pcp m) = b + j ->
    writeblocks_loop n bindex error buf (j * block_size (pc_head (m_pcp m))) m
      = Done (0, k, m') ->
    writing (m_pcp m') b (j + Z.of_nat n) buf
    /\ pc_head (m_pcp m') = pc_head (m_pcp m)
    /\ pc_dispatch (m_pcp m') = pc_dispatch (m_pcp m)
    /\ (PCTX_HAVE_VERDEP (m_pcp m) = true \/ n <> 0%nat ->
        PCTX_HAVE_VERDEP (m_pcp m') = true)
    /\ (n <> 0%nat -> dispatchable (m_pcp m)).
Proof.
  induction n as [|n IH]; intros j bindex error k m m' Hw Hj Hb Hlt Hcur H.
  - inversion H; subst. rewrite Z.add_0_r.
    split; [exact Hw|]. split; [reflexivity|]. split; [reflexivity|].
    split; [|contradiction]. intros [?|?]; [assumption|contradiction].
  - cbn [writeblocks_loop] in H.
    apply bind_Done in H as (d & m0 & Hd & H).
    pose proof (dispatch_dispatchable _ _ _ Hd) as Hdisp.
    apply dispatch_row in Hd as [-> [i Hi]].
    rewrite (version_writeblock_is_v1 d i Hi) in H.
    apply bind_Done in H as (e & m1 & Hwr & H).
    destruct (Z.eqb_spec e 0) as [->|Hne]; [|inversion H; congruence].
    apply v1_writeblock_stores with (b := b) in Hwr; [|assumption..].
    destruct Hwr as (W1 & W2 & W3 & W4 & W5).
    apply bind_Done in H as (u & m2 & Hm & H).
    inversion Hm; subst u m2; clear Hm.
    apply bind_Done in H as (p2 & m2 & Hg & H).
    inversion Hg; subst p2 m2; clear Hg.
    cbn [m_pcp pc_head set_pc_curblock] in H.
    rewrite W3 in H.
    replace (j * block_size (pc_head (m_pcp m)) + block_size (pc_head (m_pcp m)))
      with ((j + 1) * block_size (pc_head (m_pcp m))) in H by ring.
    rewrite <- W3 in H.
    set (m2 := mk_machine _ _ _) in H.
    change (pc_head (m_pcp m1)) with (pc_head (m_pcp m2)) in H.
    eapply (IH (j + 1)) in H; subst m2.
    + cbn [m_pcp pc_head set_pc_curblock pc_dispatch] in H.
      destruct H as (G1 & G2 & G3 & G4 & G5).
      replace (j + Z.of_nat (S n)) with (j + 1 + Z.of_nat n) by lia.
      split; [exact G1|]. split; [congruence|]. split; [congruence|].
      split; [|auto]. intros _. apply G4. left.
      rewrite <- W2. apply same_flags_HAVE_VERDEP; reflexivity.
    + cbn [m_pcp]. destruct W1 as (A1 & A2 & A3). split; [|split].
      * rewrite <- A1. apply same_flags_WRITEABLE. reflexivity.
      * intros Hr. rewrite same_flags_WRITEREADY with (p := m_pcp m1) in Hr
          by reflexivity.
        destruct (A2 Hr) as (h & Hh & Hbs & Hst). exists h. auto.
      * intros _. rewrite same_flags_WRITEREADY with (p := m_pcp m1)
          by reflexivity. apply A3. lia.
    + lia.
    + exact Hb.
    + lia.
    + cbn [m_pcp pc_curblock set_pc_curblock]. rewrite W4, Hcur.
      rewrite u64_small by lia. ring.
Qed.

(** What a successful partclone_writeblocks leaves: the overlay holds the
    blocks of the buffer, and the context can read them back. *)
Lemma partclone_writeblocks_stores (m m1 : machine) (buf : list Z) (b n : Z) :
  pc_curblock (m_pcp m) = b -> 0 <= b -> 0 < n -> b + n < 2 ^ 64 ->
  overlay_fits (m_pcp m) ->
  partclone_writeblocks buf n m = Done (0, m1) ->
  stored (m_pcp m1) b n buf
  /\ PCTX_READREADY (m_pcp m1) = true
  /\ PCTX_HAVE_VERDEP (m_pcp m1) = true
  /\ dispatchable (m_pcp m1)
  /\ pc_head (m_pcp m1) = pc_head (m_pcp m)
  /\ PCTX_WRITEREADY (m_pcp m1) = true.
Proof.
  intros Hcur Hb Hn Hlt Hfit. unfold partclone_writeblocks.
  unfold mbind at 1, M_mbind at 1, M_bind at 1, getp at 1.
  destruct (PCTX_WRITEABLE (m_pcp m)) eqn:Hw; [|discriminate].
  intros H. apply bind_Done in H as ([e k] & m0 & Hl & H).
  inversion H; subst e m0; clear H.
  replace 0 with (0 * block_size (pc_head (m_pcp m))) in Hl at 3 by ring.
  eapply (writeblocks_loop_stores buf b (Z.to_nat n) 0) in Hl.
  - destruct Hl as ((A1 & A2 & A3) & G2 & G3 & G4 & G5).
    rewrite Z2Nat.id in * by lia. cbn [Z.add] in *.
    assert (Z.to_nat n <> 0%nat) as Hn0 by lia.
    split; [apply A2, A3; lia|].
    split; [apply WRITEABLE_READREADY, A1|].
    split; [apply G4; auto|].
    split; [|split; [exact G2|apply A3; lia]].
    destruct (G5 Hn0) as (i & d & Hi & Hd). exists i, d. split; congruence.
  - split; [exact Hw|]. split; [|lia].
    intros Hr. destruct (Hfit Hr) as (h & Hh & Hbs). exists h.
    split; [exact Hh|]. split; [exact Hbs|]. intros i Hi. lia.
  - lia.
  - exact Hb.
  - lia.
  - lia.
Qed.

Lemma splice_filled (buf rbuf : list Z) (o s : nat) :
  (o + s <= length buf)%nat -> length rbuf = length buf ->
  splice (filled buf rbuf o) (Z.of_nat o) (take s (drop o buf))
  = filled buf rbuf (o + s).
Proof.
  intros Hlen Hr. unfold splice, filled. rewrite Nat2Z.id.
  assert (length (take o buf) = o) as Ho by (rewrite length_take; lia).
  assert (length (take s (drop o buf)) = s) as Hs
    by (rewrite length_take, length_drop; lia).
  rewrite Hs.
  rewrite take_app_length' by (symmetry; exact Ho).
  rewrite <- (take_take_drop buf o s), <- app_assoc. do 2 f_equal.
  replace (o + s)%nat with (length (take o buf) + s)%nat at 1 by lia.
  rewrite drop_app_add, drop_drop. reflexivity.
Qed.

Lemma filled_all (buf rbuf : list Z) :
  length rbuf = length buf -> filled buf rbuf (length buf) = buf.
Proof.
  intros H. unfold filled. rewrite firstn_all, <- H, drop_all. apply app_nil_r.
Qed.

(** A block that the overlay holds is read from the overlay. *)
Lemma v1_readblock_overlay (m : machine) (rbuf : list Z) (cbp : Z) (h : overlay)
    (data : list Z) :
  PCTX_HAVE_VERDEP (m_pcp m) = true -> pc_cf_handle (m_pcp m) = Some h ->
  ov_blocks h !! pc_curblock (m_pcp m) = Some data ->
  exists m', v1_readblock rbuf cbp m = Done ((0, splice rbuf cbp data), m')
    /\ overlay_kept m m' /\ pc_curblock (m_pcp m') = pc_curblock (m_pcp m).
Proof.
  intros Hv Hh Hd.
  assert (exists m', v1_readblock rbuf cbp m = Done ((0, splice rbuf cbp data), m')
                     /\ pc_curblock (m_pcp m') = pc_curblock (m_pcp m)) as (m' & H & Hc).
  { destruct m as [p os disk]. cbn [m_pcp] in *. unfold v1_readblock. msimp.
    rewrite Hv, Hh. unfold call_cf, call_cf_readblock. msimp. rewrite Hh.
    cbn. unfold ov_readblock. cbn. rewrite Hd. cbn. eauto. }
  exists m'. split; [exact H|]. split; [|exact Hc].
  eapply kept_v1_readblock, H.
Qed.

Lemma overlay_kept_reading (m m' : machine) (b n : Z) (buf : list Z) :
  overlay_kept m m' -> reading (m_pcp m) b n buf -> reading (m_pcp m') b n buf.
Proof.
  intros (Hf & Hhd & Hd & Hvd & Hview) (Hv & (i & d & Hi & Ht) & (h & Hh & Hbs & Hst)).
  split; [|split].
  - unfold PCTX_HAVE_VERDEP, PCTX_FLAGS_SET in *. rewrite Hf.
    apply andb_true_iff in Hv as [Hv1 Hv2]. rewrite Hv1. cbn.
    apply bool_decide_eq_true in Hv2. apply bool_decide_eq_true. auto.
  - exists i, d. split; congruence.
  - unfold overlay_view in Hview. rewrite Hh in Hview.
    destruct (pc_cf_handle (m_pcp m')) as [h'|] eqn:Hh'; [|discriminate].
    cbn in Hview. inversion Hview as [[Hb1 Hb2]].
    exists h'. split; [exact Hh'|]. rewrite Hhd, Hb1, Hb2. auto.
Qed.

Lemma readblocks_loop_overlay (buf rbuf : list Z) (b N : Z) (n : nat) :
  forall (j bindex error : Z) (m : machine),
    reading (m_pcp m) b N buf -> 0 <= j -> j + Z.of_nat n = N -> 0 <= b ->
    b + N < 2 ^ 64 -> pc_curblock (m_pcp m) = b + j ->
    0 <= block_size (pc_head (m_pcp m)) ->
    length buf = Z.to_nat (N * block_size (pc_head (m_pcp m))) ->
    length rbuf = length buf ->
    error = 0 \/ n <> 0%nat ->
    exists m',
      readblocks_loop n bindex error
        (filled buf rbuf (Z.to_nat (j * block_size (pc_head (m_pcp m)))))
        (j * block_size (pc_head (m_pcp m))) m
      = Done ((0, bindex + Z.of_nat n, buf), m').
Proof.
  induction n as [|n IH]; intros j bindex error m Hrd Hj HN Hb Hlt Hcur Hbs Hlen Hrl He.
  - exists m. cbn [readblocks_loop]. destruct He as [->|]; [|contradiction].
    rewrite Z.add_0_r in *. subst j. rewrite <- Hlen, filled_all by exact Hrl.
    reflexivity.
  - cbn [readblocks_loop].
    destruct Hrd as (Hv & Hdisp & Hst).
    destruct (dispatchable_dispatch m Hdisp) as (d & i & Hd & Hi).
    destruct Hst as (h & Hh & Hhbs & Hblocks).
    destruct (v1_readblock_overlay m
                (filled buf rbuf (Z.to_nat (j * block_size (pc_head (m_pcp m)))))
                (j * block_size (pc_head (m_pcp m))) h
                (slice buf (j * block_size (pc_head (m_pcp m)))
                   (block_size (pc_head (m_pcp m)))) Hv Hh)
      as (m1 & Hr & Hk & Hc).
    { rewrite Hcur. apply Hblocks. lia. }
    set (m2 := mk_machine (set_pc_curblock (u64 (pc_curblock (m_pcp m1) + 1)) (m_pcp m1))
                 (m_os m1) (m_disk m1)).
    assert (Hhd : pc_head (m_pcp m2) = pc_head (m_pcp m)) by apply Hk.
    destruct (IH (j + 1) (bindex + 1) 0 m2) as (m' & Hloop).
    + apply overlay_kept_reading with (m := m1).
      * unfold overlay_kept, overlay_view. cbn. auto.
      * apply overlay_kept_reading with (m := m); [exact Hk|].
        split; [exact Hv|]. split; [exact Hdisp|]. exists h. auto.
    + lia.
    + lia.
    + exact Hb.
    + exact Hlt.
    + cbn. rewrite Hc, Hcur, u64_small by lia. ring.
    + rewrite Hhd. exact Hbs.
    + rewrite Hhd. exact Hlen.
    + exact Hrl.
    + left. reflexivity.
    + exists m'. unfold mbind at 1, M_mbind at 1, M_bind at 1. rewrite Hd.
      rewrite (version_readblock_is_v1 d i Hi).
      unfold mbind at 1, M_mbind at 1, M_bind at 1. rewrite Hr.
      msimp. fold m2.
      rewrite Hhd in Hloop.
      replace (bindex + Z.of_nat (S n)) with (bindex + 1 + Z.of_nat n) by lia.
      rewrite <- Hloop. f_equal.
      * unfold slice.
        replace (j * block_size (pc_head (m_pcp m)))
          with (Z.of_nat (Z.to_nat (j * block_size (pc_head (m_pcp m))))) at 2
          by (rewrite Z2Nat.id; nia).
        rewrite splice_filled.
        -- f_equal. rewrite <- Z2Nat.inj_add by nia. f_equal. ring.
        -- rewrite Hlen, <- Z2Nat.inj_add by nia. apply Z2Nat.inj_le; nia.
        -- exact Hrl.
      * replace (pc_head (m_pcp m1)) with (pc_head (m_pcp m)) by (symmetry; apply Hk).
        ring.
Qed.

(** ** The flag PC_HAVE_CFDEP is raised by writes only *)

#[local] Instance cfdep_kept_refl : Reflexive cfdep_kept.
Proof. intros m. reflexivity. Qed.
#[local] Instance cfdep_kept_trans : Transitive cfdep_kept.
Proof. intros a b c. unfold cfdep_kept. congruence. Qed.

Ltac prim_cfdep :=
  intros [pcp os disk] a m' H; cbn [m_pcp m_os m_disk] in H;
  repeat match type of H with
         | context [match ?x with _ => _ end] => destruct x eqn:?
         end;
  inversion H; subst; unfold cfdep_kept; cbn -[Z.land Z.lor]; reflexivity.

Lemma cfdep_call_malloc n : keeps cfdep_kept (call_malloc n).
Proof. unfold call_malloc. prim_cfdep. Qed.
Lemma cfdep_call_free b : keeps cfdep_kept (call_free b).
Proof. unfold call_free. prim_cfdep. Qed.
Lemma cfdep_call_close : keeps cfdep_kept call_close.
Proof. unfold call_close. prim_cfdep. Qed.
Lemma cfdep_call_seek o w : keeps cfdep_kept (call_seek o w).
Proof. unfold call_seek. prim_cfdep. Qed.
Lemma cfdep_call_read n : keeps cfdep_kept (call_read n).
Proof. unfold call_read. prim_cfdep. Qed.
Lemma cfdep_call_open p o : keeps cfdep_kept (call_open p o).
Proof. unfold call_open. prim_cfdep. Qed.
Lemma cfdep_call_cf what op : keeps cfdep_kept (call_cf what op).
Proof. unfold call_cf. prim_cfdep. Qed.
Lemma cfdep_call_cf_open op : keeps cfdep_kept (call_cf_open op).
Proof. unfold call_cf_open. prim_cfdep. Qed.
Lemma cfdep_call_cf_finish : keeps cfdep_kept call_cf_finish.
Proof. unfold call_cf_finish. prim_cfdep. Qed.
Lemma cfdep_modp (f : pc_context -> pc_context) :
  (forall p, Z.land (pc_flags (f p)) PC_HAVE_CFDEP
             = Z.land (pc_flags p) PC_HAVE_CFDEP) ->
  keeps cfdep_kept (modp f).
Proof. intros Hf [pcp os disk] a m' H. inversion H; subst. apply Hf. Qed.

Create HintDb cfdep.
#[local] Hint Resolve cfdep_call_malloc cfdep_call_free cfdep_call_close
  cfdep_call_seek cfdep_call_read cfdep_call_open cfdep_call_cf
  cfdep_call_cf_open cfdep_call_cf_finish : cfdep.
#[local] Hint Extern 1 (keeps cfdep_kept (modp _)) =>
  apply cfdep_modp; intros; unfold or_flags; cbn -[Z.land Z.lor];
  rewrite ?land_lor_disjoint by reflexivity; rewrite <- ?Z.land_assoc;
  reflexivity : cfdep.

Ltac cfdep_auto :=
  repeat first [ solve [auto with cfdep] | dispatch_step | keeps_step ].

Lemma cfdep_getv1 : keeps cfdep_kept getv1.
Proof. unfold getv1. cfdep_auto. Qed.
Lemma cfdep_modv1 f : keeps cfdep_kept (modv1 f).
Proof. unfold modv1, getv1. cfdep_auto. Qed.
#[local] Hint Resolve cfdep_getv1 cfdep_modv1 : cfdep.
Lemma cfdep_precalculate_sumcount : keeps cfdep_kept precalculate_sumcount.
Proof. unfold precalculate_sumcount. cfdep_auto. Qed.
#[local] Hint Resolve cfdep_precalculate_sumcount : cfdep.
Lemma cfdep_v1_init : keeps cfdep_kept v1_init.
Proof. unfold v1_init. cfdep_auto. Qed.
Lemma cfdep_v1_verify : keeps cfdep_kept v1_verify.
Proof. unfold v1_verify. cfdep_auto. Qed.
Lemma cfdep_v2_verify : keeps cfdep_kept v2_verify.
Proof. unfold v2_verify. cfdep_auto. Qed.
Lemma cfdep_v1_finish : keeps cfdep_kept v1_finish.
Proof. unfold v1_finish. cfdep_auto. Qed.
Lemma cfdep_v1_sync : keeps cfdep_kept v1_sync.
Proof. unfold v1_sync. cfdep_auto. Qed.
#[local] Hint Resolve cfdep_v1_init cfdep_v1_verify cfdep_v2_verify
  cfdep_v1_finish cfdep_v1_sync : cfdep.
Lemma cfdep_partclone_close : keeps cfdep_kept partclone_close.
Proof. unfold partclone_close. cfdep_auto. Qed.
#[local] Hint Resolve cfdep_partclone_close : cfdep.
Lemma cfdep_partclone_open_body p c o :
  keeps cfdep_kept (partclone_open_body p c o).
Proof. unfold partclone_open_body. cfdep_auto. Qed.
Lemma cfdep_partclone_tolerant_mode : keeps cfdep_kept partclone_tolerant_mode.
Proof. unfold partclone_tolerant_mode. cfdep_auto. Qed.
Lemma cfdep_partclone_verify : keeps cfdep_kept partclone_verify.
Proof. unfold partclone_verify. cfdep_auto. Qed.

Lemma prepared_no_overlay_yet (m : machine) :
  prepared m -> no_overlay_yet (m_pcp m).
Proof.
  induction 1 as [path cfpath omode sd os os' disk disk' pcp H
                  |m m' _ IH H|m m' e _ IH H|m m' _ IH H]; unfold no_overlay_yet in *.
  - unfold partclone_open in H. destruct sd as [sd|]; [|discriminate].
    destruct (sys_malloc _ _ _) as [e0 os0].
    destruct (e0 =? 0); [|discriminate].
    destruct (partclone_open_body _ _ _ _) as [[e1 m1]|] eqn:E; [|discriminate].
    apply cfdep_partclone_open_body in E. unfold cfdep_kept in E.
    destruct (Z.eqb_spec e1 0); inversion H; subst. cbn [m_pcp] in *.
    rewrite E. reflexivity.
  - apply cfdep_partclone_tolerant_mode in H. unfold cfdep_kept in H. congruence.
  - apply cfdep_partclone_verify in H. unfold cfdep_kept in H. congruence.
  - apply later_kept in H. destruct H as [Hf _]. rewrite Hf. exact IH.
Qed.

Lemma no_overlay_yet_fits (p : pc_context) : no_overlay_yet p -> overlay_fits p.
Proof.
  unfold no_overlay_yet, overlay_fits, PCTX_WRITEREADY, PCTX_CFREADY, PCTX_FLAGS_SET.
  intros H0 H. apply andb_true_iff in H as [_ H]. apply Z.eqb_eq in H.
  apply (land_submask _ _ PC_HAVE_CFDEP) in H; [|reflexivity].
  rewrite H0 in H. discriminate H.
Qed.

(** ** The overlay fits the image in every context in use *)

Lemma overlay_kept_fits (m m' : machine) :
  overlay_kept m m' -> overlay_fits (m_pcp m) -> overlay_fits (m_pcp m').
Proof.
  intros (Hf & Hhd & _ & _ & Hview) Hfit Hr.
  rewrite (same_flags_WRITEREADY _ _ Hf) in Hr.
  destruct (Hfit Hr) as (h & Hh & Hbs).
  unfold overlay_view in Hview. rewrite Hh in Hview.
  destruct (pc_cf_handle (m_pcp m')) as [h'|] eqn:Hh'; [|discriminate].
  cbn in Hview. inversion Hview as [[Hb1 Hb2]].
  exists h'. split; [reflexivity|]. congruence.
Qed.

Lemma v1_writeblock_fits (m m' : machine) (buf : list Z) (cbp e : Z) :
  PCTX_WRITEABLE (m_pcp m) = true -> overlay_fits (m_pcp m) ->
  v1_writeblock buf cbp m = Done (e, m') ->
  PCTX_WRITEABLE (m_pcp m') = true /\ overlay_fits (m_pcp m').
Proof.
  assert (Hready : forall p os disk,
    PCTX_WRITEABLE p = true ->
    (exists h, pc_cf_handle p = Some h /\ ov_block_size h = block_size (pc_head p)) ->
    forall c,
    (call_cf "pc_cf_handle" (fun h => cf_seek h c);;
     call_cf "pc_cf_handle" (fun h => cf_writeblock h buf cbp))
      (mk_machine p os disk) = Done (e, m') ->
    PCTX_WRITEABLE (m_pcp m') = true /\ overlay_fits (m_pcp m')).
  { intros p os disk Hw (h & Hh & Hbs) c. unfold call_cf. msimp. rewrite Hh.
    cbn [ov_seek ov_writeblock]. intros H. inversion H; subst e m'. cbn [m_pcp].
    split; [rewrite <- Hw; apply same_flags_WRITEABLE; reflexivity|].
    intros _. eexists. split; [reflexivity|]. exact Hbs. }
  destruct m as [pcp os disk]. cbn [m_pcp]. intros Hw Hfit.
  unfold v1_writeblock.
  unfold mbind at 1, M_mbind at 1, M_bind at 1, getp at 1. cbn [m_pcp].
  destruct (PCTX_HAVE_VERDEP pcp) eqn:Hv;
    [|intros H; inversion H; subst; cbn [m_pcp]; auto].
  destruct (PCTX_WRITEREADY pcp) eqn:Hr; cbn [negb].
  - apply Hready; auto.
  - intros H. apply bind_Done in H as (e1 & m1 & Hc & H).
    apply overlay_create in Hc; [|assumption].
    destruct Hc as (W1 & _ & W4 & _ & _ & W7 & W8).
    destruct (Z.eqb_spec e1 0) as [->|Hne].
    + destruct (W7 eq_refl) as (_ & h & Hh & Hbs).
      destruct m1 as [p1 os1 disk1]. cbn [m_pcp] in *.
      eapply Hready; [exact W1| |exact H]. exists h. split; congruence.
    + inversion H; subst e m'. split; [exact W1|].
      intros Hr'. rewrite (W8 Hne), Hr in Hr'. discriminate.
Qed.

Lemma writeblocks_loop_fits (buf : list Z) (n : nat) :
  forall (bindex error cbp e k : Z) (m m' : machine),
    PCTX_WRITEABLE (m_pcp m) = true -> overlay_fits (m_pcp m) ->
    writeblocks_loop n bindex error buf cbp m = Done (e, k, m') ->
    overlay_fits (m_pcp m').
Proof.
  induction n as [|n IH]; intros bindex error cbp e k m m' Hw Hfit H.
  - inversion H; subst. exact Hfit.
  - cbn [writeblocks_loop] in H.
    apply bind_Done in H as (d & m0 & Hd & H).
    apply dispatch_row in Hd as [-> [i Hi]].
    rewrite (version_writeblock_is_v1 d i Hi) in H.
    apply bind_Done in H as (e1 & m1 & Hwr & H).
    apply v1_writeblock_fits in Hwr as [W1 W2]; [|assumption..].
    destruct (e1 =? 0).
    + apply bind_Done in H as (u & m2 & Hm & H).
      inversion Hm; subst u m2; clear Hm.
      apply bind_Done in H as (p2 & m2 & Hg & H).
      inversion Hg; subst p2 m2; clear Hg.
      eapply IH in H; [exact H| |].
      * cbn [m_pcp]. rewrite <- W1. apply same_flags_WRITEABLE. reflexivity.
      * cbn [m_pcp]. intros Hr.
        rewrite same_flags_WRITEREADY with (p := m_pcp m1) in Hr by reflexivity.
        exact (W2 Hr).
    + inversion H; subst. exact W2.
Qed.

(** ** Tolerant mode leaves the overlay alone *)

Lemma tolerant_mode_context (m m' : machine) :
  partclone_tolerant_mode m = Done (tt, m') ->
  m_pcp m' = m_pcp m \/ m_pcp m' = or_flags PC_TOLERANT (m_pcp m).
Proof.
  unfold partclone_tolerant_mode, mbind, M_mbind, M_bind, getp.
  destruct (PCTX_OPEN (m_pcp m)); intros H; inversion H; subst; cbn; auto.
Qed.

Lemma or_flags_FLAGS_SET (p : pc_context) (g f : Z) :
  Z.land g (Z.lor f PC_VALID) = 0 ->
  PCTX_FLAGS_SET (or_flags g p) f = PCTX_FLAGS_SET p f.
Proof.
  intros H. unfold PCTX_FLAGS_SET, or_flags. cbn [pc_flags set_pc_flags].
  rewrite land_lor_disjoint by exact H. reflexivity.
Qed.

Lemma tolerant_flags (p : pc_context) :
  PCTX_READREADY (or_flags PC_TOLERANT p) = PCTX_READREADY p
  /\ PCTX_WRITEREADY (or_flags PC_TOLERANT p) = PCTX_WRITEREADY p
  /\ PCTX_HAVE_VERDEP (or_flags PC_TOLERANT p) = PCTX_HAVE_VERDEP p.
Proof.
  unfold PCTX_WRITEREADY, PCTX_CFREADY, PCTX_READREADY, PCTX_HAVE_VERDEP.
  rewrite !or_flags_FLAGS_SET by reflexivity.
  rewrite (grow_READ_ONLY p (or_flags PC_TOLERANT p) PC_TOLERANT)
    by reflexivity.
  repeat split.
Qed.

Lemma tolerant_fits (p : pc_context) :
  overlay_fits p -> overlay_fits (or_flags PC_TOLERANT p).
Proof.
  intros Hfit Hr. destruct (tolerant_flags p) as (_ & E & _).
  rewrite E in Hr. exact (Hfit Hr).
Qed.

Lemma tolerant_shadowing (p : pc_context) (b n : Z) (buf : list Z) :
  shadowing p b n buf -> shadowing (or_flags PC_TOLERANT p) b n buf.
Proof.
  intros ((Hv & Hd & Hst) & Hr & Hw).
  destruct (tolerant_flags p) as (E1 & E2 & E3).
  unfold shadowing, reading. rewrite E1, E2, E3.
  repeat split; assumption.
Qed.

Lemma in_use_fits (m : machine) : in_use m -> overlay_fits (m_pcp m).
Proof.
  induction 1 as [m H|m m' buf n e _ IH H|m m' _ IH H|m m' _ IH H];
    [| | |apply tolerant_mode_context in H as [->| ->];
          [exact IH|apply tolerant_fits, IH]].
  - apply no_overlay_yet_fits, prepared_no_overlay_yet, H.
  - revert H. unfold partclone_writeblocks.
    unfold mbind at 1, M_mbind at 1, M_bind at 1, getp at 1.
    destruct (PCTX_WRITEABLE (m_pcp m)) eqn:Hw;
      [|intros H; inversion H; subst; exact IH].
    intros H. apply bind_Done in H as ([e1 k] & m0 & Hl & H).
    inversion H; subst e m0; clear H.
    eapply writeblocks_loop_fits; eassumption.
  - eapply overlay_kept_fits; [apply later_kept, H | exact IH].
Qed.

Lemma partclone_seek_cursor (m m' : machine) (b : Z) :
  partclone_seek b m = Done (0, m') -> pc_curblock (m_pcp m') = b.
Proof.
  unfold partclone_seek.
  unfold mbind at 1, M_mbind at 1, M_bind at 1, getp at 1.
  destruct (_ && _); [|discriminate].
  intros H. apply bind_Done in H as (d & m0 & Hd & H).
  apply bind_Done in H as (e & m1 & Hs & H).
  destruct (Z.eqb_spec e 0) as [->|Hne]; [|inversion H; congruence].
  apply bind_Done in H as (u & m2 & Hm & H).
  inversion Hm; subst u m2; clear Hm. inversion H; subst. reflexivity.
Qed.

(** ** Calls that leave the blocks written alone *)

Lemma v1_writeblock_apart (m m' : machine) (buffer buf : list Z) (cbp e b n : Z) :
  shadowing (m_pcp m) b n buf ->
  pc_curblock (m_pcp m) < b \/ b + n <= pc_curblock (m_pcp m) ->
  v1_writeblock buffer cbp m = Done (e, m') ->
  e = 0 /\ shadowing (m_pcp m') b n buf
  /\ pc_head (m_pcp m') = pc_head (m_pcp m)
  /\ pc_curblock (m_pcp m') = pc_curblock (m_pcp m).
Proof.
  destruct m as [p os disk]. cbn [m_pcp].
  intros ((Hv & Hd & h & Hh & Hbs & Hst) & Hr & Hw) Hc.
  unfold v1_writeblock.
  unfold mbind at 1, M_mbind at 1, M_bind at 1, getp at 1. cbn [m_pcp].
  rewrite Hv, Hw. cbn [negb]. unfold call_cf. msimp. rewrite Hh.
  cbn [ov_seek ov_writeblock]. intros H. inversion H; subst e m'. clear H.
  cbn [m_pcp].
  split; [reflexivity|]. split; [|split; reflexivity].
  split; [split; [|split]|split].
  - rewrite <- Hv. apply same_flags_HAVE_VERDEP; reflexivity.
  - exact Hd.
  - eexists. split; [reflexivity|]. cbn. split; [exact Hbs|].
    intros i Hi. rewrite lookup_insert_ne by lia. apply Hst, Hi.
  - rewrite <- Hr. apply same_flags_READREADY. reflexivity.
  - rewrite <- Hw. apply same_flags_WRITEREADY. reflexivity.
Qed.

Lemma writeblocks_loop_apart (buffer buf : list Z) (b n : Z) (k : nat) :
  forall (bindex error cbp e r : Z) (m m' : machine),
    0 <= b -> 0 < n -> b + n < 2 ^ 64 ->
    shadowing (m_pcp m) b n buf ->
    clear_of b n (pc_curblock (m_pcp m)) (Z.of_nat k) ->
    writeblocks_loop k bindex error buffer cbp m = Done (e, r, m') ->
    shadowing (m_pcp m') b n buf /\ pc_head (m_pcp m') = pc_head (m_pcp m).
Proof.
  induction k as [|k IH]; intros bindex error cbp e r m m' Hb Hn Hlt Hsh Hclear H.
  - inversion H; subst. auto.
  - cbn [writeblocks_loop] in H.
    apply bind_Done in H as (d & m0 & Hd & H).
    apply dispatch_row in Hd as [-> [i Hi]].
    rewrite (version_writeblock_is_v1 d i Hi) in H.
    apply bind_Done in H as (e1 & m1 & Hwr & H).
    assert (Hc : (pc_curblock (m_pcp m) < b \/ b + n <= pc_curblock (m_pcp m))
                 /\ 0 <= pc_curblock (m_pcp m)
                 /\ (k <> 0%nat -> pc_curblock (m_pcp m) + 1 < 2 ^ 64))
      by (unfold clear_of in Hclear; lia).
    destruct Hc as (Hc & Hc0 & Hnext).
    apply v1_writeblock_apart with (b := b) (n := n) (buf := buf) in Hwr;
      [|assumption..].
    destruct Hwr as (-> & W1 & W2 & W3).
    change (0 =? 0) with true in H. cbv iota in H.
    apply bind_Done in H as (u & m2 & Hm & H).
    inversion Hm; subst u m2; clear Hm.
    apply bind_Done in H as (p2 & m2 & Hg & H).
    inversion Hg; subst p2 m2; clear Hg.
    eapply IH in H; [|eassumption..| |].
    + destruct H as [G1 G2]. split; [exact G1|]. rewrite G2. exact W2.
    + exact W1.
    + cbn [m_pcp pc_curblock set_pc_curblock]. rewrite W3.
      destruct k as [|k]; [left; lia|].
      rewrite u64_small by lia. unfold clear_of in *. lia.
Qed.

Lemma partclone_writeblocks_apart (m m' : machine) (buffer buf : list Z)
    (b n k e : Z) :
  0 <= b -> 0 < n -> b + n < 2 ^ 64 ->
  shadowing (m_pcp m) b n buf ->
  clear_of b n (pc_curblock (m_pcp m)) k ->
  partclone_writeblocks buffer k m = Done (e, m') ->
  shadowing (m_pcp m') b n buf /\ pc_head (m_pcp m') = pc_head (m_pcp m).
Proof.
  intros Hb Hn Hlt Hsh Hclear. unfold partclone_writeblocks.
  unfold mbind at 1, M_mbind at 1, M_bind at 1, getp at 1.
  destruct (PCTX_WRITEABLE (m_pcp m));
    [|intros H; inversion H; subst; auto].
  intros H. apply bind_Done in H as ([e1 r] & m0 & Hl & H).
  inversion H; subst e m0; clear H.
  eapply writeblocks_loop_apart; [exact Hb|exact Hn|exact Hlt|exact Hsh| |exact Hl].
  unfold clear_of in *. lia.
Qed.

(** The blocks written stay in the overlay, and the context stays ready,
    over any calls that are not partclone_verify and write elsewhere. *)
Lemma undisturbed_shadowing (m1 m2 : machine) (buf : list Z) (b n : Z) :
  0 <= b -> 0 < n -> b + n < 2 ^ 64 ->
  undisturbed b n m1 m2 -> shadowing (m_pcp m1) b n buf ->
  shadowing (m_pcp m2) b n buf /\ pc_head (m_pcp m2) = pc_head (m_pcp m1).
Proof.
  intros Hb Hn Hlt Hu Hsh.
  induction Hu as [m|m m1 m2 _ IH Hl|m m1 m2 _ IH Ht|m m1 m2 buffer k e _ IH Hc Hw].
  - auto.
  - destruct (IH Hsh) as (((Hv & Hd & Hst) & Hr & Hwr) & Hhd).
    pose proof (later_kept m1 m2 Hl) as Hk.
    pose proof Hk as (Hf & Hhd2 & _).
    split; [|congruence]. split; [|split].
    + apply (overlay_kept_reading m1 m2); [exact Hk|]. split; auto.
    + rewrite <- Hr. apply same_flags_READREADY, Hf.
    + rewrite <- Hwr. apply same_flags_WRITEREADY, Hf.
  - destruct (IH Hsh) as (Hs & Hhd).
    apply tolerant_mode_context in Ht as [E|E]; rewrite E.
    + auto.
    + split; [apply tolerant_shadowing, Hs|exact Hhd].
  - destruct (IH Hsh) as (Hs & Hhd).
    destruct (partclone_writeblocks_apart m1 m2 buffer buf b n k e)
      as (G1 & G2); try assumption.
    split; [exact G1|congruence].
Qed.


End Overlay.

Section AfterwardsFacts.
Context {FMT : ImageFormat} {CF : ChangeFile} {SD : Backends}.

Lemma after_Done {A : Type} (c : M A) (m : machine) (a : A) :
  result (c m) = Done a -> c m = Done (a, after c m).
Proof.
  unfold result, after. destruct (c m) as [[a' m']|f]; simpl; intros H;
    inversion H; reflexivity.
Qed.

Lemma open_ok_Done (o : outcome (Z * option pc_context * os_state * cf_disk))
    (m : machine) :
  open_ok o = true ->
  exists pcp os disk,
    o = Done (0, Some pcp, os, disk) /\ mk_machine pcp os disk = opened o m.
Proof.
  unfold open_ok, opened. destruct o as [[[[e [pcp|]] os] disk]|f]; try discriminate.
  intros H. apply Z.eqb_eq in H. subst e. eauto.
Qed.

End AfterwardsFacts.



(** In that session the read of the whole image serves blocks 3 and 4
    from the overlay.  v1_readblock does not count a block it serves
    from the overlay, though block 3 is stored in the image, so block 6
    is then read where block 3 is stored (30..33, not 60..63): the
    blocks written are shadowed, the stored blocks after them in the
    same batch are not found. *)
Example s2_stale_counter :
  result (partclone_readblocks (replicate 32 7) 8
            (after (partclone_seek 0) (after partclone_sync s2_written)))
  = Done (0, [10; 11; 12; 13; 0; 0; 0; 0; 20; 21; 22; 23; 1; 2; 3; 4;
              5; 6; 7; 8; 0; 0; 0; 0; 30; 31; 32; 33; 0; 0; 0; 0]).
Proof. vm_compute. reflexivity. Qed.

(** ** The sum index and the offset formula on clean usage maps *)

Lemma zlookup_Some {A : Type} (arr : list A) (i : Z) :
  0 <= i < Z.of_nat (length arr) -> exists v, zlookup arr i = Some v.
Proof.
  intros H. unfold zlookup. destruct (Z.ltb_spec i 0); [lia|].
  apply lookup_lt_is_Some_2. lia.
Qed.

Lemma count_used_snoc (l : list Z) (b : Z) :
  count_used (l ++ [b]) = count_used l + (if b =? 1 then 1 else 0).
Proof.
  unfold count_used. rewrite filter_app, length_app, Nat2Z.inj_add. f_equal.
  rewrite filter_cons, filter_nil.
  destruct (Z.eqb_spec b 1); destruct (decide (b = 1)); try contradiction; reflexivity.
Qed.

Lemma count_nonzero_snoc (l : list Z) (b : Z) :
  count_nonzero (l ++ [b]) = count_nonzero l + (if b =? 0 then 0 else 1).
Proof.
  unfold count_nonzero. rewrite filter_app, length_app, Nat2Z.inj_add. f_equal.
  rewrite filter_cons, filter_nil.
  destruct (Z.eqb_spec b 0); destruct (decide (b <> 0)); try contradiction;
    try reflexivity; tauto.
Qed.

Lemma count_used_bound (l : list Z) : 0 <= count_used l <= Z.of_nat (length l).
Proof.
  unfold count_used. pose proof (length_filter (fun x => x = 1) l). lia.
Qed.

Lemma count_nonzero_bound (l : list Z) : 0 <= count_nonzero l <= Z.of_nat (length l).
Proof.
  unfold count_nonzero. pose proof (length_filter (fun x => x <> 0) l). lia.
Qed.

Lemma take_succ_lookup (l : list Z) (i : nat) (b : Z) :
  l !! i = Some b -> take (S i) l = take i l ++ [b].
Proof. intros H. apply take_S_r, H. Qed.

Lemma clean_count (l : list Z) : clean l -> count_nonzero l = count_used l.
Proof.
  unfold clean, count_nonzero, count_used. induction 1 as [|x l Hx _ IH]; [reflexivity|].
  rewrite !filter_cons.
  destruct (decide (x <> 0)), (decide (x = 1)); cbn [length]; try lia.
Qed.

Lemma land_stride (i f : Z) :
  0 <= f -> Z.land i (Z.shiftl 1 f - 1) = i mod 2 ^ f.
Proof.
  intros Hf. rewrite Z.shiftl_1_l. rewrite <- Z.land_ones by exact Hf.
  f_equal. rewrite Z.ones_equiv. lia.
Qed.

Lemma zlookup_insert_eq (l : list Z) (k v : Z) :
  0 <= k < Z.of_nat (length l) -> zlookup (<[Z.to_nat k := v]> l) k = Some v.
Proof.
  intros H. unfold zlookup. destruct (Z.ltb_spec k 0); [lia|].
  apply list_lookup_insert_eq. lia.
Qed.

Lemma zlookup_insert_ne (l : list Z) (j k v : Z) :
  0 <= j -> 0 <= k -> j <> k ->
  zlookup (<[Z.to_nat j := v]> l) k = zlookup l k.
Proof.
  intros Hj Hk Hne. unfold zlookup. destruct (Z.ltb_spec k 0); [lia|].
  apply list_lookup_insert_ne. lia.
Qed.

(** The loop of [precalculate_sumcount] from index [i] on, with the
    count of used blocks before [i]: it writes the entries of the stride
    boundaries in [i, total), each the number of bytes 1 before the
    boundary, and no other entry. *)
Lemma sumcount_loop_spec (bitmap : list Z) (f : Z) (n : nat) :
  forall (i : Z) (cells : list Z),
    0 <= f -> 0 <= i -> i + Z.of_nat n = Z.of_nat (length bitmap) ->
    Z.of_nat (length bitmap) < 2 ^ 64 ->
    Z.of_nat (length bitmap) / 2 ^ f < Z.of_nat (length cells) ->
    exists sc,
      sumcount_loop n i (count_used (take (Z.to_nat i) bitmap)) f
        (Some bitmap) (Some cells) = Done (Some sc)
      /\ length sc = length cells
      /\ (forall k, 0 <= k -> i <= k * 2 ^ f < Z.of_nat (length bitmap) ->
            zlookup sc k = Some (count_used (take (Z.to_nat (k * 2 ^ f)) bitmap)))
      /\ (forall k, 0 <= k -> ~ (i <= k * 2 ^ f < Z.of_nat (length bitmap)) ->
            zlookup sc k = zlookup cells k).
Proof.
  induction n as [|n IH]; intros i cells Hf Hi Hn Htb Hcells.
  - exists cells. cbn [sumcount_loop]. split; [reflexivity|]. split; [reflexivity|].
    split; [intros k Hk Hr; lia|]. reflexivity.
  - assert (Hpow : 0 < 2 ^ f) by (apply Z.pow_pos_nonneg; lia).
    assert (Hilt : i < Z.of_nat (length bitmap)) by lia.
    destruct (lookup_lt_is_Some_2 bitmap (Z.to_nat i)) as [b Hb]; [lia|].
    assert (Hnset : (if b =? 1
                     then u64 (count_used (take (Z.to_nat i) bitmap) + 1)
                     else count_used (take (Z.to_nat i) bitmap))
                    = count_used (take (Z.to_nat (i + 1)) bitmap)).
    { replace (Z.to_nat (i + 1)) with (S (Z.to_nat i)) by lia.
      rewrite (take_S_r _ _ _ Hb), count_used_snoc.
      pose proof (count_used_bound (take (Z.to_nat i) bitmap)) as Hc.
      rewrite length_take in Hc.
      destruct (b =? 1); [rewrite u64_small by lia; reflexivity | lia]. }
    assert (Hq : 0 <= i / 2 ^ f < Z.of_nat (length cells)).
    { split; [apply Z.div_pos; lia|].
      eapply Z.le_lt_trans; [apply Z.div_le_mono; [lia|]|exact Hcells]. lia. }
    cbn [sumcount_loop]. rewrite land_stride by exact Hf.
    rewrite Z.shiftr_div_pow2 by exact Hf.
    unfold pread, pwrite, deref, aread, awrite.
    unfold mbind, outcome_mbind, outcome_bind.
    replace (zlookup bitmap i) with (Some b)
      by (unfold zlookup; destruct (Z.ltb_spec i 0); [lia | symmetry; exact Hb]).
    rewrite Hnset, (u64_small (i + 1)) by lia.
    destruct (Z.eqb_spec (i mod 2 ^ f) 0) as [Hmod|Hmod].
    + destruct (zlookup_Some cells (i / 2 ^ f) Hq) as [v Hv]. rewrite Hv.
      destruct (IH (i + 1) (<[Z.to_nat (i / 2 ^ f) := count_used (take (Z.to_nat i) bitmap)]> cells))
        as (sc & Hsc & Hlen & Hin & Hout); try lia.
      { rewrite length_insert. exact Hcells. }
      exists sc. split; [exact Hsc|]. rewrite length_insert in Hlen.
      split; [exact Hlen|].
      assert (Hidiv : i / 2 ^ f * 2 ^ f = i).
      { pose proof (Z.div_mod i (2 ^ f)). lia. }
      split.
      * intros k Hk Hr. destruct (Z.eq_dec (k * 2 ^ f) i) as [Heq|Hne].
        -- assert (k = i / 2 ^ f) as -> by nia.
           rewrite Hout by lia. rewrite zlookup_insert_eq by exact Hq.
           rewrite Hidiv. reflexivity.
        -- apply Hin; [exact Hk | lia].
      * intros k Hk Hr. rewrite Hout by lia.
        apply zlookup_insert_ne; [lia | exact Hk |].
        intros Heq. subst k. lia.
    + destruct (IH (i + 1) cells) as (sc & Hsc & Hlen & Hin & Hout); try lia.
      exists sc. split; [exact Hsc|]. split; [exact Hlen|]. split.
      * intros k Hk Hr. apply Hin; [exact Hk|].
        assert (k * 2 ^ f <> i); [|lia].
        intros Heq. apply Hmod. rewrite <- Heq. apply Z.mod_mul. lia.
      * intros k Hk Hr. apply Hout; [exact Hk | lia].
Qed.

(** X1: what [precalculate_sumcount] computes from a usage map of
    [total_blocks] bytes into the [(total_blocks >> factor) + 1] (or
    more) cells it allocated: the entry of every stride boundary below
    [total_blocks] is the number of bytes 1 before the boundary; an
    entry whose boundary is [total_blocks] or more is the cell as
    [sys_malloc] left it. *)
Theorem sumcount_entries (bitmap cells : list Z) (f : Z) :
  0 <= f -> Z.of_nat (length bitmap) < 2 ^ 64 ->
  Z.of_nat (length bitmap) / 2 ^ f < Z.of_nat (length cells) ->
  exists sc,
    sumcount_loop (length bitmap) 0 0 f (Some bitmap) (Some cells) = Done (Some sc)
    /\ length sc = length cells
    /\ (forall k, 0 <= k -> k * 2 ^ f < Z.of_nat (length bitmap) ->
          zlookup sc k = Some (count_used (take (Z.to_nat (k * 2 ^ f)) bitmap)))
    /\ (forall k, 0 <= k -> Z.of_nat (length bitmap) <= k * 2 ^ f ->
          zlookup sc k = zlookup cells k).
Proof.
  intros Hf Htb Hcells.
  destruct (sumcount_loop_spec bitmap f (length bitmap) 0 cells)
    as (sc & Hsc & Hlen & Hin & Hout); try lia.
  exists sc. change (count_used (take (Z.to_nat 0) bitmap)) with 0 in Hsc.
  split; [exact Hsc|]. split; [exact Hlen|]. split.
  - intros k Hk Hlt. apply Hin; [exact Hk|].
    assert (0 < 2 ^ f) by (apply Z.pow_pos_nonneg; lia). nia.
  - intros k Hk Hge. apply Hout; [exact Hk | lia].
Qed.

(** The loop of [v1_seek] adds the number of non-zero bytes it passes. *)
Lemma seek_loop_spec (bitmap : list Z) (n : nat) :
  forall (pbn c : Z),
    0 <= pbn -> pbn + Z.of_nat n <= Z.of_nat (length bitmap) ->
    Z.of_nat (length bitmap) < 2 ^ 64 ->
    0 <= c -> c + Z.of_nat n < 2 ^ 64 ->
    seek_loop n pbn c (Some bitmap)
    = Done (c + count_nonzero (take n (drop (Z.to_nat pbn) bitmap))).
Proof.
  induction n as [|n IH]; intros pbn c Hp Hn Htb Hc Hcn.
  - cbn [seek_loop]. rewrite take_0. unfold count_nonzero. cbn. f_equal. lia.
  - destruct (lookup_lt_is_Some_2 bitmap (Z.to_nat pbn)) as [b Hb]; [lia|].
    cbn [seek_loop]. unfold pread, deref, aread.
    unfold mbind, outcome_mbind, outcome_bind.
    replace (zlookup bitmap pbn) with (Some b)
      by (unfold zlookup; destruct (Z.ltb_spec pbn 0); [lia | symmetry; exact Hb]).
    rewrite (u64_small (pbn + 1)) by lia.
    rewrite (drop_S _ _ _ Hb). cbn [take].
    change (b :: take n (drop (S (Z.to_nat pbn)) bitmap))
      with ([b] ++ take n (drop (S (Z.to_nat pbn)) bitmap)).
    assert (Hcount : count_nonzero ([b] ++ take n (drop (S (Z.to_nat pbn)) bitmap))
                     = (if b =? 0 then 0 else 1)
                       + count_nonzero (take n (drop (S (Z.to_nat pbn)) bitmap))).
    { unfold count_nonzero. rewrite filter_app, length_app, Nat2Z.inj_add. f_equal.
      rewrite filter_cons, filter_nil.
      destruct (Z.eqb_spec b 0); destruct (decide (b <> 0)); try contradiction;
        try reflexivity; tauto. }
    rewrite Hcount.
    replace (S (Z.to_nat pbn)) with (Z.to_nat (pbn + 1)) by lia.
    destruct (Z.eqb_spec b 0).
    + rewrite IH by lia. f_equal.
    + rewrite (u64_small (c + 1)) by lia. rewrite IH by lia. f_equal. lia.
Qed.

Lemma clean_sublist (l : list Z) (n k : nat) : clean l -> clean (take n (drop k l)).
Proof.
  unfold clean. intros H. apply Forall_take, Forall_drop, H.
Qed.

Lemma count_used_app (l1 l2 : list Z) :
  count_used (l1 ++ l2) = count_used l1 + count_used l2.
Proof. unfold count_used. rewrite filter_app, length_app. lia. Qed.

Lemma stride_floor (b f : Z) :
  0 <= f -> Z.land b (Z.lnot (Z.shiftl 1 f - 1)) = b / 2 ^ f * 2 ^ f.
Proof.
  intros Hf. rewrite Z.shiftl_1_l.
  replace (2 ^ f - 1) with (Z.ones f) by (rewrite Z.ones_equiv; lia).
  rewrite <- Z.ldiff_land, Z.ldiff_ones_r by exact Hf.
  rewrite Z.shiftl_mul_pow2, Z.shiftr_div_pow2 by exact Hf. reflexivity.
Qed.

Section Seek.
Context {FMT : ImageFormat} {CF : ChangeFile} {SD : Backends}.

(** On a usage map of bytes 0 and 1 whose sum index is the one
    [precalculate_sumcount] computes, [v1_seek] to a block below
    [total_blocks] leaves in [v1_nvbcount] the number of used blocks
    before it. *)
Theorem v1_seek_counts_used (m : machine) (v1p : v1_context)
    (bitmap sc : list Z) (b : Z) :
  PCTX_HAVE_VERDEP (m_pcp m) = true ->
  pc_verdep (m_pcp m) = Some v1p ->
  v1_bitmap v1p = Some bitmap -> v1_sumcount v1p = Some sc ->
  0 <= v1_bitmap_factor v1p ->
  (forall k, 0 <= k -> k * 2 ^ v1_bitmap_factor v1p < Z.of_nat (length bitmap) ->
     zlookup sc k
     = Some (count_used (take (Z.to_nat (k * 2 ^ v1_bitmap_factor v1p)) bitmap))) ->
  clean bitmap -> Z.of_nat (length bitmap) < 2 ^ 64 ->
  0 <= b < Z.of_nat (length bitmap) ->
  exists e m',
    v1_seek b m = Done (e, m')
    /\ v1_nvbcount <$> pc_verdep (m_pcp m')
       = Some (count_used (take (Z.to_nat b) bitmap)).
Proof.
  intros Hv Hvd Hbm Hsc Hf Hent Hclean Htb Hb.
  destruct m as [pcp os disk]. cbn [m_pcp] in *.
  set (f := v1_bitmap_factor v1p) in *.
  assert (Hpow : 0 < 2 ^ f) by (apply Z.pow_pos_nonneg; lia).
  set (k := b / 2 ^ f).
  assert (Hk : 0 <= k) by (apply Z.div_pos; lia).
  assert (Hkb : k * 2 ^ f <= b) by (unfold k; pose proof (Z.mul_div_le b (2 ^ f)); lia).
  pose proof (count_used_bound (take (Z.to_nat (k * 2 ^ f)) bitmap)) as Hcb.
  rewrite length_take in Hcb.
  assert (Hcount :
    count_used (take (Z.to_nat (k * 2 ^ f)) bitmap)
    + count_nonzero (take (Z.to_nat (b - k * 2 ^ f))
                       (drop (Z.to_nat (k * 2 ^ f)) bitmap))
    = count_used (take (Z.to_nat b) bitmap)).
  { rewrite clean_count by (apply clean_sublist, Hclean).
    rewrite <- count_used_app, take_take_drop. do 2 f_equal. lia. }
  unfold v1_seek. msimp. rewrite Hv. msimp. rewrite Hvd. msimp.
  rewrite Hsc, Hbm. fold f.
  unfold pread, deref, aread. msimp.
  rewrite Z.shiftr_div_pow2 by exact Hf. fold k.
  rewrite (Hent k Hk) by lia.
  rewrite stride_floor by exact Hf. fold k.
  rewrite seek_loop_spec by lia. rewrite Hcount.
  msimp. rewrite Hvd. msimp.
  destruct (pc_cf_handle pcp) as [h|] eqn:Hh.
  - unfold call_cf. cbn [m_pcp m_disk m_os pc_cf_handle set_pc_verdep].
    rewrite Hh. destruct (cf_seek h b disk) as [[e h'] d'].
    eexists _, _. split; [reflexivity|]. reflexivity.
  - eexists _, _. split; [reflexivity|]. reflexivity.
Qed.

(** [rblock2offset] is the offset formula of the specification when the
    offset fits the signed 64-bit result. *)
Lemma rblock2offset_spec (pcp : pc_context) (usage_map : list Z) (b : Z) :
  let N := count_used (take (Z.to_nat b) usage_map) in
  0 <= head_size (pc_head pcp) -> 0 <= block_size (pc_head pcp) ->
  0 <= checksum_size (pc_head pcp) -> 0 <= blocks_per_checksum (pc_head pcp) ->
  spec_offset (pc_head pcp) usage_map b < 2 ^ 63 ->
  rblock2offset pcp N = spec_offset (pc_head pcp) usage_map b.
Proof.
  intros N Hh Hbs Hcs Hbpc. unfold spec_offset, rblock2offset. fold N.
  pose proof (count_used_bound (take (Z.to_nat b) usage_map)) as [HN _]. fold N in HN.
  assert (Hq : 0 <= N / blocks_per_checksum (pc_head pcp)).
  { destruct (Z.eq_dec (blocks_per_checksum (pc_head pcp)) 0) as [->|];
      [rewrite Z.div_0_r; lia | apply Z.div_pos; lia]. }
  intros Hlt.
  assert (Hs64 : forall x, 0 <= x < 2 ^ 63 -> s64 (u64 x) = x).
  { intros x Hx. rewrite u64_small by lia. unfold s64.
    rewrite Z.mod_small by lia. lia. }
  destruct (Z.eqb_spec (blocks_per_checksum (pc_head pcp)) 0) as [H0|H0].
  - rewrite H0, Z.div_0_r, Z.mul_0_l, Z.add_0_r in *. apply Hs64. nia.
  - rewrite (u64_small (head_size _ + _)) by nia. apply Hs64. nia.
Qed.

(** X2: the offset formula on usage maps of bytes 0 and 1: after [v1_seek]
    to a block [b] below [total_blocks], the offset [v1_readblock]
    computes for a block read from the image, [rblock2offset] of the
    count [v1_seek] left, is head_size + N * block_size
    + (N / blocks_per_checksum) * checksum_size with N the number of
    used blocks before [b]. *)
Theorem seek_offset_formula (m : machine) (v1p : v1_context)
    (bitmap sc : list Z) (b : Z) :
  PCTX_HAVE_VERDEP (m_pcp m) = true ->
  pc_verdep (m_pcp m) = Some v1p ->
  v1_bitmap v1p = Some bitmap -> v1_sumcount v1p = Some sc ->
  0 <= v1_bitmap_factor v1p ->
  (forall k, 0 <= k -> k * 2 ^ v1_bitmap_factor v1p < Z.of_nat (length bitmap) ->
     zlookup sc k
     = Some (count_used (take (Z.to_nat (k * 2 ^ v1_bitmap_factor v1p)) bitmap))) ->
  clean bitmap -> Z.of_nat (length bitmap) < 2 ^ 64 ->
  0 <= b < Z.of_nat (length bitmap) ->
  0 <= head_size (pc_head (m_pcp m)) -> 0 <= block_size (pc_head (m_pcp m)) ->
  0 <= checksum_size (pc_head (m_pcp m)) ->
  0 <= blocks_per_checksum (pc_head (m_pcp m)) ->
  spec_offset (pc_head (m_pcp m)) bitmap b < 2 ^ 63 ->
  exists e m' v1p',
    v1_seek b m = Done (e, m')
    /\ pc_verdep (m_pcp m') = Some v1p'
    /\ v1_nvbcount v1p' = count_used (take (Z.to_nat b) bitmap)
    /\ rblock2offset (m_pcp m') (v1_nvbcount v1p')
       = spec_offset (pc_head (m_pcp m)) bitmap b.
Proof.
  intros Hv Hvd Hbm Hsc Hf Hent Hclean Htb Hb Hh Hbs Hcs Hbpc Hlt.
  destruct (v1_seek_counts_used m v1p bitmap sc b) as (e & m' & Hs & Hn);
    try assumption.
  assert (Hhead : pc_head (m_pcp m') = pc_head (m_pcp m)).
  { revert Hs. destruct m as [pcp os disk]. unfold v1_seek. msimp.
    cbn [m_pcp] in Hv, Hvd. rewrite Hv. msimp. rewrite Hvd. msimp.
    destruct (pread _ _ _) as [hint|]; [|discriminate]. msimp.
    destruct (seek_loop _ _ _ _) as [nvb|]; [|discriminate]. msimp.
    rewrite Hvd. msimp.
    destruct (pc_cf_handle pcp) as [h|] eqn:Hh'.
    - unfold call_cf. cbn [m_pcp m_disk m_os pc_cf_handle set_pc_verdep].
      rewrite Hh'. destruct (cf_seek h b disk) as [[e' h'] d'].
      intros H. inversion H; subst. reflexivity.
    - intros H. inversion H; subst. reflexivity. }
  destruct (pc_verdep (m_pcp m')) as [v1p'|] eqn:Hvd'; [|discriminate].
  cbn in Hn. assert (Hn' : v1_nvbcount v1p' = count_used (take (Z.to_nat b) bitmap))
    by congruence.
  exists e, m', v1p'. split; [exact Hs|]. split; [exact Hvd'|].
  split; [exact Hn'|].
  rewrite Hn'. rewrite <- Hhead in *. apply rblock2offset_spec; assumption.
Qed.

End Seek.

Lemma sumcount_entries_witness :
  exists sc,
    sumcount_loop (length [1; 0; 1; 1; 0]) 0 0 1 (Some [1; 0; 1; 1; 0])
      (Some [7; 7; 7]) = Done (Some sc)
    /\ length sc = length [7; 7; 7]
    /\ (forall k, 0 <= k -> k * 2 ^ 1 < Z.of_nat (length [1; 0; 1; 1; 0]) ->
          zlookup sc k
          = Some (count_used (take (Z.to_nat (k * 2 ^ 1)) [1; 0; 1; 1; 0])))
    /\ (forall k, 0 <= k -> Z.of_nat (length [1; 0; 1; 1; 0]) <= k * 2 ^ 1 ->
          zlookup sc k = zlookup [7; 7; 7] k).
Proof.
  apply (sumcount_entries [1; 0; 1; 1; 0] [7; 7; 7] 1).
  - lia.
  - vm_compute. reflexivity.
  - vm_compute. reflexivity.
Defined.

Lemma seek_offset_formula_witness :
  exists e m' v1p',
    v1_seek 6 (ready_machine s1_image) = Done (e, m')
    /\ pc_verdep (m_pcp m') = Some v1p'
    /\ v1_nvbcount v1p' = count_used (take (Z.to_nat 6) [1; 0; 1; 1; 0; 0; 1; 0])
    /\ rblock2offset (m_pcp m') (v1_nvbcount v1p')
       = spec_offset (pc_head (m_pcp (ready_machine s1_image)))
           [1; 0; 1; 1; 0; 0; 1; 0] 6.
Proof.
  apply (seek_offset_formula (ready_machine s1_image)
           (verdep_of (ready_machine s1_image)) [1; 0; 1; 1; 0; 0; 1; 0]
           [0] 6).
  - vm_compute. reflexivity.
  - vm_compute. reflexivity.
  - vm_compute. reflexivity.
  - vm_compute. reflexivity.
  - vm_compute. discriminate.
  - intros k Hk Hlt.
    replace (v1_bitmap_factor (verdep_of (ready_machine s1_image))) with 10 in *
      by (vm_compute; reflexivity).
    assert (k = 0) as -> by (cbn [length] in Hlt; lia).
    vm_compute. reflexivity.
  - unfold clean. repeat (constructor; [auto|]). constructor.
  - vm_compute. reflexivity.
  - cbn [length]. lia.
  - vm_compute. discriminate.
  - vm_compute. discriminate.
  - vm_compute. discriminate.
  - vm_compute. discriminate.
  - vm_compute. reflexivity.
Defined.

Example s1_offset_of_block_6 :
  spec_offset (pc_head (m_pcp (ready_machine s1_image)))
    [1; 0; 1; 1; 0; 0; 1; 0] 6 = 88.
Proof. vm_compute. reflexivity. Qed.

(** ** partclone_open *)

Section Open.
Context {FMT : ImageFormat} {CF : ChangeFile}.

Lemma call_open_existing (m : machine) (path : string) (omode : sysdep_open_mode_t)
    (image : list Z) :
  os_alloc (m_os m) = [] ->
  os_files (m_os m) !! path = Some image ->
  call_open path omode m
  = Done (0, mk_machine (set_pc_fd (Some (mk_fh path (omode2flags omode) 0)) (m_pcp m))
               (log_call (CallOpen path omode) (m_os m)) (m_disk m)).
Proof.
  intros Halloc Hfile. unfold call_open. change (sys_open _) with posix_open.
  unfold posix_open, libc_malloc. cbn [log_call os_alloc os_files]. rewrite Halloc.
  change (os_files (log_call (CallOpen path omode) (m_os m)))
    with (os_files (m_os m)).
  rewrite Hfile. reflexivity.
Qed.

(** partclone_open on an existing file, with memory available and no
    change file named. *)
Lemma partclone_open_existing (path : string) (omode : sysdep_open_mode_t)
    (os : os_state) (disk : cf_disk) (image : list Z) :
  os_files os !! path = Some image ->
  os_alloc os = [] ->
  exists pcp os',
    partclone_open path None omode (Some POSIX_DISPATCH) os disk
    = Done (0, Some pcp, os', disk)
    /\ opened_plain (mk_machine pcp os' disk) image
    /\ pc_fd pcp = Some (mk_fh path (omode2flags SYSDEP_OPEN_RO) 0)
    /\ pc_path pcp = Some path
    /\ pc_omode pcp = omode
    /\ pc_curblock pcp = 0
    /\ pc_flags pcp = Z.lor (Z.lor PC_VALID PC_OPEN) PC_HAVE_PATH
    /\ os_files os' = os_files os
    /\ os_alloc os' = []
    /\ os_trace os'
       = [CallMalloc (Z.of_nat (String.length path) + 1);
          CallOpen path SYSDEP_OPEN_RO; CallMalloc sizeof_pc_context]
         ++ os_trace os.
Proof.
  intros Hfile Halloc. unfold partclone_open.
  change (sys_malloc _) with posix_malloc.
  unfold posix_malloc, libc_malloc. cbn [log_call os_alloc]. rewrite Halloc.
  cbn [Z.eqb]. unfold partclone_open_body. msimp.
  erewrite call_open_existing; [|msimp; exact Halloc|msimp; exact Hfile].
  msimp. rewrite call_malloc_ok by (msimp; exact Halloc). msimp.
  eexists _, _. split; [reflexivity|].
  split; [|repeat split; try reflexivity; exact Halloc].
  unfold opened_plain, just_opened. msimp.
  repeat split; try reflexivity; try assumption.
  - rewrite length_replicate. lia.
  - eexists. repeat split; try reflexivity. exact Hfile.
Qed.

(** X3: partclone_open on an existing file, with memory available and
    no change file named, returns 0 and a context that is open and
    valid but not verified, holds the path and the open mode asked for,
    and has the file open for reading at offset 0 - whatever the mode,
    the file is opened read-only - and no file is changed. *)
Theorem open_existing_image (path : string) (omode : sysdep_open_mode_t)
    (os : os_state) (disk : cf_disk) (image : list Z) :
  os_files os !! path = Some image ->
  os_alloc os = [] ->
  exists pcp os',
    partclone_open path None omode (Some POSIX_DISPATCH) os disk
    = Done (0, Some pcp, os', disk)
    /\ opened_plain (mk_machine pcp os' disk) image
    /\ pc_fd pcp = Some (mk_fh path (omode2flags SYSDEP_OPEN_RO) 0)
    /\ pc_path pcp = Some path
    /\ pc_omode pcp = omode
    /\ pc_curblock pcp = 0
    /\ PCTX_READREADY pcp = false
    /\ os_files os' = os_files os.
Proof.
  intros Hfile Halloc.
  destruct (partclone_open_existing path omode os disk image Hfile Halloc)
    as (pcp & os' & Ho & Hp & Hfd & Hpath & Hom & Hcur & Hfl & Hf & _).
  exists pcp, os'. repeat (split; [assumption|]). split; [|exact Hf].
  unfold PCTX_READREADY, PCTX_FLAGS_SET. rewrite Hfl. reflexivity.
Qed.

(** X4: partclone_open of a path that names no file fails with ENOENT
    and returns no context, whatever the open mode (the image is opened
    read-only, so SYSDEP_CREATE creates nothing): no file is created or
    changed, and the backend is called three times: for the memory of
    the context, to open the file, and to free the context. *)
Theorem open_missing_image (path : string) (cfpath : option string)
    (omode : sysdep_open_mode_t) (os : os_state) (disk : cf_disk) :
  os_files os !! path = None ->
  os_alloc os = [] ->
  exists os',
    partclone_open path cfpath omode (Some POSIX_DISPATCH) os disk
    = Done (ENOENT, None, os', disk)
    /\ os_files os' = os_files os
    /\ os_trace os'
       = [CallFree; CallOpen path SYSDEP_OPEN_RO; CallMalloc sizeof_pc_context]
         ++ os_trace os.
Proof.
  intros Hfile Halloc. unfold partclone_open.
  change (sys_malloc _) with posix_malloc.
  unfold posix_malloc, libc_malloc. cbn [log_call os_alloc]. rewrite Halloc.
  cbn [Z.eqb]. unfold partclone_open_body. msimp.
  unfold call_open. change (sys_open _) with posix_open.
  unfold posix_open, libc_malloc. msimp. rewrite Halloc. msimp.
  rewrite Hfile. msimp.
  unfold partclone_close. msimp.
  unfold call_free. change (sys_free _) with posix_free. unfold posix_free. msimp.
  eexists. split; [reflexivity|]. split; reflexivity.
Qed.

(** Without a backend partclone_open returns EINVAL and does nothing. *)
Lemma open_without_backend (path : string) (cfpath : option string)
    (omode : sysdep_open_mode_t) (os : os_state) (disk : cf_disk) :
  partclone_open path cfpath omode None os disk = Done (EINVAL, None, os, disk).
Proof. reflexivity. Qed.

End Open.

(** ** partclone_verify on a well-formed version 1 image *)

Section VerifyOk.
Context {FMT : ImageFormat} {CF : ChangeFile}.

(** [sys_malloc] when the C library grants the allocation, and when it
    refuses it. *)
Lemma call_malloc_granted (m : machine) (n : Z) :
  hd true (os_alloc (m_os m)) = true ->
  call_malloc n m
  = Done (0, mk_machine (m_pcp m)
               (set_os_alloc (tl (os_alloc (m_os m)))
                  (log_call (CallMalloc n) (m_os m)))
               (m_disk m)).
Proof.
  intros H. unfold call_malloc. change (sys_malloc _) with posix_malloc.
  unfold posix_malloc, libc_malloc. cbn [log_call os_alloc].
  destruct (m_os m) as [f e a j t]. cbn in *.
  destruct a as [|[|] r]; try discriminate; reflexivity.
Qed.

Lemma call_malloc_refused (m : machine) (n : Z) :
  hd true (os_alloc (m_os m)) = false ->
  call_malloc n m
  = Done (ENOMEM,
          mk_machine (m_pcp m)
            (set_os_errno ENOMEM
               (set_os_alloc (tl (os_alloc (m_os m)))
                  (log_call (CallMalloc n) (m_os m))))
            (m_disk m)).
Proof.
  intros H. unfold call_malloc. change (sys_malloc _) with posix_malloc.
  unfold posix_malloc, libc_malloc. cbn [log_call os_alloc].
  destruct (m_os m) as [f e a j t]. cbn in *.
  destruct a as [|[|] r]; try discriminate; reflexivity.
Qed.

Lemma precalculate_sumcount_ok (m : machine) (v1p : v1_context) (bitmap : list Z) :
  pc_verdep (m_pcp m) = Some v1p ->
  v1_bitmap v1p = Some bitmap ->
  v1_bitmap_factor v1p = V1_DEFAULT_FACTOR ->
  totalblock (pc_head (m_pcp m)) = Z.of_nat (length bitmap) ->
  Z.of_nat (length bitmap) < 2 ^ 64 ->
  hd true (os_alloc (m_os m)) = true ->
  pc_cf_handle (m_pcp m) = None ->
  exists sc m',
    precalculate_sumcount m = Done (0, m')
    /\ sum_index sc bitmap V1_DEFAULT_FACTOR
    /\ pc_verdep (m_pcp m') = Some (set_v1_sumcount (Some sc) v1p)
    /\ pc_flags (m_pcp m') = pc_flags (m_pcp m)
    /\ pc_fd (m_pcp m') = pc_fd (m_pcp m)
    /\ pc_cf_handle (m_pcp m') = None
    /\ pc_dispatch (m_pcp m') = pc_dispatch (m_pcp m)
    /\ block_size (pc_head (m_pcp m')) = block_size (pc_head (m_pcp m))
    /\ totalblock (pc_head (m_pcp m')) = totalblock (pc_head (m_pcp m))
    /\ checksum_size (pc_head (m_pcp m')) = checksum_size (pc_head (m_pcp m))
    /\ blocks_per_checksum (pc_head (m_pcp m'))
       = blocks_per_checksum (pc_head (m_pcp m))
    /\ head_size (pc_head (m_pcp m')) = head_size (pc_head (m_pcp m))
    /\ device_size (pc_head (m_pcp m'))
       = u64 (totalblock (pc_head (m_pcp m)) * block_size (pc_head (m_pcp m)))
    /\ os_files (m_os m') = os_files (m_os m)
    /\ os_alloc (m_os m') = tl (os_alloc (m_os m))
    /\ pc_path (m_pcp m') = pc_path (m_pcp m)
    /\ pc_cf_path (m_pcp m') = pc_cf_path (m_pcp m)
    /\ os_trace (m_os m')
       = CallMalloc (u64 ((Z.of_nat (length bitmap) / 2 ^ V1_DEFAULT_FACTOR + 1) * 8))
         :: os_trace (m_os m)
    /\ m_disk m' = m_disk m.
Proof.
  intros Hvd Hbm Hf Htb Hlt Halloc Hcf.
  destruct m as [pcp os disk]. cbn [m_pcp m_os m_disk] in *.
  set (tb := Z.of_nat (length bitmap)) in *.
  assert (Hdiv : Z.shiftr tb V1_DEFAULT_FACTOR = tb / 2 ^ V1_DEFAULT_FACTOR)
    by (apply Z.shiftr_div_pow2; unfold V1_DEFAULT_FACTOR; lia).
  assert (Hpow : 2 ^ V1_DEFAULT_FACTOR = 1024) by reflexivity.
  assert (Htb0 : 0 <= tb) by (unfold tb; lia).
  assert (Hq : 0 <= tb / 2 ^ V1_DEFAULT_FACTOR <= tb)
    by (rewrite Hpow; split; [apply Z.div_pos; lia | apply Z.div_le_upper_bound; lia]).
  assert (Hent : u64 (Z.shiftr tb V1_DEFAULT_FACTOR + 1)
                 = tb / 2 ^ V1_DEFAULT_FACTOR + 1)
    by (rewrite Hdiv; apply u64_small; rewrite Hpow in *;
        pose proof (Z.mul_div_le tb 1024); lia).
  destruct (sumcount_loop_spec bitmap V1_DEFAULT_FACTOR (length bitmap) 0
              (fresh_cells
                 (set_os_alloc (tl (os_alloc os))
                    (log_call (CallMalloc (u64 ((tb / 2 ^ V1_DEFAULT_FACTOR + 1) * 8))) os))
                 (tb / 2 ^ V1_DEFAULT_FACTOR + 1)))
    as (sc & Hsc & Hlen & Hin & Hout).
  { unfold V1_DEFAULT_FACTOR. lia. }
  { lia. }
  { lia. }
  { exact Hlt. }
  { unfold fresh_cells. rewrite length_replicate. fold tb. lia. }
  change (count_used (take (Z.to_nat 0) bitmap)) with 0 in Hsc.
  exists sc.
  unfold precalculate_sumcount. msimp. rewrite Hvd. msimp.
  rewrite Htb, Hf, Hent.
  rewrite call_malloc_granted by exact Halloc. msimp. rewrite Hvd. msimp.
  rewrite Hbm. replace (Z.to_nat tb) with (length bitmap) by (unfold tb; lia).
  rewrite Hsc. msimp.
  destruct (device_size (pc_head pcp) =? u64 (tb * block_size (pc_head pcp))) eqn:Hds;
    msimp; rewrite Hcf; msimp.
  - eexists. split; [reflexivity|]. msimp.
    split. { intros k Hk Hklt. apply Hin; [exact Hk|]. fold tb in Hklt |- *.
             rewrite Hpow in *. lia. }
    repeat split; try reflexivity; try assumption.
    apply Z.eqb_eq in Hds. exact Hds.
  - eexists. split; [reflexivity|]. msimp.
    split. { intros k Hk Hklt. apply Hin; [exact Hk|]. fold tb in Hklt |- *.
             rewrite Hpow in *. lia. }
    repeat split; try reflexivity; try assumption.
Qed.

Lemma land_lor_from (fl g M0 M : Z) :
  Z.land fl M0 = M0 -> Z.land (Z.lor M0 g) M = M -> Z.land (Z.lor fl g) M = M.
Proof.
  intros H1 H2. apply Z.bits_inj'. intros n _.
  apply (f_equal (fun z => Z.testbit z n)) in H1, H2.
  rewrite ?Z.land_spec, ?Z.lor_spec in *.
  destruct (Z.testbit fl n), (Z.testbit g n), (Z.testbit M0 n), (Z.testbit M n);
    simpl in *; congruence.
Qed.

(** [v1_init] when no change file was named: the handle is allocated,
    the flags are raised, and a mode below read-write makes the context
    read-only. *)
Lemma v1_init_plain (m : machine) :
  PCTX_VALID (m_pcp m) = true ->
  hd true (os_alloc (m_os m)) = true ->
  pc_cf_path (m_pcp m) = None ->
  exists m',
    v1_init m = Done (0, m')
    /\ pc_flags (m_pcp m')
       = Z.lor (pc_flags (m_pcp m))
           (Z.lor (Z.lor PC_HAVE_VERDEP PC_VERSION_INIT)
              (if omode_int (pc_omode (m_pcp m)) <? omode_int SYSDEP_OPEN_RW
               then PC_READ_ONLY else 0))
    /\ pc_verdep (m_pcp m')
       = Some (set_v1_bitmap_factor V1_DEFAULT_FACTOR
                 (set_v1_crc_tab32 crc_tab32_init v1_context_zero))
    /\ pc_fd (m_pcp m') = pc_fd (m_pcp m)
    /\ pc_head_raw (m_pcp m') = pc_head_raw (m_pcp m)
    /\ pc_dispatch (m_pcp m') = pc_dispatch (m_pcp m)
    /\ pc_cf_handle (m_pcp m') = pc_cf_handle (m_pcp m)
    /\ pc_cf_path (m_pcp m') = None
    /\ pc_omode (m_pcp m') = pc_omode (m_pcp m)
    /\ pc_path (m_pcp m') = pc_path (m_pcp m)
    /\ os_files (m_os m') = os_files (m_os m)
    /\ os_alloc (m_os m') = tl (os_alloc (m_os m))
    /\ os_trace (m_os m') = CallMalloc sizeof_v1_context :: os_trace (m_os m)
    /\ m_disk m' = m_disk m.
Proof.
  intros Hvalid Halloc Hcf. unfold v1_init. msimp. rewrite Hvalid.
  rewrite (call_malloc_granted m _ Halloc). msimp. rewrite Hcf.
  cbn [bool_decide decide_rel]. 
  replace (bool_decide (is_Some (@None string))) with false
    by (symmetry; apply bool_decide_eq_false; intros [? ?]; discriminate).
  cbn [andb].
  destruct (omode_int (pc_omode (m_pcp m)) <? 2) eqn:Hom; msimp.
  - eexists. split; [reflexivity|]. msimp.
    split; [rewrite <- Z.lor_assoc; reflexivity|].
    repeat split; try reflexivity; try assumption.
  - eexists. split; [reflexivity|]. msimp.
    split; [rewrite Z.lor_0_r; reflexivity|].
    repeat split; try reflexivity; try assumption.
Qed.

Lemma v1_verify_ok (m : machine) (fh : file_handle) (v1p : v1_context)
    (hdr usage_map trailer rest : list Z) :
  PCTX_OPEN (m_pcp m) = true ->
  pc_verdep (m_pcp m) = Some v1p ->
  v1_bitmap_factor v1p = V1_DEFAULT_FACTOR ->
  pc_cf_handle (m_pcp m) = None ->
  hd true (os_alloc (m_os m)) = true ->
  hd true (tl (os_alloc (m_os m))) = true ->
  pc_fd (m_pcp m) = Some fh ->
  can_read (fh_flags fh) = true ->
  os_files (m_os m) !! fh_path fh = Some (hdr ++ usage_map ++ trailer ++ rest) ->
  sizeof_image_head_v1 = Z.of_nat (length hdr) ->
  memcmp_eq (h1_magic (pc_head_v1 (m_pcp m))) IMAGE_MAGIC IMAGE_MAGIC_SIZE = true ->
  h1_totalblock (pc_head_v1 (m_pcp m)) = Z.of_nat (length usage_map) ->
  Z.of_nat (length usage_map) < 2 ^ 64 ->
  MAGIC_LEN = Z.of_nat (length trailer) ->
  MAGIC_LEN < 2 ^ 64 ->
  memcmp_eq trailer cmagicstr MAGIC_LEN = true ->
  exists m' sc fh',
    v1_verify m = Done (0, m')
    /\ pc_flags (m_pcp m') = Z.lor (pc_flags (m_pcp m)) PC_HEAD_VALID
    /\ pc_verdep (m_pcp m')
       = Some (set_v1_sumcount (Some sc) (set_v1_bitmap (Some usage_map) v1p))
    /\ sum_index sc usage_map V1_DEFAULT_FACTOR
    /\ block_size (pc_head (m_pcp m')) = h1_block_size (pc_head_v1 (m_pcp m))
    /\ totalblock (pc_head (m_pcp m')) = Z.of_nat (length usage_map)
    /\ checksum_size (pc_head (m_pcp m')) = CRC_SIZE
    /\ blocks_per_checksum (pc_head (m_pcp m')) = 1
    /\ head_size (pc_head (m_pcp m'))
       = u64 (sizeof_image_head_v1 + Z.of_nat (length usage_map) + MAGIC_LEN)
    /\ pc_fd (m_pcp m') = Some fh'
    /\ fh_path fh' = fh_path fh /\ fh_flags fh' = fh_flags fh
    /\ pc_cf_handle (m_pcp m') = None
    /\ pc_dispatch (m_pcp m') = pc_dispatch (m_pcp m)
    /\ os_files (m_os m') = os_files (m_os m)
    /\ os_alloc (m_os m') = tl (tl (os_alloc (m_os m)))
    /\ pc_path (m_pcp m') = pc_path (m_pcp m)
    /\ pc_cf_path (m_pcp m') = pc_cf_path (m_pcp m)
    /\ os_trace (m_os m')
       = [CallMalloc (u64 ((Z.of_nat (length usage_map) / 2 ^ V1_DEFAULT_FACTOR + 1) * 8));
          CallRead (Some (fh_path fh)) MAGIC_LEN;
          CallRead (Some (fh_path fh)) (Z.of_nat (length usage_map));
          CallSeek (Some (fh_path fh)) sizeof_image_head_v1 SYSDEP_SEEK_ABSOLUTE;
          CallMalloc (Z.of_nat (length usage_map))]
         ++ os_trace (m_os m)
    /\ m_disk m' = m_disk m.
Proof.
  intros Hopen Hv1p Hfac Hcf Halloc Halloc2 Hfd Hread Hfile Hsize Hmagic Htb Htblt Hlen
    Hlenlt Hcmp.
  unfold v1_verify. msimp. rewrite Hopen, Hmagic. msimp.
  rewrite call_malloc_granted by exact Halloc. msimp.
  rewrite Hv1p. msimp.
  erewrite call_seek_absolute; [|msimp; exact Hfd|lia]. msimp.
  erewrite (call_read_exact _ _ hdr usage_map (trailer ++ rest));
    [|msimp; reflexivity|exact Hread|msimp; exact Hfile|msimp; exact Hsize
     |exact Htb|rewrite Htb; exact Htblt].
  msimp. rewrite !Z.eqb_refl. msimp.
  erewrite (call_read_exact _ _ (hdr ++ usage_map) trailer rest);
    [|msimp; reflexivity|exact Hread
     |msimp; rewrite <- app_assoc; exact Hfile
     |msimp; rewrite length_app, Nat2Z.inj_add, Hsize, Htb; reflexivity
     |exact Hlen|exact Hlenlt].
  msimp. rewrite !Z.eqb_refl.
  rewrite splice_full.
  2:{ unfold fresh_cells. rewrite length_fmap, length_replicate, Hlen. lia. }
  rewrite Hcmp. msimp.
  rewrite splice_full.
  2:{ unfold fresh_cells. rewrite length_fmap, length_replicate, Htb. lia. }
  match goal with
  | |- context [precalculate_sumcount ?m0] =>
      destruct (precalculate_sumcount_ok m0
                  (set_v1_bitmap (Some usage_map) v1p) usage_map)
        as (sc & m' & Hpre & Hidx & Hvd' & Hfl' & Hfd' & Hcf' & Hd' & Hbs' & Htb'
            & Hcs' & Hbpc' & Hhs' & Hds' & Hfiles' & Halloc' & Hpath' & Hcfp' & Htr' & Hdk')
  end.
  { msimp. reflexivity. }
  { reflexivity. }
  { exact Hfac. }
  { msimp. exact Htb. }
  { exact Htblt. }
  { msimp. exact Halloc2. }
  { msimp. exact Hcf. }
  rewrite Hpre. exists m', sc. eexists.
  split; [reflexivity|].
  rewrite Hfl', Hvd', Hfd', Hcf', Hd', Hbs', Htb', Hcs', Hbpc', Hhs', Hfiles', Halloc',
    Hpath', Hcfp', Htr', Hdk'.
  msimp. rewrite Htb.
  repeat split; try reflexivity; try assumption.
Qed.

Lemma flags_set_after (p p' : pc_context) (g f : Z) :
  PCTX_OPEN p = true ->
  pc_flags p' = Z.lor (pc_flags p) g ->
  Z.land (Z.lor (Z.lor PC_OPEN PC_VALID) g) (Z.lor f PC_VALID) = Z.lor f PC_VALID ->
  PCTX_FLAGS_SET p' f = true.
Proof.
  unfold PCTX_OPEN, PCTX_FLAGS_SET. intros Hopen -> Hg. apply Z.eqb_eq in Hopen.
  apply Z.eqb_eq. eapply land_lor_from; eassumption.
Qed.

Lemma opened_plain_with (m : machine) (image : list Z) :
  opened_plain m image -> opened_with [] m image.
Proof.
  intros ((Hopen & Hver & Hraw & Halloc & Hfh) & Hcfp & Hcfh).
  unfold opened_with. auto 10.
Qed.

(** partclone_verify on a well-formed version 1 image without a change
    file, as far as the allocation of the zeroed block: the first three
    allocations succeed, the image is verified and the flag PC_VERIFIED
    is raised. *)
Lemma partclone_verify_upto_zero_block (m : machine) (allocs : list bool)
    (image hdr usage_map trailer rest : list Z) :
  opened_with allocs m image ->
  hd true allocs = true -> hd true (tl allocs) = true ->
  hd true (tl (tl allocs)) = true ->
  v1_image_parts image hdr usage_map trailer rest ->
  memcmp_eq trailer cmagicstr MAGIC_LEN = true ->
  exists m2 sc fh2,
    partclone_verify m
    = (error ← call_malloc (block_size (pc_head (m_pcp m2)));
       if error =? 0 then
         modp (fun p =>
                 or_flags PC_HAVE_IVBLOCK
                   (set_pc_ivblock
                      (Some (replicate (Z.to_nat (block_size (pc_head (m_pcp m2)))) 0))
                      p));;
         mret error
       else modp (set_pc_ivblock None);; mret error) m2
    /\ pc_flags (m_pcp m2)
       = Z.lor (pc_flags (m_pcp m))
           (Z.lor (Z.lor
              (Z.lor (Z.lor PC_HAVE_VERDEP PC_VERSION_INIT)
                 (if omode_int (pc_omode (m_pcp m)) <? omode_int SYSDEP_OPEN_RW
                  then PC_READ_ONLY else 0)) PC_HEAD_VALID) PC_VERIFIED)
    /\ pc_curblock (m_pcp m2) = 0
    /\ pc_verdep (m_pcp m2)
       = Some (set_v1_sumcount (Some sc)
                 (set_v1_bitmap (Some usage_map) v1_context_init))
    /\ sum_index sc usage_map V1_DEFAULT_FACTOR
    /\ block_size (pc_head (m_pcp m2)) = h1_block_size (head_v1_of_bytes hdr)
    /\ totalblock (pc_head (m_pcp m2)) = Z.of_nat (length usage_map)
    /\ checksum_size (pc_head (m_pcp m2)) = CRC_SIZE
    /\ blocks_per_checksum (pc_head (m_pcp m2)) = 1
    /\ head_size (pc_head (m_pcp m2))
       = u64 (sizeof_image_head_v1 + Z.of_nat (length usage_map) + MAGIC_LEN)
    /\ pc_fd (m_pcp m2) = Some fh2
    /\ can_read (fh_flags fh2) = true
    /\ os_files (m_os m2) !! fh_path fh2 = Some image
    /\ fh_path <$> pc_fd (m_pcp m) = Some (fh_path fh2)
    /\ pc_cf_handle (m_pcp m2) = None
    /\ pc_dispatch (m_pcp m2) = Some 0%nat
    /\ pc_path (m_pcp m2) = pc_path (m_pcp m)
    /\ pc_cf_path (m_pcp m2) = None
    /\ os_files (m_os m2) = os_files (m_os m)
    /\ os_alloc (m_os m2) = tl (tl (tl allocs))
    /\ os_trace (m_os m2)
       = [CallMalloc (u64 ((Z.of_nat (length usage_map) / 2 ^ V1_DEFAULT_FACTOR + 1) * 8));
          CallRead (fh_path <$> pc_fd (m_pcp m)) MAGIC_LEN;
          CallRead (fh_path <$> pc_fd (m_pcp m)) (Z.of_nat (length usage_map));
          CallSeek (fh_path <$> pc_fd (m_pcp m)) sizeof_image_head_v1
            SYSDEP_SEEK_ABSOLUTE;
          CallMalloc (Z.of_nat (length usage_map));
          CallMalloc sizeof_v1_context;
          CallRead (fh_path <$> pc_fd (m_pcp m)) sizeof_image_head_v1]
         ++ os_trace (m_os m)
    /\ m_disk m2 = m_disk m.
Proof.
  intros (Hopen & Hver & Hraw & Halloc & (fh & Hfd & Hpos & Hread & Hfile) & Hcfp & Hcfh)
         Ha1 Ha2 Ha3
         (-> & Hsize & Hversion & Hmagic & Htb & Hlen & Hb1 & Hb2 & Hb3) Hcmp.
  unfold partclone_verify. msimp. rewrite Hopen.
  erewrite (call_read_exact _ _ [] hdr (usage_map ++ trailer ++ rest));
    [|exact Hfd|exact Hread|exact Hfile|exact Hpos|exact Hsize
     |rewrite Hsize; exact Hb1].
  msimp. rewrite !Z.eqb_refl. msimp.
  rewrite splice_full by (rewrite Hsize, Nat2Z.id in Hraw; exact Hraw).
  unfold pc_head_v1 at 1. msimp.
  unfold version_table at 1. cbn [find_version version].
  rewrite Hversion. msimp.
  unfold dispatch. msimp. unfold version_table at 1.
  cbn [lookup list_lookup version_init version_verify]. msimp.
  match goal with
  | |- context [v1_init ?m0] =>
      destruct (v1_init_plain m0) as
        (m1 & Hinit & Hfl1 & Hvd1 & Hfd1 & Hraw1 & Hd1 & Hcfh1 & Hcfp1 & Hom1
         & Hpath1 & Hfiles1 & Halloc1 & Htr1 & Hdk1);
      [apply PCTX_OPEN_VALID; exact Hopen
      |cbn [m_os log_call os_alloc]; rewrite Halloc; exact Ha1
      |exact Hcfp |]
  end.
  rewrite Hinit. msimp. cbn [m_pcp m_os pc_flags pc_fd pc_head_raw pc_dispatch
    pc_cf_handle pc_omode pc_path set_pc_dispatch set_pc_head_raw set_pc_fd
    os_files os_alloc log_call] in *.
  destruct (v1_verify_ok m1 (set_fh_pos (0 + sizeof_image_head_v1) fh)
              (set_v1_bitmap_factor V1_DEFAULT_FACTOR
                 (set_v1_crc_tab32 crc_tab32_init v1_context_zero))
              hdr usage_map trailer rest)
    as (m2 & sc & fh2 & Hverify & Hfl2 & Hvd2 & Hidx & Hbs2 & Htb2 & Hcs2 & Hbpc2
        & Hhs2 & Hfd2 & Hp2 & Hflg2 & Hcfh2 & Hd2 & Hfiles2 & Halloc2 & Hpath2 & Hcfp2
        & Htr2 & Hdk2).
  - eapply PCTX_FLAGS_SET_or; [exact Hfl1|]. exact Hopen.
  - exact Hvd1.
  - reflexivity.
  - rewrite Hcfh1. exact Hcfh.
  - rewrite Halloc1, Halloc. exact Ha2.
  - rewrite Halloc1, Halloc. exact Ha3.
  - rewrite Hfd1. rewrite Hpos. reflexivity.
  - exact Hread.
  - rewrite Hfiles1. exact Hfile.
  - exact Hsize.
  - unfold pc_head_v1. rewrite Hraw1. exact Hmagic.
  - unfold pc_head_v1. rewrite Hraw1. exact Htb.
  - exact Hb2.
  - exact Hlen.
  - rewrite Hlen. exact Hb3.
  - exact Hcmp.
  - rewrite Hverify. msimp.
    exists (mk_machine (set_pc_curblock 0 (or_flags PC_VERIFIED (m_pcp m2)))
              (m_os m2) (m_disk m2)), sc, fh2.
    split; [reflexivity|]. msimp.
    rewrite Hfl2, Hfl1, Hvd2, Hbs2, Htb2, Hcs2, Hbpc2, Hhs2, Hfd2, Hcfh2, Hd2, Hd1,
      Hpath2, Hpath1, Hcfp2, Hcfp1, Hfiles2, Hfiles1, Halloc2, Halloc1, Halloc,
      Htr2, Htr1, Hdk2, Hdk1, Hfd, Hp2, Hflg2.
    unfold pc_head_v1. rewrite Hraw1. cbn [fmap option_fmap option_map fh_path
      fh_flags set_fh_pos].
    split; [rewrite !Z.lor_assoc; reflexivity|].
    repeat split; try reflexivity; try assumption.
Qed.

(** partclone_verify on a well-formed version 1 image without a change
    file: what it returns and the context it leaves. *)
Lemma partclone_verify_loads (m : machine)
    (image hdr usage_map trailer rest : list Z) :
  opened_plain m image ->
  v1_image_parts image hdr usage_map trailer rest ->
  memcmp_eq trailer cmagicstr MAGIC_LEN = true ->
  exists m',
    partclone_verify m = Done (0, m')
    /\ loaded m' image usage_map
    /\ synced m' usage_map
    /\ pc_curblock (m_pcp m') = 0
    /\ block_size (pc_head (m_pcp m')) = h1_block_size (head_v1_of_bytes hdr)
    /\ checksum_size (pc_head (m_pcp m')) = CRC_SIZE
    /\ blocks_per_checksum (pc_head (m_pcp m')) = 1
    /\ head_size (pc_head (m_pcp m'))
       = u64 (sizeof_image_head_v1 + Z.of_nat (length usage_map) + MAGIC_LEN)
    /\ PCTX_READ_ONLY (m_pcp m')
       = PCTX_READ_ONLY (m_pcp m)
         || (omode_int (pc_omode (m_pcp m)) <? omode_int SYSDEP_OPEN_RW)
    /\ pc_flags (m_pcp m')
       = Z.lor (pc_flags (m_pcp m))
           (Z.lor (Z.lor (Z.lor
              (Z.lor (Z.lor PC_HAVE_VERDEP PC_VERSION_INIT)
                 (if omode_int (pc_omode (m_pcp m)) <? omode_int SYSDEP_OPEN_RW
                  then PC_READ_ONLY else 0)) PC_HEAD_VALID) PC_VERIFIED)
              PC_HAVE_IVBLOCK)
    /\ pc_path (m_pcp m') = pc_path (m_pcp m)
    /\ pc_cf_path (m_pcp m') = None
    /\ os_files (m_os m') = os_files (m_os m)
    /\ os_alloc (m_os m') = []
    /\ os_trace (m_os m')
       = [CallMalloc (h1_block_size (head_v1_of_bytes hdr));
          CallMalloc (u64 ((Z.of_nat (length usage_map) / 2 ^ V1_DEFAULT_FACTOR + 1) * 8));
          CallRead (fh_path <$> pc_fd (m_pcp m)) MAGIC_LEN;
          CallRead (fh_path <$> pc_fd (m_pcp m)) (Z.of_nat (length usage_map));
          CallSeek (fh_path <$> pc_fd (m_pcp m)) sizeof_image_head_v1
            SYSDEP_SEEK_ABSOLUTE;
          CallMalloc (Z.of_nat (length usage_map));
          CallMalloc sizeof_v1_context;
          CallRead (fh_path <$> pc_fd (m_pcp m)) sizeof_image_head_v1]
         ++ os_trace (m_os m)
    /\ m_disk m' = m_disk m
    /\ fh_path <$> pc_fd (m_pcp m') = fh_path <$> pc_fd (m_pcp m).
Proof.
  intros Hopened Hparts Hcmp.
  pose proof Hopened as ((Hopen & _) & _).
  destruct (partclone_verify_upto_zero_block m [] image hdr usage_map trailer rest
              (opened_plain_with m image Hopened) eq_refl eq_refl eq_refl Hparts Hcmp)
    as (m2 & sc & fh2 & Heq & Hfl2 & Hcur2 & Hvd2 & Hidx & Hbs2 & Htb2 & Hcs2 & Hbpc2
        & Hhs2 & Hfd2 & Hread2 & Hfile2 & Hfp & Hcfh2 & Hd2 & Hpath2 & Hcfp2 & Hfiles2
        & Halloc2 & Htr2 & Hdk2).
  rewrite Heq. msimp.
  rewrite call_malloc_ok by exact Halloc2. msimp.
  eexists. split; [reflexivity|].
  match goal with |- loaded ?mF _ _ /\ _ => set (mf := mF) end.
  set (g := Z.lor (Z.lor (Z.lor
               (Z.lor (Z.lor PC_HAVE_VERDEP PC_VERSION_INIT)
                  (if omode_int (pc_omode (m_pcp m)) <? omode_int SYSDEP_OPEN_RW
                   then PC_READ_ONLY else 0)) PC_HEAD_VALID) PC_VERIFIED)
             PC_HAVE_IVBLOCK).
  assert (Hflags : pc_flags (m_pcp mf) = Z.lor (pc_flags (m_pcp m)) g).
  { unfold mf, or_flags. cbn [m_pcp pc_flags set_pc_flags set_pc_ivblock].
    rewrite Hfl2. unfold g. rewrite !Z.lor_assoc. reflexivity. }
  assert (Hvdf : pc_verdep (m_pcp mf) = pc_verdep (m_pcp m2)) by reflexivity.
  assert (Hheadf : pc_head (m_pcp mf) = pc_head (m_pcp m2)) by reflexivity.
  assert (Hset : forall f,
            Z.land (Z.lor (Z.lor PC_OPEN PC_VALID) g) (Z.lor f PC_VALID)
            = Z.lor f PC_VALID ->
            PCTX_FLAGS_SET (m_pcp mf) f = true).
  { intros f Hf. unfold PCTX_FLAGS_SET. rewrite Hflags. apply Z.eqb_eq.
    eapply land_lor_from; [|exact Hf].
    unfold PCTX_OPEN, PCTX_FLAGS_SET in Hopen. apply Z.eqb_eq in Hopen. exact Hopen. }
  split; [|split; [|split; [exact Hcur2|]]].
  - (* loaded *)
    unfold loaded. rewrite Hheadf, Hvdf.
    split.
    { unfold PCTX_READREADY. apply Hset.
      unfold g. destruct (_ <? _); reflexivity. }
    split.
    { unfold PCTX_HAVE_VERDEP. rewrite Hvdf, Hvd2.
      apply andb_true_iff. split.
      - apply Hset. unfold g. destruct (_ <? _); reflexivity.
      - apply bool_decide_eq_true. eauto. }
    split.
    { unfold has_dispatch. change (pc_dispatch (m_pcp mf)) with (pc_dispatch (m_pcp m2)).
      rewrite Hd2. exists 0%nat. eexists. split; reflexivity. }
    split; [exact Hcfh2|].
    split; [exact Htb2|].
    split; [reflexivity|].
    split.
    { eexists _, sc. split; [exact Hvd2|]. repeat split; assumption. }
    exists fh2. split; [exact Hfd2|]. split; [exact Hread2|]. exact Hfile2.
  - (* synced *)
    unfold synced, verdep_of. rewrite Hvdf, Hvd2.
    change (pc_curblock (m_pcp mf)) with (pc_curblock (m_pcp m2)). rewrite Hcur2.
    split; [lia|]. reflexivity.
  - rewrite Hheadf, Hbs2.
    split; [reflexivity|]. split; [exact Hcs2|]. split; [exact Hbpc2|].
    split; [exact Hhs2|].
    split;
      [|split; [exact Hflags|];
        change (pc_path (m_pcp mf)) with (pc_path (m_pcp m2));
        change (pc_cf_path (m_pcp mf)) with (pc_cf_path (m_pcp m2));
        change (os_files (m_os mf)) with (os_files (m_os m2));
        change (os_alloc (m_os mf)) with (os_alloc (m_os m2));
        change (os_trace (m_os mf))
          with (CallMalloc (block_size (pc_head (m_pcp m2))) :: os_trace (m_os m2));
        change (m_disk mf) with (m_disk m2);
        change (pc_fd (m_pcp mf)) with (pc_fd (m_pcp m2));
        rewrite Hpath2, Hcfp2, Hfiles2, Htr2, Hbs2, Hdk2, Hfd2, Hfp;
        repeat split; try reflexivity; exact Halloc2].
    unfold PCTX_READ_ONLY. rewrite Hflags. unfold g.
    rewrite (Z.land_lor_distr_l (pc_flags (m_pcp m))).
    change (omode_int SYSDEP_OPEN_RW) with 2.
    destruct (omode_int (pc_omode (m_pcp m)) <? 2).
    + change (Z.land (Z.lor _ PC_HAVE_IVBLOCK) PC_READ_ONLY) with PC_READ_ONLY.
      rewrite orb_true_r. apply Z.eqb_eq.
      rewrite Z.lor_comm. apply lor_land_absorb.
    + change (Z.land (Z.lor _ PC_HAVE_IVBLOCK) PC_READ_ONLY) with 0.
      rewrite Z.lor_0_r, orb_false_r. reflexivity.
Qed.

Lemma READREADY_VERIFIED (p : pc_context) :
  PCTX_READREADY p = true -> PCTX_VERIFIED p = true.
Proof.
  unfold PCTX_READREADY, PCTX_VERIFIED, PCTX_FLAGS_SET. intros H.
  apply Z.eqb_eq in H. apply Z.eqb_eq.
  eapply land_submask; [|exact H]. reflexivity.
Qed.

(** X5: partclone_verify accepts every well-formed version 1 image.  On
    a context just opened on the file (no change file named, memory
    available) it returns 0 and leaves the context loaded: ready to
    read, the cursor on block 0, the usage map and its sum index in the
    version handle, a zeroed block allocated, the normalized header
    taken from the file's header, and read-only exactly when the open
    mode is below read-write; partclone_blocksize and
    partclone_blockcount then return the block size of the header and
    the number of blocks, and no file is changed. *)
Theorem verify_loads_v1_image (m : machine)
    (image hdr usage_map trailer rest : list Z) :
  opened_plain m image ->
  v1_image_parts image hdr usage_map trailer rest ->
  memcmp_eq trailer cmagicstr MAGIC_LEN = true ->
  exists m',
    partclone_verify m = Done (0, m')
    /\ loaded m' image usage_map
    /\ synced m' usage_map
    /\ pc_curblock (m_pcp m') = 0
    /\ block_size (pc_head (m_pcp m')) = h1_block_size (head_v1_of_bytes hdr)
    /\ checksum_size (pc_head (m_pcp m')) = CRC_SIZE
    /\ blocks_per_checksum (pc_head (m_pcp m')) = 1
    /\ head_size (pc_head (m_pcp m'))
       = u64 (sizeof_image_head_v1 + Z.of_nat (length usage_map) + MAGIC_LEN)
    /\ PCTX_READ_ONLY (m_pcp m')
       = PCTX_READ_ONLY (m_pcp m)
         || (omode_int (pc_omode (m_pcp m)) <? omode_int SYSDEP_OPEN_RW)
    /\ partclone_blocksize m'
       = Done (s64 (h1_block_size (head_v1_of_bytes hdr)), m')
    /\ partclone_blockcount m' = Done (s64 (Z.of_nat (length usage_map)), m')
    /\ os_files (m_os m') = os_files (m_os m).
Proof.
  intros Ho Hp Hc.
  destruct (partclone_verify_loads m image hdr usage_map trailer rest Ho Hp Hc)
    as (m' & Hv & Hl & Hs & Hcur & Hbs & Hcs & Hbpc & Hhs & Hro & _ & _ & _ & Hf & _).
  exists m'. repeat (split; [assumption|]).
  pose proof Hl as (Hrr & _ & _ & _ & Htb & _).
  apply READREADY_VERIFIED in Hrr.
  unfold partclone_blocksize, partclone_blockcount. msimp.
  rewrite Hrr, Hbs, Htb. auto.
Qed.

End VerifyOk.

(** ** Seeks and reads on a loaded image *)

Section ReadLoaded.
Context {FMT : ImageFormat} {CF : ChangeFile}.

Lemma has_dispatch_dispatch (m : machine) :
  has_dispatch (m_pcp m) ->
  exists d i, dispatch m = Done (d, m) /\ version_table !! i = Some d.
Proof.
  intros (i & d & Hi & Hd). exists d, i. split; [|exact Hd].
  unfold dispatch. msimp. rewrite Hi. cbn. rewrite Hd. reflexivity.
Qed.

Lemma version_seek_is_v1 (d : v_dispatch_table_t) (i : nat) :
  version_table !! i = Some d -> version_seek d = v1_seek.
Proof.
  destruct i as [|[|i]]; simpl; intros H; inversion H; subst; reflexivity.
Qed.

Lemma zlookup_lookup {A : Type} (l : list A) (i : Z) :
  0 <= i -> zlookup l i = l !! Z.to_nat i.
Proof. intros H. unfold zlookup. destruct (Z.ltb_spec i 0); [lia|reflexivity]. Qed.

Lemma loaded_frame (m m' : machine) (image usage_map : list Z) :
  loaded m image usage_map ->
  pc_flags (m_pcp m') = pc_flags (m_pcp m) ->
  pc_dispatch (m_pcp m') = pc_dispatch (m_pcp m) ->
  pc_cf_handle (m_pcp m') = pc_cf_handle (m_pcp m) ->
  pc_head (m_pcp m') = pc_head (m_pcp m) ->
  pc_ivblock (m_pcp m') = pc_ivblock (m_pcp m) ->
  (exists n, pc_verdep (m_pcp m')
             = set_v1_nvbcount n <$> pc_verdep (m_pcp m)) ->
  (exists pos, pc_fd (m_pcp m') = set_fh_pos pos <$> pc_fd (m_pcp m)) ->
  os_files (m_os m') = os_files (m_os m) ->
  loaded m' image usage_map.
Proof.
  intros (Hrr & Hv & Hd & Hcf & Htb & Hiv & (v1p & sc & Hvd & Hbm & Hsc & Hf & Hidx)
          & (fh & Hfd & Hread & Hfile)) Hfl Hdisp Hcfh Hhead Hivb [n Hvd'] [pos Hfd'] Hfiles.
  unfold loaded. rewrite Hhead, Hcfh, Hivb, Hfiles.
  split; [unfold PCTX_READREADY, PCTX_FLAGS_SET in *; rewrite Hfl; exact Hrr|].
  split.
  { unfold PCTX_HAVE_VERDEP, PCTX_FLAGS_SET in *. rewrite Hfl, Hvd', Hvd.
    rewrite Hvd in Hv. apply andb_true_iff in Hv as [Hv _]. rewrite Hv.
    apply bool_decide_eq_true. cbn. eauto. }
  split; [unfold has_dispatch in *; rewrite Hdisp; exact Hd|].
  split; [exact Hcf|]. split; [exact Htb|]. split; [exact Hiv|].
  split.
  { rewrite Hvd', Hvd. cbn. eexists _, sc. split; [reflexivity|].
    repeat split; assumption. }
  rewrite Hfd', Hfd. cbn. eexists. split; [reflexivity|]. split; assumption.
Qed.

(** [v1_seek] to a block of a loaded image: the walking count becomes
    the number of used blocks before the block. *)
Lemma v1_seek_loaded (m : machine) (image usage_map : list Z) (b : Z) :
  loaded m image usage_map -> clean usage_map ->
  Z.of_nat (length usage_map) < 2 ^ 64 ->
  0 <= b <= Z.of_nat (length usage_map) ->
  b / 2 ^ V1_DEFAULT_FACTOR * 2 ^ V1_DEFAULT_FACTOR < Z.of_nat (length usage_map) ->
  exists m',
    v1_seek b m = Done (0, m')
    /\ loaded m' image usage_map
    /\ pc_curblock (m_pcp m') = pc_curblock (m_pcp m)
    /\ pc_head (m_pcp m') = pc_head (m_pcp m)
    /\ v1_nvbcount (verdep_of m') = count_used (take (Z.to_nat b) usage_map)
    /\ pc_flags (m_pcp m') = pc_flags (m_pcp m).
Proof.
  intros Hl Hclean Htb Hb Hstride.
  pose proof Hl as (Hrr & Hv & Hd & Hcf & Htbh & Hiv
                    & (v1p & sc & Hvd & Hbm & Hsc & Hf & Hidx)
                    & (fh & Hfd & Hread & Hfile)).
  destruct m as [pcp os disk]. cbn [m_pcp m_os] in *.
  assert (Hpow : 2 ^ V1_DEFAULT_FACTOR = 1024) by reflexivity.
  rewrite Hpow in *.
  set (k := b / 1024) in *.
  assert (Hk : 0 <= k) by (apply Z.div_pos; lia).
  assert (Hkb : k * 1024 <= b) by (unfold k; pose proof (Z.mul_div_le b 1024); lia).
  pose proof (count_used_bound (take (Z.to_nat (k * 1024)) usage_map)) as Hcb.
  rewrite length_take in Hcb.
  assert (Hcount :
    count_used (take (Z.to_nat (k * 1024)) usage_map)
    + count_nonzero (take (Z.to_nat (b - k * 1024))
                       (drop (Z.to_nat (k * 1024)) usage_map))
    = count_used (take (Z.to_nat b) usage_map)).
  { rewrite clean_count by (apply clean_sublist, Hclean).
    rewrite <- count_used_app, take_take_drop. do 2 f_equal. lia. }
  unfold v1_seek. msimp. rewrite Hv. msimp. rewrite Hvd. msimp.
  rewrite Hsc, Hbm, Hf.
  unfold pread, deref, aread. msimp.
  rewrite Z.shiftr_div_pow2 by (unfold V1_DEFAULT_FACTOR; lia). rewrite Hpow. fold k.
  rewrite (Hidx k Hk) by (rewrite Hpow; lia). rewrite Hpow.
  rewrite stride_floor by (unfold V1_DEFAULT_FACTOR; lia). rewrite Hpow. fold k.
  rewrite seek_loop_spec by lia. rewrite Hcount.
  msimp. rewrite Hvd. msimp. rewrite Hcf. msimp.
  eexists. split; [reflexivity|]. msimp.
  split; [|repeat split; reflexivity].
  eapply (loaded_frame (mk_machine pcp os disk)); [exact Hl|try reflexivity..].
  - cbn. rewrite Hvd. cbn. eexists. reflexivity.
  - cbn. rewrite Hfd. exists (fh_pos fh). cbn. destruct fh; reflexivity.
Qed.

Lemma spec_offset_nonneg (h : image_head) (usage_map : list Z) (i : Z) :
  sane_head h -> 0 <= spec_offset h usage_map i.
Proof.
  intros (Hh & Hbs & Hcs & Hbpc). unfold spec_offset.
  pose proof (count_used_bound (take (Z.to_nat i) usage_map)) as [HN _].
  assert (0 <= count_used (take (Z.to_nat i) usage_map) / blocks_per_checksum h).
  { destruct (Z.eq_dec (blocks_per_checksum h) 0) as [->|];
      [rewrite Z.div_0_r; lia | apply Z.div_pos; lia]. }
  nia.
Qed.

Lemma clean_lookup (usage_map : list Z) (i : nat) (b : Z) :
  clean usage_map -> usage_map !! i = Some b -> b = 0 \/ b = 1.
Proof. unfold clean. rewrite Forall_lookup. intros H Hb. exact (H i b Hb). Qed.

Lemma file_split (image : list Z) (off len : Z) :
  0 <= off -> 0 <= len -> off + len <= Z.of_nat (length image) ->
  image = take (Z.to_nat off) image ++ slice image off len
          ++ drop (Z.to_nat off + Z.to_nat len) image
  /\ Z.of_nat (length (take (Z.to_nat off) image)) = off
  /\ Z.of_nat (length (slice image off len)) = len.
Proof.
  intros Hoff Hlen Hle. unfold slice. split; [|split].
  - rewrite <- drop_drop, take_drop, take_drop. reflexivity.
  - rewrite length_take. lia.
  - rewrite length_take, length_drop. lia.
Qed.

(** [v1_readblock] on a loaded image, with the walking count in step
    with the cursor: the block of the device at the cursor. *)
Lemma v1_readblock_loaded (m : machine) (image usage_map buf : list Z) (cbp c : Z) :
  loaded m image usage_map -> synced m usage_map -> clean usage_map ->
  sane_head (pc_head (m_pcp m)) ->
  Z.of_nat (length image) < 2 ^ 63 ->
  Z.of_nat (length usage_map) < 2 ^ 64 ->
  pc_curblock (m_pcp m) = c -> c < Z.of_nat (length usage_map) ->
  blocks_in_file image (pc_head (m_pcp m)) usage_map c 1 ->
  exists m',
    v1_readblock buf cbp m
    = Done ((0, splice buf cbp
                  (logical_block image (pc_head (m_pcp m)) usage_map c)), m')
    /\ loaded m' image usage_map
    /\ pc_curblock (m_pcp m') = c
    /\ pc_head (m_pcp m') = pc_head (m_pcp m)
    /\ v1_nvbcount (verdep_of m')
       = count_used (take (Z.to_nat (c + 1)) usage_map)
    /\ pc_flags (m_pcp m') = pc_flags (m_pcp m).
Proof.
  intros Hl [Hc0 Hsync] Hclean Hsane Himg Htb Hcur Hc Hin.
  pose proof Hl as (Hrr & Hv & Hd & Hcf & Htbh & Hiv
                    & (v1p & sc & Hvd & Hbm & Hsc & Hf & Hidx)
                    & (fh & Hfd & Hread & Hfile)).
  pose proof Hsane as (Hh & Hbs & Hcs & Hbpc).
  destruct m as [pcp os disk]. unfold verdep_of in Hsync. cbn [m_pcp m_os] in *.
  rewrite Hvd in Hsync. cbn [default] in Hsync. rewrite Hcur in *.
  destruct (lookup_lt_is_Some_2 usage_map (Z.to_nat c)) as [b Hb]; [lia|].
  assert (Hzl : zlookup usage_map c = Some b) by (rewrite zlookup_lookup by lia; exact Hb).
  assert (Hnext : count_used (take (Z.to_nat (c + 1)) usage_map)
                  = count_used (take (Z.to_nat c) usage_map) + (if b =? 1 then 1 else 0)).
  { replace (Z.to_nat (c + 1)) with (S (Z.to_nat c)) by lia.
    rewrite (take_S_r _ _ _ Hb). apply count_used_snoc. }
  pose proof (count_used_bound (take (Z.to_nat c) usage_map)) as Hcb.
  rewrite length_take in Hcb.
  unfold v1_readblock. msimp. rewrite Hv, Hcf. msimp. rewrite Hvd. msimp.
  rewrite Hbm, Hcur. unfold pread, deref, aread. msimp. rewrite Hzl. msimp.
  unfold logical_block. rewrite Hzl. cbn [default].
  destruct (clean_lookup usage_map _ b Hclean Hb) as [-> | ->].
  - (* the block is not stored *)
    cbn [Z.eqb]. rewrite Hiv. msimp.
    unfold slice. rewrite drop_0, take_ge by (rewrite length_replicate; lia).
    eexists. split; [reflexivity|].
    split; [exact Hl|]. split; [exact Hcur|]. split; [reflexivity|].
    split; [|reflexivity].
    unfold verdep_of. cbn [m_pcp]. rewrite Hvd. cbn [default].
    rewrite Hnext, Hsync. cbn. lia.
  - (* the block is stored *)
    cbn [Z.eqb].
    specialize (Hin c ltac:(lia) Hzl).
    pose proof (spec_offset_nonneg (pc_head pcp) usage_map c Hsane) as Hoff.
    change (v1_nvbcount (id v1p)) with (v1_nvbcount v1p) in Hsync.
    rewrite Hsync.
    rewrite (rblock2offset_spec pcp usage_map c Hh Hbs Hcs Hbpc) by lia.
    destruct (file_split image (spec_offset (pc_head pcp) usage_map c)
                (block_size (pc_head pcp)) Hoff Hbs Hin) as (Hsplit & Hpre & Hchunk).
    erewrite call_seek_absolute; [|msimp; exact Hfd|exact Hoff]. msimp.
    erewrite (call_read_exact _ _ _ _ _);
      [|msimp; reflexivity|exact Hread
       |msimp; rewrite Hfile; f_equal; exact Hsplit
       |msimp; symmetry; exact Hpre
       |symmetry; exact Hchunk|lia].
    msimp. rewrite Hvd. msimp. rewrite Z.eqb_refl.
    eexists. split; [reflexivity|]. msimp.
    split.
    { eapply (loaded_frame (mk_machine pcp os disk)); [exact Hl|try reflexivity..].
      - cbn. rewrite Hvd. cbn. eexists. reflexivity.
      - cbn. rewrite Hfd. cbn. eexists. reflexivity. }
    split; [exact Hcur|]. split; [reflexivity|]. split; [|reflexivity].
    unfold verdep_of. cbn. rewrite Hnext, Hsync. cbn [Z.eqb].
    change (if (1 =? 1)%positive then 1 else 0) with 1. apply u64_small. lia.
Qed.

(** X6: partclone_seek on a loaded image with a usage map of bytes 0 and
    1, to a block below total_blocks (or to total_blocks itself when it
    is not a multiple of the stride of the sum index): the seek returns
    0, the cursor is on the block, partclone_tell returns it, and the
    walking count is the number of used blocks before it. *)
Theorem seek_loaded_image (m : machine) (image usage_map : list Z) (b : Z) :
  loaded m image usage_map -> clean usage_map ->
  Z.of_nat (length usage_map) < 2 ^ 64 ->
  0 <= b ->
  b < Z.of_nat (length usage_map)
  \/ (b = Z.of_nat (length usage_map)
      /\ Z.of_nat (length usage_map) mod 2 ^ V1_DEFAULT_FACTOR <> 0) ->
  exists m',
    partclone_seek b m = Done (0, m')
    /\ loaded m' image usage_map
    /\ synced m' usage_map
    /\ pc_curblock (m_pcp m') = b
    /\ pc_head (m_pcp m') = pc_head (m_pcp m)
    /\ pc_flags (m_pcp m') = pc_flags (m_pcp m)
    /\ partclone_tell m' = Done (b, m').
Proof.
  intros Hl Hclean Htb Hb0 Hb.
  pose proof Hl as (Hrr & Hv & Hd & Hcf & Htbh & _).
  assert (Hpow : 2 ^ V1_DEFAULT_FACTOR = 1024) by reflexivity.
  destruct (v1_seek_loaded m image usage_map b Hl Hclean Htb)
    as (m1 & Hseek & Hl1 & Hcur1 & Hhead1 & Hn1 & Hfl1).
  { lia. }
  { rewrite Hpow in *.
    pose proof (Z.div_mod b 1024 ltac:(lia)).
    pose proof (Z.mod_pos_bound b 1024 ltac:(lia)).
    destruct Hb as [Hb|[Hb Hm]]; [lia|]. rewrite <- Hb in Hm. lia. }
  destruct (has_dispatch_dispatch m Hd) as (d & i & Hdisp & Hi).
  unfold partclone_seek.
  unfold mbind at 1, M_mbind at 1, M_bind at 1, getp at 1.
  rewrite Hrr, Htbh. cbn [andb].
  destruct (Z.leb_spec b (Z.of_nat (length usage_map))) as [_|]; [|lia].
  unfold mbind at 1, M_mbind at 1, M_bind at 1. rewrite Hdisp.
  rewrite (version_seek_is_v1 d i Hi).
  unfold mbind at 1, M_mbind at 1, M_bind at 1. rewrite Hseek. msimp.
  eexists. split; [reflexivity|].
  assert (Hl2 : loaded (mk_machine (set_pc_curblock b (m_pcp m1)) (m_os m1) (m_disk m1))
                  image usage_map).
  { eapply (loaded_frame m1); [exact Hl1|try reflexivity..].
    - cbn. destruct (pc_verdep (m_pcp m1)) as [v|]; cbn.
      + exists (v1_nvbcount v). destruct v; reflexivity.
      + exists 0. reflexivity.
    - cbn. destruct (pc_fd (m_pcp m1)) as [fh|]; cbn.
      + exists (fh_pos fh). destruct fh; reflexivity.
      + exists 0. reflexivity. }
  split; [exact Hl2|].
  split; [split; [exact Hb0 | exact Hn1]|].
  split; [reflexivity|]. split; [exact Hhead1|]. split; [exact Hfl1|].
  unfold partclone_tell. msimp.
  destruct Hl2 as (Hrr2 & _). cbn [m_pcp] in Hrr2. rewrite Hrr2. reflexivity.
Qed.

End ReadLoaded.

(** ** Reading the blocks of a loaded image *)

Lemma logical_block_length (image : list Z) (h : image_head) (usage_map : list Z)
    (i : Z) :
  sane_head h ->
  (zlookup usage_map i = Some 1 ->
   spec_offset h usage_map i + block_size h <= Z.of_nat (length image)) ->
  length (logical_block image h usage_map i) = Z.to_nat (block_size h).
Proof.
  intros Hsane Hin. unfold logical_block.
  destruct (default 0 (zlookup usage_map i) =? 1) eqn:Hu.
  - apply Z.eqb_eq in Hu.
    assert (zlookup usage_map i = Some 1) as Hz.
    { destruct (zlookup usage_map i); cbn in Hu; [congruence|discriminate]. }
    pose proof (spec_offset_nonneg h usage_map i Hsane).
    destruct Hsane as (_ & Hbs & _). specialize (Hin Hz).
    unfold slice. rewrite length_take, length_drop. lia.
  - apply length_replicate.
Qed.

Lemma logical_blocks_length (image : list Z) (h : image_head) (usage_map : list Z)
    (s : nat) (n : nat) :
  forall b,
    (forall i, b <= i < b + Z.of_nat n ->
               length (logical_block image h usage_map i) = s) ->
    length (logical_blocks image h usage_map b n) = (n * s)%nat.
Proof.
  induction n as [|n IH]; intros b H; [reflexivity|].
  cbn [logical_blocks]. rewrite length_app, H by lia.
  rewrite IH by (intros i Hi; apply H; lia). lia.
Qed.

Lemma logical_blocks_block (image : list Z) (h : image_head) (usage_map : list Z)
    (s : nat) (n : nat) :
  forall b (j : nat),
    (j < n)%nat ->
    (forall i, b <= i < b + Z.of_nat n ->
               length (logical_block image h usage_map i) = s) ->
    take s (drop (j * s) (logical_blocks image h usage_map b n))
    = logical_block image h usage_map (b + Z.of_nat j).
Proof.
  induction n as [|n IH]; intros b j Hj H; [lia|].
  cbn [logical_blocks]. destruct j as [|j].
  - cbn [Nat.mul]. rewrite drop_0, Z.add_0_r.
    apply take_app_length'. symmetry. apply H. lia.
  - replace (S j * s)%nat
      with (length (logical_block image h usage_map b) + j * s)%nat
      by (rewrite H by lia; lia).
    rewrite drop_app_add, IH; [f_equal; lia|lia|].
    intros i Hi. apply H. lia.
Qed.

Section ReadBlocks.
Context {FMT : ImageFormat} {CF : ChangeFile}.

Lemma readblocks_loop_loaded (image usage_map rbuf : list Z) (b N : Z)
    (h : image_head) (n : nat) :
  forall (j bindex error : Z) (m : machine),
    loaded m image usage_map -> synced m usage_map -> clean usage_map ->
    pc_head (m_pcp m) = h -> sane_head h ->
    Z.of_nat (length image) < 2 ^ 63 ->
    Z.of_nat (length usage_map) < 2 ^ 64 ->
    0 <= j -> j + Z.of_nat n = N -> 0 <= b ->
    b + N <= Z.of_nat (length usage_map) ->
    pc_curblock (m_pcp m) = b + j ->
    blocks_in_file image h usage_map b N ->
    length rbuf = Z.to_nat (N * block_size h) ->
    error = 0 \/ n <> 0%nat ->
    exists m',
      readblocks_loop n bindex error
        (filled (logical_blocks image h usage_map b (Z.to_nat N)) rbuf
           (Z.to_nat (j * block_size h)))
        (j * block_size h) m
      = Done ((0, bindex + Z.of_nat n,
               logical_blocks image h usage_map b (Z.to_nat N)), m')
      /\ loaded m' image usage_map /\ synced m' usage_map
      /\ pc_curblock (m_pcp m') = b + N
      /\ pc_head (m_pcp m') = h
      /\ pc_flags (m_pcp m') = pc_flags (m_pcp m).
Proof.
  set (data := logical_blocks image h usage_map b (Z.to_nat N)).
  induction n as [|n IH];
    intros j bindex error m Hl Hs Hclean Hh Hsane Himg Htb Hj HN Hb Hend Hcur Hin Hrl He.
  - pose proof Hsane as (_ & Hbs & _).
    assert (Hlen : forall i, b <= i < b + Z.of_nat (Z.to_nat N) ->
              length (logical_block image h usage_map i) = Z.to_nat (block_size h)).
    { intros i Hi. apply logical_block_length; [exact Hsane|].
      intros Hz. apply Hin; [lia|exact Hz]. }
    assert (Hdl : length data = Z.to_nat (N * block_size h)).
    { unfold data. rewrite (logical_blocks_length _ _ _ _ _ _ Hlen). nia. }
    exists m. cbn [readblocks_loop]. destruct He as [->|]; [|contradiction].
    rewrite Z.add_0_r in *. subst j. rewrite <- Hdl, filled_all by congruence.
    split; [reflexivity|]. auto.
  - pose proof Hsane as (_ & Hbs & _).
    assert (Hlen : forall i, b <= i < b + Z.of_nat (Z.to_nat N) ->
              length (logical_block image h usage_map i) = Z.to_nat (block_size h)).
    { intros i Hi. apply logical_block_length; [exact Hsane|].
      intros Hz. apply Hin; [lia|exact Hz]. }
    assert (Hdl : length data = Z.to_nat (N * block_size h)).
    { unfold data. rewrite (logical_blocks_length _ _ _ _ _ _ Hlen). nia. }
    cbn [readblocks_loop].
    pose proof Hl as (_ & _ & Hdisp & _).
    destruct (has_dispatch_dispatch m Hdisp) as (d & i & Hd & Hi).
    destruct (v1_readblock_loaded m image usage_map
                (filled data rbuf (Z.to_nat (j * block_size h)))
                (j * block_size h) (b + j) Hl Hs Hclean)
      as (m1 & Hr & Hl1 & Hc1 & Hh1 & Hn1 & Hf1).
    { rewrite Hh. exact Hsane. }
    { exact Himg. }
    { exact Htb. }
    { exact Hcur. }
    { lia. }
    { rewrite Hh. intros k Hk. apply Hin. lia. }
    rewrite Hh in Hr, Hh1.
    destruct m1 as [p1 os1 disk1]. cbn [m_pcp] in *.
    set (m2 := mk_machine (set_pc_curblock (u64 (pc_curblock p1 + 1)) p1) os1 disk1).
    destruct (IH (j + 1) (bindex + 1) 0 m2) as (m' & Hloop & Hl' & Hs' & Hc' & Hh' & Hf');
      try assumption.
    + unfold synced, m2, verdep_of in *. cbn [m_pcp pc_curblock set_pc_curblock pc_verdep] in *.
      rewrite Hc1, u64_small by lia. split; [lia|]. exact Hn1.
    + lia.
    + lia.
    + cbn. rewrite Hc1, u64_small by lia. ring.
    + left. reflexivity.
    + exists m'. split; [|rewrite Hf'; auto 10].
      unfold mbind at 1, M_mbind at 1, M_bind at 1. rewrite Hd.
      rewrite (version_readblock_is_v1 d i Hi).
      unfold mbind at 1, M_mbind at 1, M_bind at 1. rewrite Hr.
      msimp. fold m2. rewrite Hh1.
      replace (bindex + Z.of_nat (S n)) with (bindex + 1 + Z.of_nat n) by lia.
      rewrite <- Hloop. f_equal.
      * replace (b + j) with (b + Z.of_nat (Z.to_nat j)) by lia.
        rewrite <- (logical_blocks_block image h usage_map
                      (Z.to_nat (block_size h)) (Z.to_nat N) b (Z.to_nat j))
          by (try exact Hlen; lia).
        fold data.
        replace (Z.to_nat j * Z.to_nat (block_size h))%nat
          with (Z.to_nat (j * block_size h)) by nia.
        replace (j * block_size h)
          with (Z.of_nat (Z.to_nat (j * block_size h))) at 2
          by (rewrite Z2Nat.id; nia).
        rewrite splice_filled.
        -- f_equal. rewrite <- Z2Nat.inj_add by nia. f_equal. ring.
        -- rewrite Hdl, <- Z2Nat.inj_add by nia. apply Z2Nat.inj_le; nia.
        -- congruence.
      * ring.
Qed.

(** X7: partclone_readblocks on a loaded image returns the blocks of
    the device: for [n > 0] blocks from the cursor [b] on, all below the
    end of the usage map and with their stored data inside the file, it
    returns 0, the buffer holds for every block the data stored for it
    (usage byte 1) or zeros (usage byte 0), and the cursor ends on
    [b + n] with the walking count in step. *)
Theorem read_loaded_image (m : machine) (image usage_map rbuf : list Z) (b n : Z) :
  loaded m image usage_map -> synced m usage_map -> clean usage_map ->
  sane_head (pc_head (m_pcp m)) ->
  Z.of_nat (length image) < 2 ^ 63 ->
  Z.of_nat (length usage_map) < 2 ^ 64 ->
  pc_curblock (m_pcp m) = b -> 0 < n ->
  b + n <= Z.of_nat (length usage_map) ->
  blocks_in_file image (pc_head (m_pcp m)) usage_map b n ->
  length rbuf = Z.to_nat (n * block_size (pc_head (m_pcp m))) ->
  exists m',
    partclone_readblocks rbuf n m
    = Done ((0, logical_blocks image (pc_head (m_pcp m)) usage_map b (Z.to_nat n)), m')
    /\ loaded m' image usage_map /\ synced m' usage_map
    /\ pc_curblock (m_pcp m') = b + n
    /\ pc_head (m_pcp m') = pc_head (m_pcp m)
    /\ pc_flags (m_pcp m') = pc_flags (m_pcp m).
Proof.
  intros Hl Hs Hclean Hsane Himg Htb Hcur Hn Hend Hin Hrl.
  pose proof Hs as [Hb _]. rewrite Hcur in Hb.
  destruct (readblocks_loop_loaded image usage_map rbuf b n (pc_head (m_pcp m))
              (Z.to_nat n) 0 0 EINVAL m)
    as (m' & Hloop & H'); try assumption; try reflexivity; try lia.
  exists m'. split; [|exact H'].
  unfold partclone_readblocks.
  unfold mbind at 1, M_mbind at 1, M_bind at 1, getp at 1.
  destruct Hl as (-> & _).
  rewrite Z.mul_0_l in Hloop. change (Z.to_nat 0) with 0%nat in Hloop.
  unfold filled in Hloop. rewrite take_0, drop_0 in Hloop. cbn [app] in Hloop.
  unfold mbind, M_mbind, M_bind. rewrite Hloop. reflexivity.
Qed.

End ReadBlocks.

(** ** A stored block that the file does not hold completely *)

Section ShortRead.
Context {FMT : ImageFormat} {CF : ChangeFile}.

(** A read of more bytes than the file has from the offset on: the
    bytes that are there are returned, with errno as it was. *)
Lemma call_read_short (m : machine) (fh : file_handle) (image : list Z) (len : Z) :
  pc_fd (m_pcp m) = Some fh ->
  can_read (fh_flags fh) = true ->
  os_files (m_os m) !! fh_path fh = Some image ->
  0 <= fh_pos fh -> 0 < len ->
  Z.of_nat (length image) < fh_pos fh + len ->
  Z.of_nat (length image) < 2 ^ 64 ->
  exists data,
    call_read len m
    = Done (os_errno (m_os m), data, Z.of_nat (length data),
            mk_machine
              (set_pc_fd (Some (set_fh_pos (fh_pos fh + Z.of_nat (length data)) fh))
                 (m_pcp m))
              (log_call (CallRead (Some (fh_path fh)) len) (m_os m)) (m_disk m))
    /\ Z.of_nat (length data) < len.
Proof.
  intros Hfd Hr Hfile Hpos Hlen Hshort Hlt. unfold call_read.
  change (sys_read _) with posix_read. rewrite Hfd.
  unfold posix_read, libc_read. cbn [fmap option_fmap option_map].
  rewrite Hr. unfold file_bytes. cbn [log_call os_files]. rewrite Hfile.
  cbn [default]. cbv zeta.
  assert (Hn : 0 <= Z.of_nat (length (slice image (fh_pos fh) len)) < len
               /\ Z.of_nat (length (slice image (fh_pos fh) len)) < 2 ^ 64).
  { unfold slice. rewrite length_take, length_drop. lia. }
  unfold id.
  rewrite (u64_small (Z.of_nat (length (slice image (fh_pos fh) len)))) by lia.
  destruct (Z.eqb_spec (Z.of_nat (length (slice image (fh_pos fh) len))) len);
    [lia|].
  eexists. split; [reflexivity|]. lia.
Qed.

(** X8: a stored block that the file does not hold completely cannot be
    read: with the cursor on a block whose usage byte is 1 and whose
    data, at the offset of the format, ends past the end of the file,
    partclone_readblocks returns EIO and leaves the cursor on the
    block. *)
Theorem read_truncated_block (m : machine) (image usage_map rbuf : list Z) (c n : Z) :
  loaded m image usage_map -> synced m usage_map -> clean usage_map ->
  sane_head (pc_head (m_pcp m)) -> 0 < block_size (pc_head (m_pcp m)) ->
  Z.of_nat (length image) < 2 ^ 63 ->
  Z.of_nat (length usage_map) < 2 ^ 64 ->
  pc_curblock (m_pcp m) = c ->
  zlookup usage_map c = Some 1 ->
  spec_offset (pc_head (m_pcp m)) usage_map c < 2 ^ 63 ->
  Z.of_nat (length image)
  < spec_offset (pc_head (m_pcp m)) usage_map c + block_size (pc_head (m_pcp m)) ->
  0 < n ->
  exists buf' m',
    partclone_readblocks rbuf n m = Done ((EIO, buf'), m')
    /\ pc_curblock (m_pcp m') = c.
Proof.
  intros Hl [Hc0 Hsync] Hclean Hsane Hbs0 Himg Htb Hcur Hused Hoff63 Hshort Hn.
  pose proof Hl as (Hrr & Hv & Hd & Hcf & Htbh & Hiv
                    & (v1p & sc & Hvd & Hbm & Hsc & Hf & Hidx)
                    & (fh & Hfd & Hread & Hfile)).
  pose proof Hsane as (Hh & Hbs & Hcs & Hbpc).
  destruct (has_dispatch_dispatch m Hd) as (d & i & Hdisp & Hi).
  destruct m as [pcp os disk]. unfold verdep_of in Hsync. cbn [m_pcp m_os] in *.
  rewrite Hvd in Hsync. cbn [default] in Hsync. rewrite Hcur in *.
  change (v1_nvbcount (id v1p)) with (v1_nvbcount v1p) in Hsync.
  pose proof (spec_offset_nonneg (pc_head pcp) usage_map c Hsane) as Hoff.
  unfold partclone_readblocks.
  unfold mbind at 1, M_mbind at 1, M_bind at 1, getp at 1. cbn [m_pcp].
  rewrite Hrr.
  destruct (Z.to_nat n) as [|k] eqn:Hk; [lia|]. cbn [readblocks_loop].
  unfold mbind, M_mbind, M_bind. rewrite Hdisp.
  rewrite (version_readblock_is_v1 d i Hi).
  unfold v1_readblock. msimp. rewrite Hv, Hcf. msimp. rewrite Hvd. msimp.
  rewrite Hbm, Hcur. unfold pread, deref, aread. msimp. rewrite Hused. msimp.
  rewrite Hsync.
  rewrite (rblock2offset_spec pcp usage_map c Hh Hbs Hcs Hbpc) by lia.
  erewrite call_seek_absolute; [|msimp; exact Hfd|exact Hoff]. msimp.
  match goal with
  | |- context [call_read ?len ?m1] =>
      destruct (call_read_short m1 (set_fh_pos (spec_offset (pc_head pcp) usage_map c) fh)
                  image len)
        as (data & Hrd & Hne);
      [reflexivity|exact Hread|exact Hfile|exact Hoff|exact Hbs0|exact Hshort|lia|];
      rewrite Hrd
  end.
  msimp. rewrite Hvd. msimp.
  destruct (Z.eqb_spec (Z.of_nat (length data)) (block_size (pc_head pcp))) as [|_];
    [lia|].
  msimp. eexists _, _. split; [reflexivity|]. exact Hcur.
Qed.

End ShortRead.

(** ** Files that partclone_verify rejects *)

Section VerifyRejects.
Context {FMT : ImageFormat} {CF : ChangeFile}.

Lemma unverified_not_READREADY (p : pc_context) :
  Z.land (pc_flags p) PC_VERIFIED = 0 -> PCTX_READREADY p = false.
Proof.
  intros H. unfold PCTX_READREADY, PCTX_FLAGS_SET.
  apply Z.eqb_neq. intros Heq.
  assert (Z.land (pc_flags p) PC_VERIFIED = PC_VERIFIED) as Hv.
  { eapply land_submask; [|exact Heq]. reflexivity. }
  rewrite H in Hv. discriminate.
Qed.

(** X9: partclone_verify on a file that is shorter than the header of
    the format fails and leaves the context unverified: it returns EIO
    when errno was clear, and otherwise the value errno held before the
    call, since a short read sets no errno. *)
Theorem verify_rejects_short_file (m : machine) (image : list Z) :
  just_opened m image ->
  Z.of_nat (length image) < sizeof_image_head_v1 ->
  sizeof_image_head_v1 < 2 ^ 64 ->
  exists m',
    partclone_verify m
    = Done (if os_errno (m_os m) =? 0 then EIO else os_errno (m_os m), m')
    /\ PCTX_READREADY (m_pcp m') = false
    /\ os_files (m_os m') = os_files (m_os m).
Proof.
  intros (Hopen & Hver & Hraw & Halloc & fh & Hfd & Hpos & Hread & Hfile) Hshort Hsz.
  unfold partclone_verify. msimp. rewrite Hopen.
  destruct (call_read_short m fh image sizeof_image_head_v1)
    as (data & Hrd & Hlen); try assumption; try lia.
  rewrite Hrd. msimp.
  destruct (Z.eqb_spec (Z.of_nat (length data)) sizeof_image_head_v1) as [|_]; [lia|].
  rewrite andb_false_r. msimp.
  eexists. split; [reflexivity|]. msimp. split; [|reflexivity].
  apply unverified_not_READREADY. exact Hver.
Qed.

(** X10: partclone_verify on a file whose header carries a version that
    is neither "0001" nor "0002" returns ENOENT and leaves the context
    unverified. *)
Theorem verify_rejects_unknown_version (m : machine) (image hdr rest : list Z) :
  just_opened m image ->
  image = hdr ++ rest ->
  sizeof_image_head_v1 = Z.of_nat (length hdr) ->
  Z.of_nat (length hdr) < 2 ^ 64 ->
  memcmp_eq (h1_version (head_v1_of_bytes hdr)) (c_literal "0001") VERSION_SIZE = false ->
  memcmp_eq (h1_version (head_v1_of_bytes hdr)) (c_literal "0002") VERSION_SIZE = false ->
  exists m',
    partclone_verify m = Done (ENOENT, m')
    /\ PCTX_READREADY (m_pcp m') = false
    /\ os_files (m_os m') = os_files (m_os m).
Proof.
  intros (Hopen & Hver & Hraw & Halloc & fh & Hfd & Hpos & Hread & Hfile)
         -> Hsize Hlt Hv1 Hv2.
  unfold partclone_verify. msimp. rewrite Hopen.
  erewrite (call_read_exact _ _ [] hdr rest);
    [|exact Hfd|exact Hread|exact Hfile|exact Hpos|exact Hsize
     |rewrite Hsize; exact Hlt].
  msimp. rewrite !Z.eqb_refl. msimp.
  rewrite splice_full by (rewrite Hsize, Nat2Z.id in Hraw; exact Hraw).
  unfold pc_head_v1 at 1. msimp.
  unfold version_table at 1. cbn [find_version version].
  rewrite Hv1, Hv2. msimp.
  eexists. split; [reflexivity|]. msimp. split; [|reflexivity].
  apply unverified_not_READREADY. exact Hver.
Qed.

(** X11: an image opened with a mode below read-write is read-only once
    it is verified: partclone_writeblocks and partclone_sync return
    EINVAL, whatever the buffer and the count, and change nothing. *)
Theorem readonly_image_rejects_writes (m : machine)
    (image hdr usage_map trailer rest buf : list Z) (n : Z) :
  opened_plain m image ->
  v1_image_parts image hdr usage_map trailer rest ->
  memcmp_eq trailer cmagicstr MAGIC_LEN = true ->
  omode_int (pc_omode (m_pcp m)) < omode_int SYSDEP_OPEN_RW ->
  exists m',
    partclone_verify m = Done (0, m')
    /\ PCTX_READREADY (m_pcp m') = true
    /\ partclone_writeblocks buf n m' = Done (EINVAL, m')
    /\ partclone_sync m' = Done (EINVAL, m').
Proof.
  intros Ho Hp Hc Hom.
  destruct (partclone_verify_loads m image hdr usage_map trailer rest Ho Hp Hc)
    as (m' & Hv & Hl & _ & _ & _ & _ & _ & _ & Hro & _).
  apply Z.ltb_lt in Hom. rewrite Hom, orb_true_r in Hro.
  exists m'. split; [exact Hv|]. split; [apply Hl|].
  unfold partclone_writeblocks, partclone_sync, PCTX_WRITEABLE, PCTX_WRITEREADY.
  msimp. rewrite Hro. split; reflexivity.
Qed.

(** X12: partclone_block_used on a loaded image, with the cursor on a
    block below total_blocks, returns the usage byte of the block as the
    usage map holds it, and changes nothing. *)
Theorem block_used_loaded (m : machine) (image usage_map : list Z) (c : Z) :
  loaded m image usage_map ->
  pc_curblock (m_pcp m) = c -> 0 <= c < Z.of_nat (length usage_map) ->
  exists b, zlookup usage_map c = Some b /\ partclone_block_used m = Done (b, m).
Proof.
  intros Hl Hcur Hc.
  pose proof Hl as (Hrr & Hv & Hd & Hcf & Htbh & Hiv
                    & (v1p & sc & Hvd & Hbm & Hsc & Hf & Hidx) & _).
  destruct (has_dispatch_dispatch m Hd) as (d & i & Hdisp & Hi).
  destruct (lookup_lt_is_Some_2 usage_map (Z.to_nat c)) as [b Hb]; [lia|].
  assert (Hzl : zlookup usage_map c = Some b) by (rewrite zlookup_lookup by lia; exact Hb).
  exists b. split; [exact Hzl|].
  unfold partclone_block_used.
  unfold mbind at 1, M_mbind at 1, M_bind at 1, getp at 1. rewrite Hrr.
  unfold mbind at 1, M_mbind at 1, M_bind at 1. rewrite Hdisp.
  assert (version_blockused d = v1_blockused) as ->.
  { destruct i as [|[|i]]; simpl in Hi; inversion Hi; subst; reflexivity. }
  destruct m as [pcp os disk]. cbn [m_pcp] in *.
  unfold v1_blockused. msimp. rewrite Hv. msimp. rewrite Hvd, Hcf. msimp.
  rewrite Hbm, Hcur. unfold pread, deref, aread. msimp. rewrite Hzl. reflexivity.
Qed.

End VerifyRejects.

(** ** partclone_close and partclone_probe *)

Section CloseProbe.
Context {FMT : ImageFormat} {CF : ChangeFile}.

Lemma READREADY_OPEN (p : pc_context) : PCTX_READREADY p = true -> PCTX_OPEN p = true.
Proof.
  unfold PCTX_READREADY, PCTX_OPEN, PCTX_FLAGS_SET. intros H.
  apply Z.eqb_eq in H. apply Z.eqb_eq.
  eapply land_submask; [|exact H]. reflexivity.
Qed.

(** partclone_close on a loaded context that holds its path and its
    zeroed block and has no change file: the file is closed and the six
    allocations are released. *)
Lemma partclone_close_loaded (m : machine) (image usage_map : list Z) :
  loaded m image usage_map ->
  PCTX_CF_OPEN (m_pcp m) = false ->
  PCTX_HAVE_PATH (m_pcp m) = true ->
  PCTX_HAVE_CF_PATH (m_pcp m) = false ->
  PCTX_HAVE_IVBLOCK (m_pcp m) = true ->
  exists m',
    partclone_close m = Done (0, m')
    /\ os_files (m_os m') = os_files (m_os m)
    /\ m_disk m' = m_disk m
    /\ os_trace (m_os m')
       = replicate 6 CallFree
         ++ CallClose (fh_path <$> pc_fd (m_pcp m)) :: os_trace (m_os m).
Proof.
  intros Hl Hcfo Hpath Hcfp Hiv.
  pose proof Hl as (Hrr & Hv & Hd & Hcf & Htbh & Hivb
                    & (v1p & sc & Hvd & Hbm & Hsc & Hf & Hidx)
                    & (fh & Hfd & Hread & Hfile)).
  pose proof (READREADY_OPEN _ Hrr) as Hopen.
  pose proof (PCTX_OPEN_VALID _ Hopen) as Hvalid.
  destruct Hd as (i & d & Hi & Hrow).
  destruct m as [pcp os disk]. cbn [m_pcp m_os m_disk] in *.
  unfold partclone_close. msimp.
  rewrite Hvalid, Hcfo, Hopen, Hpath, Hcfp, Hiv, Hv. msimp.
  unfold call_close. change (sys_close _) with posix_closex.
  unfold posix_closex. msimp. rewrite Hfd. msimp.
  unfold call_free. change (sys_free _) with posix_free. unfold posix_free. msimp.
  rewrite Hi. unfold dispatch. msimp. rewrite Hi. msimp. rewrite Hrow. msimp.
  assert (version_finish d = v1_finish) as ->.
  { destruct i as [|[|i]]; simpl in Hrow; inversion Hrow; subst; reflexivity. }
  unfold v1_finish. msimp. rewrite Hv. msimp. rewrite Hvd. msimp.
  rewrite Hbm, Hsc. msimp.
  unfold call_free. change (sys_free _) with posix_free. unfold posix_free. msimp.
  rewrite Hcf. msimp.
  eexists. split; [reflexivity|]. msimp. repeat split; reflexivity.
Qed.


End CloseProbe.

(** ** The usage map of a version 2 image *)

Lemma land_bit_zero (b k : Z) :
  0 <= k -> (Z.land b (Z.shiftl 1 k) =? 0) = negb (Z.testbit b k).
Proof.
  intros Hk. rewrite Z.shiftl_1_l.
  destruct (Z.testbit b k) eqn:Hb; cbn [negb].
  - apply Z.eqb_neq. intros H0.
    assert (Z.testbit (Z.land b (2 ^ k)) k = true) as Ht.
    { rewrite Z.land_spec, Hb, Z.pow2_bits_true by lia. reflexivity. }
    rewrite H0, Z.bits_0 in Ht. discriminate.
  - apply Z.eqb_eq. apply Z.bits_inj'. intros n Hn.
    rewrite Z.land_spec, Z.bits_0, Z.pow2_bits_eqb by lia.
    destruct (Z.eqb_spec k n) as [->|]; [rewrite Hb; reflexivity|].
    apply andb_false_r.
Qed.

Lemma v2_expand_loop_spec (bits : list Z) (n : nat) :
  forall (i : Z) (bytemap : list Z),
    0 <= i ->
    i + Z.of_nat n <= Z.of_nat (length bytemap) ->
    i + Z.of_nat n <= 8 * Z.of_nat (length bits) ->
    v2_expand_loop n i (Some bits) (Some bytemap)
    = Done (Some (take (Z.to_nat i) bytemap
                  ++ (bit_of bits <$> seqZ i (Z.of_nat n))
                  ++ drop (Z.to_nat i + n) bytemap)).
Proof.
  induction n as [|n IH]; intros i bytemap Hi Hlen Hbits.
  - cbn [v2_expand_loop]. change (Z.of_nat 0) with 0. rewrite seqZ_nil by lia.
    cbn [fmap list_fmap app]. rewrite Nat.add_0_r, take_drop. reflexivity.
  - cbn [v2_expand_loop]. unfold pread, pwrite, deref, aread, awrite.
    cbn [outcome_bind mbind outcome_mbind].
    assert (Hsh : Z.shiftr i 3 = i / 8) by (apply Z.shiftr_div_pow2; lia).
    assert (Hand : Z.land i 7 = i mod 8)
      by (change 7 with (Z.ones 3); apply Z.land_ones; lia).
    pose proof (Z.mod_pos_bound i 8 ltac:(lia)) as Hm.
    pose proof (Z.div_mod i 8 ltac:(lia)) as Hdm.
    destruct (lookup_lt_is_Some_2 bits (Z.to_nat (i / 8))) as [b Hb]; [lia|].
    assert (Hzb : zlookup bits (i / 8) = Some b).
    { unfold zlookup. destruct (Z.ltb_spec (i / 8) 0); [lia|exact Hb]. }
    destruct (lookup_lt_is_Some_2 bytemap (Z.to_nat i)) as [old Hold]; [lia|].
    assert (Hzo : zlookup bytemap i = Some old).
    { unfold zlookup. destruct (Z.ltb_spec i 0); [lia|exact Hold]. }
    rewrite Hsh, Hzb. cbn. rewrite Hzo. cbn.
    rewrite IH by (try rewrite length_insert; lia).
    do 2 f_equal.
    rewrite Hand, land_bit_zero by lia.
    replace (Z.of_nat (S n)) with (Z.succ (Z.of_nat n)) by lia.
    rewrite (seqZ_cons i) by lia. cbn [fmap list_fmap].
    replace (Z.succ i) with (i + 1) by lia.
    replace (Z.pred (Z.succ (Z.of_nat n))) with (Z.of_nat n) by lia.
    replace (Z.to_nat (i + 1)) with (S (Z.to_nat i)) by lia.
    rewrite (take_S_r _ _ (if negb (Z.testbit b (i mod 8)) then 0 else 1)).
    2:{ apply list_lookup_insert_eq. lia. }
    rewrite take_insert_ge by lia.
    rewrite drop_insert_lt by lia.
    rewrite <- app_assoc. cbn [app]. do 2 f_equal.
    + unfold bit_of. rewrite Hzb. cbn [default]. unfold id.
      destruct (Z.testbit b (i mod 8)); reflexivity.
    + replace (S (Z.to_nat i) + n)%nat with (Z.to_nat i + S n)%nat by lia.
      reflexivity.
Qed.

(** X14: the loop of v2_verify that converts the bitmap of a version 2
    image into the usage map: for [tb < 2^31] blocks and a bitmap of at
    least [tb] bits it ends without a fault, entry [k] of the usage map
    is bit [k mod 8] of byte [k / 8] of the bitmap with the lowest bit
    first, and every entry is 0 or 1, whatever the memory held before. *)
Theorem v2_usage_map_of_bits (bits bytemap : list Z) (tb : Z) :
  0 <= tb < 2 ^ 31 ->
  Z.of_nat (length bytemap) = tb ->
  tb <= 8 * Z.of_nat (length bits) ->
  v2_expand_loop (Z.to_nat tb) 0 (Some bits) (Some bytemap)
  = Done (Some (usage_of_bits bits tb))
  /\ clean (usage_of_bits bits tb)
  /\ (forall k, 0 <= k < tb ->
        zlookup (usage_of_bits bits tb) k
        = Some (if Z.testbit (default 0 (zlookup bits (k / 8))) (k mod 8)
                then 1 else 0)).
Proof.
  intros Htb Hlen Hbits. split; [|split].
  - rewrite v2_expand_loop_spec by lia.
    rewrite Z2Nat.id, drop_ge by lia.
    change (Z.to_nat 0) with 0%nat. rewrite take_0, app_nil_r. reflexivity.
  - unfold clean, usage_of_bits. apply Forall_fmap, Forall_forall.
    intros k _. unfold bit_of. cbn. destruct (Z.testbit _ _); auto.
  - intros k Hk. unfold usage_of_bits, zlookup.
    destruct (Z.ltb_spec k 0); [lia|].
    rewrite list_lookup_fmap, lookup_seqZ_lt by lia.
    rewrite Z.add_0_l, Z2Nat.id by lia. reflexivity.
Qed.

(** ** The bug-compatible CRC looks at the first byte only *)

(** X15: for every initial value, every size and every buffer that is
    not empty, v1_crc32 returns a value, and the value is the same for
    every other buffer with the same first byte: the loop reads the
    first byte in each of its [size] rounds. *)
Theorem v1_crc32_first_byte_only (crc b size : Z) (rest rest' : list Z) :
  exists v,
    v1_crc32 v1_context_init crc (b :: rest) size = Done v
    /\ v1_crc32 v1_context_init crc (b :: rest') size = Done v.
Proof.
  unfold v1_crc32.
  destruct (v1_crc32_loop_done (Z.to_nat size) crc b (b :: rest)) as [v Hv];
    [reflexivity|].
  exists v. split; [exact Hv|].
  rewrite <- Hv. apply v1_crc32_loop_first_byte. reflexivity.
Qed.

(** ** sysdep_posix.c: the size of a file *)

(** X16: posix_file_size on an open file returns 0 and the length of the
    file, and the file offset is afterwards where it was, also when the
    file is empty and the size is found by seeking to its end. *)
Theorem posix_file_size_keeps_offset (fh : file_handle) (os : os_state) :
  0 <= fh_pos fh < 2 ^ 63 ->
  exists os',
    posix_file_size (Some fh) os
    = (0, Z.of_nat (length (file_bytes os fh)), Some fh, os')
    /\ os_files os' = os_files os.
Proof.
  intros Hpos. destruct fh as [p fl pos]. cbn [fh_pos] in Hpos.
  unfold posix_file_size.
  change (file_bytes (log_call _ os) ?f) with (file_bytes os f).
  destruct (Z.eqb_spec (Z.of_nat (length (file_bytes os (mk_fh p fl pos)))) 0)
    as [H0|H0]; [|eexists; split; reflexivity].
  rewrite H0.
  unfold posix_seek at 1, libc_lseek.
  cbn [fmap option_fmap option_map fh_pos set_fh_pos fh_path fh_flags].
  rewrite Z.add_0_r.
  destruct (Z.ltb_spec pos 0) as [|_]; [lia|].
  destruct (Z.leb_spec 0 pos) as [_|]; [|lia].
  cbn [Z.eqb].
  unfold posix_seek at 1, libc_lseek.
  cbn [fmap option_fmap option_map fh_pos set_fh_pos fh_path fh_flags].
  change (file_bytes (log_call ?c (log_call ?c' (log_call ?c'' os))) ?f)
    with (file_bytes os (mk_fh p fl pos)).
  rewrite H0. change (0 + 0) with 0. change (0 <? 0) with false.
  change (0 <=? 0) with true. cbv iota beta.
  unfold posix_seek, libc_lseek.
  cbn [fmap option_fmap option_map fh_pos set_fh_pos fh_path fh_flags].
  rewrite (u64_small pos) by lia.
  assert (s64 pos = pos) as ->.
  { unfold s64. rewrite Z.mod_small by lia. lia. }
  rewrite Z.add_0_l.
  destruct (Z.ltb_spec pos 0) as [|_]; [lia|].
  destruct (Z.leb_spec 0 pos) as [_|]; [|lia].
  eexists. split; reflexivity.
Qed.

(** ** partclone_verify on a well-formed version 2 image *)

Lemma usage_of_bits_app (bits more : list Z) (tb : Z) :
  tb <= 8 * Z.of_nat (length bits) ->
  usage_of_bits (bits ++ more) tb = usage_of_bits bits tb.
Proof.
  intros Htb. unfold usage_of_bits. apply list_eq. intros i.
  rewrite !list_lookup_fmap.
  destruct (seqZ 0 tb !! i) as [k|] eqn:Hk; [|reflexivity]. cbn.
  apply lookup_seqZ in Hk as [-> Hi]. f_equal.
  unfold bit_of, zlookup.
  assert (0 <= (0 + Z.of_nat i) / 8 < Z.of_nat (length bits)) as Hq.
  { split; [apply Z.div_pos; lia|apply Z.div_lt_upper_bound; lia]. }
  destruct (Z.ltb_spec ((0 + Z.of_nat i) / 8) 0); [lia|].
  rewrite lookup_app_l by lia. reflexivity.
Qed.

Lemma usage_of_bits_length (bits : list Z) (tb : Z) :
  0 <= tb -> Z.of_nat (length (usage_of_bits bits tb)) = tb.
Proof. intros H. unfold usage_of_bits. rewrite length_fmap, length_seqZ. lia. Qed.

Lemma usage_of_bits_clean (bits : list Z) (tb : Z) : clean (usage_of_bits bits tb).
Proof.
  unfold clean, usage_of_bits. apply Forall_fmap, Forall_forall.
  intros k _. unfold bit_of. cbn. destruct (Z.testbit _ _); auto.
Qed.

Lemma bitmap_size_round_up (tb : Z) :
  0 <= tb < 2 ^ 31 ->
  (if tb mod 8 =? 0 then s32 (tb / 8) else s32 (s32 (tb / 8) + 1)) = (tb + 7) / 8.
Proof.
  intros Htb.
  pose proof (Z.div_mod tb 8 ltac:(lia)) as Hdm.
  pose proof (Z.mod_pos_bound tb 8 ltac:(lia)) as Hm.
  assert (0 <= tb / 8 < 2 ^ 28) as Hq by (split; [apply Z.div_pos; lia|apply Z.div_lt_upper_bound; lia]).
  assert (Hs : forall x, 0 <= x < 2 ^ 30 -> s32 x = x).
  { intros x Hx. unfold s32. rewrite Z.mod_small by lia. lia. }
  rewrite !Hs by (try rewrite Hs; lia).
  destruct (Z.eqb_spec (tb mod 8) 0) as [H0|H0].
  - apply Z.div_unique with (r := 7); lia.
  - apply Z.div_unique with (r := tb mod 8 - 1); lia.
Qed.

Section VerifyV2.
Context {FMT : ImageFormat} {CF : ChangeFile}.

Lemma v2_verify_ok (m : machine) (fh : file_handle) (v1p : v1_context)
    (pre bits crc rest : list Z) :
  PCTX_OPEN (m_pcp m) = true ->
  pc_verdep (m_pcp m) = Some v1p ->
  v1_bitmap_factor v1p = V1_DEFAULT_FACTOR ->
  pc_cf_handle (m_pcp m) = None ->
  os_alloc (m_os m) = [] ->
  pc_fd (m_pcp m) = Some fh ->
  can_read (fh_flags fh) = true ->
  os_files (m_os m) !! fh_path fh = Some (pre ++ bits ++ crc ++ rest) ->
  sizeof_image_head_v2 = Z.of_nat (length pre) ->
  memcmp_eq (h2_magic (pc_head_v2 (m_pcp m))) IMAGE_MAGIC IMAGE_MAGIC_SIZE = true ->
  0 <= h2_totalblock (pc_head_v2 (m_pcp m)) < 2 ^ 31 ->
  Z.of_nat (length bits) = (h2_totalblock (pc_head_v2 (m_pcp m)) + 7) / 8 ->
  CRC_SIZE = Z.of_nat (length crc) ->
  CRC_SIZE < 2 ^ 32 ->
  load32 "bitmap" (bits ++ crc) (Z.of_nat (length bits))
  = Done (update_crc32 init_crc32 (bits ++ crc) (Z.of_nat (length bits))) ->
  exists m' sc fh',
    v2_verify m = Done (0, m')
    /\ pc_flags (m_pcp m') = Z.lor (pc_flags (m_pcp m)) PC_HEAD_VALID
    /\ pc_verdep (m_pcp m')
       = Some (set_v1_sumcount (Some sc)
                 (set_v1_bitmap
                    (Some (usage_of_bits bits (h2_totalblock (pc_head_v2 (m_pcp m)))))
                    v1p))
    /\ sum_index sc (usage_of_bits bits (h2_totalblock (pc_head_v2 (m_pcp m))))
         V1_DEFAULT_FACTOR
    /\ block_size (pc_head (m_pcp m')) = h2_block_size (pc_head_v2 (m_pcp m))
    /\ totalblock (pc_head (m_pcp m')) = h2_totalblock (pc_head_v2 (m_pcp m))
    /\ checksum_size (pc_head (m_pcp m')) = h2_checksum_size (pc_head_v2 (m_pcp m))
    /\ blocks_per_checksum (pc_head (m_pcp m'))
       = h2_blocks_per_checksum (pc_head_v2 (m_pcp m))
    /\ head_size (pc_head (m_pcp m'))
       = u64 (sizeof_image_head_v2 + Z.of_nat (length bits) + CRC_SIZE)
    /\ pc_fd (m_pcp m') = Some fh'
    /\ fh_path fh' = fh_path fh /\ fh_flags fh' = fh_flags fh
    /\ pc_cf_handle (m_pcp m') = None
    /\ pc_dispatch (m_pcp m') = pc_dispatch (m_pcp m)
    /\ os_files (m_os m') = os_files (m_os m)
    /\ os_alloc (m_os m') = [].
Proof.
  intros Hopen Hv1p Hfac Hcf Halloc Hfd Hread Hfile Hsize Hmagic Htb Hbits Hcrc Hcrclt
    Hstored.
  set (tb := h2_totalblock (pc_head_v2 (m_pcp m))) in *.
  pose proof (bitmap_size_round_up tb Htb) as Hround.
  assert (Hq : 0 <= (tb + 7) / 8 < 2 ^ 29)
    by (split; [apply Z.div_pos; lia|apply Z.div_lt_upper_bound; lia]).
  assert (Hlen : u64 ((tb + 7) / 8 + CRC_SIZE) = Z.of_nat (length (bits ++ crc))).
  { rewrite length_app, Nat2Z.inj_add, <- Hcrc, Hbits. apply u64_small.
    lia. }
  unfold v2_verify. msimp. rewrite Hopen, Hmagic. msimp. fold tb.
  rewrite Hround.
  rewrite call_malloc_ok by exact Halloc. msimp.
  rewrite Hv1p. msimp.
  erewrite call_seek_absolute; [|msimp; exact Hfd|lia]. msimp.
  rewrite call_malloc_ok by exact Halloc. msimp.
  rewrite Hlen.
  erewrite (call_read_exact _ _ pre (bits ++ crc) rest);
    [|msimp; reflexivity|exact Hread
     |msimp; rewrite <- app_assoc; exact Hfile
     |msimp; exact Hsize
     |reflexivity|rewrite <- Hlen; apply Z.mod_pos_bound; lia].
  msimp. rewrite !Z.eqb_refl. msimp.
  rewrite splice_full.
  2:{ unfold fresh_cells. rewrite length_fmap, length_replicate. lia. }
  rewrite <- Hbits, Hstored. msimp. rewrite Z.eqb_refl. msimp.
  rewrite v2_expand_loop_spec.
  2:{ lia. }
  2:{ unfold fresh_cells. rewrite length_fmap, length_replicate. lia. }
  2:{ rewrite length_app. pose proof (Z.div_mod (tb + 7) 8 ltac:(lia)).
      pose proof (Z.mod_pos_bound (tb + 7) 8 ltac:(lia)). lia. }
  assert (Hum : take (Z.to_nat 0)
                  ((λ z : Z, z `mod` 256) <$>
                   fresh_cells (log_call (CallMalloc tb) (m_os m)) tb)
                ++ (bit_of (bits ++ crc) <$> seqZ 0 (Z.of_nat (Z.to_nat tb)))
                ++ drop (Z.to_nat 0 + Z.to_nat tb)
                     ((λ z : Z, z `mod` 256) <$>
                      fresh_cells (log_call (CallMalloc tb) (m_os m)) tb)
                = usage_of_bits bits tb).
  { change (Z.to_nat 0) with 0%nat. rewrite take_0, drop_ge, app_nil_r.
    - rewrite Z2Nat.id by lia. fold (usage_of_bits (bits ++ crc) tb).
      apply usage_of_bits_app.
      pose proof (Z.div_mod (tb + 7) 8 ltac:(lia)).
      pose proof (Z.mod_pos_bound (tb + 7) 8 ltac:(lia)). lia.
    - unfold fresh_cells. rewrite length_fmap, length_replicate. lia. }
  rewrite Hum. msimp.
  unfold call_free. change (sys_free _) with posix_free. unfold posix_free. msimp.
  match goal with
  | |- context [precalculate_sumcount ?m0] =>
      destruct (precalculate_sumcount_ok m0
                  (set_v1_bitmap (Some (usage_of_bits bits tb)) v1p)
                  (usage_of_bits bits tb))
        as (sc & m' & Hpre & Hidx & Hvd' & Hfl' & Hfd' & Hcf' & Hd' & Hbs' & Htb'
            & Hcs' & Hbpc' & Hhs' & Hds' & Hfiles' & Halloc' & _)
  end.
  { msimp. reflexivity. }
  { reflexivity. }
  { exact Hfac. }
  { msimp. rewrite usage_of_bits_length by lia. reflexivity. }
  { rewrite usage_of_bits_length by lia. lia. }
  { msimp. rewrite Halloc. reflexivity. }
  { msimp. exact Hcf. }
  rewrite Hpre. exists m', sc. eexists.
  split; [reflexivity|].
  rewrite Hfl', Hvd', Hfd', Hcf', Hd', Hbs', Htb', Hcs', Hbpc', Hhs', Hfiles', Halloc'.
  msimp. rewrite Halloc.
  repeat split; try reflexivity; try assumption.
Qed.

(** partclone_verify on a well-formed version 2 image without a change
    file. *)
Lemma partclone_verify_loads_v2 (m : machine)
    (image hdr pre bits crc rest : list Z) :
  opened_plain m image ->
  v2_image_parts image hdr pre bits crc rest ->
  exists m',
    partclone_verify m = Done (0, m')
    /\ loaded m' image (usage_of_bits bits (h2_totalblock (head_v2_of_bytes hdr)))
    /\ synced m' (usage_of_bits bits (h2_totalblock (head_v2_of_bytes hdr)))
    /\ pc_curblock (m_pcp m') = 0
    /\ block_size (pc_head (m_pcp m')) = h2_block_size (head_v2_of_bytes hdr)
    /\ checksum_size (pc_head (m_pcp m')) = h2_checksum_size (head_v2_of_bytes hdr)
    /\ blocks_per_checksum (pc_head (m_pcp m'))
       = h2_blocks_per_checksum (head_v2_of_bytes hdr)
    /\ head_size (pc_head (m_pcp m'))
       = u64 (sizeof_image_head_v2 + Z.of_nat (length bits) + CRC_SIZE)
    /\ PCTX_READ_ONLY (m_pcp m')
       = PCTX_READ_ONLY (m_pcp m)
         || (omode_int (pc_omode (m_pcp m)) <? omode_int SYSDEP_OPEN_RW)
    /\ os_files (m_os m') = os_files (m_os m).
Proof.
  intros ((Hopen & Hver & Hraw & Halloc & fh & Hfd & Hpos & Hread & Hfile) & Hcfp & Hcfh)
         ((Himg & Hsize2 & Hhdr & Hsize & Hb1 & Hv1 & Hv2 & Hmagic & Htb & Hbits & Hcrc
           & Hcrclt) & Hstored).
  assert (Hsplit : image = [] ++ hdr ++ drop (Z.to_nat sizeof_image_head_v1) image).
  { rewrite Hhdr. cbn [app]. symmetry. apply take_drop. }
  unfold partclone_verify. msimp. rewrite Hopen.
  erewrite (call_read_exact _ _ [] hdr (drop (Z.to_nat sizeof_image_head_v1) image));
    [|exact Hfd|exact Hread|rewrite Hfile; f_equal; exact Hsplit|exact Hpos|exact Hsize
     |exact Hb1].
  msimp. rewrite !Z.eqb_refl. msimp.
  rewrite splice_full by (rewrite Hsize, Nat2Z.id in Hraw; exact Hraw).
  unfold pc_head_v1 at 1. msimp.
  unfold version_table at 1. cbn [find_version version].
  rewrite Hv1, Hv2. msimp.
  unfold dispatch. msimp. unfold version_table at 1.
  cbn [lookup list_lookup version_init version_verify]. msimp.
  match goal with
  | |- context [v1_init ?m0] =>
      destruct (v1_init_plain m0) as
        (m1 & Hinit & Hfl1 & Hvd1 & Hfd1 & Hraw1 & Hd1 & Hcfh1 & Hcfp1 & Hom1
         & Hpath1 & Hfiles1 & Halloc1 & Htr1 & Hdk1);
      [apply PCTX_OPEN_VALID; exact Hopen
      |cbn [m_os log_call os_alloc]; rewrite Halloc; reflexivity
      |exact Hcfp |]
  end.
  rewrite Hinit. msimp. cbn [m_pcp m_os pc_flags pc_fd pc_head_raw pc_dispatch
    pc_cf_handle pc_omode pc_path set_pc_dispatch set_pc_head_raw set_pc_fd
    os_files log_call] in *.
  assert (Hh2 : pc_head_v2 (m_pcp m1) = head_v2_of_bytes hdr)
    by (unfold pc_head_v2; rewrite Hraw1; reflexivity).
  destruct (v2_verify_ok m1 (set_fh_pos (0 + sizeof_image_head_v1) fh)
              (set_v1_bitmap_factor V1_DEFAULT_FACTOR
                 (set_v1_crc_tab32 crc_tab32_init v1_context_zero))
              pre bits crc rest)
    as (m2 & sc & fh2 & Hverify & Hfl2 & Hvd2 & Hidx & Hbs2 & Htb2 & Hcs2 & Hbpc2
        & Hhs2 & Hfd2 & Hp2 & Hflg2 & Hcfh2 & Hd2 & Hfiles2 & Halloc2).
  - eapply PCTX_FLAGS_SET_or; [exact Hfl1|]. exact Hopen.
  - exact Hvd1.
  - reflexivity.
  - rewrite Hcfh1. exact Hcfh.
  - rewrite Halloc1. cbn [m_os log_call os_alloc]. rewrite Halloc. reflexivity.
  - rewrite Hfd1. rewrite Hpos. reflexivity.
  - exact Hread.
  - rewrite Hfiles1. cbn [fh_path set_fh_pos]. rewrite Hfile. f_equal. exact Himg.
  - exact Hsize2.
  - rewrite Hh2. exact Hmagic.
  - rewrite Hh2. exact Htb.
  - rewrite Hh2. exact Hbits.
  - exact Hcrc.
  - exact Hcrclt.
  - exact Hstored.
  - rewrite Hh2 in *. set (tb := h2_totalblock (head_v2_of_bytes hdr)) in *.
    rewrite Hverify. msimp.
    rewrite call_malloc_ok by (msimp; exact Halloc2). msimp.
    eexists. split; [reflexivity|].
    match goal with |- loaded ?mF _ _ /\ _ => set (mf := mF) end.
    set (g := Z.lor (Z.lor (Z.lor
                 (Z.lor (Z.lor PC_HAVE_VERDEP PC_VERSION_INIT)
                    (if omode_int (pc_omode (m_pcp m)) <? omode_int SYSDEP_OPEN_RW
                     then PC_READ_ONLY else 0)) PC_HEAD_VALID) PC_VERIFIED)
               PC_HAVE_IVBLOCK).
    assert (Hflags : pc_flags (m_pcp mf) = Z.lor (pc_flags (m_pcp m)) g).
    { unfold mf, or_flags. cbn [m_pcp pc_flags set_pc_flags set_pc_ivblock
        set_pc_curblock]. rewrite Hfl2, Hfl1. unfold g. rewrite !Z.lor_assoc.
      reflexivity. }
    assert (Hvdf : pc_verdep (m_pcp mf) = pc_verdep (m_pcp m2)) by reflexivity.
    assert (Hheadf : pc_head (m_pcp mf) = pc_head (m_pcp m2)) by reflexivity.
    assert (Hset : forall f,
              Z.land (Z.lor (Z.lor PC_OPEN PC_VALID) g) (Z.lor f PC_VALID)
              = Z.lor f PC_VALID ->
              PCTX_FLAGS_SET (m_pcp mf) f = true).
    { intros f Hf. unfold PCTX_FLAGS_SET. rewrite Hflags. apply Z.eqb_eq.
      eapply land_lor_from; [|exact Hf].
      unfold PCTX_OPEN, PCTX_FLAGS_SET in Hopen. apply Z.eqb_eq in Hopen. exact Hopen. }
    split; [|split; [|split; [reflexivity|]]].
    + (* loaded *)
      unfold loaded. rewrite Hheadf, Hvdf.
      split.
      { unfold PCTX_READREADY. apply Hset.
        unfold g. destruct (_ <? _); reflexivity. }
      split.
      { unfold PCTX_HAVE_VERDEP. rewrite Hvdf, Hvd2.
        apply andb_true_iff. split.
        - apply Hset. unfold g. destruct (_ <? _); reflexivity.
        - apply bool_decide_eq_true. eauto. }
      split.
      { unfold has_dispatch. change (pc_dispatch (m_pcp mf)) with (pc_dispatch (m_pcp m2)).
        rewrite Hd2, Hd1. exists 1%nat. eexists. split; reflexivity. }
      split; [exact Hcfh2|].
      split; [rewrite Htb2, usage_of_bits_length by lia; reflexivity|].
      split; [reflexivity|].
      split.
      { eexists _, sc. split; [exact Hvd2|]. repeat split; assumption. }
      exists fh2. split; [exact Hfd2|]. split; [rewrite Hflg2; exact Hread|].
      change (os_files (m_os mf)) with (os_files (m_os m2)).
      rewrite Hp2, Hfiles2, Hfiles1. exact Hfile.
    + (* synced *)
      unfold synced, verdep_of. rewrite Hvdf, Hvd2.
      change (pc_curblock (m_pcp mf)) with 0. split; [lia|]. reflexivity.
    + rewrite Hheadf, Hbs2.
      split; [reflexivity|]. split; [exact Hcs2|]. split; [exact Hbpc2|].
      split; [exact Hhs2|].
      split;
        [|change (os_files (m_os mf)) with (os_files (m_os m2));
          rewrite Hfiles2, Hfiles1; reflexivity].
      unfold PCTX_READ_ONLY. rewrite Hflags. unfold g.
      rewrite (Z.land_lor_distr_l (pc_flags (m_pcp m))).
      change (omode_int SYSDEP_OPEN_RW) with 2.
      destruct (omode_int (pc_omode (m_pcp m)) <? 2).
      * change (Z.land (Z.lor _ PC_HAVE_IVBLOCK) PC_READ_ONLY) with PC_READ_ONLY.
        rewrite orb_true_r. apply Z.eqb_eq.
        rewrite Z.lor_comm. apply lor_land_absorb.
      * change (Z.land (Z.lor _ PC_HAVE_IVBLOCK) PC_READ_ONLY) with 0.
        rewrite Z.lor_0_r, orb_false_r. reflexivity.
Qed.

(** X17: partclone_verify accepts every well-formed version 2 image
    (below 2^31 blocks, its bitmap followed by the CRC that libchecksum
    computes for it).  On a context just opened on the file it returns 0
    and leaves the context loaded as for a version 1 image, with the
    usage map expanded from the bitmap - one byte, 0 or 1, for each bit
    - and with the checksum size and the blocks per checksum of the
    header. *)
Theorem verify_loads_v2_image (m : machine)
    (image hdr pre bits crc rest : list Z) :
  opened_plain m image ->
  v2_image_parts image hdr pre bits crc rest ->
  exists m',
    partclone_verify m = Done (0, m')
    /\ loaded m' image (usage_of_bits bits (h2_totalblock (head_v2_of_bytes hdr)))
    /\ synced m' (usage_of_bits bits (h2_totalblock (head_v2_of_bytes hdr)))
    /\ clean (usage_of_bits bits (h2_totalblock (head_v2_of_bytes hdr)))
    /\ pc_curblock (m_pcp m') = 0
    /\ block_size (pc_head (m_pcp m')) = h2_block_size (head_v2_of_bytes hdr)
    /\ checksum_size (pc_head (m_pcp m')) = h2_checksum_size (head_v2_of_bytes hdr)
    /\ blocks_per_checksum (pc_head (m_pcp m'))
       = h2_blocks_per_checksum (head_v2_of_bytes hdr)
    /\ head_size (pc_head (m_pcp m'))
       = u64 (sizeof_image_head_v2 + Z.of_nat (length bits) + CRC_SIZE)
    /\ os_files (m_os m') = os_files (m_os m).
Proof.
  intros Ho Hp.
  destruct (partclone_verify_loads_v2 m image hdr pre bits crc rest Ho Hp)
    as (m' & Hv & Hl & Hs & Hcur & Hbs & Hcs & Hbpc & Hhs & _ & Hf).
  exists m'. split; [exact Hv|]. split; [exact Hl|]. split; [exact Hs|].
  split; [apply usage_of_bits_clean|]. auto 10.
Qed.

End VerifyV2.

(** ** Contexts that are not verified, and an open without memory *)

Section Refusals.
Context {FMT : ImageFormat} {CF : ChangeFile}.

Lemma unverified_flags (p : pc_context) (f : Z) :
  Z.land (pc_flags p) PC_VERIFIED = 0 ->
  Z.land (Z.lor f PC_VALID) PC_VERIFIED = PC_VERIFIED ->
  PCTX_FLAGS_SET p f = false.
Proof.
  intros H Hf. unfold PCTX_FLAGS_SET. apply Z.eqb_neq. intros Heq.
  assert (Z.land (pc_flags p) PC_VERIFIED = PC_VERIFIED) as Hv.
  { eapply land_submask; [|exact Heq]. rewrite Z.land_comm. exact Hf. }
  rewrite H in Hv. discriminate.
Qed.

(** X18: a context that is not verified refuses every operation on
    blocks and changes nothing: partclone_seek, partclone_readblocks,
    partclone_writeblocks and partclone_sync return EINVAL,
    partclone_block_used returns BLOCK_ERROR, partclone_tell returns
    all ones, and partclone_blocksize and partclone_blockcount
    return -1. *)
Theorem unverified_context_refuses (m : machine) (buf : list Z) (b n : Z) :
  Z.land (pc_flags (m_pcp m)) PC_VERIFIED = 0 ->
  partclone_seek b m = Done (EINVAL, m)
  /\ partclone_tell m = Done (u64 (Z.lnot 0), m)
  /\ partclone_readblocks buf n m = Done ((EINVAL, buf), m)
  /\ partclone_writeblocks buf n m = Done (EINVAL, m)
  /\ partclone_sync m = Done (EINVAL, m)
  /\ partclone_block_used m = Done (BLOCK_ERROR, m)
  /\ partclone_blocksize m = Done (-1, m)
  /\ partclone_blockcount m = Done (-1, m).
Proof.
  intros H.
  assert (Hrr : PCTX_READREADY (m_pcp m) = false)
    by (apply unverified_flags; [exact H|reflexivity]).
  assert (Hv : PCTX_VERIFIED (m_pcp m) = false)
    by (apply unverified_flags; [exact H|reflexivity]).
  assert (Hcf : PCTX_CFREADY (m_pcp m) = false)
    by (apply unverified_flags; [exact H|reflexivity]).
  unfold partclone_seek, partclone_tell, partclone_readblocks, partclone_writeblocks,
    partclone_sync, partclone_block_used, partclone_blocksize, partclone_blockcount,
    PCTX_WRITEABLE, PCTX_WRITEREADY.
  msimp. rewrite Hrr, Hv, Hcf, !andb_false_r. cbn [andb].
  repeat split; reflexivity.
Qed.

(** X19: partclone_open when the memory for the copy of the path cannot
    be had: the context was allocated and the file opened, so the call
    closes the file and frees the context again, and returns ENOMEM and
    no context.  No file is changed. *)
Theorem open_out_of_memory (path : string) (cfpath : option string)
    (omode : sysdep_open_mode_t) (os : os_state) (disk : cf_disk)
    (image : list Z) (later_allocs : list bool) :
  os_files os !! path = Some image ->
  os_alloc os = true :: true :: false :: later_allocs ->
  exists os',
    partclone_open path cfpath omode (Some POSIX_DISPATCH) os disk
    = Done (ENOMEM, None, os', disk)
    /\ os_files os' = os_files os
    /\ os_trace os'
       = [CallFree; CallClose (Some path);
          CallMalloc (Z.of_nat (String.length path) + 1);
          CallOpen path SYSDEP_OPEN_RO; CallMalloc sizeof_pc_context]
         ++ os_trace os.
Proof.
  intros Hfile Halloc. unfold partclone_open.
  change (sys_malloc _) with posix_malloc.
  unfold posix_malloc, libc_malloc. cbn [log_call os_alloc]. rewrite Halloc.
  cbn [Z.eqb]. unfold partclone_open_body. msimp.
  unfold call_open. change (sys_open _) with posix_open.
  unfold posix_open, libc_malloc. msimp. rewrite Hfile. msimp.
  unfold call_malloc. change (sys_malloc _) with posix_malloc.
  unfold posix_malloc, libc_malloc. msimp.
  unfold partclone_close. msimp.
  unfold call_close. change (sys_close _) with posix_closex. unfold posix_closex.
  msimp.
  unfold call_free. change (sys_free _) with posix_free. unfold posix_free. msimp.
  eexists. split; [reflexivity|]. split; reflexivity.
Qed.

End Refusals.

(** ** partclone_verify without memory for the zeroed block *)

Section Starved.
Context {FMT : ImageFormat} {CF : ChangeFile}.

(** X20: partclone_verify raises PC_VERIFIED before it allocates the
    zeroed block.  When that allocation fails - the fourth of the call,
    after the version handle, the usage map and the sum index - verify
    returns ENOMEM, yet the context is ready to read, with the cursor on
    block 0 and no zeroed block; a partclone_readblocks of a block that
    is not stored (here block 0) then copies from the NULL pointer. *)
Theorem verify_out_of_memory_leaves_context_ready (m : machine)
    (image hdr usage_map trailer rest : list Z) (later_allocs : list bool) :
  opened_with (true :: true :: true :: false :: later_allocs) m image ->
  v1_image_parts image hdr usage_map trailer rest ->
  memcmp_eq trailer cmagicstr MAGIC_LEN = true ->
  exists m',
    partclone_verify m = Done (ENOMEM, m')
    /\ PCTX_READREADY (m_pcp m') = true
    /\ pc_curblock (m_pcp m') = 0
    /\ pc_ivblock (m_pcp m') = None
    /\ (forall (rbuf : list Z) (n : Z),
          0 < n -> zlookup usage_map 0 = Some 0 ->
          partclone_readblocks rbuf n m' = Crash (NullPointer "pc_ivblock")).
Proof.
  intros Hopened Hparts Hcmp.
  pose proof Hopened as (Hopen & _).
  destruct (partclone_verify_upto_zero_block m _ image hdr usage_map trailer rest
              Hopened eq_refl eq_refl eq_refl Hparts Hcmp)
    as (m2 & sc & fh2 & Heq & Hfl2 & Hcur2 & Hvd2 & Hidx & Hbs2 & Htb2 & Hcs2 & Hbpc2
        & Hhs2 & Hfd2 & Hread2 & Hfile2 & Hfp & Hcfh2 & Hd2 & Hpath2 & Hcfp2 & Hfiles2
        & Halloc2 & Htr2 & Hdk2).
  cbn [tl] in Halloc2.
  rewrite Heq. msimp.
  rewrite call_malloc_refused by (rewrite Halloc2; reflexivity). msimp.
  eexists. split; [reflexivity|].
  assert (Hset : forall f,
            Z.land (Z.lor (Z.lor PC_OPEN PC_VALID)
                      (Z.lor (Z.lor (Z.lor (Z.lor PC_HAVE_VERDEP PC_VERSION_INIT)
                          (if omode_int (pc_omode (m_pcp m)) <? omode_int SYSDEP_OPEN_RW
                           then PC_READ_ONLY else 0)) PC_HEAD_VALID) PC_VERIFIED))
              (Z.lor f PC_VALID)
            = Z.lor f PC_VALID ->
            PCTX_FLAGS_SET (set_pc_ivblock None (m_pcp m2)) f = true).
  { intros f Hf. unfold PCTX_FLAGS_SET. cbn [pc_flags set_pc_ivblock]. rewrite Hfl2.
    apply Z.eqb_eq. eapply land_lor_from; [|exact Hf].
    unfold PCTX_OPEN, PCTX_FLAGS_SET in Hopen. apply Z.eqb_eq in Hopen. exact Hopen. }
  assert (Hrr : PCTX_READREADY (set_pc_ivblock None (m_pcp m2)) = true).
  { unfold PCTX_READREADY. apply Hset. destruct (_ <? _); reflexivity. }
  assert (Hv : PCTX_HAVE_VERDEP (set_pc_ivblock None (m_pcp m2)) = true).
  { unfold PCTX_HAVE_VERDEP. apply andb_true_iff. split.
    - apply Hset. destruct (_ <? _); reflexivity.
    - cbn [pc_verdep set_pc_ivblock]. rewrite Hvd2. apply bool_decide_eq_true. eauto. }
  split; [exact Hrr|]. split; [exact Hcur2|]. split; [reflexivity|].
  intros rbuf n Hn Hu.
  unfold partclone_readblocks.
  unfold mbind at 1, M_mbind at 1, M_bind at 1, getp at 1. cbn [m_pcp].
  rewrite Hrr.
  destruct (Z.to_nat n) as [|k] eqn:Hk; [lia|]. cbn [readblocks_loop].
  unfold dispatch. msimp. rewrite Hd2. msimp. unfold version_table at 1.
  cbn [lookup list_lookup version_readblock]. msimp.
  unfold v1_readblock. msimp. rewrite Hv. msimp. rewrite Hcfh2. msimp.
  rewrite Hvd2. msimp. rewrite Hcur2. unfold pread, deref, aread. msimp.
  rewrite Hu. reflexivity.
Qed.

End Starved.

(** ** A version 2 image whose bitmap CRC is wrong *)

Section BadCrc.
Context {FMT : ImageFormat} {CF : ChangeFile}.

(** [v2_verify] when the CRC behind the bitmap is not the one computed:
    it returns EINVAL with the usage map allocated and the temporary
    bitmap neither used nor freed. *)
Lemma v2_verify_bad_crc (m : machine) (fh : file_handle) (v1p : v1_context)
    (pre bits crc rest : list Z) (stored : Z) :
  PCTX_OPEN (m_pcp m) = true ->
  pc_verdep (m_pcp m) = Some v1p ->
  os_alloc (m_os m) = [] ->
  pc_fd (m_pcp m) = Some fh ->
  can_read (fh_flags fh) = true ->
  os_files (m_os m) !! fh_path fh = Some (pre ++ bits ++ crc ++ rest) ->
  sizeof_image_head_v2 = Z.of_nat (length pre) ->
  memcmp_eq (h2_magic (pc_head_v2 (m_pcp m))) IMAGE_MAGIC IMAGE_MAGIC_SIZE = true ->
  0 <= h2_totalblock (pc_head_v2 (m_pcp m)) < 2 ^ 31 ->
  Z.of_nat (length bits) = (h2_totalblock (pc_head_v2 (m_pcp m)) + 7) / 8 ->
  CRC_SIZE = Z.of_nat (length crc) ->
  CRC_SIZE < 2 ^ 32 ->
  load32 "bitmap" (bits ++ crc) (Z.of_nat (length bits)) = Done stored ->
  update_crc32 init_crc32 (bits ++ crc) (Z.of_nat (length bits)) <> stored ->
  exists m' cells,
    v2_verify m = Done (EINVAL, m')
    /\ pc_flags (m_pcp m') = Z.lor (pc_flags (m_pcp m)) PC_HEAD_VALID
    /\ pc_verdep (m_pcp m') = Some (set_v1_bitmap (Some cells) v1p)
    /\ pc_ivblock (m_pcp m') = pc_ivblock (m_pcp m)
    /\ fh_path <$> pc_fd (m_pcp m') = Some (fh_path fh)
    /\ pc_cf_handle (m_pcp m') = pc_cf_handle (m_pcp m)
    /\ pc_dispatch (m_pcp m') = pc_dispatch (m_pcp m)
    /\ pc_path (m_pcp m') = pc_path (m_pcp m)
    /\ pc_cf_path (m_pcp m') = pc_cf_path (m_pcp m)
    /\ os_files (m_os m') = os_files (m_os m)
    /\ os_trace (m_os m')
       = [CallRead (Some (fh_path fh)) (Z.of_nat (length bits) + CRC_SIZE);
          CallMalloc (Z.of_nat (length bits) + CRC_SIZE);
          CallSeek (Some (fh_path fh)) sizeof_image_head_v2 SYSDEP_SEEK_ABSOLUTE;
          CallMalloc (h2_totalblock (pc_head_v2 (m_pcp m)))]
         ++ os_trace (m_os m)
    /\ m_disk m' = m_disk m.
Proof.
  intros Hopen Hv1p Halloc Hfd Hread Hfile Hsize Hmagic Htb Hbits Hcrc Hcrclt
    Hstored Hne.
  set (tb := h2_totalblock (pc_head_v2 (m_pcp m))) in *.
  pose proof (bitmap_size_round_up tb Htb) as Hround.
  assert (Hq : 0 <= (tb + 7) / 8 < 2 ^ 29)
    by (split; [apply Z.div_pos; lia|apply Z.div_lt_upper_bound; lia]).
  assert (Hlen : u64 ((tb + 7) / 8 + CRC_SIZE) = Z.of_nat (length (bits ++ crc))).
  { rewrite length_app, Nat2Z.inj_add, <- Hcrc, Hbits. apply u64_small. lia. }
  assert (Hlen' : Z.of_nat (length (bits ++ crc)) = Z.of_nat (length bits) + CRC_SIZE)
    by (rewrite length_app; lia).
  unfold v2_verify. msimp. rewrite Hopen, Hmagic. msimp. fold tb.
  rewrite Hround.
  rewrite call_malloc_ok by exact Halloc. msimp.
  rewrite Hv1p. msimp.
  erewrite call_seek_absolute; [|msimp; exact Hfd|lia]. msimp.
  rewrite call_malloc_ok by exact Halloc. msimp.
  rewrite Hlen.
  erewrite (call_read_exact _ _ pre (bits ++ crc) rest);
    [|msimp; reflexivity|exact Hread
     |msimp; rewrite <- app_assoc; exact Hfile
     |msimp; exact Hsize
     |reflexivity|rewrite <- Hlen; apply Z.mod_pos_bound; lia].
  msimp. rewrite !Z.eqb_refl. msimp.
  rewrite splice_full.
  2:{ unfold fresh_cells. rewrite length_fmap, length_replicate. lia. }
  rewrite <- Hbits, Hstored. msimp.
  destruct (Z.eqb_spec (update_crc32 init_crc32 (bits ++ crc) (Z.of_nat (length bits)))
              stored) as [Heq|_]; [contradiction|].
  msimp. rewrite Hlen'.
  eexists _, _. split; [reflexivity|]. msimp.
  repeat split; reflexivity.
Qed.

(** X21: partclone_probe on a version 2 image whose bitmap CRC is not
    the one stored behind the bitmap returns EINVAL and changes no file,
    but it does not release the buffer it read the bitmap into: of its
    five allocations (context, path, version handle, usage map, bitmap
    buffer) four are freed before it returns. *)
Theorem probe_v2_bad_crc_leaks_bitmap (path : string) (os : os_state) (disk : cf_disk)
    (image hdr pre bits crc rest : list Z) (stored : Z) :
  os_files os !! path = Some image ->
  os_alloc os = [] ->
  v2_image_layout image hdr pre bits crc rest ->
  load32 "bitmap" (bits ++ crc) (Z.of_nat (length bits)) = Done stored ->
  update_crc32 init_crc32 (bits ++ crc) (Z.of_nat (length bits)) <> stored ->
  exists os',
    partclone_probe path (Some POSIX_DISPATCH) os disk = Done (EINVAL, os', disk)
    /\ os_files os' = os_files os
    /\ os_trace os'
       = [CallFree; CallFree; CallFree; CallFree;
          CallClose (Some path);
          CallRead (Some path) (Z.of_nat (length bits) + CRC_SIZE);
          CallMalloc (Z.of_nat (length bits) + CRC_SIZE);
          CallSeek (Some path) sizeof_image_head_v2 SYSDEP_SEEK_ABSOLUTE;
          CallMalloc (h2_totalblock (head_v2_of_bytes hdr));
          CallMalloc sizeof_v1_context;
          CallRead (Some path) sizeof_image_head_v1;
          CallMalloc (Z.of_nat (String.length path) + 1);
          CallOpen path SYSDEP_OPEN_RO;
          CallMalloc sizeof_pc_context]
         ++ os_trace os.
Proof.
  intros Hfile0 Halloc0
    (Himg & Hsize2 & Hhdr & Hsize & Hb1 & Hv1 & Hv2 & Hmagic & Htb & Hbits & Hcrc & Hcrclt)
    Hstored Hne.
  destruct (partclone_open_existing path SYSDEP_OPEN_RO os disk image Hfile0 Halloc0)
    as (pcp & os1 & Ho & Hop & Hfd0 & Hpath0 & Hom0 & Hcur0 & Hfl0 & Hf1 & Ha1 & Ht1).
  destruct Hop as ((Hopen & Hver & Hraw & Halloc & fh & Hfd & Hpos & Hread & Hfile)
                   & Hcfp & Hcfh).
  cbn [m_pcp m_os m_disk] in *.
  assert (fh = mk_fh path (omode2flags SYSDEP_OPEN_RO) 0) as Hfh by congruence.
  assert (Hsplit : image = [] ++ hdr ++ drop (Z.to_nat sizeof_image_head_v1) image).
  { rewrite Hhdr. cbn [app]. symmetry. apply take_drop. }
  unfold partclone_probe. rewrite Ho. msimp.
  unfold partclone_verify. msimp. rewrite Hopen.
  erewrite (call_read_exact _ _ [] hdr (drop (Z.to_nat sizeof_image_head_v1) image));
    [|exact Hfd|exact Hread|msimp; rewrite Hfile; f_equal; exact Hsplit|exact Hpos
     |exact Hsize|exact Hb1].
  msimp. rewrite !Z.eqb_refl. msimp.
  rewrite splice_full by (rewrite Hsize, Nat2Z.id in Hraw; exact Hraw).
  unfold pc_head_v1 at 1. msimp.
  unfold version_table at 1. cbn [find_version version].
  rewrite Hv1, Hv2. msimp.
  unfold dispatch. msimp. unfold version_table at 1.
  cbn [lookup list_lookup version_init version_verify]. msimp.
  match goal with
  | |- context [v1_init ?m0] =>
      destruct (v1_init_plain m0) as
        (m1 & Hinit & Hfl1 & Hvd1 & Hfd1 & Hraw1 & Hd1 & Hcfh1 & Hcfp1 & Hom1
         & Hpath1 & Hfiles1 & Halloc1 & Htr1 & Hdk1);
      [apply PCTX_OPEN_VALID; exact Hopen
      |cbn [m_os log_call os_alloc]; rewrite Halloc; reflexivity
      |exact Hcfp |]
  end.
  rewrite Hinit. msimp. cbn [m_pcp m_os m_disk pc_flags pc_fd pc_head_raw pc_dispatch
    pc_cf_handle pc_omode pc_path set_pc_dispatch set_pc_head_raw set_pc_fd
    os_files os_alloc os_trace log_call] in *.
  assert (Hh2 : pc_head_v2 (m_pcp m1) = head_v2_of_bytes hdr)
    by (unfold pc_head_v2; rewrite Hraw1; reflexivity).
  destruct (v2_verify_bad_crc m1 (set_fh_pos (0 + sizeof_image_head_v1) fh)
              v1_context_init pre bits crc rest stored)
    as (m2 & cells & Hverify & Hfl2 & Hvd2 & Hiv2 & Hfd2 & Hcfh2 & Hd2 & Hpath2 & Hcfp2
        & Hfiles2 & Htr2 & Hdk2).
  - eapply PCTX_FLAGS_SET_or; [exact Hfl1|]. exact Hopen.
  - exact Hvd1.
  - rewrite Halloc1, Halloc. reflexivity.
  - rewrite Hfd1. rewrite Hpos. reflexivity.
  - exact Hread.
  - rewrite Hfiles1. cbn [fh_path set_fh_pos]. rewrite Hfile. f_equal. exact Himg.
  - exact Hsize2.
  - rewrite Hh2. exact Hmagic.
  - rewrite Hh2. exact Htb.
  - rewrite Hh2. exact Hbits.
  - exact Hcrc.
  - exact Hcrclt.
  - exact Hstored.
  - exact Hne.
  - rewrite Hh2 in *. rewrite Hverify. msimp.
    (* the context that partclone_close finds *)
    rewrite Hom0, Hfl0 in Hfl1.
    change (omode_int SYSDEP_OPEN_RO <? omode_int SYSDEP_OPEN_RW) with true in Hfl1.
    rewrite Hfl1 in Hfl2.
    assert (Hvalid : PCTX_VALID (m_pcp m2) = true)
      by (unfold PCTX_VALID, PCTX_FLAGS_SET; rewrite Hfl2; reflexivity).
    assert (Hcfo : PCTX_CF_OPEN (m_pcp m2) = false)
      by (unfold PCTX_CF_OPEN, PCTX_FLAGS_SET; rewrite Hfl2; reflexivity).
    assert (Hopen2 : PCTX_OPEN (m_pcp m2) = true)
      by (unfold PCTX_OPEN, PCTX_FLAGS_SET; rewrite Hfl2; reflexivity).
    assert (Hhp : PCTX_HAVE_PATH (m_pcp m2) = true)
      by (unfold PCTX_HAVE_PATH, PCTX_FLAGS_SET; rewrite Hfl2, Hpath2, Hpath1, Hpath0;
          reflexivity).
    assert (Hhcp : PCTX_HAVE_CF_PATH (m_pcp m2) = false)
      by (unfold PCTX_HAVE_CF_PATH, PCTX_FLAGS_SET; rewrite Hfl2; reflexivity).
    assert (Hhiv : PCTX_HAVE_IVBLOCK (m_pcp m2) = false)
      by (unfold PCTX_HAVE_IVBLOCK, PCTX_FLAGS_SET; rewrite Hfl2; reflexivity).
    assert (Hhv : PCTX_HAVE_VERDEP (m_pcp m2) = true)
      by (unfold PCTX_HAVE_VERDEP, PCTX_FLAGS_SET; rewrite Hfl2, Hvd2; reflexivity).
    destruct m2 as [p2 os2 disk2]. cbn [m_pcp m_os m_disk] in *.
    destruct (pc_fd p2) as [fh2|] eqn:Hfd2'; [|discriminate].
    cbn [fmap option_fmap option_map] in Hfd2. inversion Hfd2 as [Hp].
    unfold partclone_close. msimp.
    rewrite Hvalid, Hcfo, Hopen2, Hhp, Hhcp, Hhiv, Hhv. msimp.
    unfold call_close. change (sys_close _) with posix_closex.
    unfold posix_closex. msimp. rewrite Hfd2'. msimp.
    unfold call_free. change (sys_free _) with posix_free. unfold posix_free. msimp.
    rewrite ?Hd2, ?Hd1. unfold dispatch. msimp. rewrite ?Hd2, ?Hd1. msimp.
    unfold version_table at 1. cbn [lookup list_lookup version_finish]. msimp.
    unfold v1_finish. msimp. rewrite Hhv. msimp. rewrite Hvd2. msimp.
    unfold call_free. change (sys_free _) with posix_free. unfold posix_free. msimp.
    rewrite Hcfh2, Hcfh1, Hcfh. msimp.
    eexists. split; [rewrite Hdk2, Hdk1; reflexivity|]. msimp.
    rewrite Hfiles2, Hfiles1, Hf1, Htr2, Htr1, Ht1, Hp, Hfh. split; reflexivity.
Qed.

End BadCrc.

(** ** The properties at the images of the scenarios *)

(** The context of a read-only open of the file at [image_path]. *)
Ltac opened_at_image_path :=
  unfold just_opened;
  split; [vm_compute; reflexivity|];
  split; [vm_compute; reflexivity|];
  split; [vm_compute; lia|];
  split; [vm_compute; reflexivity|];
  exists (mk_fh image_path (mk_flags O_RDONLY false) 0);
  split; [vm_compute; reflexivity|];
  split; [vm_compute; reflexivity|];
  split; vm_compute; reflexivity.

Lemma s1_opened_plain : opened_plain (opened_machine s1_image) s1_image.
Proof.
  split; [opened_at_image_path|split; vm_compute; reflexivity].
Qed.

Lemma s1_parts : v1_image_parts s1_image s5_header s5_usage_map magic_ok s5_blocks.
Proof.
  unfold v1_image_parts.
  repeat match goal with |- _ /\ _ => split end; vm_compute; reflexivity.
Qed.

Lemma s1_verified :
  partclone_verify (opened_machine s1_image) = Done (0, s1_loaded)
  /\ loaded s1_loaded s1_image s5_usage_map
  /\ synced s1_loaded s5_usage_map.
Proof.
  destruct (partclone_verify_loads (opened_machine s1_image) s1_image s5_header
              s5_usage_map magic_ok s5_blocks s1_opened_plain s1_parts eq_refl)
    as (m' & Hv & Hl & Hs & _).
  assert (s1_loaded = m') as ->; [|auto].
  unfold s1_loaded, after. rewrite Hv. reflexivity.
Qed.

Lemma s1_head : pc_head (m_pcp s1_loaded) = mk_head 4 8 32 4 1 64.
Proof. vm_compute. reflexivity. Qed.

Lemma s5_usage_map_clean : clean s5_usage_map.
Proof. unfold clean, s5_usage_map. repeat (constructor; [auto|]). constructor. Qed.

Lemma cut_verified :
  loaded cut_loaded cut_image [1] /\ synced cut_loaded [1].
Proof.
  destruct (partclone_verify_loads (opened_machine cut_image) cut_image cut_header
              [1] magic_ok [10; 11])
    as (m' & Hv & Hl & Hs & _).
  - split; [opened_at_image_path|split; vm_compute; reflexivity].
  - unfold v1_image_parts.
    repeat match goal with |- _ /\ _ => split end; vm_compute; reflexivity.
  - vm_compute. reflexivity.
  - assert (cut_loaded = m') as ->; [|auto].
    unfold cut_loaded, after. rewrite Hv. reflexivity.
Qed.

Lemma cut_head : pc_head (m_pcp cut_loaded) = mk_head 4 1 4 4 1 57.
Proof. vm_compute. reflexivity. Qed.

(** X3 at scenario S1, opened read-write. *)
Lemma open_existing_image_witness :
  exists pcp os',
    partclone_open (CF := spec_overlay) image_path None SYSDEP_OPEN_RW
      (Some POSIX_DISPATCH) (os_with s1_image) (∅ : gmap string overlay_file)
    = Done (0, Some pcp, os', ∅)
    /\ opened_plain (mk_machine pcp os' ∅) s1_image
    /\ pc_fd pcp = Some (mk_fh image_path (omode2flags SYSDEP_OPEN_RO) 0)
    /\ pc_path pcp = Some image_path
    /\ pc_omode pcp = SYSDEP_OPEN_RW
    /\ pc_curblock pcp = 0
    /\ PCTX_READREADY pcp = false
    /\ os_files os' = os_files (os_with s1_image).
Proof.
  apply (open_existing_image image_path SYSDEP_OPEN_RW (os_with s1_image) ∅ s1_image);
    vm_compute; reflexivity.
Defined.

(** X4 at a path that names no file, with the mode SYSDEP_CREATE. *)
Lemma open_missing_image_witness :
  exists os',
    partclone_open (CF := spec_overlay) "none.img" None SYSDEP_CREATE
      (Some POSIX_DISPATCH) (os_with s1_image) (∅ : gmap string overlay_file)
    = Done (ENOENT, None, os', ∅)
    /\ os_files os' = os_files (os_with s1_image)
    /\ os_trace os'
       = [CallFree; CallOpen "none.img" SYSDEP_OPEN_RO; CallMalloc sizeof_pc_context]
         ++ os_trace (os_with s1_image).
Proof.
  apply (open_missing_image "none.img" None SYSDEP_CREATE (os_with s1_image) ∅);
    vm_compute; reflexivity.
Defined.

(** X5 at scenario S1. *)
Lemma verify_loads_v1_image_witness :
  exists m',
    partclone_verify (opened_machine s1_image) = Done (0, m')
    /\ loaded m' s1_image s5_usage_map
    /\ synced m' s5_usage_map
    /\ pc_curblock (m_pcp m') = 0
    /\ block_size (pc_head (m_pcp m')) = h1_block_size (head_v1_of_bytes s5_header)
    /\ checksum_size (pc_head (m_pcp m')) = CRC_SIZE
    /\ blocks_per_checksum (pc_head (m_pcp m')) = 1
    /\ head_size (pc_head (m_pcp m'))
       = u64 (sizeof_image_head_v1 + Z.of_nat (length s5_usage_map) + MAGIC_LEN)
    /\ PCTX_READ_ONLY (m_pcp m')
       = PCTX_READ_ONLY (m_pcp (opened_machine s1_image))
         || (omode_int (pc_omode (m_pcp (opened_machine s1_image)))
             <? omode_int SYSDEP_OPEN_RW)
    /\ partclone_blocksize m'
       = Done (s64 (h1_block_size (head_v1_of_bytes s5_header)), m')
    /\ partclone_blockcount m' = Done (s64 (Z.of_nat (length s5_usage_map)), m')
    /\ os_files (m_os m') = os_files (m_os (opened_machine s1_image)).
Proof.
  apply (verify_loads_v1_image (opened_machine s1_image) s1_image s5_header
           s5_usage_map magic_ok s5_blocks).
  - exact s1_opened_plain.
  - exact s1_parts.
  - vm_compute. reflexivity.
Defined.

(** X6 at scenario S1: a seek to block 6. *)
Lemma seek_loaded_image_witness :
  exists m',
    partclone_seek 6 s1_loaded = Done (0, m')
    /\ loaded m' s1_image s5_usage_map
    /\ synced m' s5_usage_map
    /\ pc_curblock (m_pcp m') = 6
    /\ pc_head (m_pcp m') = pc_head (m_pcp s1_loaded)
    /\ pc_flags (m_pcp m') = pc_flags (m_pcp s1_loaded)
    /\ partclone_tell m' = Done (6, m').
Proof.
  apply (seek_loaded_image s1_loaded s1_image s5_usage_map 6).
  - apply s1_verified.
  - exact s5_usage_map_clean.
  - vm_compute. reflexivity.
  - lia.
  - left. vm_compute. reflexivity.
Defined.

Lemma s1_blocks_in_file :
  blocks_in_file s1_image (pc_head (m_pcp s1_loaded)) s5_usage_map 0 8.
Proof.
  rewrite s1_head. intros i Hi Hu.
  assert (i = 0 \/ i = 1 \/ i = 2 \/ i = 3 \/ i = 4 \/ i = 5 \/ i = 6 \/ i = 7)
    as Hcases by lia.
  repeat (destruct Hcases as [->|Hcases]); try subst i;
    first [discriminate Hu | vm_compute; intros H; discriminate H].
Qed.

(** X7 at scenario S1: the eight blocks from block 0 on. *)
Lemma read_loaded_image_witness :
  exists m',
    partclone_readblocks (replicate 32 7) 8 s1_loaded
    = Done ((0, logical_blocks s1_image (pc_head (m_pcp s1_loaded)) s5_usage_map 0
                  (Z.to_nat 8)), m')
    /\ loaded m' s1_image s5_usage_map /\ synced m' s5_usage_map
    /\ pc_curblock (m_pcp m') = 0 + 8
    /\ pc_head (m_pcp m') = pc_head (m_pcp s1_loaded)
    /\ pc_flags (m_pcp m') = pc_flags (m_pcp s1_loaded).
Proof.
  apply (read_loaded_image s1_loaded s1_image s5_usage_map (replicate 32 7) 0 8).
  - apply s1_verified.
  - apply s1_verified.
  - exact s5_usage_map_clean.
  - rewrite s1_head. unfold sane_head. cbn. lia.
  - vm_compute. reflexivity.
  - vm_compute. reflexivity.
  - vm_compute. reflexivity.
  - lia.
  - vm_compute. discriminate.
  - exact s1_blocks_in_file.
  - rewrite s1_head. reflexivity.
Defined.

(** X8 at an image whose only block is stored but cut short. *)
Lemma read_truncated_block_witness :
  exists buf' m',
    partclone_readblocks (replicate 4 7) 1 cut_loaded = Done ((EIO, buf'), m')
    /\ pc_curblock (m_pcp m') = 0.
Proof.
  apply (read_truncated_block cut_loaded cut_image [1] (replicate 4 7) 0 1).
  - apply cut_verified.
  - apply cut_verified.
  - unfold clean. repeat (constructor; [auto|]). constructor.
  - rewrite cut_head. unfold sane_head. cbn. lia.
  - rewrite cut_head. cbn. lia.
  - vm_compute. reflexivity.
  - vm_compute. reflexivity.
  - vm_compute. reflexivity.
  - reflexivity.
  - rewrite cut_head. vm_compute. reflexivity.
  - rewrite cut_head. vm_compute. reflexivity.
  - lia.
Defined.

(** X9 at a file of three bytes. *)
Lemma verify_rejects_short_file_witness :
  exists m',
    partclone_verify (opened_machine short_image)
    = Done (if os_errno (m_os (opened_machine short_image)) =? 0 then EIO
            else os_errno (m_os (opened_machine short_image)), m')
    /\ PCTX_READREADY (m_pcp m') = false
    /\ os_files (m_os m') = os_files (m_os (opened_machine short_image)).
Proof.
  apply (verify_rejects_short_file (opened_machine short_image) short_image).
  - opened_at_image_path.
  - vm_compute. reflexivity.
  - vm_compute. reflexivity.
Defined.

(** X10 at a header with the version "0003". *)
Lemma verify_rejects_unknown_version_witness :
  exists m',
    partclone_verify (opened_machine unknown_version_header) = Done (ENOENT, m')
    /\ PCTX_READREADY (m_pcp m') = false
    /\ os_files (m_os m') = os_files (m_os (opened_machine unknown_version_header)).
Proof.
  apply (verify_rejects_unknown_version (opened_machine unknown_version_header)
           unknown_version_header unknown_version_header []).
  - opened_at_image_path.
  - symmetry. apply app_nil_r.
  - vm_compute. reflexivity.
  - vm_compute. reflexivity.
  - vm_compute. reflexivity.
  - vm_compute. reflexivity.
Defined.

(** X11 at scenario S1, opened read-only. *)
Lemma readonly_image_rejects_writes_witness :
  exists m',
    partclone_verify (opened_machine s1_image) = Done (0, m')
    /\ PCTX_READREADY (m_pcp m') = true
    /\ partclone_writeblocks [1; 2; 3; 4] 1 m' = Done (EINVAL, m')
    /\ partclone_sync m' = Done (EINVAL, m').
Proof.
  apply (readonly_image_rejects_writes (opened_machine s1_image) s1_image s5_header
           s5_usage_map magic_ok s5_blocks [1; 2; 3; 4] 1).
  - exact s1_opened_plain.
  - exact s1_parts.
  - vm_compute. reflexivity.
  - vm_compute. reflexivity.
Defined.

(** X12 at scenario S1, block 0. *)
Lemma block_used_loaded_witness :
  exists b, zlookup s5_usage_map 0 = Some b
            /\ partclone_block_used s1_loaded = Done (b, s1_loaded).
Proof.
  apply (block_used_loaded s1_loaded s1_image s5_usage_map 0).
  - apply s1_verified.
  - vm_compute. reflexivity.
  - vm_compute. split; [discriminate|reflexivity].
Defined.


(** X14 at the four blocks of the bitmap byte 0x0D. *)
Lemma v2_usage_map_of_bits_witness :
  v2_expand_loop (Z.to_nat 4) 0 (Some [0x0D]) (Some (replicate 4 0xAA))
  = Done (Some (usage_of_bits [0x0D] 4))
  /\ clean (usage_of_bits [0x0D] 4)
  /\ (forall k, 0 <= k < 4 ->
        zlookup (usage_of_bits [0x0D] 4) k
        = Some (if Z.testbit (default 0 (zlookup [0x0D] (k / 8))) (k mod 8)
                then 1 else 0)).
Proof.
  apply (v2_usage_map_of_bits [0x0D] (replicate 4 0xAA) 4).
  - lia.
  - reflexivity.
  - cbn. lia.
Defined.

(** X16 at scenario S1, with the file offset at 5. *)
Lemma posix_file_size_keeps_offset_witness :
  exists os',
    posix_file_size (Some (mk_fh image_path (omode2flags SYSDEP_OPEN_RO) 5))
      (os_with s1_image)
    = (0, Z.of_nat (length (file_bytes (os_with s1_image)
                              (mk_fh image_path (omode2flags SYSDEP_OPEN_RO) 5))),
       Some (mk_fh image_path (omode2flags SYSDEP_OPEN_RO) 5), os')
    /\ os_files os' = os_files (os_with s1_image).
Proof.
  apply (posix_file_size_keeps_offset
           (mk_fh image_path (omode2flags SYSDEP_OPEN_RO) 5) (os_with s1_image)).
  cbn. lia.
Defined.

(** X17 at scenario S1 as a version 2 image. *)
Lemma verify_loads_v2_image_witness :
  exists m',
    partclone_verify (opened_machine s1_v2_image) = Done (0, m')
    /\ loaded m' s1_v2_image
         (usage_of_bits s1_v2_bits (h2_totalblock (head_v2_of_bytes s1_v2_header)))
    /\ synced m'
         (usage_of_bits s1_v2_bits (h2_totalblock (head_v2_of_bytes s1_v2_header)))
    /\ clean (usage_of_bits s1_v2_bits (h2_totalblock (head_v2_of_bytes s1_v2_header)))
    /\ pc_curblock (m_pcp m') = 0
    /\ block_size (pc_head (m_pcp m')) = h2_block_size (head_v2_of_bytes s1_v2_header)
    /\ checksum_size (pc_head (m_pcp m'))
       = h2_checksum_size (head_v2_of_bytes s1_v2_header)
    /\ blocks_per_checksum (pc_head (m_pcp m'))
       = h2_blocks_per_checksum (head_v2_of_bytes s1_v2_header)
    /\ head_size (pc_head (m_pcp m'))
       = u64 (sizeof_image_head_v2 + Z.of_nat (length s1_v2_bits) + CRC_SIZE)
    /\ os_files (m_os m') = os_files (m_os (opened_machine s1_v2_image)).
Proof.
  apply (verify_loads_v2_image (opened_machine s1_v2_image) s1_v2_image s1_v2_header
           s1_v2_header s1_v2_bits s1_v2_crc s5_blocks).
  - split; [opened_at_image_path|split; vm_compute; reflexivity].
  - unfold v2_image_parts, v2_image_layout.
    repeat match goal with |- _ /\ _ => split end;
      first [vm_compute; reflexivity | vm_compute; intros H; discriminate H].
Defined.

(** The usage map of that image is the one of scenario S1. *)
Example s1_v2_usage_map :
  usage_of_bits s1_v2_bits (h2_totalblock (head_v2_of_bytes s1_v2_header))
  = s5_usage_map.
Proof. vm_compute. reflexivity. Qed.

(** X18 at scenario S1, opened and not verified. *)
Lemma unverified_context_refuses_witness :
  partclone_seek 3 (opened_machine s1_image) = Done (EINVAL, opened_machine s1_image)
  /\ partclone_tell (opened_machine s1_image)
     = Done (u64 (Z.lnot 0), opened_machine s1_image)
  /\ partclone_readblocks (replicate 4 7) 1 (opened_machine s1_image)
     = Done ((EINVAL, replicate 4 7), opened_machine s1_image)
  /\ partclone_writeblocks (replicate 4 7) 1 (opened_machine s1_image)
     = Done (EINVAL, opened_machine s1_image)
  /\ partclone_sync (opened_machine s1_image) = Done (EINVAL, opened_machine s1_image)
  /\ partclone_block_used (opened_machine s1_image)
     = Done (BLOCK_ERROR, opened_machine s1_image)
  /\ partclone_blocksize (opened_machine s1_image) = Done (-1, opened_machine s1_image)
  /\ partclone_blockcount (opened_machine s1_image) = Done (-1, opened_machine s1_image).
Proof.
  apply (unverified_context_refuses (opened_machine s1_image) (replicate 4 7) 3 1).
  vm_compute. reflexivity.
Defined.

(** X19 at scenario S1, in a system that refuses the third allocation. *)
Lemma open_out_of_memory_witness :
  exists os',
    partclone_open (CF := spec_overlay) image_path None SYSDEP_OPEN_RO
      (Some POSIX_DISPATCH) os_short_of_memory (∅ : gmap string overlay_file)
    = Done (ENOMEM, None, os', ∅)
    /\ os_files os' = os_files os_short_of_memory
    /\ os_trace os'
       = [CallFree; CallClose (Some image_path);
          CallMalloc (Z.of_nat (String.length image_path) + 1);
          CallOpen image_path SYSDEP_OPEN_RO; CallMalloc sizeof_pc_context]
         ++ os_trace os_short_of_memory.
Proof.
  apply (open_out_of_memory image_path None SYSDEP_OPEN_RO os_short_of_memory ∅
           s1_image []).
  - vm_compute. reflexivity.
  - reflexivity.
Defined.

(** X20 at an image whose block 0 is not stored. *)
Lemma verify_out_of_memory_witness :
  exists m',
    partclone_verify starved_machine = Done (ENOMEM, m')
    /\ PCTX_READREADY (m_pcp m') = true
    /\ pc_curblock (m_pcp m') = 0
    /\ pc_ivblock (m_pcp m') = None
    /\ (forall (rbuf : list Z) (n : Z),
          0 < n -> zlookup [0; 1] 0 = Some 0 ->
          partclone_readblocks rbuf n m' = Crash (NullPointer "pc_ivblock")).
Proof.
  apply (verify_out_of_memory_leaves_context_ready starved_machine unused_first_image
           unused_first_header [0; 1] magic_ok [21; 22; 23; 24; 0; 0; 0; 0] []).
  - unfold opened_with.
    split; [vm_compute; reflexivity|].
    split; [vm_compute; reflexivity|].
    split; [vm_compute; lia|].
    split; [vm_compute; reflexivity|].
    split; [|split; vm_compute; reflexivity].
    exists (mk_fh image_path (mk_flags O_RDONLY false) 0).
    split; [vm_compute; reflexivity|].
    split; [vm_compute; reflexivity|].
    split; vm_compute; reflexivity.
  - unfold v1_image_parts.
    repeat match goal with |- _ /\ _ => split end; vm_compute; reflexivity.
  - vm_compute. reflexivity.
Defined.

(** X21 at scenario S1 as a version 2 image with a zeroed CRC. *)
Lemma probe_v2_bad_crc_leaks_bitmap_witness :
  exists os',
    partclone_probe (CF := spec_overlay) image_path (Some POSIX_DISPATCH)
      (os_with s1_v2_bad_crc_image) (∅ : gmap string overlay_file)
    = Done (EINVAL, os', ∅)
    /\ os_files os' = os_files (os_with s1_v2_bad_crc_image)
    /\ os_trace os'
       = [CallFree; CallFree; CallFree; CallFree;
          CallClose (Some image_path);
          CallRead (Some image_path) (Z.of_nat (length s1_v2_bits) + CRC_SIZE);
          CallMalloc (Z.of_nat (length s1_v2_bits) + CRC_SIZE);
          CallSeek (Some image_path) sizeof_image_head_v2 SYSDEP_SEEK_ABSOLUTE;
          CallMalloc (h2_totalblock (head_v2_of_bytes s1_v2_header));
          CallMalloc sizeof_v1_context;
          CallRead (Some image_path) sizeof_image_head_v1;
          CallMalloc (Z.of_nat (String.length image_path) + 1);
          CallOpen image_path SYSDEP_OPEN_RO;
          CallMalloc sizeof_pc_context]
         ++ os_trace (os_with s1_v2_bad_crc_image).
Proof.
  apply (probe_v2_bad_crc_leaks_bitmap image_path (os_with s1_v2_bad_crc_image) ∅
           s1_v2_bad_crc_image s1_v2_header s1_v2_header s1_v2_bits [0; 0; 0; 0]
           s5_blocks 0).
  - vm_compute. reflexivity.
  - reflexivity.
  - unfold v2_image_layout.
    repeat match goal with |- _ /\ _ => split end;
      first [vm_compute; reflexivity | vm_compute; intros H; discriminate H].
  - vm_compute. reflexivity.
  - vm_compute. intros H. discriminate H.
Defined.
